(** * NB.no-Downloader: a shallow embedding of the two downloaders

    The repository holds two Go programs that share one design:
    - [src/main.go], the tiled downloader (module [Tiled]): a page is
      a grid of tiles whose dimensions are probed once, and every page
      is composited from its tiles;
    - the direct downloader (module [Direct]): one request per page,
      with introduction pages probed by HEAD requests.

    Both are embedded as state-passing programs over an explicit world
    (the [Book] struct, the requests sent so far, the files written and
    the pages handed to the PDF writer).  The remote image service and
    the local file system are parameters of the embedding.  Every loop
    and every recursive retry runs under a bound; a run that reaches
    the bound stops with [Fuel] in the state it has reached, so that a
    statement for every bound speaks of every point of a run. *)

From stdpp Require Import base strings gmap list pretty.
From Stdlib Require Import ZArith Lia Ascii String.

Local Open Scope string_scope.
Local Open Scope list_scope.
Local Open Scope Z_scope.

(** ** Go's [int] (64 bits, two's complement) *)

Module GoInt.

Definition minInt : Z := - 2 ^ 63.
Definition maxInt : Z := 2 ^ 63 - 1.

(** Reduction of a mathematical integer to the representable range. *)
Definition wrap (z : Z) : Z := (z + 2 ^ 63) mod 2 ^ 64 - 2 ^ 63.

Definition add (a b : Z) : Z := wrap (a + b).
Definition sub (a b : Z) : Z := wrap (a - b).
(** Go's [/] truncates toward zero. *)
Definition div (a b : Z) : Z := wrap (Z.quot a b).

Definition inRange (z : Z) : Prop := minInt <= z <= maxInt.

End GoInt.

(** ** Strings: strconv and fmt *)

Module GoStr.

(** [strconv.Itoa]: decimal rendering, with a leading minus sign for
    negative numbers. *)
Definition Itoa (z : Z) : string := pretty z.

Definition isDigit (c : Ascii.ascii) : bool :=
  let n := Ascii.nat_of_ascii c in (48 <=? n)%nat && (n <=? 57)%nat.

Definition digitVal (c : Ascii.ascii) : Z :=
  Z.of_nat (Ascii.nat_of_ascii c) - 48.

Fixpoint digits (s : string) (acc : Z) : option Z :=
  match s with
  | EmptyString => Some acc
  | String c s' =>
      if isDigit c then digits s' (10 * acc + digitVal c) else None
  end.

(** [strconv.Atoi]: an optional sign followed by at least one decimal
    digit; values outside the 64-bit range are errors. *)
Definition Atoi (s : string) : option Z :=
  let signed (neg : bool) (body : string) :=
    match body with
    | EmptyString => None
    | _ =>
        match digits body 0 with
        | Some n =>
            let v := if neg then - n else n in
            if (GoInt.minInt <=? v) && (v <=? GoInt.maxInt)
            then Some v else None
        | None => None
        end
    end in
  match s with
  | String "+"%char rest => signed false rest
  | String "-"%char rest => signed true rest
  | _ => signed false s
  end.

Fixpoint zeros (n : nat) : string :=
  match n with
  | O => ""
  | S n' => String "0"%char (zeros n')
  end.

(** [fmt.Sprintf("%04s", s)]: left padding with zeros to width 4. *)
Definition pad4 (s : string) : string :=
  zeros (4 - String.length s) +:+ s.

(** The elements of a path: the segments between its slashes, in
    order; there is always one. *)
Fixpoint elements (p : string) : list string :=
  match p with
  | EmptyString => [""]
  | String c p' =>
      if Ascii.eqb c "/" then "" :: elements p'
      else match elements p' with
           | e :: es => String c e :: es
           | [] => [String c ""]
           end
  end.

(** The elements that [Clean] keeps, the last one first: an empty
    element and [.] are dropped, [..] takes back the element before it
    unless that is [..] itself, and is dropped at the root. *)
Fixpoint cleanLoop (rooted : bool) (elems kept : list string) : list string :=
  match elems with
  | [] => kept
  | e :: rest =>
      if String.eqb e "" || String.eqb e "." then cleanLoop rooted rest kept
      else if String.eqb e ".." then
        match kept with
        | top :: kept' =>
            if String.eqb top ".." then cleanLoop rooted rest (e :: kept)
            else cleanLoop rooted rest kept'
        | [] =>
            if rooted then cleanLoop rooted rest []
            else cleanLoop rooted rest [e]
        end
      else cleanLoop rooted rest (e :: kept)
  end.

Fixpoint joinSlash (elems : list string) : string :=
  match elems with
  | [] => ""
  | [e] => e
  | e :: rest => e +:+ "/" +:+ joinSlash rest
  end.

Definition isRooted (p : string) : bool :=
  match p with
  | String "/" _ => true
  | _ => false
  end.

(** [filepath.Clean], with the slash as separator: the shortest path
    that names the same file by the elements of [p] alone. *)
Definition Clean (p : string) : string :=
  let out := joinSlash (rev (cleanLoop (isRooted p) (elements p) [])) in
  if isRooted p then "/" +:+ out
  else if String.eqb out "" then "." else out.

(** [filepath.Join(dir, name)]: from the first element that is not
    empty on, the elements are joined by a slash and the result is
    cleaned. *)
Definition Join (dir name : string) : string :=
  match dir, name with
  | EmptyString, EmptyString => ""
  | EmptyString, _ => Clean name
  | _, _ => Clean (dir +:+ "/" +:+ name)
  end.

End GoStr.

(** ** Raster images: image.Rectangle, image.RGBA and draw.Draw *)

Module Img.

Definition Color := Z.

Record Rectangle := mkRect { minX : Z; minY : Z; maxX : Z; maxY : Z }.

(** [image.Rect] puts the corners in canonical order. *)
Definition Rect (x0 y0 x1 y1 : Z) : Rectangle :=
  let '(a, b) := if x1 <? x0 then (x1, x0) else (x0, x1) in
  let '(c, d) := if y1 <? y0 then (y1, y0) else (y0, y1) in
  mkRect a c b d.

Definition RDx (r : Rectangle) : Z := GoInt.sub (maxX r) (minX r).
Definition RDy (r : Rectangle) : Z := GoInt.sub (maxY r) (minY r).

Definition inside (r : Rectangle) (x y : Z) : bool :=
  (minX r <=? x) && (x <? maxX r) && (minY r <=? y) && (y <? maxY r).

Record Image := mkImage { bounds : Rectangle; at_ : Z -> Z -> Color }.

(** [image.NewRGBA]: every pixel is the zero colour. *)
Definition NewRGBA (r : Rectangle) : Image := mkImage r (fun _ _ => 0).

(** [draw.Draw(dst, r, src, sp, draw.Src)]: the rectangle [r] of
    [dst], clipped to the bounds of [dst] and to the part of [src]
    that lies under it, receives the pixels of [src] starting at
    [sp]. *)
Definition Draw (dst : Image) (r : Rectangle) (src : Image) (spx spy : Z)
  : Image :=
  mkImage (bounds dst)
    (fun x y =>
       let sx := x - minX r + spx in
       let sy := y - minY r + spy in
       if inside r x y && inside (bounds dst) x y && inside (bounds src) sx sy
       then at_ src sx sy
       else at_ dst x y).

End Img.

(** ** The remote image service and the local file system *)

Module Net.

Inductive Method := GET | HEAD.

(** A request as the program hands it to [client.Get] or
    [client.Head]: the URL template together with the parameter map
    that [formatURL] substitutes into it.  The cookies that the client
    adds from its jar are not part of it. *)
Record Request := mkRequest {
  rq_method : Method;
  rq_template : string;
  rq_params : gmap string string
}.

(** What [image.Decode] makes of a response body. *)
Inductive Payload :=
| Pixels (img : Img.Image)
| Junk.

Record HttpResp := mkResp {
  StatusCode : Z;
  (** [None]: reading the body fails. *)
  Body : option Payload
}.

(** The pair [(resp, err)] returned by [client.Get] and
    [client.Head]. *)
Inductive Response :=
| NetError (resp : option HttpResp)
| Reply (resp : HttpResp).

Definition StatusOK : Z := 200.
Definition StatusUnauthorized : Z := 401.
Definition StatusForbidden : Z := 403.

(** [err != nil || resp.StatusCode != http.StatusOK], with the
    response when the test is false. *)
Definition success (r : Response) : option HttpResp :=
  match r with
  | Reply resp => if StatusCode resp =? StatusOK then Some resp else None
  | NetError _ => None
  end.

Definition respOf (r : Response) : option HttpResp :=
  match r with
  | Reply resp => Some resp
  | NetError o => o
  end.

(** The service answers a request knowing the requests before it. *)
Definition Remote := list Request -> Request -> Response.

(** The files of the working directory are kept by their cleaned
    path. *)
Inductive FileData :=
| Raw (p : Payload)
| Encoded (img : Img.Image)
| Truncated
| Document (pages : list string).   (* a PDF of these image files *)

Record Env := mkEnv {
  remote : Remote;
  (** [os.Create] succeeds on this path *)
  create_ok : string -> bool;
  (** [File.Write] succeeds on this path *)
  write_ok : string -> bool;
  (** [OutputFileAndClose] writes the document to this path: the PDF
      writer has met no error on the pages placed, and the file can be
      created *)
  output_ok : string -> bool
}.

Definition page_of (rq : Request) : string :=
  default "" (rq_params rq !! "page_nr").
Definition col_of (rq : Request) : string :=
  default "" (rq_params rq !! "col").
Definition row_of (rq : Request) : string :=
  default "" (rq_params rq !! "row").

End Net.

(** ** Outcomes of a run *)

Module Exec.

Inductive Abort :=
| OsExit (code : Z)   (* os.Exit *)
| NilPanic            (* nil pointer dereference *)
| Fuel.               (* the loop bound of the embedding was reached *)

Inductive Res (S A : Type) :=
| Done (a : A) (s : S)
| Stop (why : Abort) (s : S).
Arguments Done {S A} a s.
Arguments Stop {S A} why s.

Definition M (S A : Type) := S -> Res S A.

Definition ret {S A} (a : A) : M S A := fun s => Done a s.
Definition bind {S A B} (m : M S A) (k : A -> M S B) : M S B :=
  fun s => match m s with
           | Done a s' => k a s'
           | Stop why s' => Stop why s'
           end.
Definition halt {S A} (why : Abort) : M S A := fun s => Stop why s.
Definition gets {S A} (f : S -> A) : M S A := fun s => Done (f s) s.
Definition modify {S} (f : S -> S) : M S unit := fun s => Done tt (f s).

Definition final {S A} (r : Res S A) : S :=
  match r with Done _ s => s | Stop _ s => s end.

(** [None]: the computation returned. *)
Definition outcome {S A} (r : Res S A) : option Abort :=
  match r with Done _ _ => None | Stop why _ => Some why end.

End Exec.

Import Exec.

Declare Scope go_scope.
Delimit Scope go_scope with go.
Notation "'let*' x := m 'in' k" := (bind m (fun x => k))
  (at level 10, x name, m at level 100, k at level 200) : go_scope.
Notation "m ;; k" := (bind m (fun _ => k))
  (at level 100, k at level 200, right associativity) : go_scope.
Local Open Scope go_scope.

(** ** The tiled downloader ([src/main.go]) *)

Module Tiled.
Import GoInt GoStr Img Net.

Record Book := mkBook {
  id : string;
  length : Z;
  rows : Z;
  cols : Z;
  imgSize : Z * Z;
  params : gmap string string;
  retry : Z;
  path : string;
  urlTemplate : string;
  cookies : list (string * string);   (* given to [client.Jar.SetCookies] *)
  documentType : string
}.

Definition set_length (v : Z) (b : Book) : Book :=
  mkBook (id b) v (rows b) (cols b) (imgSize b) (params b) (retry b)
         (path b) (urlTemplate b) (cookies b) (documentType b).
Definition set_rows (v : Z) (b : Book) : Book :=
  mkBook (id b) (length b) v (cols b) (imgSize b) (params b) (retry b)
         (path b) (urlTemplate b) (cookies b) (documentType b).
Definition set_cols (v : Z) (b : Book) : Book :=
  mkBook (id b) (length b) (rows b) v (imgSize b) (params b) (retry b)
         (path b) (urlTemplate b) (cookies b) (documentType b).
Definition set_imgSize (v : Z * Z) (b : Book) : Book :=
  mkBook (id b) (length b) (rows b) (cols b) v (params b) (retry b)
         (path b) (urlTemplate b) (cookies b) (documentType b).
Definition set_params (v : gmap string string) (b : Book) : Book :=
  mkBook (id b) (length b) (rows b) (cols b) (imgSize b) v (retry b)
         (path b) (urlTemplate b) (cookies b) (documentType b).
Definition set_retry (v : Z) (b : Book) : Book :=
  mkBook (id b) (length b) (rows b) (cols b) (imgSize b) (params b) v
         (path b) (urlTemplate b) (cookies b) (documentType b).

(** The book, and what the run has done to the outside so far. *)
Record World := mkWorld {
  book : Book;
  sent : list Request;               (* requests issued, oldest first *)
  files : gmap string FileData;      (* the working directory *)
  pdf : list string;                 (* AddPage + Image calls, in order *)
  saved : option string              (* the call of OutputFileAndClose *)
}.

Definition upd_book (f : Book -> Book) : M World unit :=
  modify (fun w => mkWorld (f (book w)) (sent w) (files w) (pdf w) (saved w)).
Definition put_file (name : string) (d : FileData) : M World unit :=
  modify (fun w =>
    mkWorld (book w) (sent w) (<[name := d]> (files w)) (pdf w) (saved w)).
Definition pdfImage (name : string) : M World unit :=
  modify (fun w =>
    mkWorld (book w) (sent w) (files w) (pdf w ++ [name]) (saved w)).

(** The image of a pasted tile, with the offsets of the next paste. *)
Record Canvas := mkCanvas { img : Image; xOffset : Z; yOffset : Z }.

Definition Decode (p : Payload) : option Image :=
  match p with Pixels i => Some i | Junk => None end.

(** The body of [updateParams], on the map alone. *)
Definition newParams (pageNr col row : string) (p0 : gmap string string)
  : gmap string string :=
  let p1 :=
    if String.eqb pageNr "" then p0
    else
      <["long_page_nr" :=
          match Atoi pageNr with
          | Some _ => pad4 pageNr
          | None => pageNr
          end]> (<["page_nr" := pageNr]> p0) in
  let p2 := if String.eqb col "" then p1 else <["col" := col]> p1 in
  if String.eqb row "" then p2 else <["row" := row]> p2.

(** The request that [formatURL] makes of the book. *)
Definition request (m : Method) (b : Book) : Request :=
  mkRequest m (urlTemplate b) (params b).

Section Program.
Context (env : Env).

(** [b.client.Get(b.formatURL())] *)
Definition httpGet : M World Response :=
  fun w =>
    let rq := request GET (book w) in
    Done (remote env (sent w) rq)
         (mkWorld (book w) (sent w ++ [rq]) (files w) (pdf w) (saved w)).

Definition updateParams (pageNr col row : string) : M World unit :=
  upd_book (fun b => set_params (newParams pageNr col row (params b)) b).

(** [pdf.OutputFileAndClose(name)]: the document of the pages placed
    so far is written to [name] when the writer can do so. *)
Definition pdfOutput (name : string) : M World unit :=
  modify (fun w =>
    mkWorld (book w) (sent w)
            (if output_ok env name
             then <[Clean name := Document (pdf w)]> (files w)
             else files w)
            (pdf w) (Some name)).

(** The inner loop of [downloadPage]: [for col < b.cols]. *)
Fixpoint colLoop (fuel : nat) (pageNr : string) (row col : Z)
         (cv : Canvas) : M World Canvas :=
  match fuel with
  | O => halt Fuel
  | S fuel' =>
      let* b := gets book in
      if col <? cols b then
        updateParams pageNr (Itoa col) (Itoa row) ;;
        let* r := httpGet in
        match success r with
        | None =>
            (match respOf r with
             | Some resp =>
                 if StatusCode resp =? StatusUnauthorized
                 then halt (OsExit 1) else ret tt
             | None => ret tt
             end) ;;
            let* b := gets book in
            let* col1 :=
              (if 0 <=? retry b
               then upd_book (set_retry (sub (retry b) 1)) ;;
                    ret (sub col 1)
               else ret col) in
            colLoop fuel' pageNr row (add col1 1) cv
        | Some resp =>
            match Body resp with
            | None => colLoop fuel' pageNr row col cv        (* continue *)
            | Some data =>
                match Decode data with
                | None => colLoop fuel' pageNr row col cv    (* continue *)
                | Some partialPage =>
                    let bnds := bounds partialPage in
                    let x := xOffset cv in
                    let y := yOffset cv in
                    let img' :=
                      Draw (img cv)
                           (Rect x y (add x (RDx bnds)) (add y (RDy bnds)))
                           partialPage (minX bnds) (minY bnds) in
                    let x1 := add x (RDx bnds) in
                    let cv' :=
                      if col =? sub (cols b) 1
                      then mkCanvas img' 0 (add y (RDy bnds))
                      else mkCanvas img' x1 y in
                    colLoop fuel' pageNr row (add col 1) cv'
                end
            end
        end
      else ret cv
  end.

(** The outer loop of [downloadPage]: [for row < b.rows]. *)
Fixpoint rowLoop (fuel : nat) (pageNr : string) (row : Z) (cv : Canvas)
  : M World Canvas :=
  match fuel with
  | O => halt Fuel
  | S fuel' =>
      let* b := gets book in
      if row <? rows b then
        let* cv' := colLoop fuel' pageNr row 0 cv in
        rowLoop fuel' pageNr (add row 1) cv'
      else ret cv
  end.

(** [Encoded i] stands for what [jpeg.Encode] writes for [i]. *)
Definition downloadPage (fuel : nat) (pageNr : string) (retry : Z)
  : M World unit :=
  let* b := gets book in
  let img0 := NewRGBA (Rect 0 0 (fst (imgSize b)) (snd (imgSize b))) in
  let* cv := rowLoop fuel pageNr 0 (mkCanvas img0 0 0) in
  let* b := gets book in
  let outPath := Join (path b) (pageNr +:+ ".jpg") in
  if create_ok env outPath
  then put_file outPath (Encoded (img cv))
  else ret tt.

Fixpoint findLoop (fuel : nat) (j delta : Z) : M World Z :=
  match fuel with
  | O => halt Fuel
  | S fuel' =>
      updateParams (Itoa j) "0" "0" ;;
      let* r := httpGet in
      match success r with
      | None =>
          if delta =? 1 then ret (sub j 1)
          else
            let j1 := sub j delta in
            let d1 := div delta 10 in
            let d2 := if d1 <? 1 then 1 else d1 in
            findLoop fuel' (add j1 d2) d2
      | Some _ => findLoop fuel' (add j delta) delta
      end
  end.

Definition findBookLength (fuel : nat) : M World Z :=
  findLoop fuel 100 100.

(** First loop of [findRowsColsAndImgSize]. *)
Fixpoint findRows (fuel : nat) : M World unit :=
  match fuel with
  | O => halt Fuel
  | S fuel' =>
      upd_book (fun b => set_rows (add (rows b) 1) b) ;;
      let* b := gets book in
      updateParams "1" "0" (Itoa (rows b)) ;;
      let* r := httpGet in
      match success r with
      | None => ret tt
      | Some resp =>
          match Body resp with
          | None => ret tt
          | Some data =>
              match Decode data with
              | None => ret tt
              | Some im =>
                  upd_book (fun b =>
                    set_imgSize (fst (imgSize b),
                                 add (snd (imgSize b)) (RDy (bounds im))) b) ;;
                  findRows fuel'
              end
          end
      end
  end.

(** Second loop of [findRowsColsAndImgSize]. *)
Fixpoint findCols (fuel : nat) : M World unit :=
  match fuel with
  | O => halt Fuel
  | S fuel' =>
      upd_book (fun b => set_cols (add (cols b) 1) b) ;;
      let* b := gets book in
      updateParams "1" (Itoa (cols b)) "0" ;;
      let* r := httpGet in
      match success r with
      | None => ret tt
      | Some resp =>
          match Body resp with
          | None => ret tt
          | Some data =>
              match Decode data with
              | None => ret tt
              | Some im =>
                  upd_book (fun b =>
                    set_imgSize (add (fst (imgSize b)) (RDx (bounds im)),
                                 snd (imgSize b)) b) ;;
                  findCols fuel'
              end
          end
      end
  end.

Definition findRowsColsAndImgSize (fuel : nat) : M World unit :=
  findRows fuel ;; findCols fuel.

Definition template (docType : string) : string :=
  "https://www.nb.no/services/image/resolver?url_ver=geneza&urn=URN:NBN:no-nb_"
  +:+ docType +:+
  "_{book_id}_{long_page_nr}&maxLevel=5&level=5&col={col}&row={row}&resX=9999&resY=9999&tileWidth=1024&tileHeight=1024&pg_id={page_nr}".

Definition initBook (bookID : string) (length : Z) (docType : string)
           (cookieValue cookieName : string) : Book :=
  let docType := if String.eqb docType "" then "digibok" else docType in
  let cookie :=
    if String.eqb cookieValue "" then []
    else [(if String.eqb cookieName "" then "JSESSIONID" else cookieName,
           cookieValue)] in
  mkBook bookID length (-1) (-1) (0, 0)
         (<["row" := "0"]> (<["col" := "0"]> (<["long_page_nr" := "0001"]>
            (<["page_nr" := "1"]> (<["book_id" := bookID]> ∅)))))
         2 (bookID +:+ "_temp_image_folder") (template docType) cookie
         docType.

(** [NewBook]: the struct, then grid discovery; [disk] is the
    working directory as the run finds it.  The path of the executable
    and the creation of the working directory are left to the
    [create_ok] oracle of the environment. *)
Definition NewBook (fuel : nat) (bookID : string) (length : Z)
           (docType cookieValue cookieName : string)
           (disk : gmap string FileData) : Res World unit :=
  findRowsColsAndImgSize fuel
    (mkWorld (initBook bookID length docType cookieValue cookieName)
             [] disk [] None).

(** [for page := 1; page <= b.length; page++], downloading. *)
Fixpoint pagesLoop (fuel : nat) (page retry : Z) : M World unit :=
  match fuel with
  | O => halt Fuel
  | S fuel' =>
      let* b := gets book in
      if page <=? length b then
        downloadPage fuel' (Itoa page) retry ;;
        upd_book (set_retry 2) ;;
        pagesLoop fuel' (add page 1) retry
      else ret tt
  end.

(** [for page := 1; page <= b.length; page++], filling the PDF. *)
Fixpoint pdfLoop (fuel : nat) (page : Z) : M World unit :=
  match fuel with
  | O => halt Fuel
  | S fuel' =>
      let* b := gets book in
      if page <=? length b then
        pdfImage (Join (path b) (Itoa page +:+ ".jpg")) ;;
        pdfLoop fuel' (add page 1)
      else ret tt
  end.

Definition downloadBook (fuel : nat) : M World unit :=
  let* b := gets book in
  (if length b =? 0
   then let* n := findBookLength fuel in upd_book (set_length n)
   else ret tt) ;;
  let retry := 2 in
  downloadPage fuel "C1" retry ;;
  upd_book (set_retry 2) ;;
  let* b := gets book in
  pdfImage (Join (path b) "C1.jpg") ;;
  pagesLoop fuel 1 retry ;;
  pdfLoop fuel 1 ;;
  downloadPage fuel "C3" retry ;;
  pdfImage (Join (path b) "C3.jpg") ;;
  pdfOutput (id b +:+ ".pdf").

(** [main], after flag parsing. *)
Definition run (fuel : nat) (bookID : string) (length : Z)
           (docType cookieValue cookieName : string)
           (disk : gmap string FileData) : Res World unit :=
  match NewBook fuel bookID length docType cookieValue cookieName disk with
  | Done _ w => downloadBook fuel w
  | Stop why w => Stop why w
  end.

End Program.
End Tiled.

(** ** The direct downloader (one request per page) *)

Module Direct.
Import GoInt GoStr Net.

Record Book := mkBook {
  id : string;
  length : Z;
  retry : Z;
  path : string;
  urlTemplate : string;
  cookies : list (string * string);   (* given to [client.Jar.SetCookies] *)
  documentType : string;
  params : gmap string string
}.

Definition set_length (v : Z) (b : Book) : Book :=
  mkBook (id b) v (retry b) (path b) (urlTemplate b) (cookies b)
         (documentType b) (params b).
Definition set_retry (v : Z) (b : Book) : Book :=
  mkBook (id b) (length b) v (path b) (urlTemplate b) (cookies b)
         (documentType b) (params b).
Definition set_params (v : gmap string string) (b : Book) : Book :=
  mkBook (id b) (length b) (retry b) (path b) (urlTemplate b) (cookies b)
         (documentType b) v.

Record World := mkWorld {
  book : Book;
  sent : list Request;               (* requests issued, oldest first *)
  files : gmap string FileData;      (* the working directory *)
  pdf : list string;                 (* AddPage + Image calls, in order *)
  saved : option string              (* the call of OutputFileAndClose *)
}.

Definition upd_book (f : Book -> Book) : M World unit :=
  modify (fun w => mkWorld (f (book w)) (sent w) (files w) (pdf w) (saved w)).
Definition put_file (name : string) (d : FileData) : M World unit :=
  modify (fun w =>
    mkWorld (book w) (sent w) (<[name := d]> (files w)) (pdf w) (saved w)).

(** [if _, err := os.Stat(p); err == nil { pdf.AddPage(); pdf.Image(p) }] *)
Definition pdfImageIfExists (name : string) : M World unit :=
  modify (fun w =>
    match files w !! name with
    | Some _ =>
        mkWorld (book w) (sent w) (files w) (pdf w ++ [name]) (saved w)
    | None => w
    end).

(** The body of [updateParams], on the map alone. *)
Definition newParams (pageNr : string) (p0 : gmap string string)
  : gmap string string :=
  if String.eqb pageNr "" then p0
  else
    <["long_page_nr" :=
        match Atoi pageNr with
        | Some _ => pad4 pageNr
        | None => pageNr
        end]> (<["page_nr" := pageNr]> p0).

(** The request that [formatURL] makes of the book. *)
Definition request (m : Method) (b : Book) : Request :=
  mkRequest m (urlTemplate b) (params b).

Section Program.
Context (env : Env).

(** [b.client.Get(url)] and [b.client.Head(url)] on [b.formatURL()] *)
Definition http (m : Method) : M World Response :=
  fun w =>
    let rq := request m (book w) in
    Done (remote env (sent w) rq)
         (mkWorld (book w) (sent w ++ [rq]) (files w) (pdf w) (saved w)).

Definition updateParams (pageNr : string) : M World unit :=
  upd_book (fun b => set_params (newParams pageNr (params b)) b).

(** [pdf.OutputFileAndClose(name)]: the document of the pages placed
    so far is written to [name] when the writer can do so. *)
Definition pdfOutput (name : string) : M World unit :=
  modify (fun w =>
    mkWorld (book w) (sent w)
            (if output_ok env name
             then <[Clean name := Document (pdf w)]> (files w)
             else files w)
            (pdf w) (Some name)).

(** The retry is a recursive call; the parameter [retry] is passed
    along and never read. *)
Fixpoint downloadPage (fuel : nat) (pageNr : string) (retry_ : Z)
  : M World unit :=
  match fuel with
  | O => halt Fuel
  | S fuel' =>
      updateParams pageNr ;;
      let* r := http GET in
      match success r with
      | None =>
          match respOf r with
          | None => halt NilPanic   (* resp.StatusCode, resp == nil *)
          | Some resp =>
              (* 401 and 403 print a hint and dump the cookies *)
              let* b := gets book in
              if 0 <=? retry b then
                upd_book (set_retry (sub (retry b) 1)) ;;
                downloadPage fuel' pageNr retry_
              else ret tt
          end
      | Some resp =>
          match Body resp with
          | None => ret tt
          | Some imgData =>
              let* b := gets book in
              let outPath := Join (path b) (pageNr +:+ ".jpg") in
              if create_ok env outPath then
                if write_ok env outPath then
                  put_file outPath (Raw imgData) ;;
                  upd_book (set_retry 2)
                else put_file outPath Truncated
              else ret tt
          end
      end
  end.

Fixpoint findLoop (fuel : nat) (j delta : Z) : M World Z :=
  match fuel with
  | O => halt Fuel
  | S fuel' =>
      updateParams (Itoa j) ;;
      let* r := http GET in
      match success r with
      | None =>
          if delta =? 1 then ret (sub j 1)
          else
            let j1 := sub j delta in
            let d1 := div delta 10 in
            let d2 := if d1 <? 1 then 1 else d1 in
            findLoop fuel' (add j1 d2) d2
      | Some _ => findLoop fuel' (add j delta) delta
      end
  end.

Definition findBookLength (fuel : nat) : M World Z :=
  findLoop fuel 100 100.

(** The introduction pages: HEAD probe, then download; the result
    is [introPageNum] when the loop breaks. *)
Fixpoint introLoop (fuel : nat) (introPageNum : Z) : M World Z :=
  match fuel with
  | O => halt Fuel
  | S fuel' =>
      let introPage := "I" +:+ Itoa introPageNum in
      let* b := gets book in
      let tempRetry := retry b in
      updateParams introPage ;;
      let* r := http HEAD in
      match success r with
      | None => ret introPageNum
      | Some _ =>
          downloadPage fuel' introPage tempRetry ;;
          introLoop fuel' (add introPageNum 1)
      end
  end.

(** [for page := 1; page <= b.length; page++], downloading. *)
Fixpoint pagesLoop (fuel : nat) (page : Z) : M World unit :=
  match fuel with
  | O => halt Fuel
  | S fuel' =>
      let* b := gets book in
      if page <=? length b then
        downloadPage fuel' (Itoa page) (retry b) ;;
        pagesLoop fuel' (add page 1)
      else ret tt
  end.

(** [for i := 1; i <= last; i++] over the page files named
    [prefix ++ Itoa i ++ ".jpg"], filling the PDF. *)
Fixpoint pdfLoop (fuel : nat) (prefix : string) (i last : Z)
  : M World unit :=
  match fuel with
  | O => halt Fuel
  | S fuel' =>
      if i <=? last then
        let* b := gets book in
        pdfImageIfExists (Join (path b) (prefix +:+ Itoa i +:+ ".jpg")) ;;
        pdfLoop fuel' prefix (add i 1) last
      else ret tt
  end.

Definition downloadBook (fuel : nat) : M World unit :=
  let* b := gets book in
  (if length b =? 0
   then let* n := findBookLength fuel in upd_book (set_length n)
   else ret tt) ;;
  let* b := gets book in
  downloadPage fuel "C1" (retry b) ;;
  let* introPageNum := introLoop fuel 1 in
  pagesLoop fuel 1 ;;
  let* b := gets book in
  downloadPage fuel "C3" (retry b) ;;
  pdfImageIfExists (Join (path b) "C1.jpg") ;;
  pdfLoop fuel "I" 1 (sub introPageNum 1) ;;
  let* b := gets book in
  pdfLoop fuel "" 1 (length b) ;;
  pdfImageIfExists (Join (path b) "C3.jpg") ;;
  pdfOutput (id b +:+ ".pdf").

(** The URL template; [main] puts another width in the place of 602
    when the [-width] flag says so. *)
Definition template (docType : string) (imageWidth : Z) : string :=
  "https://www.nb.no/services/image/resolver/URN:NBN:no-nb_"
  +:+ docType +:+ "_{book_id}_{long_page_nr}/full/"
  +:+ Itoa imageWidth +:+ ",/0/default.jpg".

Definition NewBook (bookID : string) (length : Z) (docType : string)
           (cookies : list (string * string)) : Book :=
  let docType := if String.eqb docType "" then "digibok" else docType in
  mkBook bookID length 2 (bookID +:+ "_temp_image_folder")
         (template docType 602) cookies docType
         (<["long_page_nr" := "0001"]>
            (<["page_nr" := "1"]> (<["book_id" := bookID]> ∅))).

(** [main], after flag parsing; [disk] is the working directory as
    the run finds it. *)
Definition run (fuel : nat) (bookID : string) (length : Z)
           (docType : string) (cookies : list (string * string))
           (disk : gmap string FileData) : Res World unit :=
  downloadBook fuel
    (mkWorld (NewBook bookID length docType cookies) [] disk [] None).

End Program.
End Direct.

(** ** Vocabulary of the statements *)

Module Spec.
Import GoInt GoStr Net.

(** The remote source holds exactly the pages [1..N]: a GET for page
    [j] is answered with status 200 exactly when [1 <= j <= N]. *)
Definition validPages (env : Env) (N : Z) : Prop :=
  forall h rq j, rq_method rq = GET -> page_of rq = Itoa j ->
    (success (remote env h rq) <> None <-> 1 <= j <= N).

(** The last request of a log asks for page [p]. *)
Definition endsWithPage (l : list Request) (p : string) : Prop :=
  exists pre rq, l = (pre ++ [rq])%list /\ page_of rq = p.

(** Rank of the step of the length search: 100, 10, 1. *)
Definition stage (delta : Z) : Z :=
  if delta =? 100 then 2 else if delta =? 10 then 1 else 0.

(** A synthetic source with the pages [1..N]; files can always be
    created and written, and so can the document. *)
Definition shelf (N : Z) : Env :=
  mkEnv (fun _ rq =>
           if existsb (fun j => String.eqb (page_of rq) (Itoa j)) (seqZ 1 N)
           then Reply (mkResp StatusOK (Some Junk))
           else Reply (mkResp 404 None))
        (fun _ => true) (fun _ => true) (fun _ => true).

End Spec.

(** The world after [updateParams] and the request that follows it. *)
Module TiledStep.
Import Net Tiled.

Definition aimed (pageNr col row : string) (b : Book) : Book :=
  set_params (newParams pageNr col row (params b)) b.
Definition fetched (pageNr col row : string) (w : World) : World :=
  mkWorld (aimed pageNr col row (book w))
          (sent w ++ [request GET (aimed pageNr col row (book w))])
          (files w) (pdf w) (saved w).

End TiledStep.

Module DirectStep.
Import Net Direct.

Definition aimed (pageNr : string) (b : Book) : Book :=
  set_params (newParams pageNr (params b)) b.
Definition fetched (m : Method) (pageNr : string) (w : World) : World :=
  mkWorld (aimed pageNr (book w))
          (sent w ++ [request m (aimed pageNr (book w))])
          (files w) (pdf w) (saved w).

End DirectStep.

(** ** Scenarios: concrete remote sources *)

Module Scenario.
Import GoInt GoStr Img Net.

Definition asked (l : list Request) : list (Method * string) :=
  map (fun rq => (rq_method rq, page_of rq)) l.

Definition tilesAsked (l : list Request) : list (string * string * string) :=
  map (fun rq => (page_of rq, row_of rq, col_of rq)) l.

(** Every request is answered with the same status and no body;
    here and in the sources below, files can always be created and
    written, and so can the document. *)
Definition constant (status : Z) : Env :=
  mkEnv (fun _ _ => Reply (mkResp status None))
        (fun _ => true) (fun _ => true) (fun _ => true).

Definition grey : Image := mkImage (mkRect 0 0 1024 1024) (fun _ _ => 128).

(** Page 1 is a single tile; the front cover is answered with status
    200 and a body that is not an image; nothing else exists. *)
Definition junkCover : Env :=
  mkEnv (fun _ rq =>
           if String.eqb (page_of rq) "1" then
             if String.eqb (row_of rq) "0" && String.eqb (col_of rq) "0"
             then Reply (mkResp StatusOK (Some (Pixels grey)))
             else Reply (mkResp 404 None)
           else if String.eqb (page_of rq) "C1"
                then Reply (mkResp StatusOK (Some Junk))
                else Reply (mkResp 404 None))
        (fun _ => true) (fun _ => true) (fun _ => true).

(** Page 1 is a row of two tiles; every other page answers with the
    given status. *)
Definition brokenPages (status : Z) : Env :=
  mkEnv (fun _ rq =>
           if String.eqb (page_of rq) "1" then
             if String.eqb (row_of rq) "0" &&
                (String.eqb (col_of rq) "0" || String.eqb (col_of rq) "1")
             then Reply (mkResp StatusOK (Some (Pixels grey)))
             else Reply (mkResp 404 None)
           else Reply (mkResp status None))
        (fun _ => true) (fun _ => true) (fun _ => true).

(** Of every page, the tiles of column 0 are served; every other
    tile is answered with status 500. *)
Definition halfPages : Env :=
  mkEnv (fun _ rq =>
           if String.eqb (col_of rq) "0"
           then Reply (mkResp StatusOK (Some (Pixels grey)))
           else Reply (mkResp 500 None))
        (fun _ => true) (fun _ => true) (fun _ => true).

End Scenario.

(** ** Hypotheses on the remote source *)

Module Source.
Import GoInt GoStr Img Net.

(** Every answer to a GET carries a response, also when the transport
    reports an error. *)
Definition answered (env : Env) : Prop :=
  forall h rq, rq_method rq = GET -> respOf (remote env h rq) <> None.

(** Every GET is answered with status 200 and a readable body. *)
Definition allPagesOk (env : Env) : Prop :=
  forall h rq, rq_method rq = GET ->
    exists resp data, remote env h rq = Reply resp
                      /\ StatusCode resp = StatusOK
                      /\ Body resp = Some data.

(** The existence probes succeed for I1 and I2 and fail for I3. *)
Definition twoIntroPages (env : Env) : Prop :=
  forall h rq, rq_method rq = HEAD ->
    (page_of rq = "I1" -> success (remote env h rq) <> None) /\
    (page_of rq = "I2" -> success (remote env h rq) <> None) /\
    (page_of rq = "I3" -> success (remote env h rq) = None).

(** No introduction page exists. *)
Definition noIntroPages (env : Env) : Prop :=
  forall h rq, rq_method rq = HEAD -> page_of rq = "I1" ->
    success (remote env h rq) = None.

End Source.

(** What no function of the direct downloader changes once the length
    is known. *)
Module DirectFrame.
Import Direct.

Definition stable (w w' : World) : Prop :=
  id (book w') = id (book w) /\
  length (book w') = length (book w) /\
  path (book w') = path (book w) /\
  pdf w' = pdf w /\
  saved w' = saved w.

Definition keeps (w w' : World) : Prop :=
  forall n, is_Some (files w !! n) -> is_Some (files w' !! n).

End DirectFrame.

(** The requests of consecutive numbered pages, page [page + i] being
    requested [ks !! i] times. *)
Module Blocks.
Import GoStr Net.

Fixpoint blocks (page : Z) (ks : list nat) : list (Method * string) :=
  match ks with
  | [] => []
  | k :: ks' => repeat (GET, Itoa page) k ++ blocks (page + 1) ks'
  end.

Definition pageFile (dir pre : string) (i : Z) : string :=
  Join dir (pre +:+ Itoa i +:+ ".jpg").

End Blocks.

Module Books.
Import GoInt GoStr Img Net Scenario.

Definition oneOf (s : string) (l : list string) : bool :=
  existsb (String.eqb s) l.

(** A book of one numbered page with covers and two introduction
    pages; every page is a single tile, and is served whole to a
    request without tile coordinates; a HEAD request tells whether
    the page is an introduction page. *)
Definition withIntro : Env :=
  mkEnv (fun _ rq =>
           match rq_method rq with
           | HEAD =>
               if oneOf (page_of rq) ["I1"; "I2"]
               then Reply (mkResp StatusOK None)
               else Reply (mkResp 404 None)
           | GET =>
               if oneOf (page_of rq) ["C1"; "I1"; "I2"; "1"; "C3"]
                  && oneOf (row_of rq) ["0"; ""]
                  && oneOf (col_of rq) ["0"; ""]
               then Reply (mkResp StatusOK (Some (Pixels grey)))
               else Reply (mkResp 404 None)
           end)
        (fun _ => true) (fun _ => true) (fun _ => true).

(** The same introduction pages, but every GET fails in the transport
    and leaves no response. *)
Definition offline : Env :=
  mkEnv (fun _ rq =>
           match rq_method rq with
           | HEAD =>
               if oneOf (page_of rq) ["I1"; "I2"]
               then Reply (mkResp StatusOK None)
               else Reply (mkResp 404 None)
           | GET => NetError None
           end)
        (fun _ => true) (fun _ => true) (fun _ => true).

(** Every GET is answered with an image, every HEAD with 404. *)
Definition plain : Env :=
  mkEnv (fun _ rq =>
           match rq_method rq with
           | GET => Reply (mkResp StatusOK (Some (Pixels grey)))
           | HEAD => Reply (mkResp 404 None)
           end)
        (fun _ => true) (fun _ => true) (fun _ => true).

End Books.

(** ** Properties kept by every step of a run *)

Module Kept.

(** [R] relates the state before a computation to the state in which
    it ends, however it ends; [Q] holds of the value it returns. *)
Definition always {S A : Type} (R : S -> S -> Prop) (Q : A -> Prop)
           (m : M S A) : Prop :=
  forall s, R s (final (m s)) /\ (forall a s', m s = Done a s' -> Q a).

End Kept.

Module TiledFrame.
Import Img Net Tiled.

(** The grid and the page size are unchanged, and every raster
    written since has the page size as its bounds. *)
Definition gridKept (w w' : World) : Prop :=
  rows (book w') = rows (book w) /\
  cols (book w') = cols (book w) /\
  imgSize (book w') = imgSize (book w) /\
  forall name i,
    files w' !! name = Some (Encoded i) ->
    files w !! name = Some (Encoded i) \/
    bounds i = Rect 0 0 (fst (imgSize (book w))) (snd (imgSize (book w))).

End TiledFrame.

(** ** Grids of tiles *)

Module Grid.
Import GoInt GoStr Img Net.

(** The image that a probe or a fetch gets out of an answer. *)
Definition tileOf (r : Response) : option Image :=
  match success r with
  | Some resp =>
      match Body resp with
      | Some data => Tiled.Decode data
      | None => None
      end
  | None => None
  end.

(** Page 1 of the source answers the probes at column 0 with the
    tiles of rows [0..R-1] and fails from row [R] on, and likewise
    along row 0 for the columns [0..C-1]. *)
Definition gridSource (env : Env) (R C : Z) (tile : Z -> Z -> Image) : Prop :=
  forall h rq, rq_method rq = GET -> page_of rq = "1" ->
    (forall r, row_of rq = Itoa r -> col_of rq = "0" -> 0 <= r ->
       tileOf (remote env h rq) = if r <? R then Some (tile r 0) else None) /\
    (forall c, col_of rq = Itoa c -> row_of rq = "0" -> 0 <= c ->
       tileOf (remote env h rq) = if c <? C then Some (tile 0 c) else None).

(** Every tile [(r, c)] of page [p] with [r < R] and [c < C] is
    served. *)
Definition pageSource (env : Env) (p : string) (R C : Z)
           (tile : Z -> Z -> Image) : Prop :=
  forall h rq r c, rq_method rq = GET -> page_of rq = p ->
    row_of rq = Itoa r -> col_of rq = Itoa c ->
    0 <= r < R -> 0 <= c < C ->
    tileOf (remote env h rq) = Some (tile r c).

Definition sumZ (l : list Z) : Z := foldr Z.add 0 l.

(** Sum of [f i] for [lo <= i < lo + n]. *)
Definition sumOver (f : Z -> Z) (lo n : Z) : Z := sumZ (map f (seqZ lo n)).

Definition tileW (tile : Z -> Z -> Image) (c : Z) : Z :=
  RDx (bounds (tile 0 c)).
Definition tileH (tile : Z -> Z -> Image) (r : Z) : Z :=
  RDy (bounds (tile r 0)).

(** The number that [s] is the decimal rendering of, below [n]. *)
Definition indexOf (s : string) (n : Z) : option Z :=
  find (fun i => String.eqb (Itoa i) s) (seqZ 0 n).

(** A synthetic source: every page is the same grid of [R] by [C]
    tiles. *)
Definition gridOf (R C : Z) (tile : Z -> Z -> Image) : Env :=
  mkEnv (fun _ rq =>
           match indexOf (row_of rq) R, indexOf (col_of rq) C with
           | Some r, Some c =>
               Reply (mkResp StatusOK (Some (Pixels (tile r c))))
           | _, _ => Reply (mkResp 404 None)
           end)
        (fun _ => true) (fun _ => true) (fun _ => true).

(** A tile of [w] by [h] pixels that carries its coordinates. *)
Definition marked (w h : Z) (r c : Z) : Image :=
  mkImage (mkRect 0 0 w h) (fun _ _ => 1000 * r + c).

End Grid.

(** ** Pages assembled from tiles *)

Module Page.
Import GoInt GoStr Img Net.

(** The tile has width [w] and height [h]. *)
Definition sized (w h : Z) (i : Image) : Prop :=
  maxX (bounds i) - minX (bounds i) = w /\
  maxY (bounds i) - minY (bounds i) = h.

(** The coordinates of a grid, rows outer, columns inner. *)
Definition rowMajor (R C : Z) : list (Z * Z) :=
  flat_map (fun r => map (fun c => (r, c)) (seqZ 0 C)) (seqZ 0 R).

(** The pixels of tile [(r, c)] lie in [im] at the offset
    [(c * w, r * h)]. *)
Definition painted (w h : Z) (tile : Z -> Z -> Image) (im : Image)
           (r c : Z) : Prop :=
  forall u v, 0 <= u < w -> 0 <= v < h ->
    at_ im (c * w + u) (r * h + v)
    = at_ (tile r c) (minX (bounds (tile r c)) + u)
                     (minY (bounds (tile r c)) + v).

(** The canvas after a paste at column [col] of a row of [cols]
    tiles. *)
Definition pasted (cv : Tiled.Canvas) (col cols : Z) (part : Image)
  : Tiled.Canvas :=
  let bnds := bounds part in
  let x := Tiled.xOffset cv in
  let y := Tiled.yOffset cv in
  let img' :=
    Draw (Tiled.img cv)
         (Rect x y (add x (RDx bnds)) (add y (RDy bnds)))
         part (minX bnds) (minY bnds) in
  if col =? sub cols 1
  then Tiled.mkCanvas img' 0 (add y (RDy bnds))
  else Tiled.mkCanvas img' (add x (RDx bnds)) y.

End Page.

(** ** What a page is made of *)

Module Received.
Import GoInt GoStr Img Net.

(** The tiles that the requests [new], sent after the log [h], are
    answered with, in order; [None] for a request that is not answered
    with a tile. *)
Fixpoint answers (env : Env) (h new : list Request) : list (option Image) :=
  match new with
  | [] => []
  | rq :: rest => Grid.tileOf (remote env h rq) :: answers env (h ++ [rq]) rest
  end.




End Received.

Module TiledQuiet.
Import Tiled.

(** Only the request parameters and the log of requests differ. *)
Definition quiet (w w' : World) : Prop :=
  rows (book w') = rows (book w) /\
  cols (book w') = cols (book w) /\
  imgSize (book w') = imgSize (book w) /\
  retry (book w') = retry (book w) /\
  path (book w') = path (book w) /\
  length (book w') = length (book w) /\
  id (book w') = id (book w) /\
  files w' = files w /\
  pdf w' = pdf w /\
  saved w' = saved w.

End TiledQuiet.

(** ** Sources on which page assembly runs to its end *)

Module Tame.
Import GoInt GoStr Img Net.

(** No failed GET carries the status 401, and the body of every
    successful GET is an image. *)
Definition tame (env : Env) : Prop :=
  forall h rq, rq_method rq = GET ->
    (forall resp, success (remote env h rq) = None ->
                  respOf (remote env h rq) = Some resp ->
                  StatusCode resp <> StatusUnauthorized) /\
    (forall resp, success (remote env h rq) = Some resp ->
                  Grid.tileOf (remote env h rq) <> None).

(** Every request fails. *)
Definition allFail (env : Env) : Prop :=
  forall h rq, success (remote env h rq) = None.

(** What page assembly leaves alone. *)
Definition calm (w w' : Tiled.World) : Prop :=
  Tiled.rows (Tiled.book w') = Tiled.rows (Tiled.book w) /\
  Tiled.cols (Tiled.book w') = Tiled.cols (Tiled.book w) /\
  Tiled.imgSize (Tiled.book w') = Tiled.imgSize (Tiled.book w) /\
  Tiled.path (Tiled.book w') = Tiled.path (Tiled.book w) /\
  Tiled.length (Tiled.book w') = Tiled.length (Tiled.book w) /\
  Tiled.id (Tiled.book w') = Tiled.id (Tiled.book w) /\
  Tiled.files w' = Tiled.files w /\
  Tiled.pdf w' = Tiled.pdf w /\
  Tiled.saved w' = Tiled.saved w.

End Tame.

Module Written.
Import Img Net.

(** What a page leaves alone apart from the retry budget, the
    request parameters, the log and the files. *)
Definition steady (w w' : Tiled.World) : Prop :=
  Tiled.rows (Tiled.book w') = Tiled.rows (Tiled.book w) /\
  Tiled.cols (Tiled.book w') = Tiled.cols (Tiled.book w) /\
  Tiled.imgSize (Tiled.book w') = Tiled.imgSize (Tiled.book w) /\
  Tiled.path (Tiled.book w') = Tiled.path (Tiled.book w) /\
  Tiled.length (Tiled.book w') = Tiled.length (Tiled.book w) /\
  Tiled.id (Tiled.book w') = Tiled.id (Tiled.book w) /\
  Tiled.pdf w' = Tiled.pdf w /\
  Tiled.saved w' = Tiled.saved w.


(** The loop bound that a book needs. *)
Definition enough (b : Tiled.Book) : Z :=
  Z.max 0 (Tiled.length b) + Z.max 0 (Tiled.rows b)
  + Z.max 0 (Tiled.cols b) + 8.

End Written.

(** ** Invariants of a run *)

Module Holds.

(** [P] holds in the state in which [m] ends, however it ends, when
    it holds in the state in which [m] starts; [Q] holds of the value
    that [m] returns. *)
Definition preserves {S A : Type} (P : S -> Prop) (Q : A -> Prop)
           (m : M S A) : Prop :=
  forall s, P s -> P (final (m s)) /\ (forall a s', m s = Done a s' -> Q a).

(** From a state in which [P] holds, [m] ends in a state in which
    [P'] holds. *)
Definition leads {S A : Type} (P P' : S -> Prop) (m : M S A) : Prop :=
  forall s, P s -> P' (final (m s)).

End Holds.

(** The name of a page file of the working directory [dir]. *)
Module Names.
Import GoStr.

Definition pageName (dir n : string) : Prop :=
  exists p, n = Join dir (p +:+ ".jpg").

(** A cover or a numbered page. *)
Definition plainPage (p : string) : Prop :=
  p = "C1" \/ p = "C3" \/ exists j, p = Itoa j.

(** An introduction page. *)
Definition introPage (p : string) : Prop := exists n, p = "I" +:+ Itoa n.

(** A page of the direct downloader. *)
Definition anyPage (p : string) : Prop := plainPage p \/ introPage p.

(** The file of a page that satisfies [P]. *)
Definition fileOf (P : string -> Prop) (dir n : string) : Prop :=
  exists p, P p /\ n = Join dir (p +:+ ".jpg").

End Names.

(** What a run of the tiled downloader has done since the world [w0],
    as long as it has not written the document. *)
Module TiledSession.
Import Net Tiled Names.

(** The fields that identify the book and the session. *)
Definition sameBook (b b' : Book) : Prop :=
  id b' = id b /\ path b' = path b /\ urlTemplate b' = urlTemplate b /\
  cookies b' = cookies b /\ documentType b' = documentType b /\
  params b' !! "book_id" = params b !! "book_id".

(** A request for a tile of a cover or of a numbered page of the
    book. *)
Definition ofBook (b : Book) (rq : Request) : Prop :=
  rq_method rq = GET /\ rq_template rq = urlTemplate b /\
  rq_params rq !! "book_id" = params b !! "book_id" /\
  plainPage (page_of rq).

Definition budget (b : Book) : Prop := -1 <= retry b <= 2.

Definition within (w0 w : World) : Prop :=
  sameBook (book w0) (book w) /\
  budget (book w) /\
  (exists new, sent w = sent w0 ++ new /\ Forall (ofBook (book w0)) new) /\
  (forall n, ~ pageName (path (book w0)) n -> files w !! n = files w0 !! n) /\
  (forall n, is_Some (files w0 !! n) -> is_Some (files w !! n)) /\
  (exists more, pdf w = pdf w0 ++ more
                /\ Forall (fileOf plainPage (path (book w0))) more) /\
  saved w = saved w0.

(** The state in which a run ends: before the document is written,
    or with the writer asked to write it. *)
Definition ended (env : Env) (w0 w : World) : Prop :=
  within w0 w \/
  exists w1, within w0 w1
             /\ w = final (pdfOutput env (id (book w0) +:+ ".pdf") w1).

End TiledSession.

(** What a run of the direct downloader has done since the world [w0],
    as long as it has not written the document. *)
Module DirectSession.
Import Net Direct Names.

Definition sameBook (b b' : Book) : Prop :=
  id b' = id b /\ path b' = path b /\ urlTemplate b' = urlTemplate b /\
  cookies b' = cookies b /\ documentType b' = documentType b /\
  params b' !! "book_id" = params b !! "book_id".

(** A request for a page of the book; the existence probes are those
    for the introduction pages. *)
Definition ofBook (b : Book) (rq : Request) : Prop :=
  rq_template rq = urlTemplate b /\
  rq_params rq !! "book_id" = params b !! "book_id" /\
  anyPage (page_of rq) /\
  (rq_method rq = HEAD -> introPage (page_of rq)).

Definition budget (b : Book) : Prop := -1 <= retry b <= 2.

(** The file [n] holds [d] because the run received it: [d] is the
    body of the successful answer to a GET of the run for the page of
    [n] (or what is left of it when the write fails). *)
Definition received (env : Env) (w0 w : World) (n : string) (d : FileData)
  : Prop :=
  exists p h rq rest resp data,
    n = GoStr.Join (path (book w0)) (p +:+ ".jpg")
    /\ sent w = h ++ rq :: rest
    /\ (List.length (sent w0) <= List.length h)%nat
    /\ rq_method rq = GET /\ page_of rq = p
    /\ success (remote env h rq) = Some resp
    /\ Body resp = Some data
    /\ (d = Raw data \/ d = Truncated).

(** The last request so far is a GET for the page [p] that was answered
    with status 200 and the body [data]. *)
Definition lastBody (env : Env) (w : World) (p : string) (data : Payload)
  : Prop :=
  exists h rq resp,
    sent w = h ++ [rq]
    /\ rq_method rq = GET /\ page_of rq = p
    /\ success (remote env h rq) = Some resp
    /\ Body resp = Some data.

Definition within (env : Env) (w0 w : World) : Prop :=
  sameBook (book w0) (book w) /\
  budget (book w) /\
  (exists new, sent w = sent w0 ++ new /\ Forall (ofBook (book w0)) new) /\
  (forall n, ~ pageName (path (book w0)) n -> files w !! n = files w0 !! n) /\
  (forall n, is_Some (files w0 !! n) -> is_Some (files w !! n)) /\
  (forall n d, files w !! n = Some d ->
               files w0 !! n = Some d \/ received env w0 w n d) /\
  (exists more, pdf w = pdf w0 ++ more
                /\ Forall (fun n => fileOf anyPage (path (book w0)) n
                                    /\ is_Some (files w !! n)) more) /\
  saved w = saved w0.

Definition ended (env : Env) (w0 w : World) : Prop :=
  within env w0 w \/
  exists w1, within env w0 w1
             /\ w = final (pdfOutput env (id (book w0) +:+ ".pdf") w1).

(** The file [n] can be created and written. *)
Definition writable (env : Env) (n : string) : Prop :=
  create_ok env n = true /\ write_ok env n = true.

(** The page [p] is settled: the last request of the run for it was a
    GET, and when that was answered with status 200 and a body that
    could be read, and the page file can be written, the file holds
    that body. *)
Definition settled (env : Env) (w : World) (p : string) : Prop :=
  exists h rq rest,
    sent w = h ++ rq :: rest
    /\ rq_method rq = GET /\ page_of rq = p
    /\ Forall (fun q => page_of q <> p) rest
    /\ forall resp data,
         success (remote env h rq) = Some resp -> Body resp = Some data ->
         writable env (GoStr.Join (path (book w)) (p +:+ ".jpg")) ->
         files w !! GoStr.Join (path (book w)) (p +:+ ".jpg")
         = Some (Raw data).

End DirectSession.
(** ** The cost of the length search *)

Module Search.
Import Net.

(** No GET fails. *)
Definition neverFails (env : Env) : Prop :=
  forall h rq, rq_method rq = GET -> success (remote env h rq) <> None.

(** The probes still to come when the search runs with step [delta]
    and the book has [d] pages beyond the last page known to exist. *)
Definition rest (delta d : Z) : Z :=
  if delta =? 100 then d / 100 + (d mod 100) / 10 + d mod 10 + 3
  else if delta =? 10 then d / 10 + d mod 10 + 2
  else d + 1.

(** The probes of a search in a book of [N] pages. *)
Definition probes (N : Z) : Z := N / 100 + (N mod 100) / 10 + N mod 10 + 3.

End Search.
(** ** Pages without tiles *)

Module Blank.
Import Img Net.

(** The page file of a book when no tile has been pasted. *)
Definition blank (b : Tiled.Book) : FileData :=
  Encoded (NewRGBA (Rect 0 0 (fst (Tiled.imgSize b)) (snd (Tiled.imgSize b)))).

(** The pages of the document of a book of [L] numbered pages, in
    order. *)
Definition bookPages (dir : string) (L : Z) : list string :=
  GoStr.Join dir "C1.jpg"
  :: map (Blocks.pageFile dir "") (seqZ 1 L) ++ [GoStr.Join dir "C3.jpg"].

End Blank.
(** ** The cookie string of the direct downloader *)

Module Cookies.

Record Cookie := mkCookie { Name : string; Value : string; Path : string }.

(** [strings.Split(s, sep)] for a separator of one byte: the segments
    between the separators, in order; there is always one segment. *)
Fixpoint Split (sep : Ascii.ascii) (s : string) : list string :=
  match s with
  | EmptyString => [""]
  | String c s' =>
      if Ascii.eqb c sep then "" :: Split sep s'
      else match Split sep s' with
           | seg :: segs => String c seg :: segs
           | [] => [String c ""]
           end
  end.

(** The parts of [s] before and after the first separator, if any. *)
Fixpoint cut (sep : Ascii.ascii) (s : string) : option (string * string) :=
  match s with
  | EmptyString => None
  | String c s' =>
      if Ascii.eqb c sep then Some ("", s')
      else match cut sep s' with
           | Some (a, b) => Some (String c a, b)
           | None => None
           end
  end.

(** [strings.SplitN(s, sep, 2)] for a separator of one byte. *)
Definition SplitN2 (sep : Ascii.ascii) (s : string) : list string :=
  match cut sep s with
  | Some (a, b) => [a; b]
  | None => [s]
  end.

(** The byte [c] occurs in [s]. *)
Fixpoint has (c : Ascii.ascii) (s : string) : bool :=
  match s with
  | EmptyString => false
  | String d s' => Ascii.eqb d c || has c s'
  end.

Section Parse.
(** [strings.TrimSpace], which knows the white space of Unicode, is a
    parameter of the embedding. *)
Variable TrimSpace : string -> string.

(** The loop of [parseCookiesString] over the pairs. *)
Fixpoint pairsLoop (cookiePairs : list string) (cookies : list Cookie)
  : list Cookie :=
  match cookiePairs with
  | [] => cookies
  | segment :: rest =>
      let pair_ := TrimSpace segment in
      if String.eqb pair_ "" then pairsLoop rest cookies     (* continue *)
      else
        match SplitN2 "=" pair_ with
        | [name; value] =>
            pairsLoop rest (cookies ++ [mkCookie name value "/"])
        | _ => pairsLoop rest cookies
        end
  end.

Definition parseCookiesString (cookiesStr : string) : list Cookie :=
  if String.eqb cookiesStr "" then []
  else pairsLoop (Split ";" cookiesStr) [].

End Parse.

(** The cookie string that the usage text describes:
    name1=value1; name2=value2 *)
Fixpoint render (l : list (string * string)) : string :=
  match l with
  | [] => ""
  | [(n, v)] => n +:+ "=" +:+ v
  | (n, v) :: rest => n +:+ "=" +:+ v +:+ "; " +:+ render rest
  end.

(** A pair that the cookie string renders without loss: no '=' in the
    name, no ';' in the name or the value, and nothing for
    [TrimSpace] to remove but the blank that follows a ';'. *)
Definition plainPair (TrimSpace : string -> string) (p : string * string)
  : Prop :=
  let s := fst p +:+ "=" +:+ snd p in
  has "=" (fst p) = false /\ has ";" (fst p) = false /\
  has ";" (snd p) = false /\
  TrimSpace s = s /\ TrimSpace (" " +:+ s) = s.

Definition toCookie (p : string * string) : Cookie :=
  mkCookie (fst p) (snd p) "/".

(** A trimming function for the examples: it removes the blanks at
    both ends. *)
Fixpoint dropBlanks (s : string) : string :=
  match s with
  | String " " s' => dropBlanks s'
  | _ => s
  end.

Definition trimBlanks (s : string) : string :=
  String.rev (dropBlanks (String.rev (dropBlanks s))).

End Cookies.
(** ** Paths *)

Module Paths.

(** An element that [Clean] keeps. *)
Definition keptElement (l : string) : Prop :=
  l <> "" /\ l <> "." /\ l <> "..".

(** The elements of a directory, with the slash that a name
    follows. *)
Definition dirPart (L : list string) : string :=
  match L with
  | [] => ""
  | _ => GoStr.joinSlash L +:+ "/"
  end.

(** A plain file name: one element that [Clean] keeps. *)
Definition plainName (n : string) : Prop :=
  Cookies.has "/" n = false /\ keptElement n.

End Paths.

(** ** A source that holds a book *)

Module Shelf.
Import Net.

(** The answers to successful GETs can be read, and files can be
    created and written. *)
Definition readable (env : Env) : Prop :=
  (forall h rq resp, rq_method rq = GET ->
     success (remote env h rq) = Some resp -> Body resp <> None) /\
  (forall n, create_ok env n = true) /\
  (forall n, write_ok env n = true).

End Shelf.
(** ** Introduction pages *)

Module Intro.
Import GoStr Net.

(** The source holds the introduction pages I1..Ik: the existence
    probe for I<j> succeeds exactly when 1 <= j <= k. *)
Definition introPages (env : Env) (k : Z) : Prop :=
  forall h rq j, rq_method rq = HEAD -> page_of rq = "I" +:+ Itoa j ->
    (success (remote env h rq) <> None <-> 1 <= j <= k).

(** The requests of the introduction loop from page I<j> on, page
    I<j + i> being probed once and then requested [ks !! i] times. *)
Fixpoint introBlocks (j : Z) (ks : list nat) : list (Method * string) :=
  match ks with
  | [] => []
  | k :: ks' =>
      (HEAD, "I" +:+ Itoa j)
      :: repeat (GET, "I" +:+ Itoa j) k ++ introBlocks (j + 1) ks'
  end.

(** The pages of a document with [k] introduction pages and [L]
    numbered pages, in order. *)
Definition docPages (dir : string) (k L : Z) : list string :=
  Join dir "C1.jpg"
  :: map (Blocks.pageFile dir "I") (seqZ 1 k)
     ++ map (Blocks.pageFile dir "") (seqZ 1 L) ++ [Join dir "C3.jpg"].

End Intro.
(** ** [main] of the direct downloader *)

Module DirectMain.
Import GoStr Net Cookies.

(** The flags and the positional arguments after [flag.Parse]. *)
Record Flags := mkFlags {
  id : string;          (* -id *)
  type_ : string;       (* -type *)
  cookies : string;     (* -cookies *)
  length : Z;           (* -length *)
  width : Z;            (* -width *)
  args : list string    (* flag.Args() *)
}.

(** [strings.HasPrefix] *)
Fixpoint HasPrefix (s pre : string) : bool :=
  match pre, s with
  | EmptyString, _ => true
  | String p pre', String c s' => Ascii.eqb c p && HasPrefix s' pre'
  | String _ _, EmptyString => false
  end.

Fixpoint dropBytes (n : nat) (s : string) : string :=
  match n, s with
  | S n', String _ s' => dropBytes n' s'
  | _, _ => s
  end.

(** [strings.Replace(s, old, new, 1)]: the first occurrence of [old]
    from the left, if there is one, becomes [new]. *)
Fixpoint ReplaceFirst (old new s : string) : string :=
  if HasPrefix s old then new +:+ dropBytes (String.length old) s
  else match s with
       | EmptyString => ""
       | String c s' => String c (ReplaceFirst old new s')
       end.

(** [old] occurs in [s]. *)
Fixpoint Contains (s old : string) : bool :=
  HasPrefix s old ||
  match s with
  | EmptyString => false
  | String _ s' => Contains s' old
  end.

Inductive Outcome :=
| Usage                                   (* the usage text, os.Exit(1) *)
| Ran (r : Res Direct.World unit).

Definition set_urlTemplate (v : string) (b : Direct.Book) : Direct.Book :=
  Direct.mkBook (Direct.id b) (Direct.length b) (Direct.retry b)
                (Direct.path b) v (Direct.cookies b) (Direct.documentType b)
                (Direct.params b).

(** The cookies as [NewBook] receives them, each by its name and its
    value, in order; what the jar of the client makes of them is not
    part of the embedding. *)
Definition nameValue (l : list Cookie) : list (string * string) :=
  map (fun c => (Name c, Value c)) l.

Section Main.
Context (TrimSpace : string -> string) (env : Env).

(** [main], after [flag.Parse]; [disk] is the working directory as the
    run finds it. *)
Definition main (fuel : nat) (fl : Flags) (disk : gmap string FileData)
  : Outcome :=
  let bookID :=
    if String.eqb (id fl) "" then
      match args fl with
      | a :: _ => Some a
      | [] => None
      end
    else Some (id fl) in
  match bookID with
  | None => Usage
  | Some bookID =>
      let cookies :=
        if String.eqb (cookies fl) "" then []
        else parseCookiesString TrimSpace (cookies fl) in
      let b := Direct.NewBook bookID (length fl) (type_ fl) (nameValue cookies) in
      let b :=
        if width fl =? 602 then b
        else set_urlTemplate
               (ReplaceFirst "602," (Itoa (width fl) +:+ ",")
                             (Direct.urlTemplate b)) b in
      Ran (Direct.downloadBook env fuel (Direct.mkWorld b [] disk [] None))
  end.

End Main.

End DirectMain.

(** * Part II: facts about the embedding *)

Import GoInt GoStr Net Spec.

(** ** Machine integers and decimal strings *)

Lemma wrap_small z : minInt <= z <= maxInt -> wrap z = z.
Proof.
  unfold wrap, minInt, maxInt. intros H.
  rewrite Z.mod_small; lia.
Qed.

Lemma wrap_add_l a b : wrap (wrap a + b) = wrap (a + b).
Proof.
  unfold wrap.
  replace (((a + 2 ^ 63) mod 2 ^ 64 - 2 ^ 63) + b + 2 ^ 63)
    with ((a + 2 ^ 63) mod 2 ^ 64 + b) by lia.
  rewrite Zplus_mod_idemp_l. f_equal. f_equal. lia.
Qed.

Lemma pretty_N_go_nonempty (x : N) (s : string) :
  s <> "" -> pretty_N_go x s <> "".
Proof.
  revert s. induction (N.lt_wf_0 x) as [x _ IH]. intros s Hs.
  destruct (decide (x = 0%N)) as [->|Hx].
  - by rewrite pretty_N_go_0.
  - rewrite pretty_N_go_step by lia. apply IH; [|done].
    apply N.div_lt; lia.
Qed.

Lemma pretty_N_nonempty (x : N) : pretty x <> "".
Proof.
  unfold pretty, pretty_N. case_decide; [done|].
  rewrite pretty_N_go_step by lia. by apply pretty_N_go_nonempty.
Qed.

Lemma Itoa_nonempty z : Itoa z <> "".
Proof.
  unfold Itoa, pretty, pretty_Z. destruct z; try done.
  apply pretty_N_nonempty.
Qed.

Lemma Itoa_inj a b : Itoa a = Itoa b -> a = b.
Proof. apply pretty_Z_inj. Qed.

(** ** Page identifiers in the request parameters *)

Lemma pretty_N_char_digit d :
  (d < 10)%N ->
  isDigit (pretty_N_char d) = true /\ digitVal (pretty_N_char d) = Z.of_N d.
Proof.
  intros Hd.
  assert (d = 0 \/ d = 1 \/ d = 2 \/ d = 3 \/ d = 4 \/ d = 5 \/ d = 6
          \/ d = 7 \/ d = 8 \/ d = 9)%N as H by lia.
  repeat (destruct H as [->|H]; [by vm_compute|]). subst d. by vm_compute.
Qed.

(** Reading back the digits that [pretty_N_go] puts in front of [s]. *)
Lemma digits_pretty_N_go x : forall s acc,
  exists k : nat,
    digits (pretty_N_go x s) acc = digits s (acc * 10 ^ Z.of_nat k + Z.of_N x)
    /\ (x = 0%N -> k = 0%nat).
Proof.
  induction (N.lt_wf_0 x) as [x _ IH]. intros s acc.
  destruct (decide (x = 0%N)) as [->|Hx].
  - exists 0%nat. rewrite pretty_N_go_0. split; [|done].
    f_equal. cbn. lia.
  - rewrite pretty_N_go_step by lia.
    destruct (IH (x `div` 10)%N ltac:(apply N.div_lt; lia)
                 (String (pretty_N_char (x `mod` 10)) s) acc)
      as (k & Hk & _).
    exists (S k). split; [|done]. rewrite Hk. cbn [digits].
    destruct (pretty_N_char_digit (x `mod` 10)%N) as [-> ->];
      [apply N.mod_lt; lia|].
    f_equal. rewrite Nat2Z.inj_succ, Z.pow_succ_r by lia.
    rewrite N2Z.inj_mod, N2Z.inj_div.
    pose proof (Z.div_mod (Z.of_N x) 10). lia.
Qed.

Lemma digits_pretty_N x : digits (pretty x) 0 = Some (Z.of_N x).
Proof.
  unfold pretty, pretty_N. case_decide as Hx; [by subst|].
  destruct (digits_pretty_N_go x "" 0) as (k & -> & _). by cbn.
Qed.

(** A string that starts with a digit is read without a sign. *)
Lemma Atoi_digit_head c rest :
  isDigit c = true ->
  Atoi (String c rest)
  = match digits (String c rest) 0 with
    | Some n => if (minInt <=? n) && (n <=? maxInt) then Some n else None
    | None => None
    end.
Proof.
  destruct c as [[] [] [] [] [] [] [] []]; try discriminate; reflexivity.
Qed.

Lemma digits_head_digit c rest acc n :
  digits (String c rest) acc = Some n -> isDigit c = true.
Proof. cbn. by destruct (isDigit c). Qed.

Lemma Atoi_pretty_N x :
  Z.of_N x <= maxInt -> Atoi (pretty x) = Some (Z.of_N x).
Proof.
  intros Hx. pose proof (digits_pretty_N x) as Hd.
  destruct (pretty x) as [|c rest] eqn:Hs; [by destruct (pretty_N_nonempty x)|].
  rewrite Atoi_digit_head by by eapply digits_head_digit.
  rewrite Hd.
  by assert (((minInt <=? Z.of_N x) && (Z.of_N x <=? maxInt)) = true) as ->
    by (unfold minInt in *; lia).
Qed.

Lemma Atoi_minus c rest :
  Atoi (String "-" (String c rest))
  = match digits (String c rest) 0 with
    | Some n =>
        if (minInt <=? - n) && (- n <=? maxInt) then Some (- n) else None
    | None => None
    end.
Proof. reflexivity. Qed.

(** [strconv.Atoi] reads back what [strconv.Itoa] writes. *)
Lemma Atoi_Itoa j : inRange j -> Atoi (Itoa j) = Some j.
Proof.
  intros [Hlo Hhi]. unfold Itoa, pretty, pretty_Z. destruct j as [|p|p].
  - done.
  - change (pretty p) with (pretty (N.pos p)).
    by rewrite Atoi_pretty_N.
  - change (pretty p) with (pretty (N.pos p)).
    pose proof (digits_pretty_N (N.pos p)) as Hd.
    destruct (pretty (N.pos p)) as [|c rest] eqn:Hs;
      [by destruct (pretty_N_nonempty (N.pos p))|].
    change ("-" +:+ String c rest) with (String "-" (String c rest)).
    rewrite Atoi_minus, Hd.
    change (Z.of_N (N.pos p)) with (Z.pos p).
    change (- Z.pos p) with (Z.neg p).
    by assert (((minInt <=? Z.neg p) && (Z.neg p <=? maxInt)) = true) as ->
      by (apply andb_true_intro; split; by apply Z.leb_le).
Qed.

(** ** Strings *)

Lemma append_assoc (s t u : string) : (s +:+ t) +:+ u = s +:+ t +:+ u.
Proof.
  induction s as [|c s IH]; [done|].
  change (String c ((s +:+ t) +:+ u) = String c (s +:+ t +:+ u)).
  by rewrite IH.
Qed.

Lemma append_inj (s a b : string) : s +:+ a = s +:+ b -> a = b.
Proof.
  induction s as [|c s IH]; [done|].
  change (String c (s +:+ a) = String c (s +:+ b) -> a = b).
  intros [= H]. by apply IH.
Qed.


Lemma digits_zeros k s : digits (zeros k +:+ s) 0 = digits s 0.
Proof. induction k as [|k IH]; [done|]. simpl. exact IH. Qed.

Lemma zeros_length k : String.length (zeros k) = k.
Proof. induction k as [|k IH]; [done|]. cbn. by rewrite IH. Qed.

Lemma append_length (s t : string) :
  String.length (s +:+ t) = (String.length s + String.length t)%nat.
Proof. induction s as [|c s IH]; [done|]. simpl. by rewrite IH. Qed.

Lemma pad4_length s :
  String.length (pad4 s) = Nat.max 4 (String.length s).
Proof. unfold pad4. rewrite append_length, zeros_length. lia. Qed.

Lemma pad4_long s : (4 <= String.length s)%nat -> pad4 s = s.
Proof.
  intros Hs. unfold pad4.
  by replace (4 - String.length s)%nat with 0%nat by lia.
Qed.

(** Padding a number with zeros does not change the number read. *)
Lemma Atoi_pad4 c rest :
  isDigit c = true -> Atoi (pad4 (String c rest)) = Atoi (String c rest).
Proof.
  intros Hc. unfold pad4.
  destruct (4 - String.length (String c rest))%nat as [|k]; [done|].
  change (zeros (S k) +:+ String c rest)
    with (String "0" (zeros k +:+ String c rest)).
  rewrite !Atoi_digit_head by done.
  change (digits (String "0" (zeros k +:+ String c rest)) 0)
    with (digits (zeros k +:+ String c rest) 0).
  by rewrite digits_zeros.
Qed.

Lemma pretty_N_go_length_le x : forall s (k : nat),
  (x < 10 ^ N.of_nat k)%N ->
  (String.length (pretty_N_go x s) <= String.length s + k)%nat.
Proof.
  induction (N.lt_wf_0 x) as [x _ IH]. intros s k Hx.
  destruct (decide (x = 0%N)) as [->|Hx0].
  - rewrite pretty_N_go_0. lia.
  - rewrite pretty_N_go_step by lia.
    destruct k as [|k]; [cbn in Hx; lia|].
    etrans; [apply (IH (x `div` 10)%N ltac:(apply N.div_lt; lia) _ k)
            |simpl String.length; lia].
    rewrite Nat2N.inj_succ, N.pow_succ_r' in Hx.
    apply N.Div0.div_lt_upper_bound. lia.
Qed.

Lemma pretty_N_go_length_ge x : forall s (k : nat),
  (10 ^ N.of_nat k <= x)%N ->
  (String.length s + k + 1 <= String.length (pretty_N_go x s))%nat.
Proof.
  induction (N.lt_wf_0 x) as [x _ IH]. intros s k Hx.
  assert (0 < x)%N as Hx0.
  { pose proof (N.pow_nonzero 10 (N.of_nat k)). lia. }
  rewrite pretty_N_go_step by lia.
  destruct k as [|k].
  - pose proof (pretty_N_go_length_le 0 (String (pretty_N_char (x `mod` 10)) s) 0).
    destruct (decide (x `div` 10 = 0)%N) as [->|Hd].
    + rewrite pretty_N_go_0. simpl String.length. lia.
    + etrans; [|apply (IH (x `div` 10)%N ltac:(apply N.div_lt; lia) _ 0%nat)].
      * simpl String.length. lia.
      * change (10 ^ N.of_nat 0)%N with 1%N. destruct (x `div` 10)%N; [done|lia].
  - etrans; [|apply (IH (x `div` 10)%N ltac:(apply N.div_lt; lia) _ k)].
    + simpl String.length. lia.
    + rewrite Nat2N.inj_succ, N.pow_succ_r' in Hx.
      apply N.div_le_lower_bound; lia.
Qed.

Lemma Itoa_length_le j (k : nat) :
  0 <= j < 10 ^ Z.of_nat k -> (1 <= k)%nat ->
  (String.length (Itoa j) <= k)%nat.
Proof.
  intros Hj Hk. unfold Itoa, pretty, pretty_Z.
  destruct j as [|p|p]; [cbn; lia| |lia].
  change (pretty p) with (pretty (N.pos p)). unfold pretty, pretty_N.
  case_decide; [done|].
  apply (pretty_N_go_length_le (N.pos p) "" k).
  apply N2Z.inj_lt. rewrite N2Z.inj_pow, nat_N_Z. cbn. lia.
Qed.

Lemma Itoa_length_ge j (k : nat) :
  10 ^ Z.of_nat k <= j -> (k + 1 <= String.length (Itoa j))%nat.
Proof.
  intros Hj. unfold Itoa, pretty, pretty_Z.
  assert (0 < 10 ^ Z.of_nat k) by (apply Z.pow_pos_nonneg; lia).
  destruct j as [|p|p]; [lia| |lia].
  change (pretty p) with (pretty (N.pos p)). unfold pretty, pretty_N.
  case_decide; [done|].
  apply (pretty_N_go_length_ge (N.pos p) "" k).
  apply N2Z.inj_le. rewrite N2Z.inj_pow, nat_N_Z. cbn. lia.
Qed.

Lemma Itoa_head_digit j :
  0 <= j -> exists c rest, Itoa j = String c rest /\ isDigit c = true.
Proof.
  intros Hj. unfold Itoa, pretty, pretty_Z.
  destruct j as [|p|p]; [by exists "0"%char, ""| |lia].
  change (pretty p) with (pretty (N.pos p)).
  pose proof (digits_pretty_N (N.pos p)) as Hd.
  destruct (pretty (N.pos p)) as [|c rest] eqn:Hs;
    [by destruct (pretty_N_nonempty (N.pos p))|].
  exists c, rest. split; [done|]. by eapply digits_head_digit.
Qed.

Lemma tiled_newParams_page pageNr col row p0 :
  pageNr <> "" ->
  Tiled.newParams pageNr col row p0 !! "page_nr" = Some pageNr /\
  Tiled.newParams pageNr col row p0 !! "long_page_nr"
  = Some (match Atoi pageNr with Some _ => pad4 pageNr | None => pageNr end).
Proof.
  intros Hne. unfold Tiled.newParams. apply String.eqb_neq in Hne. rewrite Hne.
  destruct (String.eqb col ""), (String.eqb row ""); by simplify_map_eq.
Qed.

Lemma direct_newParams_page pageNr p0 :
  pageNr <> "" ->
  Direct.newParams pageNr p0 !! "page_nr" = Some pageNr /\
  Direct.newParams pageNr p0 !! "long_page_nr"
  = Some (match Atoi pageNr with Some _ => pad4 pageNr | None => pageNr end).
Proof.
  intros Hne. unfold Direct.newParams. apply String.eqb_neq in Hne. rewrite Hne.
  by simplify_map_eq.
Qed.


(** ** Paths *)

Import Cookies Paths.

Lemma append_nil_r (s : string) : s +:+ "" = s.
Proof.
  induction s as [|c s IH]; [done|].
  change (String c s +:+ "") with (String c (s +:+ "")). by rewrite IH.
Qed.

Lemma has_app c (s t : string) : has c (s +:+ t) = has c s || has c t.
Proof.
  induction s as [|d s IH]; [done|].
  change (String d s +:+ t) with (String d (s +:+ t)). cbn [has].
  rewrite IH. by destruct (Ascii.eqb d c).
Qed.

(** Two strings that end alike: the ends are the same when they have
    the same length. *)
Lemma append_same_end (s t e f : string) :
  String.length e = String.length f -> s +:+ e = t +:+ f -> e = f.
Proof.
  revert t. induction s as [|c s IH]; intros [|d t] Hlen Heq.
  - done.
  - apply (f_equal String.length) in Heq.
    change ("" +:+ e) with e in Heq.
    rewrite append_length in Heq. cbn in Heq. lia.
  - apply (f_equal String.length) in Heq.
    change ("" +:+ f) with f in Heq.
    rewrite append_length in Heq. cbn in Heq. lia.
  - change (String c (s +:+ e) = String d (t +:+ f)) in Heq.
    injection Heq as _ Heq. by eapply IH.
Qed.

Lemma elements_nonempty p : elements p <> [].
Proof.
  destruct p as [|c p]; [done|]. cbn [elements].
  destruct (Ascii.eqb c "/"); [done|]. by destruct (elements p).
Qed.

Lemma elements_plain e : has "/" e = false -> elements e = [e].
Proof.
  induction e as [|c e IH]; [done|]. cbn [has elements].
  intros H. apply orb_false_iff in H as [Hc He].
  rewrite Hc, (IH He). done.
Qed.

(** A name without a slash at the end of a path lengthens the last
    element. *)
Lemma elements_snoc x e :
  has "/" e = false ->
  elements (x +:+ e)
  = removelast (elements x) ++ [List.last (elements x) "" +:+ e].
Proof.
  intros He. induction x as [|c x IH].
  - change ("" +:+ e) with e. by rewrite elements_plain.
  - change (String c x +:+ e) with (String c (x +:+ e)).
    cbn [elements]. rewrite IH.
    pose proof (elements_nonempty x) as Hne.
    destruct (elements x) as [|e0 es]; [done|].
    destruct (Ascii.eqb c "/").
    + destruct es; done.
    + destruct es as [|e1 es]; [done|].
      change (removelast (e0 :: e1 :: es))
        with (e0 :: removelast (e1 :: es)).
      change (removelast (String c e0 :: e1 :: es))
        with (String c e0 :: removelast (e1 :: es)).
      change (List.last (e0 :: e1 :: es) "")
        with (List.last (e1 :: es) "").
      change (List.last (String c e0 :: e1 :: es) "")
        with (List.last (e1 :: es) "").
      done.
Qed.

Lemma elements_slash x : elements (x +:+ "/") = elements x ++ [""].
Proof.
  induction x as [|c x IH]; [done|].
  change (String c x +:+ "/") with (String c (x +:+ "/")).
  cbn [elements]. rewrite IH.
  pose proof (elements_nonempty x) as Hne.
  destruct (Ascii.eqb c "/"); [done|].
  destruct (elements x) as [|e0 es]; done.
Qed.

Lemma cleanLoop_app r a : forall b k,
  cleanLoop r (a ++ b) k = cleanLoop r b (cleanLoop r a k).
Proof.
  induction a as [|e a IH]; intros b k; [done|].
  cbn [app cleanLoop].
  destruct (String.eqb e "" || String.eqb e "."); [apply IH|].
  destruct (String.eqb e "..").
  - destruct k as [|top k']; [destruct r; apply IH|].
    destruct (String.eqb top ".."); apply IH.
  - apply IH.
Qed.

Lemma joinSlash_cons e L :
  L <> [] -> joinSlash (e :: L) = e +:+ "/" +:+ joinSlash L.
Proof. by destruct L. Qed.

Lemma joinSlash_snoc L l :
  joinSlash (L ++ [l]) = dirPart L +:+ l.
Proof.
  induction L as [|e L IH]; [done|].
  cbn [app]. rewrite joinSlash_cons by (by destruct L). rewrite IH.
  unfold dirPart.
  destruct L as [|e' L]; [by rewrite append_assoc|].
  rewrite (joinSlash_cons e) by done.
  by rewrite !append_assoc.
Qed.

(** The path ends with its last element when [Clean] keeps it; what
    comes before depends on the elements before only. *)
Lemma Clean_last y init l :
  elements y = init ++ [l] -> keptElement l ->
  Clean y
  = (if isRooted y then "/" else "")
    +:+ dirPart (rev (cleanLoop (isRooted y) init [])) +:+ l.
Proof.
  intros Hy (H0 & H1 & H2). unfold Clean. rewrite Hy, cleanLoop_app.
  set (K := cleanLoop (isRooted y) init []).
  cbn [cleanLoop].
  apply String.eqb_neq in H0, H1, H2. rewrite H0, H1, H2. cbn [orb].
  cbn [rev]. rewrite joinSlash_snoc.
  destruct (isRooted y); [done|].
  set (pre := dirPart (rev K)).
  change ("" +:+ pre +:+ l) with (pre +:+ l).
  destruct (pre +:+ l) eqn:Hout; [|done].
  apply String.eqb_neq in H0. destruct pre, l; done.
Qed.

(** A path that ends with an extension keeps it when cleaned. *)
Lemma Clean_ext x ext :
  has "/" ext = false -> (3 <= String.length ext)%nat ->
  exists pre, Clean (x +:+ ext) = pre +:+ ext.
Proof.
  intros Hs Hlen.
  pose proof (elements_snoc x ext Hs) as Hel.
  set (l := List.last (elements x) "").
  fold l in Hel.
  assert (Hk : keptElement (l +:+ ext)).
  { repeat split; intros H; apply (f_equal String.length) in H;
      rewrite append_length in H; cbn in H; lia. }
  rewrite (Clean_last _ _ _ Hel Hk).
  eexists. by rewrite <- !append_assoc.
Qed.

Lemma Join_ext dir p ext :
  has "/" ext = false -> (3 <= String.length ext)%nat ->
  exists pre, Join dir (p +:+ ext) = pre +:+ ext.
Proof.
  intros Hs Hlen. unfold Join. destruct dir as [|c dir].
  - destruct (p +:+ ext) eqn:Heq.
    + apply (f_equal String.length) in Heq.
      rewrite append_length in Heq. cbn in Heq. lia.
    + rewrite <- Heq. by apply Clean_ext.
  - rewrite <- !append_assoc. by apply Clean_ext.
Qed.

(** A page file is never the document. *)
Lemma Join_jpg_not_pdf dir p x :
  Join dir (p +:+ ".jpg") <> Clean (x +:+ ".pdf").
Proof.
  destruct (Join_ext dir p ".jpg") as [pre ->]; [done|cbn; lia|].
  destruct (Clean_ext x ".pdf") as [pre' ->]; [done|cbn; lia|].
  intros H. by apply append_same_end in H.
Qed.

(** In a directory, a plain name follows what is left of the
    directory. *)
Lemma Join_plain dir :
  exists pre, forall name, plainName name -> Join dir name = pre +:+ name.
Proof.
  destruct dir as [|c dir].
  - exists "". intros name [Hs Hk]. unfold Join.
    destruct name as [|d name]; [by destruct Hk|].
    rewrite (Clean_last _ [] _ (elements_plain _ Hs) Hk).
    cbn [has] in Hs. apply orb_false_iff in Hs as [Hd _].
    assert (isRooted (String d name) = false) as ->
      by (cbn [isRooted]; by destruct d as [[] [] [] [] [] [] [] []]).
    done.
  - set (d := String c dir).
    exists ((if isRooted d then "/" else "")
            +:+ dirPart (rev (cleanLoop (isRooted d) (elements d) []))).
    intros name [Hs Hk]. unfold Join. fold d.
    assert (Hel : elements (d +:+ "/" +:+ name) = elements d ++ [name]).
    { rewrite <- append_assoc, (elements_snoc _ _ Hs), elements_slash.
      rewrite removelast_last, last_last. done. }
    rewrite (Clean_last _ _ _ Hel Hk).
    by rewrite <- !append_assoc.
Qed.

Lemma Join_inj dir a b :
  plainName a -> plainName b -> Join dir a = Join dir b -> a = b.
Proof.
  intros Ha Hb. destruct (Join_plain dir) as [pre Hpre].
  rewrite (Hpre a Ha), (Hpre b Hb). apply append_inj.
Qed.

Lemma plainName_jpg p : has "/" p = false -> plainName (p +:+ ".jpg").
Proof.
  intros Hp. split; [by rewrite has_app, Hp|].
  repeat split; intros H; apply (f_equal String.length) in H;
    rewrite append_length in H; cbn in H; lia.
Qed.

Lemma digits_no_slash s : forall acc n,
  digits s acc = Some n -> has "/" s = false.
Proof.
  induction s as [|c s IH]; intros acc n; [done|]. cbn [digits has].
  destruct (isDigit c) eqn:Hc; [|done]. intros H.
  rewrite (IH _ _ H).
  destruct (Ascii.eqb_spec c "/") as [->|]; done.
Qed.

Lemma Itoa_no_slash j : has "/" (Itoa j) = false.
Proof.
  unfold Itoa, pretty, pretty_Z. destruct j as [|p|p].
  - done.
  - change (pretty p) with (pretty (N.pos p)).
    exact (digits_no_slash _ _ _ (digits_pretty_N (N.pos p))).
  - change (pretty p) with (pretty (N.pos p)).
    rewrite has_app.
    by rewrite (digits_no_slash _ _ _ (digits_pretty_N (N.pos p))).
Qed.

Lemma append_inj_r (a b e : string) : a +:+ e = b +:+ e -> a = b.
Proof.
  revert b. induction a as [|c a IH]; intros [|d b] H.
  - done.
  - apply (f_equal String.length) in H.
    change ("" +:+ e) with e in H.
    rewrite append_length in H. cbn in H. lia.
  - apply (f_equal String.length) in H.
    change ("" +:+ e) with e in H.
    rewrite append_length in H. cbn in H. lia.
  - change (String c (a +:+ e) = String d (b +:+ e)) in H.
    injection H as -> H. f_equal. by apply IH.
Qed.

(** The names of the page files of one directory tell the pages
    apart. *)
Lemma pageFile_inj dir p q :
  has "/" p = false -> has "/" q = false ->
  Join dir (p +:+ ".jpg") = Join dir (q +:+ ".jpg") -> p = q.
Proof.
  intros Hp Hq H. apply Join_inj in H; try by apply plainName_jpg.
  by apply append_inj_r in H.
Qed.

(** ** One request of each program *)

Lemma tiled_fetch_eval env {A} pageNr col row
      (k : Response -> M Tiled.World A) w :
  (Tiled.updateParams pageNr col row ;;
   let* r := Tiled.httpGet env in k r) w
  = k (remote env (Tiled.sent w)
         (Tiled.request GET (TiledStep.aimed pageNr col row (Tiled.book w))))
      (TiledStep.fetched pageNr col row w).
Proof. reflexivity. Qed.

Lemma tiled_page_of_aimed m pageNr col row b :
  pageNr <> "" ->
  page_of (Tiled.request m (TiledStep.aimed pageNr col row b)) = pageNr.
Proof.
  intros Hne. unfold page_of, Tiled.request, TiledStep.aimed, Tiled.newParams.
  cbn. apply String.eqb_neq in Hne. rewrite Hne.
  destruct (String.eqb col ""), (String.eqb row ""); by simplify_map_eq.
Qed.

Lemma direct_fetch_eval env {A} m pageNr (k : Response -> M Direct.World A) w :
  (Direct.updateParams pageNr ;; let* r := Direct.http env m in k r) w
  = k (remote env (Direct.sent w)
         (Direct.request m (DirectStep.aimed pageNr (Direct.book w))))
      (DirectStep.fetched m pageNr w).
Proof. reflexivity. Qed.

Lemma direct_page_of_aimed m pageNr b :
  pageNr <> "" ->
  page_of (Direct.request m (DirectStep.aimed pageNr b)) = pageNr.
Proof.
  intros Hne. unfold page_of, Direct.request, DirectStep.aimed, Direct.newParams.
  cbn. apply String.eqb_neq in Hne. rewrite Hne. by simplify_map_eq.
Qed.

(** ** The length finder *)

Section Length.
Context (env : Env) (N : Z).
Hypothesis HN : 0 <= N.
Hypothesis Hmax : N + 100 <= maxInt.
Hypothesis Hsrc : validPages env N.

(** Arithmetic of one iteration, once the answer to the probe is known. *)
Ltac length_step IH Hd Hv Hp rq log :=
  unfold maxInt, minInt in *;
  match goal with
  | |- context [success ?r] => destruct (success r) as [resp|] eqn:Hs
  end;
  [ assert (Hjn : 1 <= _ <= N) by (apply Hv; done);
    unfold add; rewrite wrap_small by (unfold maxInt, minInt; lia);
    apply IH; [done|lia|lia]
  | assert (Hjn : ~ (1 <= _ <= N)) by (intros H; apply Hv in H; done);
    destruct Hd as [->|[->| ->]];
    [ cbn; eexists; split;
      [ unfold ret, sub; rewrite wrap_small by (unfold maxInt, minInt; lia);
        f_equal; lia
      | exists log, rq; split; [done|]; rewrite Hp; f_equal; lia ]
    | change (10 =? 1) with false; cbn iota; unfold add, sub, div;
      change (Z.quot 10 10) with 1; change (wrap 1) with 1;
      change (1 <? 1) with false; cbn iota;
      rewrite (wrap_small (_ - 10)) by (unfold maxInt, minInt; lia);
      rewrite wrap_small by (unfold maxInt, minInt; lia);
      apply IH; [auto|lia|unfold stage in *; cbn in *; lia]
    | change (100 =? 1) with false; cbn iota; unfold add, sub, div;
      change (Z.quot 100 10) with 10; change (wrap 10) with 10;
      change (10 <? 1) with false; cbn iota;
      rewrite (wrap_small (_ - 100)) by (unfold maxInt, minInt; lia);
      rewrite wrap_small by (unfold maxInt, minInt; lia);
      apply IH; [auto|lia|unfold stage in *; cbn in *; lia] ] ].

Lemma tiled_findLoop_exact fuel : forall j delta w,
  (delta = 1 \/ delta = 10 \/ delta = 100) ->
  0 <= j - delta <= N ->
  N - (j - delta) + stage delta + 1 <= Z.of_nat fuel ->
  exists w', Tiled.findLoop env fuel j delta w = Done N w'
             /\ endsWithPage (Tiled.sent w') (Itoa (N + 1)).
Proof.
  induction fuel as [|fuel IH]; intros j delta w Hd Hj Hfuel.
  - unfold stage in Hfuel. repeat case_match; lia.
  - cbn [Tiled.findLoop]. rewrite tiled_fetch_eval.
    set (rq := Tiled.request GET _).
    assert (Hp : page_of rq = Itoa j)
      by apply tiled_page_of_aimed, Itoa_nonempty.
    pose proof (Hsrc (Tiled.sent w) rq j eq_refl Hp) as Hv.
    length_step IH Hd Hv Hp rq (Tiled.sent w).
Qed.

Lemma direct_findLoop_exact fuel : forall j delta w,
  (delta = 1 \/ delta = 10 \/ delta = 100) ->
  0 <= j - delta <= N ->
  N - (j - delta) + stage delta + 1 <= Z.of_nat fuel ->
  exists w', Direct.findLoop env fuel j delta w = Done N w'
             /\ endsWithPage (Direct.sent w') (Itoa (N + 1)).
Proof.
  induction fuel as [|fuel IH]; intros j delta w Hd Hj Hfuel.
  - unfold stage in Hfuel. repeat case_match; lia.
  - cbn [Direct.findLoop]. rewrite direct_fetch_eval.
    set (rq := Direct.request GET _).
    assert (Hp : page_of rq = Itoa j)
      by apply direct_page_of_aimed, Itoa_nonempty.
    pose proof (Hsrc (Direct.sent w) rq j eq_refl Hp) as Hv.
    length_step IH Hd Hv Hp rq (Direct.sent w).
Qed.

End Length.

(** C3. With a source that holds exactly the pages 1..N (N >= 1, and
    N + 100 representable), [findBookLength] of either program returns
    N once the loop bound is at least N + 3; its last probe is the
    failing one at page N + 1, made with step 1. *)
Theorem findBookLength_exact env N fuel (wt : Tiled.World) (wd : Direct.World) :
  1 <= N -> N + 100 <= maxInt -> validPages env N ->
  N + 3 <= Z.of_nat fuel ->
  (exists w', Tiled.findBookLength env fuel wt = Done N w'
              /\ endsWithPage (Tiled.sent w') (Itoa (N + 1))) /\
  (exists w', Direct.findBookLength env fuel wd = Done N w'
              /\ endsWithPage (Direct.sent w') (Itoa (N + 1))).
Proof.
  intros HN Hmax Hsrc Hfuel. split.
  - apply tiled_findLoop_exact; auto; unfold stage; cbn; lia.
  - apply direct_findLoop_exact; auto; unfold stage; cbn; lia.
Qed.

Lemma shelf_valid N : validPages (shelf N) N.
Proof.
  intros h rq j _ Hp. cbn. rewrite Hp.
  destruct (existsb _ _) eqn:He.
  - cbn. split; [intros _|done].
    apply existsb_exists in He as (i & Hi & Heq).
    apply String.eqb_eq, Itoa_inj in Heq. subst i.
    apply list_elem_of_In, elem_of_seqZ in Hi. lia.
  - cbn. split; [done|]. intros Hj.
    assert (existsb (fun j0 => String.eqb (Itoa j) (Itoa j0)) (seqZ 1 N) = true)
      as Hx; [|congruence].
    apply existsb_exists. exists j. split; [|apply String.eqb_refl].
    apply list_elem_of_In, elem_of_seqZ. lia.
Qed.

Lemma findBookLength_exact_witness :
  let wt := Tiled.mkWorld (Tiled.initBook "000123456" 0 "" "" "") [] ∅ [] None in
  let wd := Direct.mkWorld (Direct.NewBook "000123456" 0 "" []) [] ∅ [] None in
  (exists w', Tiled.findBookLength (shelf 7) 10 wt = Done 7 w'
              /\ endsWithPage (Tiled.sent w') (Itoa (7 + 1))) /\
  (exists w', Direct.findBookLength (shelf 7) 10 wd = Done 7 w'
              /\ endsWithPage (Direct.sent w') (Itoa (7 + 1))).
Proof.
  intros wt wd.
  apply (findBookLength_exact (shelf 7) 7 10 wt wd);
    [lia | unfold maxInt; lia | apply shelf_valid | lia].
Defined.

(** ** The retry budget *)

Import Scenario.

(** C2, evaluated on the direct downloader with a source that answers
    500 to everything (length 1): the front cover is requested four
    times, not three; the budget is left at -1, so that page 1 and the
    back cover are requested once each. *)
Theorem direct_retry_exhaustion :
  let r := Direct.run (constant 500) 10 "000123456" 1 "" [] ∅ in
  outcome r = None /\
  asked (Direct.sent (final r)) =
    [(GET, "C1"); (GET, "C1"); (GET, "C1"); (GET, "C1");
     (HEAD, "I1"); (GET, "1"); (GET, "C3")] /\
  Direct.retry (Direct.book (final r)) = -1.
Proof.
  vm_compute. by repeat split.
Qed.

(** The same fault on the tiled downloader (grid 1 x 2, length 1): the
    first tile of a page is requested four times, the second tile is
    still requested, and the budget is back at 2 before page 1. *)
Lemma tiled_retry_exhaustion :
  let r := Tiled.run (brokenPages 500) 10 "000123456" 1 "" "" "" ∅ in
  outcome r = None /\
  drop 5 (tilesAsked (Tiled.sent (final r))) =
    [("C1", "0", "0"); ("C1", "0", "0"); ("C1", "0", "0"); ("C1", "0", "0");
     ("C1", "0", "1");
     ("1", "0", "0"); ("1", "0", "1");
     ("C3", "0", "0"); ("C3", "0", "0"); ("C3", "0", "0"); ("C3", "0", "0");
     ("C3", "0", "1")].
Proof.
  vm_compute. by repeat split.
Qed.

(** ** Authentication faults *)

(** C1, evaluated on the direct downloader with a source that answers
    403 to everything (length 1): six more requests follow the first
    403, three of them retries of the same page, and the run ends
    normally. *)
Theorem direct_auth_fault_goes_on :
  let r := Direct.run (constant StatusForbidden) 10 "000123456" 1 "" [] ∅ in
  outcome r = None /\
  asked (Direct.sent (final r)) =
    [(GET, "C1"); (GET, "C1"); (GET, "C1"); (GET, "C1");
     (HEAD, "I1"); (GET, "1"); (GET, "C3")] /\
  Direct.retry (Direct.book (final r)) = -1.
Proof.
  vm_compute. by repeat split.
Qed.

Lemma direct_unauthorized_goes_on :
  let r := Direct.run (constant StatusUnauthorized) 10 "000123456" 1 "" [] ∅ in
  outcome r = None /\
  List.length (Direct.sent (final r)) = 7%nat.
Proof.
  vm_compute. by repeat split.
Qed.

(** In the tiled downloader a 401 on a tile ends the process at once:
    nothing is sent after it and the budget is not touched. *)
Lemma tiled_unauthorized_exits env fuel pageNr row col cv w resp :
  col < Tiled.cols (Tiled.book w) ->
  let rq := Tiled.request GET
              (TiledStep.aimed pageNr (Itoa col) (Itoa row) (Tiled.book w)) in
  respOf (remote env (Tiled.sent w) rq) = Some resp ->
  StatusCode resp = StatusUnauthorized ->
  exists w', Tiled.colLoop env (S fuel) pageNr row col cv w
             = Stop (OsExit 1) w'
             /\ Tiled.sent w' = Tiled.sent w ++ [rq]
             /\ Tiled.retry (Tiled.book w') = Tiled.retry (Tiled.book w).
Proof.
  intros Hc rq Hr Hs. cbn [Tiled.colLoop].
  unfold bind at 1, gets at 1.
  apply Z.ltb_lt in Hc. rewrite Hc.
  rewrite tiled_fetch_eval. fold rq.
  assert (success (remote env (Tiled.sent w) rq) = None) as ->.
  { destruct (remote env (Tiled.sent w) rq) as [o|r]; [done|].
    cbn in *. injection Hr as ->. by rewrite Hs. }
  rewrite Hr, Hs. cbn. eexists; split; [reflexivity|]. by cbn.
Qed.

(** With a 403 the tiled downloader spends the budget as on any other
    fault (grid 1 x 2, length 1). *)
Lemma tiled_forbidden_goes_on :
  let r := Tiled.run (brokenPages StatusForbidden) 10 "000123456" 1 "" "" "" ∅ in
  outcome r = None /\
  take 5 (drop 5 (tilesAsked (Tiled.sent (final r)))) =
    [("C1", "0", "0"); ("C1", "0", "0"); ("C1", "0", "0"); ("C1", "0", "0");
     ("C1", "0", "1")].
Proof.
  vm_compute. by repeat split.
Qed.

(** ** Undecodable tiles *)

Lemma junkCover_spins fuel : forall cv w,
  Tiled.cols (Tiled.book w) = 1 ->
  exists w', Tiled.colLoop junkCover fuel "C1" 0 0 cv w = Stop Fuel w'
             /\ List.length (Tiled.sent w')
                = (List.length (Tiled.sent w) + fuel)%nat.
Proof.
  induction fuel as [|fuel IH]; intros cv w Hc.
  - cbn. eexists; split; [reflexivity|lia].
  - cbn [Tiled.colLoop]. unfold bind at 1, gets at 1. rewrite Hc.
    change (0 <? 1) with true. cbn iota.
    rewrite tiled_fetch_eval.
    set (rq := Tiled.request GET _).
    assert (Hp : page_of rq = "C1") by (by apply tiled_page_of_aimed).
    assert (remote junkCover (Tiled.sent w) rq
            = Reply (mkResp StatusOK (Some Junk))) as ->.
    { cbn. by rewrite Hp. }
    cbv [success StatusCode]. change (StatusOK =? StatusOK) with true.
    cbv [Body Tiled.Decode].
    destruct (IH cv (TiledStep.fetched "C1" (Itoa 0) (Itoa 0) w) Hc)
      as (w' & -> & Hlen).
    eexists; split; [reflexivity|]. rewrite Hlen. cbn.
    rewrite length_app. cbn. lia.
Qed.

Lemma junkCover_page_spins fuel retry w :
  Tiled.rows (Tiled.book w) = 1 -> Tiled.cols (Tiled.book w) = 1 ->
  exists w', Tiled.downloadPage junkCover (S fuel) "C1" retry w = Stop Fuel w'
             /\ List.length (Tiled.sent w')
                = (List.length (Tiled.sent w) + fuel)%nat.
Proof.
  intros Hr Hc. unfold Tiled.downloadPage.
  unfold bind at 1, gets at 1. unfold bind at 1.
  cbn [Tiled.rowLoop]. unfold bind at 1, gets at 1. rewrite Hr.
  change (0 <? 1) with true. cbv iota. unfold bind at 1.
  match goal with
  | |- context [Tiled.colLoop _ _ _ _ _ ?cv _] =>
      destruct (junkCover_spins fuel cv w Hc) as (w' & -> & Hlen)
  end.
  by exists w'.
Qed.

(** C6, evaluated on a source whose front cover is answered with
    status 200 and a body that is not an image: whatever the loop
    bound, the run does not get past the first tile of the cover; the
    number of requests for that one tile grows with the bound. *)
Theorem tiled_undecodable_never_ends fuel :
  let r := Tiled.run junkCover fuel "000123456" 1 "" "" "" ∅ in
  outcome r = Some Fuel /\
  (2 <= fuel -> List.length (Tiled.sent (final r)) = 3 + fuel)%nat.
Proof.
  intros r.
  assert (exists w', r = Stop Fuel w' /\
            (2 <= fuel -> List.length (Tiled.sent w') = 3 + fuel)%nat)
    as (w' & -> & Hlen); [|done].
  subst r. destruct fuel as [|[|fuel]].
  - eexists; split; [by vm_compute|intros; lia].
  - eexists; split; [by vm_compute|intros; lia].
  - unfold Tiled.run.
    assert (exists w1,
      Tiled.NewBook junkCover (S (S fuel)) "000123456" 1 "" "" "" ∅ = Done tt w1
      /\ Tiled.rows (Tiled.book w1) = 1 /\ Tiled.cols (Tiled.book w1) = 1
      /\ Tiled.length (Tiled.book w1) = 1
      /\ List.length (Tiled.sent w1) = 4%nat) as (w1 & -> & Hr & Hc & Hl & Hs).
    { vm_compute. eexists; split; [reflexivity|]. by repeat split. }
    unfold Tiled.downloadBook.
    unfold bind at 1, gets at 1. rewrite Hl. change (1 =? 0) with false.
    cbv iota. unfold bind at 1, ret at 1. unfold bind at 1.
    destruct (junkCover_page_spins (S fuel) 2 w1 Hr Hc) as (w' & -> & Hlen).
    exists w'. split; [done|lia].
Qed.

(** ** The direct downloader, page by page *)

Import Source.

Lemma asked_snoc l rq :
  asked (l ++ [rq]) = asked l ++ [(rq_method rq, page_of rq)].
Proof. unfold asked. by rewrite map_app. Qed.

Lemma direct_stable_refl w : DirectFrame.stable w w.
Proof. by repeat split. Qed.

Lemma direct_stable_trans w1 w2 w3 :
  DirectFrame.stable w1 w2 -> DirectFrame.stable w2 w3 ->
  DirectFrame.stable w1 w3.
Proof.
  unfold DirectFrame.stable. intros (?&?&?&?&?) (?&?&?&?&?).
  repeat split; congruence.
Qed.

Section DirectPage.
Context (env : Env).
Hypothesis Hans : answered env.

Lemma direct_downloadPage_runs fuel : forall pageNr r_ w,
  pageNr <> "" ->
  Direct.retry (Direct.book w) <= 2 ->
  Direct.retry (Direct.book w) + 2 <= Z.of_nat fuel ->
  (1 <= fuel)%nat ->
  let out := Join (Direct.path (Direct.book w)) (pageNr +:+ ".jpg") in
  exists w' k,
    Direct.downloadPage env fuel pageNr r_ w = Done tt w'
    /\ (1 <= k)%nat
    /\ asked (Direct.sent w')
       = asked (Direct.sent w) ++ repeat (GET, pageNr) k
    /\ DirectFrame.stable w w'
    /\ Direct.retry (Direct.book w') <= 2
    /\ DirectFrame.keeps w w'
    /\ (allPagesOk env -> create_ok env out = true ->
        is_Some (Direct.files w' !! out) /\ k = 1%nat).
Proof.
  induction fuel as [|fuel IH]; intros pageNr r_ w Hne Hr2 Hfuel H1 out;
    [lia|].
  cbn [Direct.downloadPage]. rewrite direct_fetch_eval.
  set (rq := Direct.request GET _).
  assert (Hp : page_of rq = pageNr) by by apply direct_page_of_aimed.
  set (w1 := DirectStep.fetched GET pageNr w).
  assert (Hask1 : asked (Direct.sent w1)
                  = asked (Direct.sent w) ++ [(GET, pageNr)]).
  { subst w1. unfold DirectStep.fetched. cbn [Direct.sent].
    rewrite asked_snoc. fold rq. by rewrite Hp. }
  destruct (success (remote env (Direct.sent w) rq)) as [resp|] eqn:Hs.
  - (* status 200 *)
    assert (Hbase : forall w',
      DirectFrame.stable w1 w' -> DirectFrame.keeps w1 w' ->
      Direct.sent w' = Direct.sent w1 ->
      Direct.retry (Direct.book w') <= 2 ->
      (Body resp <> None -> create_ok env out = true ->
       is_Some (Direct.files w' !! out)) ->
      exists w'' k, Done tt w' = Done tt w'' /\ (1 <= k)%nat
        /\ asked (Direct.sent w'')
           = asked (Direct.sent w) ++ repeat (GET, pageNr) k
        /\ DirectFrame.stable w w''
        /\ Direct.retry (Direct.book w'') <= 2
        /\ DirectFrame.keeps w w''
        /\ (allPagesOk env -> create_ok env out = true ->
            is_Some (Direct.files w'' !! out) /\ k = 1%nat)).
    { intros w' Hst Hk Hsent Hr Hf. exists w', 1%nat.
      split; [done|]. split; [lia|]. split; [by rewrite Hsent, Hask1|].
      split; [done|]. split; [done|]. split; [done|].
      intros Hok Hc. split; [|done]. apply Hf; [|done].
      destruct (Hok (Direct.sent w) rq eq_refl) as (resp' & data & Hr' & Hst' & Hb).
      rewrite Hr' in Hs. cbn in Hs. rewrite Hst' in Hs. cbn in Hs.
      injection Hs as <-. by rewrite Hb. }
    destruct (Body resp) as [data|] eqn:Hb.
    + unfold bind at 1, gets at 1. fold out.
      change (Join (Direct.path (Direct.book w1)) (pageNr +:+ ".jpg")) with out.
      destruct (create_ok env out) eqn:Hc; [destruct (write_ok env out)|].
      * apply Hbase; cbn; try done.
        -- intros n. cbn. destruct (decide (out = n)) as [->|?];
             [by rewrite lookup_insert_eq|by rewrite lookup_insert_ne].
        -- intros _ _. by rewrite lookup_insert_eq.
      * apply Hbase; cbn; try done.
        -- intros n. cbn. destruct (decide (out = n)) as [->|?];
             [by rewrite lookup_insert_eq|by rewrite lookup_insert_ne].
        -- intros _ _. by rewrite lookup_insert_eq.
      * apply Hbase; cbn; try done; try (by intros ? ?); intros; congruence.
    + apply Hbase; cbn; try done. by intros ? ?.
  - (* a fault *)
    destruct (respOf (remote env (Direct.sent w) rq)) as [resp|] eqn:Hro;
      [|by destruct (Hans (Direct.sent w) rq eq_refl)].
    assert (Hno : ~ allPagesOk env).
    { intros Hok.
      destruct (Hok (Direct.sent w) rq eq_refl) as (resp' & data & Hr' & Hst' & Hb).
      rewrite Hr' in Hs. cbn in Hs. by rewrite Hst' in Hs. }
    unfold bind at 1, gets at 1.
    change (Direct.retry (Direct.book w1)) with (Direct.retry (Direct.book w)).
    destruct (0 <=? Direct.retry (Direct.book w)) eqn:Hge.
    + apply Z.leb_le in Hge.
      unfold bind at 1. cbn [Direct.upd_book modify].
      unfold sub. rewrite wrap_small by (unfold minInt, maxInt; lia).
      match goal with
      | |- context [Direct.downloadPage env fuel pageNr r_ ?w2] =>
          destruct (IH pageNr r_ w2 Hne) as (w' & k & -> & Hk & Hask & Hst & Hr & Hkeep & _);
            [cbn; lia|cbn; lia|cbn in *; lia|]
      end.
      exists w', (S k). split; [done|]. split; [lia|].
      split.
      { rewrite Hask. cbn [Direct.sent]. rewrite Hask1.
        rewrite <- app_assoc. done. }
      split; [exact Hst|]. split; [exact Hr|]. split; [exact Hkeep|].
      intros Hok. by destruct Hno.
    + exists w1, 1%nat. split; [done|]. split; [lia|]. split; [done|].
      split; [by repeat split|]. split; [exact Hr2|].
      split; [by intros ? ?|]. intros Hok. by destruct Hno.
Qed.

End DirectPage.

Import Blocks.

Lemma direct_keeps_trans w1 w2 w3 :
  DirectFrame.keeps w1 w2 -> DirectFrame.keeps w2 w3 -> DirectFrame.keeps w1 w3.
Proof. intros H1 H2 n Hn. by apply H2, H1. Qed.

Lemma blocks_ones page n :
  blocks page (repeat 1%nat n)
  = map (fun i => (GET, Itoa i)) (seqZ page (Z.of_nat n)).
Proof.
  revert page. induction n as [|n IH]; intros page; [done|].
  rewrite Nat2Z.inj_succ, seqZ_cons by lia. cbn. f_equal.
  rewrite IH. do 2 f_equal. lia.
Qed.

Section DirectBook.
Context (env : Env).
Hypothesis Hans : answered env.

(** The numbered pages. *)
Lemma direct_pagesLoop_runs fuel : forall page w,
  let L := Direct.length (Direct.book w) in
  1 <= page -> L < maxInt ->
  Direct.retry (Direct.book w) <= 2 ->
  Z.max 0 (L - page + 1) + 5 <= Z.of_nat fuel ->
  exists w' ks,
    Direct.pagesLoop env fuel page w = Done tt w'
    /\ List.length ks = Z.to_nat (L - page + 1)
    /\ Forall (fun k => 1 <= k)%nat ks
    /\ asked (Direct.sent w') = asked (Direct.sent w) ++ blocks page ks
    /\ DirectFrame.stable w w'
    /\ Direct.retry (Direct.book w') <= 2
    /\ DirectFrame.keeps w w'
    /\ (allPagesOk env -> (forall p, create_ok env p = true) ->
        ks = repeat 1%nat (List.length ks) /\
        forall i, page <= i <= L ->
          is_Some (Direct.files w'
                     !! pageFile (Direct.path (Direct.book w)) "" i)).
Proof.
  induction fuel as [|fuel IH]; intros page w L Hp HL Hr Hfuel; [lia|].
  cbn [Direct.pagesLoop]. unfold bind at 1, gets at 1. fold L.
  destruct (page <=? L) eqn:Hle.
  - apply Z.leb_le in Hle. unfold bind at 1.
    destruct (direct_downloadPage_runs env Hans fuel (Itoa page)
                (Direct.retry (Direct.book w)) w)
      as (w1 & k & -> & Hk & Hask & Hst & Hr1 & Hkeep & Hok);
      [apply Itoa_nonempty|done|lia|lia|].
    unfold add. rewrite wrap_small by (unfold minInt, maxInt in *; lia).
    destruct Hst as (Hid & Hlen & Hpath & Hpdf & Hsaved).
    destruct (IH (page + 1) w1) as
      (w2 & ks & -> & Hks & Hall & Hask2 & Hst2 & Hr2 & Hkeep2 & Hok2);
      [lia|by rewrite Hlen|done|rewrite Hlen; fold L; lia|].
    exists w2, (k :: ks). split; [done|].
    split. { cbn. rewrite Hks, Hlen. fold L. lia. }
    split; [by constructor|].
    split. { rewrite Hask2, Hask. cbn. by rewrite <- app_assoc. }
    split. { eapply direct_stable_trans; [|exact Hst2]. by repeat split. }
    split; [done|].
    split; [by eapply direct_keeps_trans|].
    intros Hpages Hc. destruct (Hok Hpages (Hc _)) as [Hfile ->].
    destruct (Hok2 Hpages Hc) as [Hones Hfiles].
    split. { cbn. by rewrite <- Hones. }
    intros i Hi. destruct (decide (i = page)) as [->|Hne].
    + apply Hkeep2. exact Hfile.
    + rewrite <- Hpath. apply Hfiles. rewrite Hlen. fold L. lia.
  - apply Z.leb_gt in Hle. exists w, []. split; [done|].
    split. { cbn. lia. }
    split; [constructor|]. split; [by rewrite app_nil_r|].
    split; [by repeat split|]. split; [done|]. split; [by intros ? ?|].
    intros _ _. split; [done|]. intros i Hi. lia.
Qed.

(** Filling the PDF sends nothing and touches neither the book nor
    the files; when every page file exists, every page is added. *)
Lemma direct_pdfLoop_runs fuel pre last : forall i w,
  last < maxInt -> 1 <= i ->
  Z.max 0 (last - i + 1) + 1 <= Z.of_nat fuel ->
  exists w',
    Direct.pdfLoop fuel pre i last w = Done tt w'
    /\ Direct.sent w' = Direct.sent w
    /\ Direct.book w' = Direct.book w
    /\ Direct.files w' = Direct.files w
    /\ Direct.saved w' = Direct.saved w
    /\ ((forall j, i <= j <= last ->
          is_Some (Direct.files w
                     !! pageFile (Direct.path (Direct.book w)) pre j)) ->
        Direct.pdf w'
        = Direct.pdf w
          ++ map (pageFile (Direct.path (Direct.book w)) pre)
                 (seqZ i (last - i + 1))).
Proof.
  induction fuel as [|fuel IH]; intros i w Hlast Hi Hfuel; [lia|].
  cbn [Direct.pdfLoop]. destruct (i <=? last) eqn:Hle.
  - apply Z.leb_le in Hle. unfold bind at 1, gets at 1. unfold bind at 1.
    cbn [Direct.pdfImageIfExists modify].
    unfold add. rewrite wrap_small by (unfold minInt, maxInt in *; lia).
    match goal with
    | |- context [Direct.pdfLoop fuel pre (i + 1) last ?w1] =>
        destruct (IH (i + 1) w1) as (w' & -> & Hs & Hb & Hf & Hsv & Hpdf);
          [done|lia|lia|];
        assert (Hw1 : Direct.sent w1 = Direct.sent w
                      /\ Direct.book w1 = Direct.book w
                      /\ Direct.files w1 = Direct.files w
                      /\ Direct.saved w1 = Direct.saved w)
          by (destruct (Direct.files w !! _); by cbn)
    end.
    destruct Hw1 as (Hs1 & Hb1 & Hf1 & Hsv1).
    exists w'. split; [done|].
    rewrite Hs, Hb, Hf, Hsv. repeat (split; [done|]).
    intros Hall. rewrite Hpdf.
    + rewrite Hb1.
      destruct (Hall i) as [d Hd]; [lia|].
      unfold pageFile in Hd. rewrite Hd. cbn [Direct.pdf].
      rewrite (seqZ_cons i (last - i + 1)) by lia. cbn [map].
      change (Z.succ i) with (i + 1).
      replace (Z.pred (last - i + 1)) with (last - (i + 1) + 1) by lia.
      by rewrite <- app_assoc.
    + intros j Hj. rewrite Hf1, Hb1. apply Hall. lia.
  - apply Z.leb_gt in Hle. exists w. repeat (split; [done|]).
    intros _. rewrite seqZ_nil by lia. by rewrite app_nil_r.
Qed.

End DirectBook.

Lemma allPagesOk_answered env : allPagesOk env -> answered env.
Proof.
  intros Hok h rq Hm. destruct (Hok h rq Hm) as (resp & data & -> & _). done.
Qed.

(** One turn of the introduction loop. *)
Lemma direct_introLoop_stop env fuel n w :
  let p := "I" +:+ Itoa n in
  success (remote env (Direct.sent w)
             (Direct.request HEAD (DirectStep.aimed p (Direct.book w)))) = None ->
  Direct.introLoop env (S fuel) n w = Done n (DirectStep.fetched HEAD p w).
Proof.
  intros p Hs. cbn [Direct.introLoop]. unfold bind at 1, gets at 1.
  rewrite direct_fetch_eval. fold p. by rewrite Hs.
Qed.

Lemma direct_introLoop_go env fuel n w :
  let p := "I" +:+ Itoa n in
  success (remote env (Direct.sent w)
             (Direct.request HEAD (DirectStep.aimed p (Direct.book w)))) <> None ->
  Direct.introLoop env (S fuel) n w
  = (Direct.downloadPage env fuel p (Direct.retry (Direct.book w)) ;;
     Direct.introLoop env fuel (add n 1)) (DirectStep.fetched HEAD p w).
Proof.
  intros p Hs. cbn [Direct.introLoop]. unfold bind at 1, gets at 1.
  rewrite direct_fetch_eval. fold p.
  by destruct (success _).
Qed.

Section DirectAllOk.
Context (env : Env).
Hypothesis Hok : allPagesOk env.
Hypothesis Hno : noIntroPages env.
Hypothesis Hc : forall p, create_ok env p = true.

Lemma direct_downloadBook_all_ok fuel w :
  let L := Direct.length (Direct.book w) in
  let dir := Direct.path (Direct.book w) in
  1 <= L -> L < maxInt ->
  Direct.retry (Direct.book w) <= 2 ->
  L + 6 <= Z.of_nat fuel ->
  exists w',
    Direct.downloadBook env fuel w = Done tt w'
    /\ Direct.pdf w'
       = Direct.pdf w ++ [Join dir "C1.jpg"]
         ++ map (pageFile dir "") (seqZ 1 L) ++ [Join dir "C3.jpg"]
    /\ asked (Direct.sent w')
       = asked (Direct.sent w) ++ [(GET, "C1"); (HEAD, "I1")]
         ++ map (fun i => (GET, Itoa i)) (seqZ 1 L) ++ [(GET, "C3")]
    /\ Direct.saved w' = Some (Direct.id (Direct.book w) +:+ ".pdf").
Proof.
  intros L dir HL1 HL2 Hr Hfuel.
  pose proof (allPagesOk_answered env Hok) as Hans.
  unfold Direct.downloadBook.
  unfold bind at 1, gets at 1. fold L.
  assert ((L =? 0) = false) as -> by lia.
  unfold bind at 1, ret at 1. unfold bind at 1, gets at 1.
  (* front cover *)
  unfold bind at 1.
  destruct (direct_downloadPage_runs env Hans fuel "C1"
              (Direct.retry (Direct.book w)) w)
    as (w1 & k & -> & _ & Hask1 & Hst1 & Hr1 & Hkeep1 & Hf1);
    [done|done|lia|lia|].
  destruct (Hf1 Hok (Hc _)) as [Hfile1 ->]. clear Hf1.
  destruct Hst1 as (Hid1 & Hlen1 & Hpath1 & Hpdf1 & Hsaved1).
  (* no introduction page *)
  unfold bind at 1.
  destruct fuel as [|fuel]; [lia|].
  rewrite direct_introLoop_stop
    by (apply Hno; [done|by apply direct_page_of_aimed]).
  set (w2 := DirectStep.fetched HEAD _ w1).
  (* numbered pages *)
  unfold bind at 1.
  destruct (direct_pagesLoop_runs env Hans (S fuel) 1 w2)
    as (w3 & ks & -> & Hks & _ & Hask3 & Hst3 & Hr3 & Hkeep3 & Hf3);
    [lia|change (Direct.length (Direct.book w1) < maxInt); lia
     |exact Hr1|change (Z.max 0 (Direct.length (Direct.book w1) - 1 + 1) + 5
                        <= Z.of_nat (S fuel)); rewrite Hlen1; fold L; lia|].
  destruct (Hf3 Hok Hc) as [Hones Hfiles3]. clear Hf3.
  destruct Hst3 as (Hid3 & Hlen3 & Hpath3 & Hpdf3 & Hsaved3).
  assert (HL3 : Direct.length (Direct.book w3) = L)
    by (etrans; [exact Hlen3|exact Hlen1]).
  assert (Hdir3 : Direct.path (Direct.book w3) = dir)
    by (etrans; [exact Hpath3|exact Hpath1]).
  assert (Hfiles3' : forall j, 1 <= j <= L ->
            is_Some (Direct.files w3 !! pageFile dir "" j)).
  { intros j Hj. unfold dir. rewrite <- Hpath1. apply (Hfiles3 j).
    change (1 <= j <= Direct.length (Direct.book w1)).
    rewrite Hlen1. fold L. lia. }
  assert (Hpdf3' : Direct.pdf w3 = Direct.pdf w)
    by (etrans; [exact Hpdf3|exact Hpdf1]).
  assert (Hid3' : Direct.id (Direct.book w3) = Direct.id (Direct.book w))
    by (etrans; [exact Hid3|exact Hid1]).
  (* back cover *)
  unfold bind at 1, gets at 1. unfold bind at 1.
  destruct (direct_downloadPage_runs env Hans (S fuel) "C3"
              (Direct.retry (Direct.book w3)) w3)
    as (w4 & k & -> & _ & Hask4 & Hst4 & Hr4 & Hkeep4 & Hf4);
    [done|done|lia|lia|].
  destruct (Hf4 Hok (Hc _)) as [Hfile4 ->]. clear Hf4.
  destruct Hst4 as (Hid4 & Hlen4 & Hpath4 & Hpdf4 & Hsaved4).
  rewrite Hdir3 in *.
  (* the document *)
  unfold bind at 1. cbn [Direct.pdfImageIfExists modify].
  assert (is_Some (Direct.files w4 !! Join dir "C1.jpg")) as [d1 Hd1].
  { apply Hkeep4, Hkeep3. exact Hfile1. }
  rewrite Hd1.
  unfold sub. change (wrap (1 - 1)) with 0.
  unfold bind at 1.
  match goal with
  | |- context [Direct.pdfLoop (S fuel) "I" 1 0 ?w5] =>
      destruct (direct_pdfLoop_runs (S fuel) "I" 0 1 w5)
        as (w6 & -> & Hs6 & Hb6 & Hfs6 & Hsv6 & Hpdf6);
        [unfold maxInt; lia|lia|lia|]
  end.
  assert (Hpdf6' := Hpdf6 ltac:(intros j Hj; lia)). clear Hpdf6.
  rewrite seqZ_nil, app_nil_r in Hpdf6' by lia.
  cbn [Direct.sent Direct.book Direct.files Direct.pdf Direct.saved]
    in Hs6, Hb6, Hfs6, Hsv6, Hpdf6'.
  unfold bind at 1, gets at 1. unfold bind at 1.
  assert (HL6 : Direct.length (Direct.book w6) = L) by
    (rewrite Hb6, Hlen4; exact HL3).
  assert (Hdir6 : Direct.path (Direct.book w6) = dir) by
    (rewrite Hb6; exact Hpath4).
  rewrite HL6.
  destruct (direct_pdfLoop_runs (S fuel) "" L 1 w6)
    as (w7 & -> & Hs7 & Hb7 & Hfs7 & Hsv7 & Hpdf7); [done|lia|lia|].
  rewrite Hdir6 in Hpdf7.
  assert (Hpdf7' := Hpdf7 ltac:(
    intros j Hj; rewrite Hfs6; apply Hkeep4; by apply Hfiles3')).
  clear Hpdf7.
  unfold bind at 1. cbn [Direct.pdfImageIfExists modify].
  rewrite Hfs7, Hfs6, Hdir6.
  destruct Hfile4 as [d4 Hd4].
  change ("C3" +:+ ".jpg") with "C3.jpg" in Hd4. rewrite Hd4.
  eexists. split; [reflexivity|].
  cbn [Direct.pdf Direct.sent Direct.saved Direct.book].
  rewrite Hs7, Hs6, Hb6.
  split.
  { rewrite Hpdf7', Hpdf6', Hpdf4, Hpdf3'.
    replace (L - 1 + 1) with L by lia.
    rewrite <- !app_assoc. done. }
  split.
  { rewrite Hask4, Hask3. unfold w2, DirectStep.fetched. cbn [Direct.sent].
    rewrite asked_snoc, Hask1.
    rewrite direct_page_of_aimed by done.
    rewrite Hones, blocks_ones, Hks.
    change (Direct.length (Direct.book w2))
      with (Direct.length (Direct.book w1)).
    rewrite Hlen1. fold L. rewrite Z2Nat.id by lia.
    replace (L - 1 + 1) with L by lia.
    rewrite <- !app_assoc. done. }
  rewrite Hid4. by rewrite Hid3'.
Qed.

End DirectAllOk.

(** C8. Direct mode, book "000123456", length 3, every page fetch
    succeeds, no introduction page, files can be created: the document
    receives exactly five pages, in the order C1, 1, 2, 3, C3, and is
    saved as "000123456.pdf". *)
Theorem direct_five_pages env fuel docType cookies disk :
  allPagesOk env -> noIntroPages env ->
  (forall p, create_ok env p = true) ->
  (9 <= fuel)%nat ->
  let r := Direct.run env fuel "000123456" 3 docType cookies disk in
  outcome r = None /\
  Direct.pdf (final r)
  = ["000123456_temp_image_folder/C1.jpg";
     "000123456_temp_image_folder/1.jpg";
     "000123456_temp_image_folder/2.jpg";
     "000123456_temp_image_folder/3.jpg";
     "000123456_temp_image_folder/C3.jpg"] /\
  asked (Direct.sent (final r))
  = [(GET, "C1"); (HEAD, "I1"); (GET, "1"); (GET, "2"); (GET, "3");
     (GET, "C3")] /\
  Direct.saved (final r) = Some "000123456.pdf".
Proof.
  intros Hok Hno Hc Hfuel r. subst r. unfold Direct.run.
  match goal with
  | |- context [Direct.downloadBook env fuel ?w0] =>
      destruct (direct_downloadBook_all_ok env Hok Hno Hc fuel w0)
        as (w' & -> & Hpdf & Hask & Hsaved);
        [cbn; lia|cbn; unfold maxInt; lia|cbn; lia|cbn; lia|]
  end.
  cbn [final outcome]. split; [done|].
  rewrite Hpdf, Hask, Hsaved. by vm_compute.
Qed.

Import Books.

Lemma plain_allPagesOk : allPagesOk plain.
Proof. intros h rq Hm. cbn. rewrite Hm. by eexists _, _. Qed.

Lemma plain_noIntroPages : noIntroPages plain.
Proof. intros h rq Hm _. cbn. by rewrite Hm. Qed.

Lemma direct_five_pages_witness :
  let r := Direct.run plain 9 "000123456" 3 "" [] ∅ in
  outcome r = None /\
  Direct.pdf (final r)
  = ["000123456_temp_image_folder/C1.jpg";
     "000123456_temp_image_folder/1.jpg";
     "000123456_temp_image_folder/2.jpg";
     "000123456_temp_image_folder/3.jpg";
     "000123456_temp_image_folder/C3.jpg"] /\
  asked (Direct.sent (final r))
  = [(GET, "C1"); (HEAD, "I1"); (GET, "1"); (GET, "2"); (GET, "3");
     (GET, "C3")] /\
  Direct.saved (final r) = Some "000123456.pdf".
Proof.
  apply (direct_five_pages plain 9 "" [] ∅ plain_allPagesOk plain_noIntroPages);
    [reflexivity|lia].
Defined.

(** ** Introduction pages *)

Section DirectIntro.
Context (env : Env).
Hypothesis Hans : answered env.
Hypothesis Hintro : twoIntroPages env.

Lemma direct_intro_probe_yes p w :
  p = "I1" \/ p = "I2" ->
  success (remote env (Direct.sent w)
             (Direct.request HEAD (DirectStep.aimed p (Direct.book w))))
  <> None.
Proof.
  set (rq := Direct.request HEAD _).
  destruct (Hintro (Direct.sent w) rq eq_refl) as (H1 & H2 & _).
  intros [-> | ->]; [apply H1|apply H2]; by apply direct_page_of_aimed.
Qed.

Lemma direct_intro_probe_no w :
  success (remote env (Direct.sent w)
             (Direct.request HEAD (DirectStep.aimed "I3" (Direct.book w))))
  = None.
Proof.
  set (rq := Direct.request HEAD _).
  destruct (Hintro (Direct.sent w) rq eq_refl) as (_ & _ & H3).
  apply H3. by apply direct_page_of_aimed.
Qed.

Lemma direct_introLoop_two fuel w :
  Direct.retry (Direct.book w) <= 2 ->
  (7 <= fuel)%nat ->
  exists w' k1 k2,
    Direct.introLoop env fuel 1 w = Done 3 w'
    /\ (1 <= k1)%nat /\ (1 <= k2)%nat
    /\ asked (Direct.sent w')
       = asked (Direct.sent w)
         ++ (HEAD, "I1") :: repeat (GET, "I1") k1
         ++ (HEAD, "I2") :: repeat (GET, "I2") k2 ++ [(HEAD, "I3")]
    /\ DirectFrame.stable w w'
    /\ Direct.retry (Direct.book w') <= 2.
Proof.
  intros Hr Hfuel.
  destruct fuel as [|[|[|fuel]]]; try lia.
  (* I1 *)
  rewrite direct_introLoop_go
    by (apply (direct_intro_probe_yes "I1"); by left).
  change ("I" +:+ Itoa 1) with "I1".
  set (w1 := DirectStep.fetched HEAD "I1" w).
  unfold bind at 1.
  destruct (direct_downloadPage_runs env Hans (S (S fuel)) "I1"
              (Direct.retry (Direct.book w)) w1)
    as (w2 & k1 & -> & Hk1 & Hask2 & Hst2 & Hr2 & _);
    [done|exact Hr|change (Direct.retry (Direct.book w) + 2
                           <= Z.of_nat (S (S fuel))); lia|lia|].
  change (add 1 1) with 2.
  (* I2 *)
  rewrite direct_introLoop_go
    by (apply (direct_intro_probe_yes "I2"); by right).
  change ("I" +:+ Itoa 2) with "I2".
  set (w3 := DirectStep.fetched HEAD "I2" w2).
  unfold bind at 1.
  destruct (direct_downloadPage_runs env Hans (S fuel) "I2"
              (Direct.retry (Direct.book w2)) w3)
    as (w4 & k2 & -> & Hk2 & Hask4 & Hst4 & Hr4 & _);
    [done|exact Hr2|change (Direct.retry (Direct.book w2) + 2
                            <= Z.of_nat (S fuel)); lia|lia|].
  change (add 2 1) with 3.
  (* I3 *)
  destruct fuel as [|fuel]; [lia|].
  rewrite direct_introLoop_stop
    by apply direct_intro_probe_no.
  change ("I" +:+ Itoa 3) with "I3".
  eexists _, k1, k2. split; [reflexivity|]. split; [done|]. split; [done|].
  split.
  { unfold DirectStep.fetched at 1. cbn [Direct.sent].
    rewrite asked_snoc, direct_page_of_aimed by done.
    rewrite Hask4. unfold w3, DirectStep.fetched at 1. cbn [Direct.sent].
    rewrite asked_snoc, direct_page_of_aimed by done.
    rewrite Hask2. unfold w1, DirectStep.fetched at 1. cbn [Direct.sent].
    rewrite asked_snoc, direct_page_of_aimed by done.
    cbn [rq_method Direct.request].
    rewrite <- !app_assoc. done. }
  split; [|exact Hr4].
  eapply direct_stable_trans; [|eapply direct_stable_trans; [exact Hst4|]].
  - eapply direct_stable_trans; [|exact Hst2]. by repeat split.
  - by repeat split.
Qed.

End DirectIntro.

Lemma withIntro_answered : answered withIntro.
Proof.
  intros h rq Hm. cbn. rewrite Hm. by destruct (_ && _).
Qed.

Lemma withIntro_twoIntroPages : twoIntroPages withIntro.
Proof.
  intros h rq Hm. cbn. rewrite Hm.
  repeat split; intros ->; done.
Qed.

Lemma offline_twoIntroPages : twoIntroPages offline.
Proof.
  intros h rq Hm. cbn. rewrite Hm.
  repeat split; intros ->; done.
Qed.

(** A GET that fails in the transport, with no response, stops the
    direct downloader at its first request: [resp.StatusCode] is read
    on a nil response. *)
Lemma direct_transport_error_panics :
  let r := Direct.run offline 9 "000123456" 1 "" [] ∅ in
  outcome r = Some NilPanic /\
  asked (Direct.sent (final r)) = [(GET, "C1")].
Proof. by vm_compute. Qed.

(** C7 as stated fails on the tiled downloader: with a source whose
    existence probes succeed for I1 and I2 and fail for I3, it
    requests page 1 (four times, for the grid), the front cover, page 1
    and the back cover; no introduction page is probed, requested or
    put in the document.  It also fails on the direct downloader when
    the front cover cannot be fetched for want of a connection: the
    run stops before any probe. *)
Lemma tiled_skips_intro_pages :
  (twoIntroPages withIntro /\
   let r := Tiled.run withIntro 10 "000123456" 1 "" "" "" ∅ in
   outcome r = None /\
   asked (Tiled.sent (final r))
   = [(GET, "1"); (GET, "1"); (GET, "1"); (GET, "1");
      (GET, "C1"); (GET, "1"); (GET, "C3")] /\
   Tiled.pdf (final r)
   = ["000123456_temp_image_folder/C1.jpg";
      "000123456_temp_image_folder/1.jpg";
      "000123456_temp_image_folder/C3.jpg"]) /\
  (twoIntroPages offline /\
   let r := Direct.run offline 9 "000123456" 1 "" [] ∅ in
   outcome r = Some NilPanic /\
   asked (Direct.sent (final r)) = [(GET, "C1")] /\
   Direct.pdf (final r) = []).
Proof.
  split; (split; [|by vm_compute]).
  - apply withIntro_twoIntroPages.
  - apply offline_twoIntroPages.
Qed.

(** ** The grid is resolved once *)

Import Kept TiledFrame.

Section Always.
Context {S : Type} (R : S -> S -> Prop).
Hypothesis R_refl : forall s, R s s.
Hypothesis R_trans : forall s1 s2 s3, R s1 s2 -> R s2 s3 -> R s1 s3.

Lemma always_ret {A} (Q : A -> Prop) a : Q a -> always R Q (ret a).
Proof. intros Ha s. split; [apply R_refl|]. by intros ? ? [= <- _]. Qed.

Lemma always_halt {A} (Q : A -> Prop) why : always R Q (halt why).
Proof. intros s. split; [apply R_refl|]. by intros ? ?. Qed.

Lemma always_gets {A} (Q : A -> Prop) (f : S -> A) :
  (forall s, Q (f s)) -> always R Q (gets f).
Proof. intros Hf s. split; [apply R_refl|]. intros ? ? [= <- _]. apply Hf. Qed.

Lemma always_modify (f : S -> S) :
  (forall s, R s (f s)) -> always R (fun _ => True) (modify f).
Proof. intros Hf s. split; [apply Hf|done]. Qed.

Lemma always_bind {A B} (Q : A -> Prop) (Q' : B -> Prop)
      (m : M S A) (k : A -> M S B) :
  always R Q m -> (forall a, Q a -> always R Q' (k a)) ->
  always R Q' (bind m k).
Proof.
  intros Hm Hk s. destruct (Hm s) as [HR HQ]. unfold bind.
  destruct (m s) as [a s1|why s1]; cbn in *.
  - destruct (Hk a (HQ a s1 eq_refl) s1) as [HR' HQ'].
    split; [by eapply R_trans|done].
  - split; [done|by intros ? ?].
Qed.

Lemma always_weaken {A} (Q Q' : A -> Prop) (m : M S A) :
  always R Q m -> (forall a, Q a -> Q' a) -> always R Q' m.
Proof.
  intros Hm HQ s. destruct (Hm s) as [HR H]. split; [done|].
  intros a s' Hs. by apply HQ, (H a s').
Qed.

End Always.

Lemma gridKept_refl w : gridKept w w.
Proof. repeat split. intros; by left. Qed.

Lemma gridKept_trans w1 w2 w3 :
  gridKept w1 w2 -> gridKept w2 w3 -> gridKept w1 w3.
Proof.
  intros (Hr & Hc & Hi & Hf) (Hr' & Hc' & Hi' & Hf').
  repeat split; try congruence.
  intros name i Hn. destruct (Hf' name i Hn) as [H|H].
  - by apply Hf.
  - right. by rewrite <- Hi.
Qed.

Lemma gridKept_book (f : Tiled.Book -> Tiled.Book) :
  (forall b, Tiled.rows (f b) = Tiled.rows b /\
             Tiled.cols (f b) = Tiled.cols b /\
             Tiled.imgSize (f b) = Tiled.imgSize b) ->
  always gridKept (fun _ => True) (Tiled.upd_book f).
Proof.
  intros Hf. apply always_modify. intros w.
  destruct (Hf (Tiled.book w)) as (? & ? & ?).
  repeat split; try done. intros; by left.
Qed.

Section GridKept.
Context (env : Env).

Local Abbreviation keeps := (always gridKept).

Ltac kept_step :=
  first
    [ apply (always_bind gridKept gridKept_trans (fun _ => True));
      [|intros ? _]
    | apply (always_ret _ gridKept_refl); try done
    | apply (always_halt _ gridKept_refl)
    | apply (always_gets _ gridKept_refl); try done
    | apply gridKept_book; by intros [] ].

Lemma tiled_updateParams_kept p c r :
  keeps (fun _ => True) (Tiled.updateParams p c r).
Proof. apply gridKept_book. by intros []. Qed.

Lemma tiled_httpGet_kept : keeps (fun _ => True) (Tiled.httpGet env).
Proof.
  intros w. split; [|done]. cbn. repeat split. intros; by left.
Qed.

Lemma tiled_pdfImage_kept n : keeps (fun _ => True) (Tiled.pdfImage n).
Proof. apply always_modify. intros w. repeat split. intros; by left. Qed.

Lemma tiled_pdfOutput_kept n : keeps (fun _ => True) (Tiled.pdfOutput env n).
Proof.
  apply always_modify. intros w. repeat split. cbn. intros name i.
  destruct (output_ok env n); [|by left].
  destruct (decide (Clean n = name)) as [->|Hne].
  - by rewrite lookup_insert_eq.
  - rewrite lookup_insert_ne by done. by left.
Qed.

Lemma tiled_colLoop_kept fuel pageNr row : forall col cv,
  keeps (fun cv' => Img.bounds (Tiled.img cv') = Img.bounds (Tiled.img cv))
        (Tiled.colLoop env fuel pageNr row col cv).
Proof.
  induction fuel as [|fuel IH]; intros col cv; [kept_step|].
  cbn [Tiled.colLoop].
  apply (always_bind gridKept gridKept_trans (fun _ => True));
    [by kept_step|intros b _].
  destruct (col <? Tiled.cols b); [|by kept_step].
  apply (always_bind gridKept gridKept_trans (fun _ => True));
    [apply tiled_updateParams_kept|intros _ _].
  apply (always_bind gridKept gridKept_trans (fun _ => True));
    [apply tiled_httpGet_kept|intros r _].
  destruct (success r) as [resp|].
  - destruct (Body resp) as [data|]; [|apply IH].
    destruct (Tiled.Decode data) as [part|]; [|apply IH].
    eapply always_weaken; [apply IH|].
    intros cv' ->. by destruct (col =? _).
  - kept_step.
    { destruct (respOf r) as [resp|]; [|by kept_step].
      destruct (StatusCode resp =? StatusUnauthorized); by kept_step. }
    kept_step; [by kept_step|].
    kept_step; [|apply IH].
    destruct (0 <=? _); [|by kept_step].
    kept_step; [kept_step|by kept_step].
Qed.

Lemma tiled_rowLoop_kept fuel pageNr : forall row cv,
  keeps (fun cv' => Img.bounds (Tiled.img cv') = Img.bounds (Tiled.img cv))
        (Tiled.rowLoop env fuel pageNr row cv).
Proof.
  induction fuel as [|fuel IH]; intros row cv; [kept_step|].
  cbn [Tiled.rowLoop].
  apply (always_bind gridKept gridKept_trans (fun _ => True));
    [by kept_step|intros b _].
  destruct (row <? Tiled.rows b); [|by kept_step].
  eapply (always_bind gridKept gridKept_trans); [apply tiled_colLoop_kept|].
  intros cv' Hcv'. eapply always_weaken; [apply IH|].
  intros cv'' ->. done.
Qed.

Lemma tiled_downloadPage_kept fuel pageNr retry :
  keeps (fun _ => True) (Tiled.downloadPage env fuel pageNr retry).
Proof.
  intros w. split; [|done]. unfold Tiled.downloadPage.
  unfold bind at 1, gets at 1.
  set (cv0 := Tiled.mkCanvas _ 0 0).
  destruct (tiled_rowLoop_kept fuel pageNr 0 cv0 w) as [HR HQ].
  unfold bind at 1.
  destruct (Tiled.rowLoop env fuel pageNr 0 cv0 w) as [cv w1|why w1];
    [|exact HR].
  cbn in HR. specialize (HQ cv w1 eq_refl).
  unfold bind at 1, gets at 1.
  destruct (create_ok env _); [|exact HR].
  unfold Tiled.put_file, modify, gridKept.
  cbn [final Tiled.book Tiled.files].
  destruct HR as (Hr & Hc & Hi & Hf).
  repeat split; try done.
  intros name i. destruct (decide (Join (Tiled.path (Tiled.book w1))
                                        (pageNr +:+ ".jpg") = name)) as [->|Hne].
  - rewrite lookup_insert_eq. intros [= <-]. right. by rewrite HQ.
  - rewrite lookup_insert_ne by done. apply Hf.
Qed.

End GridKept.

Section GridKeptBook.
Context (env : Env).

Local Abbreviation keeps := (always gridKept).

Ltac kept_bind :=
  apply (always_bind gridKept gridKept_trans (fun _ => True));
  [|intros ? _].
Ltac kept_leaf :=
  first
    [ apply (always_ret _ gridKept_refl); done
    | apply (always_halt _ gridKept_refl)
    | apply (always_gets _ gridKept_refl); done
    | apply gridKept_book; by intros []
    | apply tiled_updateParams_kept
    | apply tiled_httpGet_kept
    | apply tiled_pdfImage_kept
    | apply tiled_pdfOutput_kept
    | apply tiled_downloadPage_kept ].

Lemma tiled_findLoop_kept fuel : forall j delta,
  keeps (fun _ => True) (Tiled.findLoop env fuel j delta).
Proof.
  induction fuel as [|fuel IH]; intros j delta; [kept_leaf|].
  cbn [Tiled.findLoop]. kept_bind; [kept_leaf|]. kept_bind; [kept_leaf|].
  destruct (success _); [apply IH|].
  destruct (delta =? 1); [kept_leaf|apply IH].
Qed.

Lemma tiled_pagesLoop_kept fuel : forall page retry,
  keeps (fun _ => True) (Tiled.pagesLoop env fuel page retry).
Proof.
  induction fuel as [|fuel IH]; intros page retry; [kept_leaf|].
  cbn [Tiled.pagesLoop]. kept_bind; [kept_leaf|].
  destruct (page <=? _); [|kept_leaf].
  kept_bind; [kept_leaf|]. kept_bind; [kept_leaf|]. apply IH.
Qed.

Lemma tiled_pdfLoop_kept fuel : forall page,
  keeps (fun _ => True) (Tiled.pdfLoop fuel page).
Proof.
  induction fuel as [|fuel IH]; intros page; [kept_leaf|].
  cbn [Tiled.pdfLoop]. kept_bind; [kept_leaf|].
  destruct (page <=? _); [|kept_leaf].
  kept_bind; [kept_leaf|]. apply IH.
Qed.

Lemma tiled_downloadBook_kept fuel :
  keeps (fun _ => True) (Tiled.downloadBook env fuel).
Proof.
  unfold Tiled.downloadBook. kept_bind; [kept_leaf|].
  kept_bind.
  { destruct (_ =? 0); [|kept_leaf].
    kept_bind; [apply tiled_findLoop_kept|kept_leaf]. }
  kept_bind; [kept_leaf|]. kept_bind; [kept_leaf|].
  kept_bind; [kept_leaf|]. kept_bind; [kept_leaf|].
  kept_bind; [apply tiled_pagesLoop_kept|].
  kept_bind; [apply tiled_pdfLoop_kept|].
  kept_bind; [kept_leaf|]. kept_bind; [kept_leaf|]. kept_leaf.
Qed.

End GridKeptBook.

(** ** The grid prober *)

Import Grid.

Lemma wrap_range z : minInt <= wrap z <= maxInt.
Proof.
  unfold wrap, minInt, maxInt.
  pose proof (Z.mod_pos_bound (z + 2 ^ 63) (2 ^ 64)). lia.
Qed.

Lemma tiled_row_of_aimed m pageNr col row b :
  row <> "" ->
  row_of (Tiled.request m (TiledStep.aimed pageNr col row b)) = row.
Proof.
  intros Hne. unfold row_of, Tiled.request, TiledStep.aimed, Tiled.newParams.
  cbn. apply String.eqb_neq in Hne. rewrite Hne. by simplify_map_eq.
Qed.

Lemma tiled_col_of_aimed m pageNr col row b :
  col <> "" ->
  col_of (Tiled.request m (TiledStep.aimed pageNr col row b)) = col.
Proof.
  intros Hne. unfold col_of, Tiled.request, TiledStep.aimed, Tiled.newParams.
  cbn. apply String.eqb_neq in Hne. rewrite Hne.
  destruct (String.eqb row ""); by simplify_map_eq.
Qed.

Lemma tilesAsked_snoc l rq :
  tilesAsked (l ++ [rq]) = tilesAsked l ++ [(page_of rq, row_of rq, col_of rq)].
Proof. unfold tilesAsked. by rewrite map_app. Qed.

Lemma sumOver_cons f lo n :
  0 < n -> sumOver f lo n = f lo + sumOver f (lo + 1) (n - 1).
Proof.
  intros Hn. unfold sumOver. rewrite seqZ_cons by lia. cbn.
  by replace (Z.succ lo) with (lo + 1) by lia.
Qed.

Lemma sumOver_nil f lo n : n <= 0 -> sumOver f lo n = 0.
Proof. intros Hn. unfold sumOver. by rewrite seqZ_nil by lia. Qed.

(** One probe of each loop of the grid prober, by what it decodes. *)
Lemma tiled_findRows_step env fuel w :
  let b1 := Tiled.set_rows (add (Tiled.rows (Tiled.book w)) 1) (Tiled.book w) in
  let w1 := TiledStep.fetched "1" "0" (Itoa (Tiled.rows b1))
              (Tiled.mkWorld b1 (Tiled.sent w) (Tiled.files w) (Tiled.pdf w)
                             (Tiled.saved w)) in
  let rq := Tiled.request GET
              (TiledStep.aimed "1" "0" (Itoa (Tiled.rows b1)) b1) in
  Tiled.findRows env (S fuel) w
  = match tileOf (remote env (Tiled.sent w) rq) with
    | Some im =>
        Tiled.findRows env fuel
          (Tiled.mkWorld
             (Tiled.set_imgSize
                (fst (Tiled.imgSize (Tiled.book w1)),
                 add (snd (Tiled.imgSize (Tiled.book w1)))
                     (Img.RDy (Img.bounds im)))
                (Tiled.book w1))
             (Tiled.sent w1) (Tiled.files w1) (Tiled.pdf w1) (Tiled.saved w1))
    | None => Done tt w1
    end.
Proof.
  intros b1 w1 rq. cbn [Tiled.findRows].
  unfold bind at 1. cbn [Tiled.upd_book modify].
  unfold bind at 1, gets at 1. cbn [Tiled.book].
  rewrite tiled_fetch_eval. fold b1. cbn [Tiled.book Tiled.sent]. fold rq.
  unfold tileOf.
  destruct (success (remote env (Tiled.sent w) rq)) as [resp|]; [|done].
  destruct (Body resp) as [data|]; [|done].
  by destruct (Tiled.Decode data).
Qed.

Lemma tiled_findCols_step env fuel w :
  let b1 := Tiled.set_cols (add (Tiled.cols (Tiled.book w)) 1) (Tiled.book w) in
  let w1 := TiledStep.fetched "1" (Itoa (Tiled.cols b1)) "0"
              (Tiled.mkWorld b1 (Tiled.sent w) (Tiled.files w) (Tiled.pdf w)
                             (Tiled.saved w)) in
  let rq := Tiled.request GET
              (TiledStep.aimed "1" (Itoa (Tiled.cols b1)) "0" b1) in
  Tiled.findCols env (S fuel) w
  = match tileOf (remote env (Tiled.sent w) rq) with
    | Some im =>
        Tiled.findCols env fuel
          (Tiled.mkWorld
             (Tiled.set_imgSize
                (add (fst (Tiled.imgSize (Tiled.book w1)))
                     (Img.RDx (Img.bounds im)),
                 snd (Tiled.imgSize (Tiled.book w1)))
                (Tiled.book w1))
             (Tiled.sent w1) (Tiled.files w1) (Tiled.pdf w1) (Tiled.saved w1))
    | None => Done tt w1
    end.
Proof.
  intros b1 w1 rq. cbn [Tiled.findCols].
  unfold bind at 1. cbn [Tiled.upd_book modify].
  unfold bind at 1, gets at 1. cbn [Tiled.book].
  rewrite tiled_fetch_eval. fold b1. cbn [Tiled.book Tiled.sent]. fold rq.
  unfold tileOf.
  destruct (success (remote env (Tiled.sent w) rq)) as [resp|]; [|done].
  destruct (Body resp) as [data|]; [|done].
  by destruct (Tiled.Decode data).
Qed.

Section GridProber.
Context (env : Env) (R C : Z) (tile : Z -> Z -> Img.Image).
Hypothesis HR : 0 < R <= maxInt.
Hypothesis HC : 0 < C <= maxInt.
Hypothesis Hsrc : gridSource env R C tile.

Lemma tiled_findRows_counts fuel : forall w,
  let r := Tiled.rows (Tiled.book w) + 1 in
  0 <= r <= R ->
  minInt <= snd (Tiled.imgSize (Tiled.book w)) <= maxInt ->
  R - r + 1 <= Z.of_nat fuel ->
  exists w',
    Tiled.findRows env fuel w = Done tt w'
    /\ Tiled.rows (Tiled.book w') = R
    /\ Tiled.cols (Tiled.book w') = Tiled.cols (Tiled.book w)
    /\ fst (Tiled.imgSize (Tiled.book w')) = fst (Tiled.imgSize (Tiled.book w))
    /\ snd (Tiled.imgSize (Tiled.book w'))
       = wrap (snd (Tiled.imgSize (Tiled.book w))
               + sumOver (tileH tile) r (R - r))
    /\ tilesAsked (Tiled.sent w')
       = tilesAsked (Tiled.sent w)
         ++ map (fun i => ("1", Itoa i, "0")) (seqZ r (R - r + 1)).
Proof.
  induction fuel as [|fuel IH]; intros w r Hr Himg Hfuel; [lia|].
  assert (Hadd : add (Tiled.rows (Tiled.book w)) 1 = r)
    by (unfold add; rewrite wrap_small; unfold minInt, maxInt in *; lia).
  rewrite tiled_findRows_step. cbn zeta.
  cbn [Tiled.rows Tiled.set_rows]. rewrite !Hadd.
  set (rq := Tiled.request GET _).
  assert (Hpg : page_of rq = "1") by by apply tiled_page_of_aimed.
  assert (Hro : row_of rq = Itoa r)
    by apply tiled_row_of_aimed, Itoa_nonempty.
  assert (Hco : col_of rq = "0") by by apply tiled_col_of_aimed.
  destruct (Hsrc (Tiled.sent w) rq eq_refl Hpg) as [Hrow _].
  rewrite (Hrow r Hro Hco) by lia.
  assert (Hlog : forall l,
    tilesAsked (Tiled.sent w ++ [rq]) ++ l
    = tilesAsked (Tiled.sent w) ++ ("1", Itoa r, "0") :: l).
  { intros l. rewrite tilesAsked_snoc, <- app_assoc, Hpg, Hro, Hco. done. }
  destruct (r <? R) eqn:Hlt.
  - apply Z.ltb_lt in Hlt.
    match goal with
    | |- context [Tiled.findRows env fuel ?w2] =>
        destruct (IH w2) as (w' & -> & Hrows & Hcols & Hfst & Hsnd & Hask)
    end.
    + cbn. lia.
    + cbn. apply wrap_range.
    + cbn. lia.
    + exists w'. split; [done|]. split; [done|].
      cbn in Hcols, Hfst, Hsnd, Hask.
      split; [done|]. split; [done|]. split.
      * rewrite Hsnd. unfold add. rewrite wrap_add_l.
        rewrite (sumOver_cons _ r) by lia. unfold tileH at 2.
        f_equal. replace (R - (r + 1)) with (R - r - 1) by lia. lia.
      * rewrite Hask, Hlog. rewrite (seqZ_cons r) by lia. cbn [map].
        change (Z.succ r) with (r + 1).
        by replace (Z.pred (R - r + 1)) with (R - (r + 1) + 1) by lia.
  - apply Z.ltb_ge in Hlt. assert (r = R) as HrR by lia.
    eexists. split; [reflexivity|].
    split; [done|]. split; [done|]. split; [done|]. split.
    + rewrite sumOver_nil by lia. rewrite Z.add_0_r. by rewrite wrap_small.
    + specialize (Hlog []). rewrite app_nil_r in Hlog.
      change (tilesAsked (Tiled.sent w ++ [rq])
              = tilesAsked (Tiled.sent w)
                ++ map (fun i => ("1", Itoa i, "0")) (seqZ r (R - r + 1))).
      rewrite Hlog. replace (R - r + 1) with 1 by lia. done.
Qed.

End GridProber.

Section GridProberCols.
Context (env : Env) (R C : Z) (tile : Z -> Z -> Img.Image).
Hypothesis HC : 0 < C <= maxInt.
Hypothesis Hsrc : gridSource env R C tile.

Lemma tiled_findCols_counts fuel : forall w,
  let c := Tiled.cols (Tiled.book w) + 1 in
  0 <= c <= C ->
  minInt <= fst (Tiled.imgSize (Tiled.book w)) <= maxInt ->
  C - c + 1 <= Z.of_nat fuel ->
  exists w',
    Tiled.findCols env fuel w = Done tt w'
    /\ Tiled.cols (Tiled.book w') = C
    /\ Tiled.rows (Tiled.book w') = Tiled.rows (Tiled.book w)
    /\ snd (Tiled.imgSize (Tiled.book w')) = snd (Tiled.imgSize (Tiled.book w))
    /\ fst (Tiled.imgSize (Tiled.book w'))
       = wrap (fst (Tiled.imgSize (Tiled.book w))
               + sumOver (tileW tile) c (C - c))
    /\ tilesAsked (Tiled.sent w')
       = tilesAsked (Tiled.sent w)
         ++ map (fun i => ("1", "0", Itoa i)) (seqZ c (C - c + 1)).
Proof.
  induction fuel as [|fuel IH]; intros w c Hc Himg Hfuel; [lia|].
  assert (Hadd : add (Tiled.cols (Tiled.book w)) 1 = c)
    by (unfold add; rewrite wrap_small; unfold minInt, maxInt in *; lia).
  rewrite tiled_findCols_step. cbn zeta.
  cbn [Tiled.cols Tiled.set_cols]. rewrite !Hadd.
  set (rq := Tiled.request GET _).
  assert (Hpg : page_of rq = "1") by by apply tiled_page_of_aimed.
  assert (Hro : row_of rq = "0") by by apply tiled_row_of_aimed.
  assert (Hco : col_of rq = Itoa c)
    by apply tiled_col_of_aimed, Itoa_nonempty.
  destruct (Hsrc (Tiled.sent w) rq eq_refl Hpg) as [_ Hcol].
  rewrite (Hcol c Hco Hro) by lia.
  assert (Hlog : forall l,
    tilesAsked (Tiled.sent w ++ [rq]) ++ l
    = tilesAsked (Tiled.sent w) ++ ("1", "0", Itoa c) :: l).
  { intros l. rewrite tilesAsked_snoc, <- app_assoc, Hpg, Hro, Hco. done. }
  destruct (c <? C) eqn:Hlt.
  - apply Z.ltb_lt in Hlt.
    match goal with
    | |- context [Tiled.findCols env fuel ?w2] =>
        destruct (IH w2) as (w' & -> & Hcols & Hrows & Hsnd & Hfst & Hask)
    end.
    + cbn. lia.
    + cbn. apply wrap_range.
    + cbn. lia.
    + exists w'. split; [done|]. split; [done|].
      cbn in Hrows, Hfst, Hsnd, Hask.
      split; [done|]. split; [done|]. split.
      * rewrite Hfst. unfold add. rewrite wrap_add_l.
        rewrite (sumOver_cons _ c) by lia. unfold tileW at 2.
        f_equal. replace (C - (c + 1)) with (C - c - 1) by lia. lia.
      * rewrite Hask, Hlog. rewrite (seqZ_cons c) by lia. cbn [map].
        change (Z.succ c) with (c + 1).
        by replace (Z.pred (C - c + 1)) with (C - (c + 1) + 1) by lia.
  - apply Z.ltb_ge in Hlt. assert (c = C) as HcC by lia.
    eexists. split; [reflexivity|].
    split; [done|]. split; [done|]. split; [done|]. split.
    + rewrite sumOver_nil by lia. rewrite Z.add_0_r. by rewrite wrap_small.
    + specialize (Hlog []). rewrite app_nil_r in Hlog.
      change (tilesAsked (Tiled.sent w ++ [rq])
              = tilesAsked (Tiled.sent w)
                ++ map (fun i => ("1", "0", Itoa i)) (seqZ c (C - c + 1))).
      rewrite Hlog. replace (C - c + 1) with 1 by lia. done.
Qed.

End GridProberCols.

Lemma tiled_NewBook_counts env R C tile fuel bookID len docType
        cookieValue cookieName disk :
  0 < R <= maxInt -> 0 < C <= maxInt ->
  gridSource env R C tile ->
  Z.max R C + 1 <= Z.of_nat fuel ->
  let W := sumOver (tileW tile) 0 C in
  let H := sumOver (tileH tile) 0 R in
  exists w,
    Tiled.NewBook env fuel bookID len docType cookieValue cookieName disk
    = Done tt w
    /\ Tiled.rows (Tiled.book w) = R
    /\ Tiled.cols (Tiled.book w) = C
    /\ Tiled.imgSize (Tiled.book w) = (wrap W, wrap H)
    /\ (inRange W -> fst (Tiled.imgSize (Tiled.book w)) = W)
    /\ (inRange H -> snd (Tiled.imgSize (Tiled.book w)) = H)
    /\ tilesAsked (Tiled.sent w)
       = map (fun r => ("1", Itoa r, "0")) (seqZ 0 (R + 1))
         ++ map (fun c => ("1", "0", Itoa c)) (seqZ 0 (C + 1)).
Proof.
  intros HR HC Hsrc Hfuel W H.
  unfold Tiled.NewBook, Tiled.findRowsColsAndImgSize.
  set (w0 := Tiled.mkWorld _ _ _ _ _).
  unfold bind at 1.
  destruct (tiled_findRows_counts env R C tile HR Hsrc fuel w0)
    as (w1 & -> & Hrows1 & Hcols1 & Hfst1 & Hsnd1 & Hask1);
    [cbn; lia|cbn; unfold minInt, maxInt; lia|cbn; lia|].
  cbn in Hcols1, Hfst1, Hsnd1, Hask1.
  destruct (tiled_findCols_counts env R C tile HC Hsrc fuel w1)
    as (w2 & -> & Hcols2 & Hrows2 & Hsnd2 & Hfst2 & Hask2);
    [rewrite Hcols1; lia|rewrite Hfst1; unfold minInt, maxInt; lia
    |rewrite Hcols1; lia|].
  rewrite Hcols1, Hfst1 in *.
  change (-1 + 1) with 0 in *. rewrite Z.sub_0_r in *.
  assert (Hsize : Tiled.imgSize (Tiled.book w2) = (wrap W, wrap H)).
  { destruct (Tiled.imgSize (Tiled.book w2)) as [a b]. cbn in *.
    subst a b. by rewrite Hsnd1. }
  exists w2. split; [done|]. split; [congruence|]. split; [done|].
  split; [done|]. rewrite Hsize. cbn [fst snd].
  split; [intros HW; by apply wrap_small|].
  split; [intros HH; by apply wrap_small|].
  by rewrite Hask2, Hask1.
Qed.

(** C4. With a source whose probes on page 1 succeed exactly for the
    rows below R at column 0 and for the columns below C at row 0
    (R, C > 0), the grid prober ends with rows = R and cols = C after
    probing rows 0..R and then columns 0..C once each; the page height
    is the sum of the heights of the R row tiles and the page width the
    sum of the widths of the C column tiles (reduced to a Go int, hence
    the sums themselves when they are representable). *)
Theorem grid_prober_exact env R C tile fuel bookID len docType
        cookieValue cookieName disk :
  0 < R <= maxInt -> 0 < C <= maxInt ->
  gridSource env R C tile ->
  Z.max R C + 1 <= Z.of_nat fuel ->
  let W := sumOver (tileW tile) 0 C in
  let H := sumOver (tileH tile) 0 R in
  exists w,
    Tiled.NewBook env fuel bookID len docType cookieValue cookieName disk
    = Done tt w
    /\ Tiled.rows (Tiled.book w) = R
    /\ Tiled.cols (Tiled.book w) = C
    /\ Tiled.imgSize (Tiled.book w) = (wrap W, wrap H)
    /\ (inRange W -> fst (Tiled.imgSize (Tiled.book w)) = W)
    /\ (inRange H -> snd (Tiled.imgSize (Tiled.book w)) = H)
    /\ tilesAsked (Tiled.sent w)
       = map (fun r => ("1", Itoa r, "0")) (seqZ 0 (R + 1))
         ++ map (fun c => ("1", "0", Itoa c)) (seqZ 0 (C + 1)).
Proof.
  intros HR HC Hsrc Hfuel. by apply tiled_NewBook_counts.
Qed.

Lemma indexOf_Itoa i n :
  0 <= i -> indexOf (Itoa i) n = if i <? n then Some i else None.
Proof.
  intros Hi. unfold indexOf.
  destruct (find _ _) as [x|] eqn:Hf.
  - apply find_some in Hf as [Hin Heq].
    apply String.eqb_eq, Itoa_inj in Heq. subst x.
    apply list_elem_of_In, elem_of_seqZ in Hin.
    by assert ((i <? n) = true) as -> by lia.
  - destruct (i <? n) eqn:Hlt; [|done]. apply Z.ltb_lt in Hlt.
    pose proof (find_none _ _ Hf i) as Hno. cbn in Hno.
    rewrite String.eqb_refl in Hno. discriminate Hno.
    apply list_elem_of_In, elem_of_seqZ. lia.
Qed.

Lemma gridOf_gridSource R C tile :
  0 < R -> 0 < C -> gridSource (gridOf R C tile) R C tile.
Proof.
  intros HR HC h rq _ _. split.
  - intros r Hr Hc Hr0. cbn. rewrite Hr, Hc.
    change "0" with (Itoa 0). rewrite !indexOf_Itoa by lia.
    assert ((0 <? C) = true) as -> by lia. by destruct (r <? R).
  - intros c Hc Hr Hc0. cbn. rewrite Hr, Hc.
    change "0" with (Itoa 0). rewrite !indexOf_Itoa by lia.
    assert ((0 <? R) = true) as -> by lia. by destruct (c <? C).
Qed.

Lemma grid_prober_exact_witness :
  let tile := marked 1024 768 in
  let W := sumOver (tileW tile) 0 3 in
  let H := sumOver (tileH tile) 0 2 in
  exists w,
    Tiled.NewBook (gridOf 2 3 tile) 4 "000123456" 0 "" "" "" ∅ = Done tt w
    /\ Tiled.rows (Tiled.book w) = 2
    /\ Tiled.cols (Tiled.book w) = 3
    /\ Tiled.imgSize (Tiled.book w) = (wrap W, wrap H)
    /\ (inRange W -> fst (Tiled.imgSize (Tiled.book w)) = W)
    /\ (inRange H -> snd (Tiled.imgSize (Tiled.book w)) = H)
    /\ tilesAsked (Tiled.sent w)
       = map (fun r => ("1", Itoa r, "0")) (seqZ 0 (2 + 1))
         ++ map (fun c => ("1", "0", Itoa c)) (seqZ 0 (3 + 1)).
Proof.
  intros tile.
  apply (grid_prober_exact (gridOf 2 3 tile) 2 3 tile 4 "000123456" 0 "" "" "" ∅);
    [unfold maxInt; lia|unfold maxInt; lia|by apply gridOf_gridSource|lia].
Defined.

(** ** Page assembly *)

Import Page.

Lemma tileOf_Some r t :
  tileOf r = Some t ->
  exists resp data, success r = Some resp /\ Body resp = Some data
                    /\ Tiled.Decode data = Some t.
Proof.
  unfold tileOf. destruct (success r) as [resp|]; [|done].
  destruct (Body resp) as [data|] eqn:Hb; [|done].
  intros H. exists resp, data. split; [done|split; [done|exact H]].
Qed.

(** One turn of the inner loop when the tile is served. *)
Lemma tiled_colLoop_paste env fuel p row col cv wd t :
  col < Tiled.cols (Tiled.book wd) ->
  tileOf (remote env (Tiled.sent wd)
            (Tiled.request GET
               (TiledStep.aimed p (Itoa col) (Itoa row) (Tiled.book wd))))
  = Some t ->
  Tiled.colLoop env (S fuel) p row col cv wd
  = Tiled.colLoop env fuel p row (add col 1)
      (pasted cv col (Tiled.cols (Tiled.book wd)) t)
      (TiledStep.fetched p (Itoa col) (Itoa row) wd).
Proof.
  intros Hc Ht. cbn [Tiled.colLoop]. unfold bind at 1, gets at 1.
  apply Z.ltb_lt in Hc. rewrite Hc. rewrite tiled_fetch_eval.
  apply tileOf_Some in Ht as (resp & data & -> & -> & ->).
  unfold pasted. by destruct (col =? _).
Qed.

Lemma tiled_colLoop_end env fuel p row col cv wd :
  Tiled.cols (Tiled.book wd) <= col ->
  Tiled.colLoop env (S fuel) p row col cv wd = Done cv wd.
Proof.
  intros Hc. cbn [Tiled.colLoop]. unfold bind at 1, gets at 1.
  apply Z.ltb_ge in Hc. by rewrite Hc.
Qed.

Lemma mul_offset_lt a b w u : 0 <= u < w -> a < b -> a * w + u < b * w.
Proof. intros Hu Hab. nia. Qed.

Lemma mul_offset_le a b w : 0 <= w -> a <= b -> a * w <= b * w.
Proof. intros Hw Hab. nia. Qed.

Section Paste.
Context (R C w h : Z) (tile : Z -> Z -> Img.Image).
Hypothesis HR : 0 < R.
Hypothesis HC : 0 < C.
Hypothesis Hw : 0 <= w.
Hypothesis Hh : 0 <= h.
Hypothesis HCw : C * w <= maxInt.
Hypothesis HRh : R * h <= maxInt.
Hypothesis HCmax : C <= maxInt.
Hypothesis Hsized : forall r c, sized w h (tile r c).

(** What one paste does to the canvas. *)
Lemma pasted_spec cv r c :
  0 <= r < R -> 0 <= c < C ->
  Tiled.xOffset cv = c * w -> Tiled.yOffset cv = r * h ->
  Img.bounds (Tiled.img cv) = Img.mkRect 0 0 (C * w) (R * h) ->
  let cv' := pasted cv c C (tile r c) in
  Img.bounds (Tiled.img cv') = Img.mkRect 0 0 (C * w) (R * h)
  /\ painted w h tile (Tiled.img cv') r c
  /\ (forall r' c', 0 <= r' -> 0 <= c' -> (r', c') <> (r, c) ->
        painted w h tile (Tiled.img cv) r' c' ->
        painted w h tile (Tiled.img cv') r' c')
  /\ (c < C - 1 -> Tiled.xOffset cv' = (c + 1) * w
                   /\ Tiled.yOffset cv' = r * h)
  /\ (c = C - 1 -> Tiled.xOffset cv' = 0
                   /\ Tiled.yOffset cv' = (r + 1) * h).
Proof.
  intros Hr Hc Hx Hy Hb cv'.
  destruct (Hsized r c) as [Hdx Hdy].
  assert (Hcw : 0 <= c * w /\ (c + 1) * w <= C * w) by
    (split; [nia|apply mul_offset_le; lia]).
  assert (Hrh : 0 <= r * h /\ (r + 1) * h <= R * h) by
    (split; [nia|apply mul_offset_le; lia]).
  assert (HRDx : Img.RDx (Img.bounds (tile r c)) = w).
  { unfold Img.RDx, sub. rewrite Hdx. apply wrap_small.
    unfold minInt, maxInt in *. nia. }
  assert (HRDy : Img.RDy (Img.bounds (tile r c)) = h).
  { unfold Img.RDy, sub. rewrite Hdy. apply wrap_small.
    unfold minInt, maxInt in *. nia. }
  assert (Hax : add (c * w) w = (c + 1) * w).
  { unfold add. rewrite wrap_small; unfold minInt, maxInt in *; lia. }
  assert (Hay : add (r * h) h = (r + 1) * h).
  { unfold add. rewrite wrap_small; unfold minInt, maxInt in *; lia. }
  assert (Hsub : sub C 1 = C - 1).
  { unfold sub. rewrite wrap_small; unfold minInt, maxInt in *; lia. }
  assert (Hrect : Img.Rect (c * w) (r * h) ((c + 1) * w) ((r + 1) * h)
                  = Img.mkRect (c * w) (r * h) ((c + 1) * w) ((r + 1) * h)).
  { unfold Img.Rect.
    assert (((c + 1) * w <? c * w) = false) as -> by lia.
    by assert (((r + 1) * h <? r * h) = false) as -> by lia. }
  assert (Himg : Tiled.img cv'
    = Img.Draw (Tiled.img cv)
        (Img.mkRect (c * w) (r * h) ((c + 1) * w) ((r + 1) * h))
        (tile r c) (Img.minX (Img.bounds (tile r c)))
        (Img.minY (Img.bounds (tile r c)))).
  { subst cv'. unfold pasted. rewrite Hx, Hy, HRDx, HRDy, Hax, Hay, Hrect.
    by destruct (c =? sub C 1). }
  split; [by rewrite Himg|].
  split.
  { intros u v Hu Hv. rewrite Himg. unfold Img.Draw. cbn [Img.at_].
    rewrite Hb. unfold Img.inside. cbn [Img.minX Img.minY Img.maxX Img.maxY].
    assert (c * w + u < (c + 1) * w) by lia.
    assert (r * h + v < (r + 1) * h) by lia.
    replace (c * w + u - c * w + Img.minX (Img.bounds (tile r c)))
      with (Img.minX (Img.bounds (tile r c)) + u) by lia.
    replace (r * h + v - r * h + Img.minY (Img.bounds (tile r c)))
      with (Img.minY (Img.bounds (tile r c)) + v) by lia.
    repeat match goal with
    | |- context [?a <=? ?b] =>
        assert ((a <=? b) = true) as -> by lia
    | |- context [?a <? ?b] =>
        assert ((a <? b) = true) as -> by lia
    end. done. }
  split.
  { intros r' c' Hr' Hc' Hne Hp u v Hu Hv. rewrite Himg.
    unfold Img.Draw. cbn [Img.at_].
    assert (Img.inside
              (Img.mkRect (c * w) (r * h) ((c + 1) * w) ((r + 1) * h))
              (c' * w + u) (r' * h + v) = false) as ->; [|by apply Hp].
    unfold Img.inside. cbn [Img.minX Img.minY Img.maxX Img.maxY].
    destruct (decide (c' = c)) as [->|Hcc].
    - assert (r' <> r) by congruence.
      destruct (decide (r' < r)).
      + assert (r' * h + v < r * h) by (apply mul_offset_lt; lia).
        assert ((r * h <=? r' * h + v) = false) as -> by lia.
        by rewrite !andb_false_r.
      + assert ((r + 1) * h <= r' * h) by (apply mul_offset_le; lia).
        assert ((r' * h + v <? (r + 1) * h) = false) as -> by lia.
        by rewrite !andb_false_r.
    - destruct (decide (c' < c)).
      + assert (c' * w + u < c * w) by (apply mul_offset_lt; lia).
        by assert ((c * w <=? c' * w + u) = false) as -> by lia.
      + assert ((c + 1) * w <= c' * w) by (apply mul_offset_le; lia).
        assert ((c' * w + u <? (c + 1) * w) = false) as -> by lia.
        by rewrite !andb_false_r. }
  subst cv'. unfold pasted. rewrite Hx, Hy, HRDx, HRDy, Hax, Hay, Hsub.
  split.
  - intros Hlt. by assert ((c =? C - 1) = false) as -> by lia.
  - intros Heq. by assert ((c =? C - 1) = true) as -> by lia.
Qed.

End Paste.

Import TiledQuiet.

Lemma quiet_refl w : quiet w w.
Proof. by repeat split. Qed.

Lemma quiet_trans w1 w2 w3 : quiet w1 w2 -> quiet w2 w3 -> quiet w1 w3.
Proof.
  unfold quiet. intros (?&?&?&?&?&?&?&?&?&?) (?&?&?&?&?&?&?&?&?&?).
  repeat split; congruence.
Qed.

Lemma quiet_fetched p c r w : quiet w (TiledStep.fetched p c r w).
Proof. by repeat split. Qed.

Section PageAssembly.
Context (env : Env) (p : string) (R C w h : Z) (tile : Z -> Z -> Img.Image).
Hypothesis Hp : p <> "".
Hypothesis HR : 0 < R <= maxInt.
Hypothesis HC : 0 < C <= maxInt.
Hypothesis Hw : 0 <= w.
Hypothesis Hh : 0 <= h.
Hypothesis HCw : C * w <= maxInt.
Hypothesis HRh : R * h <= maxInt.
Hypothesis Hsized : forall r c, sized w h (tile r c).
Hypothesis Hsrc : pageSource env p R C tile.

Local Abbreviation page := (Img.mkRect 0 0 (C * w) (R * h)).

(** One row: the columns from [c] on. *)
Lemma tiled_colLoop_row fuel r : forall c cv wd,
  0 <= r < R -> 0 <= c <= C ->
  Tiled.cols (Tiled.book wd) = C ->
  Img.bounds (Tiled.img cv) = page ->
  (c < C -> Tiled.xOffset cv = c * w /\ Tiled.yOffset cv = r * h) ->
  (c = C -> Tiled.xOffset cv = 0 /\ Tiled.yOffset cv = (r + 1) * h) ->
  C - c + 1 <= Z.of_nat fuel ->
  exists cv' wd',
    Tiled.colLoop env fuel p r c cv wd = Done cv' wd'
    /\ Tiled.xOffset cv' = 0 /\ Tiled.yOffset cv' = (r + 1) * h
    /\ Img.bounds (Tiled.img cv') = page
    /\ (forall c', c <= c' < C -> painted w h tile (Tiled.img cv') r c')
    /\ (forall r' c', 0 <= r' -> 0 <= c' -> (r' <> r \/ c' < c) ->
          painted w h tile (Tiled.img cv) r' c' ->
          painted w h tile (Tiled.img cv') r' c')
    /\ tilesAsked (Tiled.sent wd')
       = tilesAsked (Tiled.sent wd)
         ++ map (fun c' => (p, Itoa r, Itoa c')) (seqZ c (C - c))
    /\ quiet wd wd'.
Proof.
  induction fuel as [|fuel IH]; intros c cv wd Hr Hc Hcols Hb Hlt Heq Hfuel;
    [lia|].
  destruct (decide (c = C)) as [->|Hne].
  - rewrite tiled_colLoop_end by lia.
    destruct (Heq eq_refl) as [Hx Hy].
    exists cv, wd. split; [done|]. split; [done|]. split; [done|].
    split; [done|]. split; [intros; lia|]. split; [done|].
    split; [|apply quiet_refl].
    rewrite seqZ_nil by lia. by rewrite app_nil_r.
  - assert (Hc' : 0 <= c < C) by lia.
    destruct (Hlt ltac:(lia)) as [Hx Hy].
    set (rq := Tiled.request GET
                 (TiledStep.aimed p (Itoa c) (Itoa r) (Tiled.book wd))).
    assert (Hpg : page_of rq = p) by by apply tiled_page_of_aimed.
    assert (Hro : row_of rq = Itoa r)
      by apply tiled_row_of_aimed, Itoa_nonempty.
    assert (Hco : col_of rq = Itoa c)
      by apply tiled_col_of_aimed, Itoa_nonempty.
    rewrite (tiled_colLoop_paste env fuel p r c cv wd (tile r c))
      by first [lia|by apply (Hsrc (Tiled.sent wd) rq r c)].
    rewrite Hcols.
    assert (add c 1 = c + 1) as ->
      by (unfold add; rewrite wrap_small; unfold minInt, maxInt in *; lia).
    edestruct (pasted_spec R C w h tile) with (cv := cv) (r := r) (c := c)
      as (Hb1 & Hp1 & Hkeep1 & Hnext & Hlast); try done; try lia.
    destruct (IH (c + 1) (pasted cv c C (tile r c))
                (TiledStep.fetched p (Itoa c) (Itoa r) wd))
      as (cv' & wd' & -> & Hx' & Hy' & Hb' & Hp' & Hkeep' & Hask & Hq);
      [done|lia|done|done| |intros; apply Hlast; lia|lia|].
    { intros Hlt'. apply Hnext. lia. }
    exists cv', wd'. split; [done|]. split; [done|]. split; [done|].
    split; [done|].
    split.
    { intros c' Hc''. destruct (decide (c' = c)) as [->|Hcc].
      - apply Hkeep'; [lia|lia|right; lia|done].
      - apply Hp'. lia. }
    split.
    { intros r' c' Hr' Hc'' Hor Hpt.
      apply Hkeep'; [done|done|destruct Hor; [by left|right; lia]|].
      apply Hkeep1; [done|done| |done].
      intros [= -> ->]. destruct Hor; [done|lia]. }
    split.
    { rewrite Hask. unfold TiledStep.fetched at 1. cbn [Tiled.sent].
      fold rq. rewrite tilesAsked_snoc, Hpg, Hro, Hco, <- app_assoc.
      rewrite (seqZ_cons c) by lia. cbn [map app].
      change (Z.succ c) with (c + 1).
      by replace (Z.pred (C - c)) with (C - (c + 1)) by lia. }
    eapply quiet_trans; [apply quiet_fetched|exact Hq].
Qed.

End PageAssembly.

Lemma sumOver_const f lo n k :
  0 <= n -> (forall i, f i = k) -> sumOver f lo n = n * k.
Proof.
  intros Hn Hf. revert lo.
  pattern n. apply natlike_ind; [|intros m Hm IH|done]; intros lo.
  - by rewrite sumOver_nil.
  - rewrite sumOver_cons by lia. rewrite Hf.
    replace (Z.succ m - 1) with m by lia. rewrite IH. lia.
Qed.

Lemma rowMajor_from r n C :
  0 < n ->
  flat_map (fun r' => map (fun c' => (r', c')) (seqZ 0 C)) (seqZ r n)
  = map (fun c' => (r, c')) (seqZ 0 C)
    ++ flat_map (fun r' => map (fun c' => (r', c')) (seqZ 0 C))
                (seqZ (r + 1) (n - 1)).
Proof.
  intros Hn. rewrite (seqZ_cons r) by lia. cbn [flat_map].
  change (Z.succ r) with (r + 1). by replace (Z.pred n) with (n - 1) by lia.
Qed.

Section PageAssemblyRows.
Context (env : Env) (p : string) (R C w h : Z) (tile : Z -> Z -> Img.Image).
Hypothesis Hp : p <> "".
Hypothesis HR : 0 < R <= maxInt.
Hypothesis HC : 0 < C <= maxInt.
Hypothesis Hw : 0 <= w.
Hypothesis Hh : 0 <= h.
Hypothesis HCw : C * w <= maxInt.
Hypothesis HRh : R * h <= maxInt.
Hypothesis Hsized : forall r c, sized w h (tile r c).
Hypothesis Hsrc : pageSource env p R C tile.

Local Abbreviation page := (Img.mkRect 0 0 (C * w) (R * h)).
Local Abbreviation key :=
  (fun rc : Z * Z => (p, Itoa (fst rc), Itoa (snd rc))).

Lemma tiled_rowLoop_page fuel : forall r cv wd,
  0 <= r <= R ->
  Tiled.rows (Tiled.book wd) = R ->
  Tiled.cols (Tiled.book wd) = C ->
  Img.bounds (Tiled.img cv) = page ->
  Tiled.xOffset cv = 0 -> Tiled.yOffset cv = r * h ->
  R - r + C + 2 <= Z.of_nat fuel ->
  exists cv' wd',
    Tiled.rowLoop env fuel p r cv wd = Done cv' wd'
    /\ Tiled.xOffset cv' = 0 /\ Tiled.yOffset cv' = R * h
    /\ Img.bounds (Tiled.img cv') = page
    /\ (forall r' c', r <= r' < R -> 0 <= c' < C ->
          painted w h tile (Tiled.img cv') r' c')
    /\ (forall r' c', 0 <= r' < r -> 0 <= c' ->
          painted w h tile (Tiled.img cv) r' c' ->
          painted w h tile (Tiled.img cv') r' c')
    /\ tilesAsked (Tiled.sent wd')
       = tilesAsked (Tiled.sent wd)
         ++ map key
              (flat_map (fun r' => map (fun c' => (r', c')) (seqZ 0 C))
                        (seqZ r (R - r)))
    /\ quiet wd wd'.
Proof.
  induction fuel as [|fuel IH]; intros r cv wd Hr Hrows Hcols Hb Hx Hy Hfuel;
    [lia|].
  cbn [Tiled.rowLoop]. unfold bind at 1, gets at 1. rewrite Hrows.
  destruct (r <? R) eqn:Hlt.
  - apply Z.ltb_lt in Hlt. unfold bind at 1.
    destruct (tiled_colLoop_row env p R C w h tile Hp HC Hw Hh HCw HRh
                Hsized Hsrc fuel r 0 cv wd)
      as (cv1 & wd1 & -> & Hx1 & Hy1 & Hb1 & Hp1 & Hkeep1 & Hask1 & Hq1);
      [lia|lia|done|done|intros _; split; [lia|done]|intros; lia|lia|].
    assert (add r 1 = r + 1) as ->
      by (unfold add; rewrite wrap_small; unfold minInt, maxInt in *; lia).
    pose proof Hq1 as (Hqr & Hqc & _).
    destruct (IH (r + 1) cv1 wd1)
      as (cv2 & wd2 & -> & Hx2 & Hy2 & Hb2 & Hp2 & Hkeep2 & Hask2 & Hq2);
      [lia|congruence|congruence|done|done|done|lia|].
    exists cv2, wd2. split; [done|]. split; [done|]. split; [done|].
    split; [done|].
    split.
    { intros r' c' Hr' Hc'. destruct (decide (r' = r)) as [->|Hne].
      - apply Hkeep2; [lia|lia|]. apply Hp1. lia.
      - apply Hp2; lia. }
    split.
    { intros r' c' Hr' Hc' Hpt. apply Hkeep2; [lia|lia|].
      apply Hkeep1; [lia|lia|left; lia|done]. }
    split.
    { rewrite Hask2, Hask1. rewrite (rowMajor_from r (R - r)) by lia.
      rewrite map_app, map_map, <- app_assoc. cbn [fst snd].
      rewrite Z.sub_0_r.
      by replace (R - (r + 1)) with (R - r - 1) by lia. }
    eapply quiet_trans; [exact Hq1|exact Hq2].
  - apply Z.ltb_ge in Hlt. assert (r = R) as -> by lia.
    exists cv, wd. split; [done|]. split; [done|]. split; [done|].
    split; [done|]. split; [intros; lia|]. split; [done|].
    split; [|apply quiet_refl].
    rewrite (seqZ_nil R) by lia. cbn. by rewrite app_nil_r.
Qed.

(** A page, on a book whose grid is [R] by [C] with pages of
    [C * w] by [R * h] pixels. *)
Lemma tiled_downloadPage_page fuel retry wd :
  Tiled.rows (Tiled.book wd) = R ->
  Tiled.cols (Tiled.book wd) = C ->
  Tiled.imgSize (Tiled.book wd) = (C * w, R * h) ->
  let out := Join (Tiled.path (Tiled.book wd)) (p +:+ ".jpg") in
  create_ok env out = true ->
  R + C + 2 <= Z.of_nat fuel ->
  exists wd' im,
    Tiled.downloadPage env fuel p retry wd = Done tt wd'
    /\ Tiled.files wd' !! out = Some (Encoded im)
    /\ Img.bounds im = page
    /\ (forall r c, 0 <= r < R -> 0 <= c < C -> painted w h tile im r c)
    /\ tilesAsked (Tiled.sent wd')
       = tilesAsked (Tiled.sent wd) ++ map key (rowMajor R C)
    /\ Tiled.retry (Tiled.book wd') = Tiled.retry (Tiled.book wd).
Proof.
  intros Hrows Hcols Hsize out Hcreate Hfuel.
  unfold Tiled.downloadPage. unfold bind at 1, gets at 1.
  rewrite Hsize. cbn [fst snd].
  assert (Hrect : Img.Rect 0 0 (C * w) (R * h) = page).
  { unfold Img.Rect.
    assert ((C * w <? 0) = false) as -> by nia.
    by assert ((R * h <? 0) = false) as -> by nia. }
  rewrite Hrect. unfold bind at 1.
  destruct (tiled_rowLoop_page fuel 0
              (Tiled.mkCanvas (Img.NewRGBA page) 0 0) wd)
    as (cv & wd1 & -> & _ & _ & Hb & Hpt & _ & Hask & Hq);
    [lia|done|done|done|done|cbn; lia|lia|].
  destruct Hq as (_ & _ & _ & Hretry & Hpath & _ & _ & Hfiles & _).
  unfold bind at 1, gets at 1. rewrite Hpath. fold out. rewrite Hcreate.
  eexists _, (Tiled.img cv). split; [reflexivity|].
  cbn [Tiled.files Tiled.sent Tiled.book Tiled.put_file modify].
  split; [by rewrite lookup_insert_eq|]. split; [done|].
  split; [intros r c Hr Hc; apply Hpt; lia|].
  split; [|done]. rewrite Hask. by rewrite Z.sub_0_r.
Qed.

End PageAssemblyRows.

Lemma sized_tileW w h tile :
  0 <= w <= maxInt -> (forall r c, sized w h (tile r c)) ->
  forall c, tileW tile c = w.
Proof.
  intros Hw Hs c. unfold tileW, Img.RDx, sub. destruct (Hs 0 c) as [-> _].
  apply wrap_small. unfold minInt, maxInt in *. lia.
Qed.

Lemma sized_tileH w h tile :
  0 <= h <= maxInt -> (forall r c, sized w h (tile r c)) ->
  forall r, tileH tile r = h.
Proof.
  intros Hh Hs r. unfold tileH, Img.RDy, sub. destruct (Hs r 0) as [_ ->].
  apply wrap_small. unfold minInt, maxInt in *. lia.
Qed.

(** C5. On a grid of R > 0 rows and C > 0 columns of tiles of w by h
    pixels (found by the grid prober on page 1), when every tile of a
    page is served, [downloadPage] fetches the tiles in row-major order
    and writes a raster whose bounds are (0,0)-(C*w, R*h) and in which
    the pixels of tile (r, c) lie at the offset (c*w, r*h); a row that
    starts with the offsets (0, r*h) ends with the offsets
    (0, (r+1)*h). *)
Theorem page_assembled env R C w h tile1 tile p fuel bookID len docType
        cookieValue cookieName disk :
  p <> "" ->
  0 < R <= maxInt -> 0 < C <= maxInt -> 0 <= w -> 0 <= h ->
  C * w <= maxInt -> R * h <= maxInt ->
  (forall r c, sized w h (tile1 r c)) ->
  (forall r c, sized w h (tile r c)) ->
  gridSource env R C tile1 -> pageSource env p R C tile ->
  R + C + 2 <= Z.of_nat fuel ->
  exists wd0,
    Tiled.NewBook env fuel bookID len docType cookieValue cookieName disk
    = Done tt wd0
    /\ Tiled.rows (Tiled.book wd0) = R
    /\ Tiled.cols (Tiled.book wd0) = C
    /\ Tiled.imgSize (Tiled.book wd0) = (C * w, R * h)
    /\ (forall retry wd,
          gridKept wd0 wd ->
          let out := Join (Tiled.path (Tiled.book wd)) (p +:+ ".jpg") in
          create_ok env out = true ->
          exists wd' im,
            Tiled.downloadPage env fuel p retry wd = Done tt wd'
            /\ Tiled.files wd' !! out = Some (Encoded im)
            /\ Img.bounds im = Img.mkRect 0 0 (C * w) (R * h)
            /\ (forall r c, 0 <= r < R -> 0 <= c < C ->
                  painted w h tile im r c)
            /\ tilesAsked (Tiled.sent wd')
               = tilesAsked (Tiled.sent wd)
                 ++ map (fun rc => (p, Itoa (fst rc), Itoa (snd rc)))
                        (rowMajor R C)
            /\ Tiled.retry (Tiled.book wd') = Tiled.retry (Tiled.book wd))
    /\ (forall r cv wd,
          0 <= r < R -> gridKept wd0 wd ->
          Img.bounds (Tiled.img cv) = Img.mkRect 0 0 (C * w) (R * h) ->
          Tiled.xOffset cv = 0 -> Tiled.yOffset cv = r * h ->
          exists cv' wd',
            Tiled.colLoop env fuel p r 0 cv wd = Done cv' wd'
            /\ Tiled.xOffset cv' = 0
            /\ Tiled.yOffset cv' = (r + 1) * h).
Proof.
  intros Hp HR HC Hw Hh HCw HRh Hs1 Hs Hgrid Hpage Hfuel.
  destruct (tiled_NewBook_counts env R C tile1 fuel bookID len docType
              cookieValue cookieName disk HR HC Hgrid)
    as (wd0 & Hnew & Hrows & Hcols & Hsize & _); [lia|].
  assert (Hw' : 0 <= w <= maxInt) by nia.
  assert (Hh' : 0 <= h <= maxInt) by nia.
  rewrite (sumOver_const _ 0 C w) in Hsize
    by first [lia|by apply (sized_tileW w h)].
  rewrite (sumOver_const _ 0 R h) in Hsize
    by first [lia|by apply (sized_tileH w h)].
  rewrite !wrap_small in Hsize by (unfold minInt, maxInt in *; nia).
  exists wd0. split; [done|]. split; [done|]. split; [done|].
  split; [done|]. split.
  - intros retry wd (Hr & Hc & Hi & _) out Hcreate.
    apply (tiled_downloadPage_page env p R C w h tile); try done;
      try congruence; lia.
  - intros r cv wd Hr (_ & Hc & _) Hb Hx Hy.
    destruct (tiled_colLoop_row env p R C w h tile Hp HC Hw Hh HCw HRh
                Hs Hpage fuel r 0 cv wd)
      as (cv' & wd' & Hrun & Hx' & Hy' & _);
      [lia|lia|congruence|done|intros _; split; [lia|done]|intros; lia|lia|].
    by exists cv', wd'.
Qed.

Lemma gridOf_pageSource p R C tile : pageSource (gridOf R C tile) p R C tile.
Proof.
  intros hist rq r c _ _ Hr Hc Hr0 Hc0. cbn. rewrite Hr, Hc.
  rewrite !indexOf_Itoa by lia.
  assert ((r <? R) = true) as -> by lia.
  by assert ((c <? C) = true) as -> by lia.
Qed.

Lemma marked_sized w h r c : sized w h (marked w h r c).
Proof. split; cbn; lia. Qed.

Lemma page_assembled_witness :
  let tile := marked 4 3 in
  let env := gridOf 2 3 tile in
  exists wd0,
    Tiled.NewBook env 7 "000123456" 1 "" "" "" ∅ = Done tt wd0
    /\ Tiled.rows (Tiled.book wd0) = 2
    /\ Tiled.cols (Tiled.book wd0) = 3
    /\ Tiled.imgSize (Tiled.book wd0) = (3 * 4, 2 * 3)
    /\ (forall retry wd,
          gridKept wd0 wd ->
          let out := Join (Tiled.path (Tiled.book wd)) ("C1" +:+ ".jpg") in
          create_ok env out = true ->
          exists wd' im,
            Tiled.downloadPage env 7 "C1" retry wd = Done tt wd'
            /\ Tiled.files wd' !! out = Some (Encoded im)
            /\ Img.bounds im = Img.mkRect 0 0 (3 * 4) (2 * 3)
            /\ (forall r c, 0 <= r < 2 -> 0 <= c < 3 ->
                  painted 4 3 tile im r c)
            /\ tilesAsked (Tiled.sent wd')
               = tilesAsked (Tiled.sent wd)
                 ++ map (fun rc => ("C1", Itoa (fst rc), Itoa (snd rc)))
                        (rowMajor 2 3)
            /\ Tiled.retry (Tiled.book wd') = Tiled.retry (Tiled.book wd))
    /\ (forall r cv wd,
          0 <= r < 2 -> gridKept wd0 wd ->
          Img.bounds (Tiled.img cv) = Img.mkRect 0 0 (3 * 4) (2 * 3) ->
          Tiled.xOffset cv = 0 -> Tiled.yOffset cv = r * 3 ->
          exists cv' wd',
            Tiled.colLoop env 7 "C1" r 0 cv wd = Done cv' wd'
            /\ Tiled.xOffset cv' = 0
            /\ Tiled.yOffset cv' = (r + 1) * 3).
Proof.
  intros tile env.
  apply (page_assembled env 2 3 4 3 tile tile "C1" 7 "000123456" 1 "" "" "" ∅);
    try done; try (unfold maxInt; lia).
  - by apply gridOf_gridSource.
  - apply gridOf_pageSource.
Defined.

(** ** Abandoned pages *)

Import Tame.

Lemma calm_refl w : calm w w.
Proof. by repeat split. Qed.

Lemma calm_trans w1 w2 w3 : calm w1 w2 -> calm w2 w3 -> calm w1 w3.
Proof.
  unfold calm. intros (?&?&?&?&?&?&?&?&?) (?&?&?&?&?&?&?&?&?).
  repeat split; congruence.
Qed.

(** One turn of the inner loop when the request fails without 401. *)
Lemma tiled_colLoop_fault env fuel p row col cv wd :
  col < Tiled.cols (Tiled.book wd) ->
  let rq := Tiled.request GET
              (TiledStep.aimed p (Itoa col) (Itoa row) (Tiled.book wd)) in
  let wd1 := TiledStep.fetched p (Itoa col) (Itoa row) wd in
  success (remote env (Tiled.sent wd) rq) = None ->
  (forall resp, respOf (remote env (Tiled.sent wd) rq) = Some resp ->
                StatusCode resp <> StatusUnauthorized) ->
  Tiled.colLoop env (S fuel) p row col cv wd
  = if 0 <=? Tiled.retry (Tiled.book wd)
    then Tiled.colLoop env fuel p row (add (sub col 1) 1) cv
           (Tiled.mkWorld
              (Tiled.set_retry (sub (Tiled.retry (Tiled.book wd)) 1)
                               (Tiled.book wd1))
              (Tiled.sent wd1) (Tiled.files wd1) (Tiled.pdf wd1)
              (Tiled.saved wd1))
    else Tiled.colLoop env fuel p row (add col 1) cv wd1.
Proof.
  intros Hc rq wd1 Hs Hno. cbn [Tiled.colLoop]. unfold bind at 1, gets at 1.
  apply Z.ltb_lt in Hc. rewrite Hc. rewrite tiled_fetch_eval.
  fold rq wd1. rewrite Hs.
  unfold bind at 1.
  assert ((match respOf (remote env (Tiled.sent wd) rq) with
           | Some resp =>
               if StatusCode resp =? StatusUnauthorized
               then halt (OsExit 1) else ret tt
           | None => ret tt
           end) wd1 = Done tt wd1) as ->.
  { destruct (respOf _) as [resp|] eqn:Hr; [|done].
    specialize (Hno resp eq_refl).
    by assert ((StatusCode resp =? StatusUnauthorized) = false) as -> by lia. }
  unfold bind at 1, gets at 1.
  change (Tiled.retry (Tiled.book wd1)) with (Tiled.retry (Tiled.book wd)).
  by destruct (0 <=? Tiled.retry (Tiled.book wd)).
Qed.

Import Received.





Section Abandoned.
Context (env : Env).
Hypothesis Htame : tame env.


End Abandoned.

Import Written.

Lemma steady_refl w : steady w w.
Proof. by repeat split. Qed.

Lemma steady_trans w1 w2 w3 : steady w1 w2 -> steady w2 w3 -> steady w1 w3.
Proof.
  unfold steady. intros (?&?&?&?&?&?&?&?) (?&?&?&?&?&?&?&?).
  repeat split; congruence.
Qed.

Lemma calm_steady w w' : calm w w' -> steady w w'.
Proof. unfold calm, steady. intros (?&?&?&?&?&?&?&?&?). by repeat split. Qed.


Section AbandonedPage.
Context (env : Env).
Hypothesis Htame : tame env.
Hypothesis Hcreate : forall n, create_ok env n = true.




End AbandonedPage.

Section AbandonedBook.
Context (env : Env).
Hypothesis Htame : tame env.
Hypothesis Hcreate : forall n, create_ok env n = true.


Lemma tiled_pdfLoop_ends fuel : forall page wd,
  let L := Tiled.length (Tiled.book wd) in
  1 <= page -> L < maxInt ->
  Z.max 0 (L - page + 1) + 1 <= Z.of_nat fuel ->
  exists wd',
    Tiled.pdfLoop fuel page wd = Done tt wd'
    /\ Tiled.pdf wd'
       = Tiled.pdf wd
         ++ map (pageFile (Tiled.path (Tiled.book wd)) "")
                (seqZ page (L - page + 1))
    /\ Tiled.book wd' = Tiled.book wd
    /\ Tiled.files wd' = Tiled.files wd
    /\ Tiled.saved wd' = Tiled.saved wd.
Proof.
  induction fuel as [|fuel IH]; intros page wd L Hpage HL Hfuel; [lia|].
  cbn [Tiled.pdfLoop]. unfold bind at 1, gets at 1. fold L.
  destruct (page <=? L) eqn:Hle.
  - apply Z.leb_le in Hle. unfold bind at 1.
    cbn [Tiled.pdfImage modify].
    assert (add page 1 = page + 1) as ->
      by (unfold add; rewrite wrap_small; unfold minInt, maxInt in *; lia).
    match goal with
    | |- context [Tiled.pdfLoop fuel (page + 1) ?w2] =>
        destruct (IH (page + 1) w2)
          as (wd' & -> & Hpdf & Hb & Hf & Hs); [lia|done|cbn; fold L; lia|]
    end.
    exists wd'. split; [done|]. cbn in Hpdf, Hb, Hf, Hs.
    split; [|done].
    rewrite Hpdf. fold L. rewrite (seqZ_cons page) by lia. cbn [map].
    change (Z.succ page) with (page + 1).
    replace (Z.pred (L - page + 1)) with (L - (page + 1) + 1) by lia.
    by rewrite <- app_assoc.
  - apply Z.leb_gt in Hle. exists wd. split; [done|].
    rewrite seqZ_nil by lia. by rewrite app_nil_r.
Qed.


Lemma bookPages_names dir L n :
  n ∈ Join dir "C1.jpg"
      :: map (pageFile dir "") (seqZ 1 L) ++ [Join dir "C3.jpg"] ->
  exists p, n = Join dir (p +:+ ".jpg").
Proof.
  intros Hn. apply elem_of_cons in Hn as [->|Hn]; [by exists "C1"|].
  apply elem_of_app in Hn as [Hn|Hn].
  - apply list_elem_of_In, in_map_iff in Hn as (i & <- & _).
    by exists (Itoa i).
  - apply list_elem_of_singleton in Hn as ->. by exists "C3".
Qed.


End AbandonedBook.





Lemma brokenPages_tame : tame (brokenPages 500).
Proof.
  intros h rq _. split.
  - intros resp. cbn.
    destruct (String.eqb (page_of rq) "1"); [|by intros _ [= <-]].
    destruct (_ && _); [done|by intros _ [= <-]].
  - intros resp. cbn.
    destruct (String.eqb (page_of rq) "1"); [|done].
    by destruct (_ && _).
Qed.


(** On [halfPages] the front cover of a grid of one row and two
    columns is written with its left tile in place and its right half
    blank, after five requests. *)
Lemma half_page_is_written :
  let wd := Tiled.mkWorld
              (Tiled.set_imgSize (2048, 1024)
                 (Tiled.set_cols 2
                    (Tiled.set_rows 1
                       (Tiled.initBook "000123456" 1 "" "" ""))))
              [] ∅ [] None in
  let r := Tiled.downloadPage halfPages 12 "C1" 2 wd in
  outcome r = None /\
  tilesAsked (Tiled.sent (final r))
  = [("C1", "0", "0"); ("C1", "0", "1"); ("C1", "0", "1"); ("C1", "0", "1");
     ("C1", "0", "1")] /\
  exists im,
    Tiled.files (final r) !! "000123456_temp_image_folder/C1.jpg"
    = Some (Encoded im)
    /\ Img.at_ im 0 0 = 128 /\ Img.at_ im 1023 1023 = 128
    /\ Img.at_ im 1024 0 = 0 /\ Img.at_ im 2047 1023 = 0.
Proof.
  cbn zeta. split; [by vm_compute|]. split; [by vm_compute|].
  eexists. split; [by vm_compute|]. by vm_compute.
Qed.


(** * Part III: further facts about the two programs *)

(** ** Page identifiers, read back *)

(** X1. For a page number j that is a non-negative Go int,
    [updateParams] of either program, called with the decimal rendering
    of j, stores that rendering under page_nr and, under long_page_nr,
    a string that [strconv.Atoi] reads back as j: the rendering padded
    with zeros to four characters, hence of exactly four characters up
    to page 9999 and the rendering itself from page 1000 on. *)
Theorem updateParams_numeric_page j col row p0 :
  0 <= j <= maxInt ->
  exists long,
    Tiled.newParams (Itoa j) col row p0 !! "page_nr" = Some (Itoa j) /\
    Tiled.newParams (Itoa j) col row p0 !! "long_page_nr" = Some long /\
    Direct.newParams (Itoa j) p0 !! "page_nr" = Some (Itoa j) /\
    Direct.newParams (Itoa j) p0 !! "long_page_nr" = Some long /\
    Atoi long = Some j /\
    String.length long = Nat.max 4 (String.length (Itoa j)) /\
    (j <= 9999 -> String.length long = 4%nat) /\
    (1000 <= j -> long = Itoa j).
Proof.
  intros Hj. exists (pad4 (Itoa j)).
  assert (Hin : inRange j) by (unfold inRange, minInt; lia).
  destruct (tiled_newParams_page (Itoa j) col row p0 (Itoa_nonempty j))
    as [-> ->].
  destruct (direct_newParams_page (Itoa j) p0 (Itoa_nonempty j)) as [-> ->].
  rewrite (Atoi_Itoa j Hin).
  repeat (split; [done|]).
  split.
  { destruct (Itoa_head_digit j) as (c & rest & Hs & Hc); [lia|].
    rewrite Hs, Atoi_pad4 by done. rewrite <- Hs. by apply Atoi_Itoa. }
  split; [apply pad4_length|].
  split.
  - intros H9. rewrite pad4_length.
    pose proof (Itoa_length_le j 4). cbn in H. lia.
  - intros H1000. apply pad4_long.
    apply (Itoa_length_ge j 3). cbn. lia.
Qed.

Lemma updateParams_numeric_page_witness :
  exists long,
    Tiled.newParams (Itoa 42) "3" "1" ∅ !! "page_nr" = Some (Itoa 42) /\
    Tiled.newParams (Itoa 42) "3" "1" ∅ !! "long_page_nr" = Some long /\
    Direct.newParams (Itoa 42) ∅ !! "page_nr" = Some (Itoa 42) /\
    Direct.newParams (Itoa 42) ∅ !! "long_page_nr" = Some long /\
    Atoi long = Some 42 /\
    String.length long = Nat.max 4 (String.length (Itoa 42)) /\
    (42 <= 9999 -> String.length long = 4%nat) /\
    (1000 <= 42 -> long = Itoa 42).
Proof.
  apply (updateParams_numeric_page 42 "3" "1" ∅). unfold maxInt. lia.
Defined.

Lemma Atoi_letter c rest :
  isDigit c = false -> c <> "+"%char -> c <> "-"%char ->
  Atoi (String c rest) = None.
Proof.
  intros Hc Hp Hm. unfold Atoi.
  destruct c as [[] [] [] [] [] [] [] []]; try done; cbn in Hc; try done;
    cbn; by rewrite ?Hc.
Qed.

(** X2. The page labels that are not numbers -- the covers C1 and C3
    and the introduction pages I<n>, for every n -- are stored by
    [updateParams] of either program unchanged under both page_nr and
    long_page_nr: no padding is applied to them. *)
Theorem updateParams_label_page n col row p0 :
  Forall (fun label =>
            Tiled.newParams label col row p0 !! "page_nr" = Some label /\
            Tiled.newParams label col row p0 !! "long_page_nr" = Some label /\
            Direct.newParams label p0 !! "page_nr" = Some label /\
            Direct.newParams label p0 !! "long_page_nr" = Some label)
         ["C1"; "C3"; "I" +:+ Itoa n].
Proof.
  assert (Hlab : forall c rest,
    isDigit c = false -> c <> "+"%char -> c <> "-"%char ->
    let label := String c rest in
    Tiled.newParams label col row p0 !! "page_nr" = Some label /\
    Tiled.newParams label col row p0 !! "long_page_nr" = Some label /\
    Direct.newParams label p0 !! "page_nr" = Some label /\
    Direct.newParams label p0 !! "long_page_nr" = Some label).
  { intros c rest Hc Hp Hm label.
    destruct (tiled_newParams_page label col row p0) as [-> ->]; [done|].
    destruct (direct_newParams_page label p0) as [-> ->]; [done|].
    unfold label. by rewrite Atoi_letter. }
  repeat constructor; by apply Hlab.
Qed.

(** ** Invariants of a run *)

Import Holds Names.

Section Preserves.
Context {S : Type} (P : S -> Prop).

Lemma preserves_ret {A} (Q : A -> Prop) a : Q a -> preserves P Q (ret a).
Proof. intros Ha s Hs. split; [done|]. by intros ? ? [= <- _]. Qed.

Lemma preserves_halt {A} (Q : A -> Prop) why : preserves P Q (halt why).
Proof. intros s Hs. split; [done|]. by intros ? ?. Qed.

Lemma preserves_gets {A} (Q : A -> Prop) (f : S -> A) :
  (forall s, P s -> Q (f s)) -> preserves P Q (gets f).
Proof. intros Hf s Hs. split; [done|]. intros ? ? [= <- _]. by apply Hf. Qed.

Lemma preserves_modify (f : S -> S) :
  (forall s, P s -> P (f s)) -> preserves P (fun _ => True) (modify f).
Proof. intros Hf s Hs. split; [by apply Hf|done]. Qed.

Lemma preserves_bind {A B} (Q : A -> Prop) (Q' : B -> Prop)
      (m : M S A) (k : A -> M S B) :
  preserves P Q m -> (forall a, Q a -> preserves P Q' (k a)) ->
  preserves P Q' (bind m k).
Proof.
  intros Hm Hk s Hs. destruct (Hm s Hs) as [HP HQ]. unfold bind.
  destruct (m s) as [a s1|why s1]; cbn in *.
  - exact (Hk a (HQ a s1 eq_refl) s1 HP).
  - split; [done|by intros ? ?].
Qed.

Lemma preserves_weaken {A} (Q Q' : A -> Prop) (m : M S A) :
  preserves P Q m -> (forall a, Q a -> Q' a) -> preserves P Q' m.
Proof.
  intros Hm HQ s Hs. destruct (Hm s Hs) as [HP H]. split; [done|].
  intros a s' Hs'. by apply HQ, (H a s').
Qed.

End Preserves.

Lemma plainPage_nonempty p : plainPage p -> p <> "".
Proof. intros [->|[->|[j ->]]]; try done. apply Itoa_nonempty. Qed.

Lemma anyPage_nonempty p : anyPage p -> p <> "".
Proof. intros [H|[n ->]]; [by apply plainPage_nonempty|done]. Qed.

Lemma plainPage_Itoa j : plainPage (Itoa j).
Proof. right; right. by exists j. Qed.

Lemma fileOf_pageName P dir n : fileOf P dir n -> pageName dir n.
Proof. intros (p & _ & ->). by exists p. Qed.

Section Leads.
Context {S : Type} (P P' : S -> Prop).
Hypothesis Hweak : forall s, P s -> P' s.

Lemma leads_preserves {A} (Q : A -> Prop) (m : M S A) :
  preserves P Q m -> leads P P' m.
Proof. intros Hm s Hs. by apply Hweak, Hm. Qed.

Lemma leads_bind {A B} (Q : A -> Prop) (m : M S A) (k : A -> M S B) :
  preserves P Q m -> (forall a, Q a -> leads P P' (k a)) ->
  leads P P' (bind m k).
Proof.
  intros Hm Hk s Hs. destruct (Hm s Hs) as [HP HQ]. unfold bind.
  destruct (m s) as [a s1|why s1]; cbn in *.
  - exact (Hk a (HQ a s1 eq_refl) s1 HP).
  - by apply Hweak.
Qed.

End Leads.

Import TiledSession.

Lemma tiled_within_refl w : budget (Tiled.book w) -> within w w.
Proof.
  intros Hb. split; [by repeat split|]. split; [done|].
  split; [exists []; by rewrite app_nil_r|].
  split; [done|]. split; [done|].
  split; [exists []; by rewrite app_nil_r|]. done.
Qed.

Section TiledWithin.
Context (env : Env) (w0 : Tiled.World).

Local Abbreviation keeps := (preserves (within w0)).
Local Abbreviation known :=
  (fun b : Tiled.Book => sameBook (Tiled.book w0) b /\ budget b).

Lemma tiled_within_book (f : Tiled.Book -> Tiled.Book) :
  (forall b, sameBook (Tiled.book w0) b -> budget b ->
             sameBook (Tiled.book w0) (f b) /\ budget (f b)) ->
  keeps (fun _ => True) (Tiled.upd_book f).
Proof.
  intros Hf. apply preserves_modify.
  intros w (Hsame & Hbud & Hrest). destruct (Hf _ Hsame Hbud) as [H1 H2].
  split; [exact H1|]. split; [exact H2|]. exact Hrest.
Qed.

Lemma tiled_within_gets : keeps known (gets Tiled.book).
Proof. apply preserves_gets. by intros w (? & ? & _). Qed.

(** [updateParams] followed by a request. *)
Lemma tiled_fetch_within {A} (Q : A -> Prop) p c r
      (k : Response -> M Tiled.World A) :
  plainPage p ->
  (forall a, keeps Q (k a)) ->
  keeps Q (Tiled.updateParams p c r ;; let* a := Tiled.httpGet env in k a).
Proof.
  intros Hp Hk w Hw. rewrite tiled_fetch_eval. apply Hk.
  destruct Hw as (Hsame & Hbud & (new & Hsent & Hnew) & Hrest).
  assert (Hid : Tiled.newParams p c r (Tiled.params (Tiled.book w))
                !! "book_id"
                = Tiled.params (Tiled.book w) !! "book_id").
  { unfold Tiled.newParams.
    destruct (String.eqb p ""), (String.eqb c ""), (String.eqb r "");
      by simplify_map_eq. }
  destruct Hsame as (?&?&?&?&?&Hb).
  split; [repeat split; try done; cbn; by rewrite Hid|].
  split; [done|]. split; [|done].
  cbn [TiledStep.fetched Tiled.sent].
  exists (new ++ [Tiled.request GET (TiledStep.aimed p c r (Tiled.book w))]).
  split; [by rewrite Hsent, app_assoc|].
  apply Forall_app. split; [done|]. constructor; [|done].
  split; [done|]. split; [done|]. split; [cbn; by rewrite Hid|].
  by rewrite tiled_page_of_aimed by by apply plainPage_nonempty.
Qed.

Lemma tiled_put_file_within b pageNr d :
  known b ->
  keeps (fun _ => True)
        (Tiled.put_file (Join (Tiled.path b) (pageNr +:+ ".jpg")) d).
Proof.
  intros [(_ & Hpath & _) _]. apply preserves_modify.
  intros w (Hsame & Hbud & Hsent & Hout & Hkeep & Hrest).
  split; [done|]. split; [done|]. split; [done|]. cbn.
  split.
  { intros n Hn. rewrite lookup_insert_ne; [by apply Hout|].
    intros <-. apply Hn. exists pageNr. by rewrite Hpath. }
  split; [|done].
  intros n Hn.
  destruct (decide (Join (Tiled.path b) (pageNr +:+ ".jpg") = n)) as [->|?];
    [by rewrite lookup_insert_eq|rewrite lookup_insert_ne by done; by apply Hkeep].
Qed.

Lemma tiled_pdfImage_within b p :
  plainPage p -> known b ->
  keeps (fun _ => True) (Tiled.pdfImage (Join (Tiled.path b) (p +:+ ".jpg"))).
Proof.
  intros Hp [(_ & Hpath & _) _]. apply preserves_modify.
  intros w (Hsame & Hbud & Hsent & Hout & Hkeep & (more & Hpdf & Hmore) & Hsv).
  repeat (split; [done|]). split; [|done]. cbn.
  exists (more ++ [Join (Tiled.path b) (p +:+ ".jpg")]).
  split; [by rewrite Hpdf, app_assoc|].
  apply Forall_app. split; [done|]. constructor; [|done].
  exists p. by rewrite Hpath.
Qed.

Ltac within_bind :=
  apply (preserves_bind (within w0) (fun _ => True)); [|intros ? _].
Ltac within_book :=
  apply (preserves_bind (within w0) known); [apply tiled_within_gets|intros ? ?].
Ltac within_leaf :=
  first
    [ apply preserves_ret; done
    | apply preserves_halt
    | apply tiled_put_file_within; done
    | apply tiled_within_book; by intros [] ].

Lemma tiled_colLoop_within fuel pageNr row :
  plainPage pageNr -> forall col cv,
  keeps (fun _ => True) (Tiled.colLoop env fuel pageNr row col cv).
Proof.
  intros Hp.
  induction fuel as [|fuel IH]; intros col cv; [within_leaf|].
  cbn [Tiled.colLoop]. within_book.
  destruct (col <? Tiled.cols a); [|within_leaf].
  apply tiled_fetch_within; [done|]. intros r.
  destruct (success _) as [resp|].
  - destruct (Body resp) as [data|]; [|apply IH].
    destruct (Tiled.Decode data) as [part|]; apply IH.
  - within_bind.
    { destruct (respOf _) as [resp|]; [|within_leaf].
      destruct (StatusCode resp =? StatusUnauthorized); within_leaf. }
    apply (preserves_bind (within w0) known);
      [apply tiled_within_gets|intros b [Hsame Hbud]].
    within_bind; [|apply IH].
    destruct (0 <=? Tiled.retry b) eqn:Hge; [|within_leaf].
    within_bind; [|within_leaf].
    apply tiled_within_book. intros b' Hs' _. split; [by destruct b'|].
    unfold budget in *. cbn. apply Z.leb_le in Hge.
    unfold sub. rewrite wrap_small; unfold minInt, maxInt; lia.
Qed.

Lemma tiled_rowLoop_within fuel pageNr :
  plainPage pageNr -> forall row cv,
  keeps (fun _ => True) (Tiled.rowLoop env fuel pageNr row cv).
Proof.
  intros Hp.
  induction fuel as [|fuel IH]; intros row cv; [within_leaf|].
  cbn [Tiled.rowLoop]. within_book.
  destruct (row <? Tiled.rows a); [|within_leaf].
  within_bind; [by apply tiled_colLoop_within|apply IH].
Qed.

Lemma tiled_downloadPage_within fuel pageNr retry_ :
  plainPage pageNr ->
  keeps (fun _ => True) (Tiled.downloadPage env fuel pageNr retry_).
Proof.
  intros Hp. unfold Tiled.downloadPage. within_book.
  within_bind; [by apply tiled_rowLoop_within|]. within_book.
  destruct (create_ok env _); within_leaf.
Qed.

Lemma tiled_findLoop_within fuel : forall j delta,
  keeps (fun _ => True) (Tiled.findLoop env fuel j delta).
Proof.
  induction fuel as [|fuel IH]; intros j delta; [within_leaf|].
  cbn [Tiled.findLoop].
  apply tiled_fetch_within; [apply plainPage_Itoa|]. intros r.
  destruct (success _); [apply IH|].
  destruct (delta =? 1); [within_leaf|apply IH].
Qed.

Lemma tiled_findRows_within fuel : keeps (fun _ => True) (Tiled.findRows env fuel).
Proof.
  induction fuel as [|fuel IH]; [within_leaf|].
  cbn [Tiled.findRows]. within_bind; [within_leaf|]. within_book.
  apply tiled_fetch_within; [apply (plainPage_Itoa 1)|]. intros r.
  destruct (success _) as [resp|]; [|within_leaf].
  destruct (Body resp) as [data|]; [|within_leaf].
  destruct (Tiled.Decode data) as [im|]; [|within_leaf].
  within_bind; [within_leaf|apply IH].
Qed.

Lemma tiled_findCols_within fuel : keeps (fun _ => True) (Tiled.findCols env fuel).
Proof.
  induction fuel as [|fuel IH]; [within_leaf|].
  cbn [Tiled.findCols]. within_bind; [within_leaf|]. within_book.
  apply tiled_fetch_within; [apply (plainPage_Itoa 1)|]. intros r.
  destruct (success _) as [resp|]; [|within_leaf].
  destruct (Body resp) as [data|]; [|within_leaf].
  destruct (Tiled.Decode data) as [im|]; [|within_leaf].
  within_bind; [within_leaf|apply IH].
Qed.

Lemma tiled_pagesLoop_within fuel : forall page retry_,
  keeps (fun _ => True) (Tiled.pagesLoop env fuel page retry_).
Proof.
  induction fuel as [|fuel IH]; intros page retry_; [within_leaf|].
  cbn [Tiled.pagesLoop]. within_book.
  destruct (page <=? _); [|within_leaf].
  within_bind; [apply tiled_downloadPage_within, plainPage_Itoa|].
  within_bind; [|apply IH].
  apply tiled_within_book. intros b Hs _. split; [by destruct b|].
  unfold budget. cbn. lia.
Qed.

Lemma tiled_pdfLoop_within fuel : forall page,
  keeps (fun _ => True) (Tiled.pdfLoop fuel page).
Proof.
  induction fuel as [|fuel IH]; intros page; [within_leaf|].
  cbn [Tiled.pdfLoop]. within_book.
  destruct (page <=? _); [|within_leaf].
  within_bind; [by apply tiled_pdfImage_within; [apply plainPage_Itoa|]|apply IH].
Qed.

Lemma tiled_findRowsColsAndImgSize_within fuel :
  keeps (fun _ => True) (Tiled.findRowsColsAndImgSize env fuel).
Proof.
  unfold Tiled.findRowsColsAndImgSize.
  within_bind; [apply tiled_findRows_within|apply tiled_findCols_within].
Qed.

Ltac ended_bind :=
  apply (leads_bind (within w0) (ended env w0) (fun s H => or_introl H)
                    (fun _ => True)); [|intros ? _].
Ltac ended_book :=
  apply (leads_bind (within w0) (ended env w0) (fun s H => or_introl H)
                    known); [apply tiled_within_gets|intros ? ?].

(** [downloadBook] ends before the document is written, or by asking
    the writer to write it. *)
Lemma tiled_downloadBook_ended fuel :
  leads (within w0) (ended env w0) (Tiled.downloadBook env fuel).
Proof.
  unfold Tiled.downloadBook. ended_book.
  ended_bind.
  { destruct (_ =? 0); [|within_leaf].
    within_bind; [apply tiled_findLoop_within|within_leaf]. }
  ended_bind; [apply tiled_downloadPage_within; by left|].
  ended_bind.
  { apply tiled_within_book. intros b Hs _. split; [by destruct b|].
    unfold budget. cbn. lia. }
  ended_book.
  ended_bind; [by apply (tiled_pdfImage_within _ "C1"); [left|]|].
  ended_bind; [apply tiled_pagesLoop_within|].
  ended_bind; [apply tiled_pdfLoop_within|].
  ended_bind; [apply tiled_downloadPage_within; by right; left|].
  ended_bind; [by apply (tiled_pdfImage_within _ "C3"); [right; left|]|].
  intros w Hw. right. exists w. split; [done|].
  match goal with
  | H : sameBook _ ?b /\ _ |- context [Tiled.id ?b] =>
      destruct H as [(Hid & _) _]
  end.
  by rewrite Hid.
Qed.

End TiledWithin.

(** The state in which a tiled run ends, or is cut off. *)
Lemma tiled_run_ended env fuel bookID len docType cookieValue cookieName disk :
  let w0 := Tiled.mkWorld
              (Tiled.initBook bookID len docType cookieValue cookieName)
              [] disk [] None in
  ended env w0 (final (Tiled.run env fuel bookID len docType cookieValue
                         cookieName disk)).
Proof.
  intros w0.
  assert (H0 : within w0 w0) by (apply tiled_within_refl; unfold budget; cbn; lia).
  unfold Tiled.run, Tiled.NewBook. fold w0.
  destruct (tiled_findRowsColsAndImgSize_within env w0 fuel w0 H0) as [H1 _].
  destruct (Tiled.findRowsColsAndImgSize env fuel w0) as [[] w1|why w1];
    [|by left].
  cbn in H1. by apply tiled_downloadBook_ended.
Qed.

(** What the end of a run keeps of [within]. *)
Lemma tiled_ended_within env w0 w :
  ended env w0 w ->
  exists w1, within w0 w1
    /\ Tiled.book w = Tiled.book w1 /\ Tiled.sent w = Tiled.sent w1
    /\ Tiled.pdf w = Tiled.pdf w1
    /\ (w = w1 \/
        w = final (Tiled.pdfOutput env (Tiled.id (Tiled.book w0) +:+ ".pdf")
                     w1)).
Proof.
  intros [Hw|(w1 & Hw1 & ->)].
  - exists w. do 4 (split; [done|]). by left.
  - exists w1. do 4 (split; [done|]). by right.
Qed.

Import DirectSession.

Lemma direct_within_refl env w :
  DirectSession.budget (Direct.book w) -> DirectSession.within env w w.
Proof.
  intros Hb. split; [by repeat split|]. split; [done|].
  split; [exists []; by rewrite app_nil_r|].
  split; [done|]. split; [done|]. split; [by left|].
  split; [exists []; by rewrite app_nil_r|]. done.
Qed.

(** What has been received stays received when more is sent. *)
Lemma direct_received_more env w0 w w' more n d :
  Direct.sent w' = Direct.sent w ++ more ->
  received env w0 w n d -> received env w0 w' n d.
Proof.
  intros Hs (p & h & rq & rest & resp & data & Hn & Hsent & Hlen & Hrest).
  exists p, h, rq, (rest ++ more), resp, data.
  split; [done|]. split; [|done].
  rewrite Hs, Hsent, <- app_assoc. done.
Qed.

Section DirectWithin.
Context (env : Env) (w0 : Direct.World).

Local Abbreviation keeps := (preserves (DirectSession.within env w0)).
Local Abbreviation known :=
  (fun b : Direct.Book =>
     DirectSession.sameBook (Direct.book w0) b /\ DirectSession.budget b).

Lemma direct_within_book (f : Direct.Book -> Direct.Book) :
  (forall b, DirectSession.sameBook (Direct.book w0) b ->
             DirectSession.budget b ->
             DirectSession.sameBook (Direct.book w0) (f b)
             /\ DirectSession.budget (f b)) ->
  keeps (fun _ => True) (Direct.upd_book f).
Proof.
  intros Hf. apply preserves_modify.
  intros w (Hsame & Hbud & Hsent & Hout & Hkeep & Hrec & Hrest).
  destruct (Hf _ Hsame Hbud) as [H1 H2].
  split; [exact H1|]. split; [exact H2|]. split; [exact Hsent|].
  split; [exact Hout|]. split; [exact Hkeep|]. split; [|exact Hrest].
  intros n d Hn. destruct (Hrec n d Hn) as [?|Hr]; [by left|right].
  by apply (direct_received_more env w0 w _ []); [rewrite app_nil_r|].
Qed.

Lemma direct_within_gets : keeps known (gets Direct.book).
Proof. apply preserves_gets. by intros w (? & ? & _). Qed.

(** The state after [updateParams] and the request that follows. *)
Lemma direct_fetched_within m p w :
  anyPage p -> (m = HEAD -> introPage p) ->
  DirectSession.within env w0 w ->
  DirectSession.within env w0 (DirectStep.fetched m p w).
Proof.
  intros Hp Hm (Hsame & Hbud & (new & Hsent & Hnew) & Hout & Hkeep & Hrec
                & Hrest).
  assert (Hid : Direct.newParams p (Direct.params (Direct.book w)) !! "book_id"
                = Direct.params (Direct.book w) !! "book_id").
  { unfold Direct.newParams. destruct (String.eqb p ""); by simplify_map_eq. }
  assert (Hpage : page_of (Direct.request m (DirectStep.aimed p (Direct.book w)))
                  = p) by by apply direct_page_of_aimed, anyPage_nonempty.
  destruct Hsame as (?&?&?&?&?&Hb).
  split; [repeat split; try done; cbn; by rewrite Hid|].
  split; [done|].
  cbn [DirectStep.fetched Direct.sent Direct.files Direct.pdf Direct.saved].
  split.
  { exists (new ++ [Direct.request m (DirectStep.aimed p (Direct.book w))]).
    split; [by rewrite Hsent, app_assoc|].
    apply Forall_app. split; [done|]. constructor; [|done].
    split; [done|]. split; [cbn; by rewrite Hid|].
    rewrite Hpage. split; [done|]. intros Hhead. by apply Hm. }
  split; [done|]. split; [done|]. split; [|done].
  intros n d Hn. destruct (Hrec n d Hn) as [?|Hr]; [by left|right].
  by eapply direct_received_more.
Qed.

(** [updateParams] followed by a request. *)
Lemma direct_fetch_within {A} (Q : A -> Prop) m p
      (k : Response -> M Direct.World A) :
  anyPage p -> (m = HEAD -> introPage p) ->
  (forall r, keeps Q (k r)) ->
  keeps Q (Direct.updateParams p ;; let* r := Direct.http env m in k r).
Proof.
  intros Hp Hm Hk w Hw. rewrite direct_fetch_eval. apply Hk.
  by apply direct_fetched_within.
Qed.

(** The page file written after a successful GET. *)
Lemma direct_stored_within p w resp data d b :
  anyPage p ->
  DirectSession.within env w0 w ->
  success (remote env (Direct.sent w)
             (Direct.request GET (DirectStep.aimed p (Direct.book w))))
  = Some resp ->
  Body resp = Some data ->
  d = Raw data \/ d = Truncated ->
  DirectSession.budget b ->
  let w1 := DirectStep.fetched GET p w in
  let out := Join (Direct.path (Direct.book w1)) (p +:+ ".jpg") in
  DirectSession.within env w0
    (Direct.mkWorld (Direct.set_retry (Direct.retry b) (Direct.book w1))
                    (Direct.sent w1) (<[out := d]> (Direct.files w1))
                    (Direct.pdf w1) (Direct.saved w1)).
Proof.
  intros Hp Hw Hs Hb Hd Hbud w1 out.
  pose proof (direct_fetched_within GET p w Hp ltac:(done) Hw) as Hw1.
  fold w1 in Hw1.
  destruct Hw as (_ & _ & (new0 & Hsent0 & _) & _).
  destruct Hw1 as (Hsame & _ & Hsent & Hout & Hkeep & Hrec
                   & (more & Hpdf & Hmore) & Hsv).
  pose proof Hsame as (_ & Hpath & _).
  assert (Hgrow : forall n, is_Some (Direct.files w1 !! n) ->
            is_Some (<[out := d]> (Direct.files w1) !! n)).
  { intros n Hn. destruct (decide (out = n)) as [->|?];
      [by rewrite lookup_insert_eq|by rewrite lookup_insert_ne]. }
  split; [by destruct Hsame as (?&?&?&?&?&?)|].
  split; [exact Hbud|]. split; [exact Hsent|].
  cbn [Direct.files Direct.sent Direct.pdf Direct.saved Direct.book].
  split.
  { intros n Hn. rewrite lookup_insert_ne; [by apply Hout|].
    intros <-. apply Hn. exists p. unfold out. by rewrite Hpath. }
  split; [intros n Hn; by apply Hgrow, Hkeep|].
  split.
  { intros n d'. destruct (decide (out = n)) as [<-|Hne].
    - rewrite lookup_insert_eq. intros [= <-]. right.
      exists p, (Direct.sent w),
        (Direct.request GET (DirectStep.aimed p (Direct.book w))), [],
        resp, data.
      split; [unfold out; by rewrite Hpath|]. split; [done|].
      split; [rewrite Hsent0, length_app; lia|].
      split; [done|].
      split; [by apply direct_page_of_aimed, anyPage_nonempty|done].
    - rewrite lookup_insert_ne by done. intros Hn.
      destruct (Hrec n d' Hn) as [?|Hr]; [by left|right].
      by apply (direct_received_more env w0 w1 _ []); [rewrite app_nil_r|]. }
  split; [|done]. exists more. split; [done|].
  eapply Forall_impl; [exact Hmore|]. intros n [? ?].
  split; [done|by apply Hgrow].
Qed.

Lemma direct_pdfImageIfExists_within b p :
  anyPage p -> known b ->
  keeps (fun _ => True)
        (Direct.pdfImageIfExists (Join (Direct.path b) (p +:+ ".jpg"))).
Proof.
  intros Hp [(_ & Hpath & _) _]. apply preserves_modify.
  intros w Hw. destruct (Direct.files w !! _) as [d|] eqn:Hd; [|done].
  destruct Hw as (Hsame & Hbud & Hsent & Hout & Hkeep & Hrec
                  & (more & Hpdf & Hmore) & Hsv).
  repeat (split; [done|]). split; [|done]. cbn.
  exists (more ++ [Join (Direct.path b) (p +:+ ".jpg")]).
  split; [by rewrite Hpdf, app_assoc|].
  apply Forall_app. split; [done|]. constructor; [|done].
  split; [exists p; by rewrite Hpath|by rewrite Hd].
Qed.

Ltac within_bind :=
  apply (preserves_bind (DirectSession.within env w0) (fun _ => True));
  [|intros ? _].
Ltac within_book :=
  apply (preserves_bind (DirectSession.within env w0) known);
  [apply direct_within_gets|intros ? ?].
Ltac within_leaf :=
  first
    [ apply preserves_ret; done
    | apply preserves_halt
    | apply direct_within_book; by intros [] ].

Lemma direct_downloadPage_within fuel : forall pageNr retry_,
  anyPage pageNr ->
  keeps (fun _ => True) (Direct.downloadPage env fuel pageNr retry_).
Proof.
  induction fuel as [|fuel IH]; intros pageNr retry_ Hp; [within_leaf|].
  intros w Hw. split; [|done].
  cbn [Direct.downloadPage]. rewrite direct_fetch_eval.
  pose proof (direct_fetched_within GET pageNr w Hp ltac:(done) Hw) as Hw1.
  destruct (success _) as [resp|] eqn:Hs.
  - destruct (Body resp) as [data|] eqn:Hb; [|exact Hw1].
    unfold bind at 1, gets at 1.
    destruct (create_ok env _); [|exact Hw1].
    destruct (write_ok env _).
    + apply (direct_stored_within pageNr w resp data (Raw data)
               (Direct.set_retry 2 (Direct.book w)));
        first [done|by left|unfold DirectSession.budget; cbn; lia].
    + destruct Hw1 as (_ & Hbud1 & _).
      apply (direct_stored_within pageNr w resp data Truncated
               (Direct.book (DirectStep.fetched GET pageNr w)));
        first [done|by right].
  - destruct (respOf _) as [resp|]; [|exact Hw1].
    revert Hw1. generalize (DirectStep.fetched GET pageNr w). intros w1 Hw1.
    assert (Hrest : keeps (fun _ => True)
              (let* b := gets Direct.book in
               if 0 <=? Direct.retry b then
                 Direct.upd_book (Direct.set_retry (sub (Direct.retry b) 1)) ;;
                 Direct.downloadPage env fuel pageNr retry_
               else ret tt)); [|by apply Hrest].
    apply (preserves_bind (DirectSession.within env w0) known);
      [apply direct_within_gets|intros b [Hsame Hbud]].
    destruct (0 <=? Direct.retry b) eqn:Hge; [|within_leaf].
    within_bind; [|by apply IH].
    apply direct_within_book. intros b' Hs' _. split; [by destruct b'|].
    unfold DirectSession.budget in *. cbn. apply Z.leb_le in Hge.
    unfold sub. rewrite wrap_small; unfold minInt, maxInt; lia.
Qed.

Lemma direct_findLoop_within fuel : forall j delta,
  keeps (fun _ => True) (Direct.findLoop env fuel j delta).
Proof.
  induction fuel as [|fuel IH]; intros j delta; [within_leaf|].
  cbn [Direct.findLoop].
  apply direct_fetch_within; [left; apply plainPage_Itoa|done|]. intros r.
  destruct (success _); [apply IH|].
  destruct (delta =? 1); [within_leaf|apply IH].
Qed.

Lemma direct_introLoop_within fuel : forall n,
  keeps (fun _ => True) (Direct.introLoop env fuel n).
Proof.
  induction fuel as [|fuel IH]; intros n; [within_leaf|].
  cbn [Direct.introLoop]. within_book.
  apply direct_fetch_within; [right; by exists n|intros _; by exists n|].
  intros r.
  destruct (success _); [|within_leaf].
  within_bind; [apply direct_downloadPage_within; right; by exists n|apply IH].
Qed.

Lemma direct_pagesLoop_within fuel : forall page,
  keeps (fun _ => True) (Direct.pagesLoop env fuel page).
Proof.
  induction fuel as [|fuel IH]; intros page; [within_leaf|].
  cbn [Direct.pagesLoop]. within_book.
  destruct (page <=? _); [|within_leaf].
  within_bind; [apply direct_downloadPage_within; left; apply plainPage_Itoa
               |apply IH].
Qed.

Lemma direct_pdfLoop_within fuel pre last :
  (forall i, anyPage (pre +:+ Itoa i)) -> forall i,
  keeps (fun _ => True) (Direct.pdfLoop fuel pre i last).
Proof.
  intros Hpre.
  induction fuel as [|fuel IH]; intros i; [within_leaf|].
  cbn [Direct.pdfLoop]. destruct (i <=? last); [|within_leaf].
  within_book.
  within_bind; [|apply IH].
  rewrite <- append_assoc.
  by apply (direct_pdfImageIfExists_within _ (pre +:+ Itoa i)).
Qed.

Ltac ended_bind :=
  apply (leads_bind (DirectSession.within env w0)
                    (DirectSession.ended env w0) (fun s H => or_introl H)
                    (fun _ => True)); [|intros ? _].
Ltac ended_book :=
  apply (leads_bind (DirectSession.within env w0)
                    (DirectSession.ended env w0) (fun s H => or_introl H)
                    known); [apply direct_within_gets|intros ? ?].

(** [downloadBook] ends before the document is written, or by asking
    the writer to write it. *)
Lemma direct_downloadBook_ended fuel :
  leads (DirectSession.within env w0) (DirectSession.ended env w0)
        (Direct.downloadBook env fuel).
Proof.
  unfold Direct.downloadBook. ended_book.
  ended_bind.
  { destruct (_ =? 0); [|within_leaf].
    within_bind; [apply direct_findLoop_within|within_leaf]. }
  ended_book.
  ended_bind; [apply direct_downloadPage_within; left; by left|].
  ended_bind; [apply direct_introLoop_within|].
  ended_bind; [apply direct_pagesLoop_within|].
  ended_book.
  ended_bind; [apply direct_downloadPage_within; left; by right; left|].
  ended_bind;
    [by apply (direct_pdfImageIfExists_within _ "C1"); [left; left|]|].
  ended_bind;
    [apply direct_pdfLoop_within; intros i; right; by exists i|].
  ended_book.
  ended_bind;
    [apply direct_pdfLoop_within; intros i; left; apply plainPage_Itoa|].
  ended_bind;
    [by apply (direct_pdfImageIfExists_within _ "C3"); [left; right; left|]|].
  intros w Hw. right. exists w. split; [done|].
  match goal with
  | H : DirectSession.sameBook _ ?b /\ _ |- context [Direct.id ?b] =>
      destruct H as [(Hid & _) _]
  end.
  by rewrite Hid.
Qed.

End DirectWithin.

(** The state in which a direct run ends, or is cut off. *)
Lemma direct_run_ended env fuel bookID len docType cookies disk :
  let w0 := Direct.mkWorld (Direct.NewBook bookID len docType cookies)
              [] disk [] None in
  DirectSession.ended env w0
    (final (Direct.run env fuel bookID len docType cookies disk)).
Proof.
  intros w0.
  assert (H0 : DirectSession.within env w0 w0)
    by (apply direct_within_refl; unfold DirectSession.budget; cbn; lia).
  unfold Direct.run. fold w0.
  by apply direct_downloadBook_ended.
Qed.

Lemma direct_ended_within env w0 w :
  DirectSession.ended env w0 w ->
  exists w1, DirectSession.within env w0 w1
    /\ Direct.book w = Direct.book w1 /\ Direct.sent w = Direct.sent w1
    /\ Direct.pdf w = Direct.pdf w1
    /\ (w = w1 \/
        w = final (Direct.pdfOutput env
                     (Direct.id (Direct.book w0) +:+ ".pdf") w1)).
Proof.
  intros [Hw|(w1 & Hw1 & ->)].
  - exists w. do 4 (split; [done|]). by left.
  - exists w1. do 4 (split; [done|]). by right.
Qed.

(** The files after [OutputFileAndClose]. *)
Lemma tiled_output_other env name w n :
  n <> Clean name ->
  Tiled.files (final (Tiled.pdfOutput env name w)) !! n = Tiled.files w !! n.
Proof.
  intros Hn. cbn [final Tiled.pdfOutput modify Tiled.files].
  destruct (output_ok env name); [by rewrite lookup_insert_ne|done].
Qed.

Lemma tiled_output_document env name w :
  Tiled.files (final (Tiled.pdfOutput env name w)) !! Clean name
  = if output_ok env name then Some (Document (Tiled.pdf w))
    else Tiled.files w !! Clean name.
Proof.
  cbn [final Tiled.pdfOutput modify Tiled.files].
  destruct (output_ok env name); [by rewrite lookup_insert_eq|done].
Qed.

Lemma direct_output_other env name w n :
  n <> Clean name ->
  Direct.files (final (Direct.pdfOutput env name w)) !! n
  = Direct.files w !! n.
Proof.
  intros Hn. cbn [final Direct.pdfOutput modify Direct.files].
  destruct (output_ok env name); [by rewrite lookup_insert_ne|done].
Qed.

Lemma direct_output_document env name w :
  Direct.files (final (Direct.pdfOutput env name w)) !! Clean name
  = if output_ok env name then Some (Document (Direct.pdf w))
    else Direct.files w !! Clean name.
Proof.
  cbn [final Direct.pdfOutput modify Direct.files].
  destruct (output_ok env name); [by rewrite lookup_insert_eq|done].
Qed.

Lemma direct_output_keeps env name w n :
  is_Some (Direct.files w !! n) ->
  is_Some (Direct.files (final (Direct.pdfOutput env name w)) !! n).
Proof.
  intros Hn. destruct (decide (n = Clean name)) as [->|Hne].
  - rewrite direct_output_document. by destruct (output_ok env name).
  - by rewrite direct_output_other.
Qed.

(** X3. Every request that a run sends, in either program, whatever
    the remote source does and wherever the run ends or is cut off, is
    a request for the one book of the run: it carries the URL template
    that [NewBook] built for the document type ("digibok" when none is
    given) and the book id under book_id.  The tiled downloader sends
    GET requests only, for the covers C1 and C3 and for numbered
    pages; the direct downloader asks for these and for introduction
    pages I<n>, and sends HEAD requests for introduction pages only. *)
Theorem requests_of_one_book env fuel bookID len docType cookieValue
        cookieName cookies disk :
  let dt := if String.eqb docType "" then "digibok" else docType in
  Forall (fun rq => rq_method rq = GET
                    /\ rq_template rq = Tiled.template dt
                    /\ rq_params rq !! "book_id" = Some bookID
                    /\ plainPage (page_of rq))
         (Tiled.sent (final (Tiled.run env fuel bookID len docType
                               cookieValue cookieName disk))) /\
  Forall (fun rq => rq_template rq = Direct.template dt 602
                    /\ rq_params rq !! "book_id" = Some bookID
                    /\ (plainPage (page_of rq) \/ introPage (page_of rq))
                    /\ (rq_method rq = HEAD -> introPage (page_of rq)))
         (Direct.sent (final (Direct.run env fuel bookID len docType
                                cookies disk))).
Proof.
  intros dt. split.
  - destruct (tiled_ended_within _ _ _
                (tiled_run_ended env fuel bookID len docType cookieValue
                   cookieName disk))
      as (w1 & (_ & _ & (new & Hsent & Hnew) & _) & _ & -> & _).
    rewrite Hsent. cbn [Tiled.sent app]. eapply Forall_impl; [exact Hnew|].
    intros rq (Hm & Ht & Hb & Hp). by repeat split.
  - destruct (direct_ended_within _ _ _
                (direct_run_ended env fuel bookID len docType cookies disk))
      as (w1 & (_ & _ & (new & Hsent & Hnew) & _) & _ & -> & _).
    rewrite Hsent. cbn [Direct.sent app]. eapply Forall_impl; [exact Hnew|].
    intros rq (Ht & Hb & Hp & Hh). by repeat split.
Qed.

(** The document is not a page file: a state that has not written the
    document has left its path alone. *)
Lemma tiled_within_document w0 w :
  TiledSession.within w0 w ->
  Tiled.files w !! Clean (Tiled.id (Tiled.book w0) +:+ ".pdf")
  = Tiled.files w0 !! Clean (Tiled.id (Tiled.book w0) +:+ ".pdf").
Proof.
  intros (_ & _ & _ & Hout & _). apply Hout.
  intros [p Hp]. symmetry in Hp. by apply Join_jpg_not_pdf in Hp.
Qed.

Lemma direct_within_document env w0 w :
  DirectSession.within env w0 w ->
  Direct.files w !! Clean (Direct.id (Direct.book w0) +:+ ".pdf")
  = Direct.files w0 !! Clean (Direct.id (Direct.book w0) +:+ ".pdf").
Proof.
  intros (_ & _ & _ & Hout & _). apply Hout.
  intros [p Hp]. symmetry in Hp. by apply Join_jpg_not_pdf in Hp.
Qed.




(** X6. Whatever the remote source does, every page that a run hands
    to the PDF writer is a page file of the folder
    <book id>_temp_image_folder, named as [filepath.Join] names it: in
    the tiled downloader the file of a cover or of a numbered page, in
    the direct downloader also that of an introduction page, and
    there, where [os.Stat] is asked first, a file that exists.  A run
    that is cut off before its end has not called the writer's
    [OutputFileAndClose] and has left the path of the document alone;
    a run that has called it did so with <book id>.pdf, and when the
    writer can write, the document holds exactly the pages handed
    over. *)
Theorem document_of_page_files env fuel bookID len docType cookieValue
        cookieName cookies disk :
  let dir := bookID +:+ "_temp_image_folder" in
  let name := bookID +:+ ".pdf" in
  let wt := final (Tiled.run env fuel bookID len docType cookieValue
                     cookieName disk) in
  let wd := final (Direct.run env fuel bookID len docType cookies disk) in
  Forall (fileOf plainPage dir) (Tiled.pdf wt) /\
  Forall (fun n => fileOf anyPage dir n /\ is_Some (Direct.files wd !! n))
         (Direct.pdf wd) /\
  (Tiled.saved wt = None /\ Tiled.files wt !! Clean name = disk !! Clean name
   \/ Tiled.saved wt = Some name
      /\ Tiled.files wt !! Clean name
         = if output_ok env name then Some (Document (Tiled.pdf wt))
           else disk !! Clean name) /\
  (Direct.saved wd = None
   /\ Direct.files wd !! Clean name = disk !! Clean name
   \/ Direct.saved wd = Some name
      /\ Direct.files wd !! Clean name
         = if output_ok env name then Some (Document (Direct.pdf wd))
           else disk !! Clean name).
Proof.
  intros dir name wt wd.
  destruct (tiled_ended_within _ _ _
              (tiled_run_ended env fuel bookID len docType cookieValue
                 cookieName disk))
    as (w1 & Hw1 & _ & _ & Hpdf & Hend).
  destruct (direct_ended_within _ _ _
              (direct_run_ended env fuel bookID len docType cookies disk))
    as (w1' & Hw1' & _ & _ & Hpdf' & Hend').
  fold wt in Hpdf, Hend. fold wd in Hpdf', Hend'.
  pose proof (tiled_within_document _ _ Hw1) as Hdoc.
  pose proof (direct_within_document _ _ _ Hw1') as Hdoc'.
  destruct Hw1 as (_ & _ & _ & _ & _ & (more & Hp1 & Hmore) & Hsv).
  destruct Hw1' as (_ & _ & _ & _ & _ & _ & (more' & Hp1' & Hmore') & Hsv').
  cbn [Tiled.book Tiled.id Tiled.initBook Tiled.path Tiled.files Tiled.saved
       Tiled.pdf app] in Hdoc, Hsv, Hp1, Hmore.
  cbn [Direct.book Direct.id Direct.NewBook Direct.path Direct.files
       Direct.saved Direct.pdf app] in Hdoc', Hsv', Hp1', Hmore'.
  fold name in Hdoc, Hdoc'. fold dir in Hmore, Hmore'.
  split; [by rewrite Hpdf, Hp1|].
  split.
  { rewrite Hpdf', Hp1'. eapply Forall_impl; [exact Hmore'|].
    intros n [Hn Hs]. split; [done|].
    destruct Hend' as [->| ->]; [done|]. by apply direct_output_keeps. }
  split.
  - destruct Hend as [->|Hend]; [by left|right].
    rewrite Hpdf, Hend. split; [done|].
    change (Tiled.id (Tiled.book _) +:+ ".pdf") with name.
    rewrite tiled_output_document. by rewrite Hdoc.
  - destruct Hend' as [->|Hend']; [by left|right].
    rewrite Hpdf', Hend'. split; [done|].
    change (Direct.id (Direct.book _) +:+ ".pdf") with name.
    rewrite direct_output_document. by rewrite Hdoc'.
Qed.

(** X20. Whatever the remote source does and wherever a direct run
    ends, a page file of the folder holds either what it held before
    the run or the body that the run received for that page: the body
    of an answer with status 200 to a GET of this run for the page of
    that name (or what is left of it when the write fails). *)
Theorem direct_files_received env fuel bookID len docType cookies disk n d :
  let r := Direct.run env fuel bookID len docType cookies disk in
  let dir := bookID +:+ "_temp_image_folder" in
  Direct.files (final r) !! n = Some d ->
  n <> Clean (bookID +:+ ".pdf") ->
  disk !! n = Some d \/
  exists p h rq rest resp data,
    n = Join dir (p +:+ ".jpg")
    /\ Direct.sent (final r) = h ++ rq :: rest
    /\ rq_method rq = GET /\ page_of rq = p
    /\ success (remote env h rq) = Some resp
    /\ Body resp = Some data
    /\ (d = Raw data \/ d = Truncated).
Proof.
  intros r dir Hn Hdoc.
  destruct (direct_ended_within _ _ _
              (direct_run_ended env fuel bookID len docType cookies disk))
    as (w1 & (_ & _ & _ & _ & _ & Hrec & _) & _ & Hsent & _ & Hend).
  fold r in Hsent, Hend.
  assert (Hn1 : Direct.files w1 !! n = Some d).
  { destruct Hend as [<-|Hend]; [done|]. rewrite Hend in Hn.
    by rewrite direct_output_other in Hn. }
  destruct (Hrec n d Hn1) as [?|(p & h & rq & rest & resp & data & H1 & H2
                                 & _ & H3)]; [by left|right].
  exists p, h, rq, rest, resp, data. split; [done|].
  split; [by rewrite Hsent|done].
Qed.

Lemma direct_files_received_witness :
  let r := Direct.run plain 9 "000123456" 1 "" [] ∅ in
  let dir := "000123456" +:+ "_temp_image_folder" in
  let n := "000123456_temp_image_folder/1.jpg" in
  let d := Raw (Pixels grey) in
  (∅ : gmap string FileData) !! n = Some d \/
  exists p h rq rest resp data,
    n = Join dir (p +:+ ".jpg")
    /\ Direct.sent (final r) = h ++ rq :: rest
    /\ rq_method rq = GET /\ page_of rq = p
    /\ success (remote plain h rq) = Some resp
    /\ Body resp = Some data
    /\ (d = Raw data \/ d = Truncated).
Proof.
  apply (direct_files_received plain 9 "000123456" 1 "" [] ∅
           "000123456_temp_image_folder/1.jpg" (Raw (Pixels grey)));
    by vm_compute.
Defined.

(** ** The cost of the length search *)

Import Search.

Lemma rest_pos delta d :
  (delta = 1 \/ delta = 10 \/ delta = 100) -> 0 <= d -> 1 <= rest delta d.
Proof.
  intros [->|[->| ->]] Hd; unfold rest; repeat case_match; try lia;
    Z.div_mod_to_equations; lia.
Qed.

Lemma rest_hit delta d :
  (delta = 1 \/ delta = 10 \/ delta = 100) -> delta <= d ->
  rest delta (d - delta) = rest delta d - 1.
Proof.
  intros [->|[->| ->]] Hd; unfold rest; repeat case_match; try lia;
    Z.div_mod_to_equations; lia.
Qed.

Lemma rest_miss_100 d : 0 <= d < 100 -> rest 100 d = rest 10 d + 1.
Proof.
  intros Hd. unfold rest. repeat case_match; try lia;
    Z.div_mod_to_equations; lia.
Qed.

Lemma rest_miss_10 d : 0 <= d < 10 -> rest 10 d = rest 1 d + 1.
Proof.
  intros Hd. unfold rest. repeat case_match; try lia;
    Z.div_mod_to_equations; lia.
Qed.

Section Cost.
Context (env : Env) (N : Z).
Hypothesis HN : 0 <= N.
Hypothesis Hmax : N + 100 <= maxInt.
Hypothesis Hsrc : validPages env N.

Lemma tiled_findLoop_cost fuel : forall j delta w,
  (delta = 1 \/ delta = 10 \/ delta = 100) ->
  0 <= j - delta <= N ->
  rest delta (N - (j - delta)) <= Z.of_nat fuel ->
  exists w', Tiled.findLoop env fuel j delta w = Done N w'
             /\ Z.of_nat (List.length (Tiled.sent w'))
                = Z.of_nat (List.length (Tiled.sent w))
                  + rest delta (N - (j - delta)).
Proof.
  induction fuel as [|fuel IH]; intros j delta w Hd Hj Hfuel.
  - pose proof (rest_pos delta (N - (j - delta)) Hd). lia.
  - cbn [Tiled.findLoop]. rewrite tiled_fetch_eval.
    set (rq := Tiled.request GET _).
    set (w1 := TiledStep.fetched _ _ _ w).
    assert (Hlen : Z.of_nat (List.length (Tiled.sent w1))
                   = Z.of_nat (List.length (Tiled.sent w)) + 1).
    { subst w1. cbn. rewrite length_app. cbn. lia. }
    assert (Hp : page_of rq = Itoa j)
      by apply tiled_page_of_aimed, Itoa_nonempty.
    pose proof (Hsrc (Tiled.sent w) rq j eq_refl Hp) as Hv.
    unfold maxInt in Hmax.
    destruct (success (remote env (Tiled.sent w) rq)) as [resp|] eqn:Hs.
    + assert (Hjn : 1 <= j <= N) by (apply Hv; done).
      unfold add. rewrite wrap_small by (unfold maxInt, minInt; lia).
      destruct (IH (j + delta) delta w1 Hd) as (w' & -> & Hcost);
        [lia| |].
      { replace (N - (j + delta - delta)) with (N - (j - delta) - delta) by lia.
        rewrite rest_hit by (done || lia). lia. }
      exists w'. split; [done|]. rewrite Hcost, Hlen.
      replace (N - (j + delta - delta)) with (N - (j - delta) - delta) by lia.
      rewrite rest_hit by (done || lia). lia.
    + assert (Hjn : ~ (1 <= j <= N)) by (intros H; apply Hv in H; done).
      destruct Hd as [->|[->| ->]].
      * cbn. exists w1. split.
        { unfold ret, sub. rewrite wrap_small by (unfold maxInt, minInt; lia).
          f_equal. lia. }
        rewrite Hlen. unfold rest. repeat case_match; lia.
      * change (10 =? 1) with false. cbn iota. unfold add, sub, div.
        change (Z.quot 10 10) with 1. change (wrap 1) with 1.
        change (1 <? 1) with false. cbn iota.
        rewrite (wrap_small (_ - 10)) by (unfold maxInt, minInt; lia).
        rewrite wrap_small by (unfold maxInt, minInt; lia).
        destruct (IH (j - 10 + 1) 1 w1) as (w' & -> & Hcost); [auto|lia| |].
        { replace (N - (j - 10 + 1 - 1)) with (N - (j - 10)) by lia.
          rewrite rest_miss_10 in Hfuel by lia. lia. }
        exists w'. split; [done|]. rewrite Hcost, Hlen.
        replace (N - (j - 10 + 1 - 1)) with (N - (j - 10)) by lia.
        rewrite (rest_miss_10 (N - (j - 10))) by lia. lia.
      * change (100 =? 1) with false. cbn iota. unfold add, sub, div.
        change (Z.quot 100 10) with 10. change (wrap 10) with 10.
        change (10 <? 1) with false. cbn iota.
        rewrite (wrap_small (_ - 100)) by (unfold maxInt, minInt; lia).
        rewrite wrap_small by (unfold maxInt, minInt; lia).
        destruct (IH (j - 100 + 10) 10 w1) as (w' & -> & Hcost); [auto|lia| |].
        { replace (N - (j - 100 + 10 - 10)) with (N - (j - 100)) by lia.
          rewrite rest_miss_100 in Hfuel by lia. lia. }
        exists w'. split; [done|]. rewrite Hcost, Hlen.
        replace (N - (j - 100 + 10 - 10)) with (N - (j - 100)) by lia.
        rewrite (rest_miss_100 (N - (j - 100))) by lia. lia.
Qed.

Lemma direct_findLoop_cost fuel : forall j delta w,
  (delta = 1 \/ delta = 10 \/ delta = 100) ->
  0 <= j - delta <= N ->
  rest delta (N - (j - delta)) <= Z.of_nat fuel ->
  exists w', Direct.findLoop env fuel j delta w = Done N w'
             /\ Z.of_nat (List.length (Direct.sent w'))
                = Z.of_nat (List.length (Direct.sent w))
                  + rest delta (N - (j - delta)).
Proof.
  induction fuel as [|fuel IH]; intros j delta w Hd Hj Hfuel.
  - pose proof (rest_pos delta (N - (j - delta)) Hd). lia.
  - cbn [Direct.findLoop]. rewrite direct_fetch_eval.
    set (rq := Direct.request GET _).
    set (w1 := DirectStep.fetched _ _ w).
    assert (Hlen : Z.of_nat (List.length (Direct.sent w1))
                   = Z.of_nat (List.length (Direct.sent w)) + 1).
    { subst w1. cbn. rewrite length_app. cbn. lia. }
    assert (Hp : page_of rq = Itoa j)
      by apply direct_page_of_aimed, Itoa_nonempty.
    pose proof (Hsrc (Direct.sent w) rq j eq_refl Hp) as Hv.
    unfold maxInt in Hmax.
    destruct (success (remote env (Direct.sent w) rq)) as [resp|] eqn:Hs.
    + assert (Hjn : 1 <= j <= N) by (apply Hv; done).
      unfold add. rewrite wrap_small by (unfold maxInt, minInt; lia).
      destruct (IH (j + delta) delta w1 Hd) as (w' & -> & Hcost);
        [lia| |].
      { replace (N - (j + delta - delta)) with (N - (j - delta) - delta) by lia.
        rewrite rest_hit by (done || lia). lia. }
      exists w'. split; [done|]. rewrite Hcost, Hlen.
      replace (N - (j + delta - delta)) with (N - (j - delta) - delta) by lia.
      rewrite rest_hit by (done || lia). lia.
    + assert (Hjn : ~ (1 <= j <= N)) by (intros H; apply Hv in H; done).
      destruct Hd as [->|[->| ->]].
      * cbn. exists w1. split.
        { unfold ret, sub. rewrite wrap_small by (unfold maxInt, minInt; lia).
          f_equal. lia. }
        rewrite Hlen. unfold rest. repeat case_match; lia.
      * change (10 =? 1) with false. cbn iota. unfold add, sub, div.
        change (Z.quot 10 10) with 1. change (wrap 1) with 1.
        change (1 <? 1) with false. cbn iota.
        rewrite (wrap_small (_ - 10)) by (unfold maxInt, minInt; lia).
        rewrite wrap_small by (unfold maxInt, minInt; lia).
        destruct (IH (j - 10 + 1) 1 w1) as (w' & -> & Hcost); [auto|lia| |].
        { replace (N - (j - 10 + 1 - 1)) with (N - (j - 10)) by lia.
          rewrite rest_miss_10 in Hfuel by lia. lia. }
        exists w'. split; [done|]. rewrite Hcost, Hlen.
        replace (N - (j - 10 + 1 - 1)) with (N - (j - 10)) by lia.
        rewrite (rest_miss_10 (N - (j - 10))) by lia. lia.
      * change (100 =? 1) with false. cbn iota. unfold add, sub, div.
        change (Z.quot 100 10) with 10. change (wrap 10) with 10.
        change (10 <? 1) with false. cbn iota.
        rewrite (wrap_small (_ - 100)) by (unfold maxInt, minInt; lia).
        rewrite wrap_small by (unfold maxInt, minInt; lia).
        destruct (IH (j - 100 + 10) 10 w1) as (w' & -> & Hcost); [auto|lia| |].
        { replace (N - (j - 100 + 10 - 10)) with (N - (j - 100)) by lia.
          rewrite rest_miss_100 in Hfuel by lia. lia. }
        exists w'. split; [done|]. rewrite Hcost, Hlen.
        replace (N - (j - 100 + 10 - 10)) with (N - (j - 100)) by lia.
        rewrite (rest_miss_100 (N - (j - 100))) by lia. lia.
Qed.

End Cost.

(** X7. With a source that holds exactly the pages 1..N (N >= 0, and
    N + 100 representable), [findBookLength] of either program returns
    N after exactly N/100 + (N mod 100)/10 + N mod 10 + 3 requests: one
    per hundred, ten and unit of N, and the three failing probes that
    end the stages.  That many turns of the loop are enough. *)
Theorem findBookLength_cost env N fuel (wt : Tiled.World) (wd : Direct.World) :
  0 <= N -> N + 100 <= maxInt -> validPages env N ->
  probes N <= Z.of_nat fuel ->
  (exists w', Tiled.findBookLength env fuel wt = Done N w'
              /\ Z.of_nat (List.length (Tiled.sent w'))
                 = Z.of_nat (List.length (Tiled.sent wt)) + probes N) /\
  (exists w', Direct.findBookLength env fuel wd = Done N w'
              /\ Z.of_nat (List.length (Direct.sent w'))
                 = Z.of_nat (List.length (Direct.sent wd)) + probes N).
Proof.
  intros HN Hmax Hsrc Hfuel.
  assert (Hrest : rest 100 (N - (100 - 100)) = probes N)
    by (unfold rest, probes; repeat case_match; try lia;
        by rewrite Z.sub_diag, Z.sub_0_r).
  split.
  - destruct (tiled_findLoop_cost env N Hmax Hsrc fuel 100 100 wt)
      as (w' & Hrun & Hcost); [auto|lia|lia|].
    exists w'. split; [done|]. by rewrite Hcost, Hrest.
  - destruct (direct_findLoop_cost env N Hmax Hsrc fuel 100 100 wd)
      as (w' & Hrun & Hcost); [auto|lia|lia|].
    exists w'. split; [done|]. by rewrite Hcost, Hrest.
Qed.

Lemma findBookLength_cost_witness :
  let wt := Tiled.mkWorld (Tiled.initBook "000123456" 0 "" "" "") [] ∅ [] None in
  let wd := Direct.mkWorld (Direct.NewBook "000123456" 0 "" []) [] ∅ [] None in
  (exists w', Tiled.findBookLength (shelf 123) 9 wt = Done 123 w'
              /\ Z.of_nat (List.length (Tiled.sent w'))
                 = Z.of_nat (List.length (Tiled.sent wt)) + probes 123) /\
  (exists w', Direct.findBookLength (shelf 123) 9 wd = Done 123 w'
              /\ Z.of_nat (List.length (Direct.sent w'))
                 = Z.of_nat (List.length (Direct.sent wd)) + probes 123).
Proof.
  intros wt wd.
  apply (findBookLength_cost (shelf 123) 123 9 wt wd);
    [lia | unfold maxInt; lia | apply shelf_valid | by vm_compute].
Defined.

(** The search goes on as long as no probe fails. *)
Lemma tiled_findLoop_endless env fuel : forall j delta w,
  neverFails env ->
  exists w', Tiled.findLoop env fuel j delta w = Stop Fuel w'
             /\ List.length (Tiled.sent w')
                = (List.length (Tiled.sent w) + fuel)%nat
             /\ Tiled.files w' = Tiled.files w /\ Tiled.pdf w' = Tiled.pdf w
             /\ Tiled.saved w' = Tiled.saved w.
Proof.
  induction fuel as [|fuel IH]; intros j delta w Hok.
  - exists w. cbn. repeat split; lia.
  - cbn [Tiled.findLoop]. rewrite tiled_fetch_eval.
    destruct (success _) eqn:Hs; [|by apply Hok in Hs].
    destruct (IH (add j delta) delta
                 (TiledStep.fetched (Itoa j) "0" "0" w) Hok)
      as (w' & -> & Hlen & Hf & Hp & Hsv).
    exists w'. split; [done|]. split; [|done].
    rewrite Hlen. cbn. rewrite length_app. cbn. lia.
Qed.

Lemma direct_findLoop_endless env fuel : forall j delta w,
  neverFails env ->
  exists w', Direct.findLoop env fuel j delta w = Stop Fuel w'
             /\ List.length (Direct.sent w')
                = (List.length (Direct.sent w) + fuel)%nat
             /\ Direct.files w' = Direct.files w /\ Direct.pdf w' = Direct.pdf w
             /\ Direct.saved w' = Direct.saved w.
Proof.
  induction fuel as [|fuel IH]; intros j delta w Hok.
  - exists w. cbn. repeat split; lia.
  - cbn [Direct.findLoop]. rewrite direct_fetch_eval.
    destruct (success _) eqn:Hs; [|by apply Hok in Hs].
    destruct (IH (add j delta) delta (DirectStep.fetched GET (Itoa j) w) Hok)
      as (w' & -> & Hlen & Hf & Hp & Hsv).
    exists w'. split; [done|]. split; [|done].
    rewrite Hlen. cbn. rewrite length_app. cbn. lia.
Qed.

(** X8. [findBookLength] returns only after a failed probe: with a
    source on which no GET fails, the search of either program is still
    running after any number of turns, having sent one request per
    turn; so a direct run without a given length never gets to download
    a page: it writes no file and builds no document. *)
Theorem findBookLength_endless env fuel (wt : Tiled.World) (wd : Direct.World)
        bookID docType cookies disk :
  neverFails env ->
  let rt := Tiled.findBookLength env fuel wt in
  let rd := Direct.findBookLength env fuel wd in
  let r := Direct.run env fuel bookID 0 docType cookies disk in
  outcome rt = Some Fuel /\
  List.length (Tiled.sent (final rt))
  = (List.length (Tiled.sent wt) + fuel)%nat /\
  outcome rd = Some Fuel /\
  List.length (Direct.sent (final rd))
  = (List.length (Direct.sent wd) + fuel)%nat /\
  outcome r = Some Fuel /\
  List.length (Direct.sent (final r)) = fuel /\
  Direct.files (final r) = disk /\
  Direct.pdf (final r) = [] /\
  Direct.saved (final r) = None.
Proof.
  intros Hok rt rd r.
  destruct (tiled_findLoop_endless env fuel 100 100 wt Hok)
    as (wt' & Ht & Hlt & _).
  destruct (direct_findLoop_endless env fuel 100 100 wd Hok)
    as (wd' & Hd & Hld & _).
  subst rt rd. unfold Tiled.findBookLength, Direct.findBookLength.
  rewrite Ht, Hd. cbn [outcome final].
  repeat (split; [done|]).
  assert (exists w', r = Stop Fuel w'
            /\ List.length (Direct.sent w') = fuel
            /\ Direct.files w' = disk /\ Direct.pdf w' = []
            /\ Direct.saved w' = None) as (w' & -> & Hrest); [|done].
  subst r. unfold Direct.run, Direct.downloadBook.
  unfold bind at 1, gets at 1. cbn [Direct.book Direct.NewBook Direct.length].
  change (0 =? 0) with true. cbn iota.
  unfold bind at 1. unfold bind at 1. unfold Direct.findBookLength.
  match goal with
  | |- context [Direct.findLoop env fuel 100 100 ?w0] =>
      destruct (direct_findLoop_endless env fuel 100 100 w0 Hok)
        as (w' & -> & Hl & Hf & Hp & Hsv)
  end.
  exists w'. by repeat split.
Qed.

Lemma plain_neverFails : neverFails plain.
Proof. intros h rq Hm. cbn. by rewrite Hm. Qed.

Lemma findBookLength_endless_witness :
  let wt := Tiled.mkWorld (Tiled.initBook "000123456" 0 "" "" "") [] ∅ [] None in
  let wd := Direct.mkWorld (Direct.NewBook "000123456" 0 "" []) [] ∅ [] None in
  let rt := Tiled.findBookLength plain 25 wt in
  let rd := Direct.findBookLength plain 25 wd in
  let r := Direct.run plain 25 "000123456" 0 "" [] ∅ in
  outcome rt = Some Fuel /\
  List.length (Tiled.sent (final rt))
  = (List.length (Tiled.sent wt) + 25)%nat /\
  outcome rd = Some Fuel /\
  List.length (Direct.sent (final rd))
  = (List.length (Direct.sent wd) + 25)%nat /\
  outcome r = Some Fuel /\
  List.length (Direct.sent (final r)) = 25%nat /\
  Direct.files (final r) = ∅ /\
  Direct.pdf (final r) = [] /\
  Direct.saved (final r) = None.
Proof.
  intros wt wd.
  apply (findBookLength_endless plain 25 wt wd "000123456" "" [] ∅).
  apply plain_neverFails.
Defined.

(** ** The grid prober on any source *)

Lemma tiled_findRows_any env fuel : forall w,
  -1 <= Tiled.rows (Tiled.book w) ->
  Tiled.rows (Tiled.book w) + Z.of_nat fuel <= maxInt ->
  let r := Tiled.findRows env fuel w in
  let w' := final r in
  Tiled.rows (Tiled.book w) <= Tiled.rows (Tiled.book w') /\
  (outcome r = None -> Tiled.rows (Tiled.book w) < Tiled.rows (Tiled.book w')) /\
  Tiled.cols (Tiled.book w') = Tiled.cols (Tiled.book w) /\
  tilesAsked (Tiled.sent w')
  = tilesAsked (Tiled.sent w)
    ++ map (fun i => ("1", Itoa i, "0"))
           (seqZ (Tiled.rows (Tiled.book w) + 1)
                 (Tiled.rows (Tiled.book w') - Tiled.rows (Tiled.book w))) /\
  Tiled.files w' = Tiled.files w /\ Tiled.pdf w' = Tiled.pdf w /\
  Tiled.saved w' = Tiled.saved w.
Proof.
  induction fuel as [|fuel IH]; intros w Hlo Hhi.
  - cbn. rewrite Z.sub_diag, seqZ_nil, app_nil_r by lia.
    repeat split; (done || lia).
  - assert (Hadd : add (Tiled.rows (Tiled.book w)) 1
                   = Tiled.rows (Tiled.book w) + 1)
      by (unfold add; rewrite wrap_small; unfold minInt, maxInt in *; lia).
    rewrite tiled_findRows_step. cbn zeta.
    cbn [Tiled.rows Tiled.set_rows]. rewrite !Hadd.
    set (rq := Tiled.request GET _).
    assert (Hpg : page_of rq = "1") by by apply tiled_page_of_aimed.
    assert (Hro : row_of rq = Itoa (Tiled.rows (Tiled.book w) + 1))
      by apply tiled_row_of_aimed, Itoa_nonempty.
    assert (Hco : col_of rq = "0") by by apply tiled_col_of_aimed.
    assert (Hlog : tilesAsked (Tiled.sent w ++ [rq])
                   = tilesAsked (Tiled.sent w)
                     ++ [("1", Itoa (Tiled.rows (Tiled.book w) + 1), "0")])
      by (by rewrite tilesAsked_snoc, Hpg, Hro, Hco).
    destruct (tileOf (remote env (Tiled.sent w) rq)) as [im|].
    + match goal with
      | |- context [Tiled.findRows env fuel ?w2'] => set (w2 := w2')
      end.
      assert (H2 : Tiled.rows (Tiled.book w2) = Tiled.rows (Tiled.book w) + 1
                   /\ Tiled.cols (Tiled.book w2) = Tiled.cols (Tiled.book w)
                   /\ tilesAsked (Tiled.sent w2)
                      = tilesAsked (Tiled.sent w) ++ [("1", Itoa (Tiled.rows (Tiled.book w) + 1), "0")]
                   /\ Tiled.files w2 = Tiled.files w
                   /\ Tiled.pdf w2 = Tiled.pdf w
                   /\ Tiled.saved w2 = Tiled.saved w).
      { subst w2.
        cbn [Tiled.book Tiled.sent Tiled.files Tiled.pdf Tiled.saved
             TiledStep.fetched TiledStep.aimed Tiled.set_params
             Tiled.set_imgSize Tiled.rows Tiled.cols Tiled.set_rows
             Tiled.set_cols].
        fold rq. by rewrite Hlog. }
      clearbody w2. destruct H2 as (Hr2 & Hc2 & Hask2 & Hf2 & Hp2 & Hs2).
      specialize (IH w2). cbn zeta in IH.
      destruct IH as (Hle & Hlt & Hc & Hask & Hf & Hp & Hs); [lia|lia|].
      set (w' := final (Tiled.findRows env fuel w2)) in *.
      rewrite Hr2 in *. rewrite Hc2 in *. rewrite Hask2 in *.
      split; [lia|]. split; [intros _; lia|]. split; [done|].
      split; [|split; [congruence|split; congruence]].
      rewrite Hask, <- app_assoc. f_equal.
      rewrite (seqZ_cons (Tiled.rows (Tiled.book w) + 1)) by lia.
      cbn [map app]. f_equal. f_equal. f_equal; lia.
    + cbn [final outcome TiledStep.fetched Tiled.book Tiled.sent Tiled.files
             Tiled.pdf Tiled.saved TiledStep.aimed Tiled.set_params
             Tiled.rows Tiled.cols Tiled.set_rows].
      split; [lia|]. split; [intros _; lia|]. split; [done|].
      split; [|done]. fold rq. rewrite Hlog. f_equal.
      by replace (Tiled.rows (Tiled.book w) + 1 - Tiled.rows (Tiled.book w))
        with 1 by lia.
Qed.

Lemma tiled_findCols_any env fuel : forall w,
  -1 <= Tiled.cols (Tiled.book w) ->
  Tiled.cols (Tiled.book w) + Z.of_nat fuel <= maxInt ->
  let r := Tiled.findCols env fuel w in
  let w' := final r in
  Tiled.cols (Tiled.book w) <= Tiled.cols (Tiled.book w') /\
  (outcome r = None -> Tiled.cols (Tiled.book w) < Tiled.cols (Tiled.book w')) /\
  Tiled.rows (Tiled.book w') = Tiled.rows (Tiled.book w) /\
  tilesAsked (Tiled.sent w')
  = tilesAsked (Tiled.sent w)
    ++ map (fun i => ("1", "0", Itoa i))
           (seqZ (Tiled.cols (Tiled.book w) + 1)
                 (Tiled.cols (Tiled.book w') - Tiled.cols (Tiled.book w))) /\
  Tiled.files w' = Tiled.files w /\ Tiled.pdf w' = Tiled.pdf w /\
  Tiled.saved w' = Tiled.saved w.
Proof.
  induction fuel as [|fuel IH]; intros w Hlo Hhi.
  - cbn. rewrite Z.sub_diag, seqZ_nil, app_nil_r by lia.
    repeat split; (done || lia).
  - assert (Hadd : add (Tiled.cols (Tiled.book w)) 1
                   = Tiled.cols (Tiled.book w) + 1)
      by (unfold add; rewrite wrap_small; unfold minInt, maxInt in *; lia).
    rewrite tiled_findCols_step. cbn zeta.
    cbn [Tiled.cols Tiled.set_cols]. rewrite !Hadd.
    set (rq := Tiled.request GET _).
    assert (Hpg : page_of rq = "1") by by apply tiled_page_of_aimed.
    assert (Hro : row_of rq = "0") by by apply tiled_row_of_aimed.
    assert (Hco : col_of rq = Itoa (Tiled.cols (Tiled.book w) + 1))
      by apply tiled_col_of_aimed, Itoa_nonempty.
    assert (Hlog : tilesAsked (Tiled.sent w ++ [rq])
                   = tilesAsked (Tiled.sent w)
                     ++ [("1", "0", Itoa (Tiled.cols (Tiled.book w) + 1))])
      by (by rewrite tilesAsked_snoc, Hpg, Hro, Hco).
    destruct (tileOf (remote env (Tiled.sent w) rq)) as [im|].
    + match goal with
      | |- context [Tiled.findCols env fuel ?w2'] => set (w2 := w2')
      end.
      assert (H2 : Tiled.cols (Tiled.book w2) = Tiled.cols (Tiled.book w) + 1
                   /\ Tiled.rows (Tiled.book w2) = Tiled.rows (Tiled.book w)
                   /\ tilesAsked (Tiled.sent w2)
                      = tilesAsked (Tiled.sent w) ++ [("1", "0", Itoa (Tiled.cols (Tiled.book w) + 1))]
                   /\ Tiled.files w2 = Tiled.files w
                   /\ Tiled.pdf w2 = Tiled.pdf w
                   /\ Tiled.saved w2 = Tiled.saved w).
      { subst w2.
        cbn [Tiled.book Tiled.sent Tiled.files Tiled.pdf Tiled.saved
             TiledStep.fetched TiledStep.aimed Tiled.set_params
             Tiled.set_imgSize Tiled.rows Tiled.cols Tiled.set_rows
             Tiled.set_cols].
        fold rq. by rewrite Hlog. }
      clearbody w2. destruct H2 as (Hr2 & Hc2 & Hask2 & Hf2 & Hp2 & Hs2).
      specialize (IH w2). cbn zeta in IH.
      destruct IH as (Hle & Hlt & Hc & Hask & Hf & Hp & Hs); [lia|lia|].
      set (w' := final (Tiled.findCols env fuel w2)) in *.
      rewrite Hr2 in *. rewrite Hc2 in *. rewrite Hask2 in *.
      split; [lia|]. split; [intros _; lia|]. split; [done|].
      split; [|split; [congruence|split; congruence]].
      rewrite Hask, <- app_assoc. f_equal.
      rewrite (seqZ_cons (Tiled.cols (Tiled.book w) + 1)) by lia.
      cbn [map app]. f_equal. f_equal. f_equal; lia.
    + cbn [final outcome TiledStep.fetched Tiled.book Tiled.sent Tiled.files
             Tiled.pdf Tiled.saved TiledStep.aimed Tiled.set_params
             Tiled.rows Tiled.cols Tiled.set_cols].
      split; [lia|]. split; [intros _; lia|]. split; [done|].
      split; [|done]. fold rq. rewrite Hlog. f_equal.
      by replace (Tiled.cols (Tiled.book w) + 1 - Tiled.cols (Tiled.book w))
        with 1 by lia.
Qed.

(** X9. On any source, and wherever it ends, the grid prober of
    [NewBook] has asked for page 1 only: the rows 0..rows at column 0,
    once each and in order, then the columns 0..cols at row 0; that is
    rows + cols + 2 requests.  A prober that returns has found
    rows >= 0 and cols >= 0.  It touches neither a file nor the
    document.  (The loop bound is taken below the largest Go int, so
    that the counters do not wrap.) *)
Theorem grid_prober_any_source env fuel bookID len docType cookieValue
        cookieName disk :
  Z.of_nat fuel <= maxInt ->
  let r := Tiled.NewBook env fuel bookID len docType cookieValue cookieName
             disk in
  let b := Tiled.book (final r) in
  -1 <= Tiled.rows b /\ -1 <= Tiled.cols b /\
  (outcome r = None -> 0 <= Tiled.rows b /\ 0 <= Tiled.cols b) /\
  tilesAsked (Tiled.sent (final r))
  = map (fun i => ("1", Itoa i, "0")) (seqZ 0 (Tiled.rows b + 1))
    ++ map (fun i => ("1", "0", Itoa i)) (seqZ 0 (Tiled.cols b + 1)) /\
  Z.of_nat (List.length (Tiled.sent (final r))) = Tiled.rows b + Tiled.cols b + 2 /\
  Tiled.files (final r) = disk /\ Tiled.pdf (final r) = [] /\
  Tiled.saved (final r) = None.
Proof.
  intros Hfuel r b.
  assert (Hcount : forall w : Tiled.World,
    -1 <= Tiled.rows (Tiled.book w) -> -1 <= Tiled.cols (Tiled.book w) ->
    tilesAsked (Tiled.sent w)
    = map (fun i => ("1", Itoa i, "0")) (seqZ 0 (Tiled.rows (Tiled.book w) + 1))
      ++ map (fun i => ("1", "0", Itoa i))
             (seqZ 0 (Tiled.cols (Tiled.book w) + 1)) ->
    Z.of_nat (List.length (Tiled.sent w))
    = Tiled.rows (Tiled.book w) + Tiled.cols (Tiled.book w) + 2).
  { intros w Hr Hc Hask.
    assert (List.length (Tiled.sent w) = List.length (tilesAsked (Tiled.sent w)))
      as -> by (unfold tilesAsked; by rewrite length_map).
    rewrite Hask, length_app, !length_map, !length_seqZ. lia. }
  subst b.
  set (w0 := Tiled.mkWorld
               (Tiled.initBook bookID len docType cookieValue cookieName)
               [] disk [] None).
  assert (Hr : r = match Tiled.findRows env fuel w0 with
                   | Done _ w1 => Tiled.findCols env fuel w1
                   | Stop why w1 => Stop why w1
                   end) by reflexivity.
  clearbody r.
  pose proof (tiled_findRows_any env fuel w0) as Hrows. cbn zeta in Hrows.
  destruct Hrows as (Hle & Hlt & Hc & Hask & Hf & Hp & Hs);
    [cbn; lia|cbn; lia|].
  cbn in Hle, Hc, Hask, Hf, Hp, Hs.
  change (Tiled.rows (Tiled.book w0)) with (-1) in Hlt.
  change (-1 + 1) with 0 in Hask.
  replace (Tiled.rows (Tiled.book (final (Tiled.findRows env fuel w0))) - -1)
    with (Tiled.rows (Tiled.book (final (Tiled.findRows env fuel w0))) + 1)
    in Hask by lia.
  destruct (Tiled.findRows env fuel w0) as [[] w1|why w1].
  - cbn [final outcome] in *. specialize (Hlt eq_refl).
    pose proof (tiled_findCols_any env fuel w1) as Hcols. cbn zeta in Hcols.
    rewrite <- Hr in Hcols.
    destruct Hcols as (Hle' & Hlt' & Hr' & Hask' & Hf' & Hp' & Hs');
      [lia|lia|].
    rewrite Hc in Hask', Hle', Hlt'.
    replace (Tiled.cols (Tiled.book (final r)) - -1)
      with (Tiled.cols (Tiled.book (final r)) + 1) in Hask' by lia.
    change (-1 + 1) with 0 in Hask'.
    rewrite Hask in Hask'. rewrite <- Hr' in Hask'.
    split; [lia|]. split; [lia|].
    split; [intros Ho; specialize (Hlt' Ho); lia|].
    split; [exact Hask'|].
    split; [apply Hcount; (lia || done)|].
    split; [congruence|]. split; congruence.
  - subst r. cbn [final outcome] in *.
    split; [lia|]. split; [lia|]. split; [done|].
    assert (Hask1 : tilesAsked (Tiled.sent w1)
              = map (fun i => ("1", Itoa i, "0"))
                    (seqZ 0 (Tiled.rows (Tiled.book w1) + 1))
                ++ map (fun i => ("1", "0", Itoa i))
                       (seqZ 0 (Tiled.cols (Tiled.book w1) + 1))).
    { rewrite Hc. change (-1 + 1) with 0.
      by rewrite (seqZ_nil 0 0), app_nil_r by lia. }
    split; [exact Hask1|].
    split; [|done].
    apply Hcount; [lia|lia|exact Hask1].
Qed.

Lemma grid_prober_any_source_witness :
  let r := Tiled.NewBook (brokenPages 500) 10 "000123456" 1 "" "" "" ∅ in
  let b := Tiled.book (final r) in
  -1 <= Tiled.rows b /\ -1 <= Tiled.cols b /\
  (outcome r = None -> 0 <= Tiled.rows b /\ 0 <= Tiled.cols b) /\
  tilesAsked (Tiled.sent (final r))
  = map (fun i => ("1", Itoa i, "0")) (seqZ 0 (Tiled.rows b + 1))
    ++ map (fun i => ("1", "0", Itoa i)) (seqZ 0 (Tiled.cols b + 1)) /\
  Z.of_nat (List.length (Tiled.sent (final r))) = Tiled.rows b + Tiled.cols b + 2 /\
  Tiled.files (final r) = ∅ /\ Tiled.pdf (final r) = [] /\
  Tiled.saved (final r) = None.
Proof.
  apply (grid_prober_any_source (brokenPages 500) 10 "000123456" 1 "" "" "" ∅).
  unfold maxInt. lia.
Defined.

(** ** Pages without tiles *)

Import Blank.

Lemma tiled_downloadPage_no_rows env fuel p retry_ w :
  Tiled.rows (Tiled.book w) <= 0 ->
  let out := Join (Tiled.path (Tiled.book w)) (p +:+ ".jpg") in
  create_ok env out = true ->
  Tiled.downloadPage env (S fuel) p retry_ w
  = Done tt (Tiled.mkWorld (Tiled.book w) (Tiled.sent w)
               (<[out := blank (Tiled.book w)]> (Tiled.files w))
               (Tiled.pdf w) (Tiled.saved w)).
Proof.
  intros Hrows out Hc. unfold Tiled.downloadPage.
  unfold bind at 1, gets at 1. unfold bind at 1. cbn [Tiled.rowLoop].
  unfold bind at 1, gets at 1.
  assert ((0 <? Tiled.rows (Tiled.book w)) = false) as -> by lia.
  unfold ret at 1. unfold bind at 1, gets at 1. fold out. by rewrite Hc.
Qed.

Lemma blank_same b b' : Tiled.imgSize b' = Tiled.imgSize b -> blank b' = blank b.
Proof. unfold blank. by intros ->. Qed.

Lemma tiled_pdfLoop_sent fuel : forall page w,
  Tiled.sent (final (Tiled.pdfLoop fuel page w)) = Tiled.sent w.
Proof.
  induction fuel as [|fuel IH]; intros page w; [done|].
  cbn [Tiled.pdfLoop]. unfold bind at 1, gets at 1.
  destruct (page <=? _); [|done].
  unfold bind at 1. cbn [Tiled.pdfImage modify]. by rewrite IH.
Qed.

Section NoRows.
Context (env : Env).
Hypothesis Hcreate : forall n, create_ok env n = true.

Lemma tiled_pagesLoop_no_rows fuel : forall page retry_ w,
  let L := Tiled.length (Tiled.book w) in
  let dir := Tiled.path (Tiled.book w) in
  Tiled.rows (Tiled.book w) <= 0 ->
  1 <= page -> L < maxInt ->
  Z.max 0 (L - page + 1) + 2 <= Z.of_nat fuel ->
  exists w',
    Tiled.pagesLoop env fuel page retry_ w = Done tt w'
    /\ Tiled.sent w' = Tiled.sent w
    /\ steady w w'
    /\ (forall i, page <= i <= L ->
          Tiled.files w' !! pageFile dir "" i = Some (blank (Tiled.book w)))
    /\ (forall n, Tiled.files w !! n = Some (blank (Tiled.book w)) ->
                  Tiled.files w' !! n = Some (blank (Tiled.book w))).
Proof.
  induction fuel as [|fuel IH]; intros page retry_ w L dir Hrows Hpage HL Hfuel;
    [lia|].
  cbn [Tiled.pagesLoop]. unfold bind at 1, gets at 1. fold L.
  destruct (page <=? L) eqn:Hle.
  - apply Z.leb_le in Hle. unfold bind at 1.
    destruct fuel as [|fuel]; [lia|].
    rewrite tiled_downloadPage_no_rows by done.
    unfold bind at 1. cbn [Tiled.upd_book modify].
    assert (add page 1 = page + 1) as ->
      by (unfold add; rewrite wrap_small; unfold minInt, maxInt in *; lia).
    match goal with
    | |- context [Tiled.pagesLoop env (S fuel) (page + 1) retry_ ?w2'] =>
        set (w2 := w2')
    end.
    assert (Hst2 : steady w w2) by by repeat split.
    assert (Hb2 : blank (Tiled.book w2) = blank (Tiled.book w)) by done.
    destruct (IH (page + 1) retry_ w2) as (w' & -> & Hsent & Hst & Hpages & Hkeep);
      [done|lia|done|cbn; fold L; lia|].
    rewrite Hb2 in Hpages, Hkeep.
    exists w'. split; [done|]. split; [done|].
    split; [by eapply steady_trans|].
    split.
    + intros i Hi. destruct (decide (i = page)) as [->|Hne].
      * apply Hkeep. subst w2. cbn [Tiled.files].
        unfold pageFile. change ("" +:+ Itoa page +:+ ".jpg")
          with (Itoa page +:+ ".jpg").
        by rewrite lookup_insert_eq.
      * apply (Hpages i). cbn. fold L. lia.
    + intros n Hn. apply Hkeep. subst w2. cbn [Tiled.files].
      destruct (decide (Join (Tiled.path (Tiled.book w)) (Itoa page +:+ ".jpg")
                        = n)) as [->|Hne];
        [by rewrite lookup_insert_eq|by rewrite lookup_insert_ne].
  - apply Z.leb_gt in Hle. exists w. split; [done|]. split; [done|].
    split; [apply steady_refl|]. split; [intros; lia|done].
Qed.

(** The length search on a source where every request fails. *)
Lemma tiled_findBookLength_dead fuel w :
  allFail env ->
  exists w',
    Tiled.findBookLength env (3 + fuel) w = Done 0 w'
    /\ quiet w w'
    /\ List.length (Tiled.sent w') = (List.length (Tiled.sent w) + 3)%nat.
Proof.
  intros Hall. unfold Tiled.findBookLength.
  change (3 + fuel)%nat with (S (S (S fuel))).
  cbn [Tiled.findLoop]. rewrite tiled_fetch_eval, Hall.
  change (100 =? 1) with false. cbn iota.
  change (add (sub 100 100) (if div 100 10 <? 1 then 1 else div 100 10))
    with 10.
  change (if div 100 10 <? 1 then 1 else div 100 10) with 10.
  rewrite tiled_fetch_eval, Hall.
  change (10 =? 1) with false. cbn iota.
  change (add (sub 10 10) (if div 10 10 <? 1 then 1 else div 10 10)) with 1.
  change (if div 10 10 <? 1 then 1 else div 10 10) with 1.
  rewrite tiled_fetch_eval, Hall.
  change (1 =? 1) with true. cbn iota. change (sub 1 1) with 0.
  eexists. split; [reflexivity|]. split.
  - eapply quiet_trans; [apply quiet_fetched|].
    eapply quiet_trans; apply quiet_fetched.
  - cbn. rewrite !length_app. cbn. lia.
Qed.

Lemma tiled_downloadBook_no_rows fuel w :
  let L := Tiled.length (Tiled.book w) in
  let dir := Tiled.path (Tiled.book w) in
  Tiled.rows (Tiled.book w) <= 0 ->
  L <> 0 \/ allFail env ->
  L < maxInt ->
  Z.max 0 L + 4 <= Z.of_nat fuel ->
  exists w',
    Tiled.downloadBook env fuel w = Done tt w'
    /\ Z.of_nat (List.length (Tiled.sent w'))
       = Z.of_nat (List.length (Tiled.sent w)) + (if L =? 0 then 3 else 0)
    /\ Tiled.pdf w' = Tiled.pdf w ++ bookPages dir L
    /\ Forall (fun n => Tiled.files w' !! n = Some (blank (Tiled.book w)))
              (bookPages dir L)
    /\ Tiled.saved w' = Some (Tiled.id (Tiled.book w) +:+ ".pdf")
    /\ (output_ok env (Tiled.id (Tiled.book w) +:+ ".pdf") = true ->
        Tiled.files w' !! Clean (Tiled.id (Tiled.book w) +:+ ".pdf")
        = Some (Document (Tiled.pdf w ++ bookPages dir L))).
Proof.
  intros L dir Hrows Hlen HL Hfuel.
  unfold Tiled.downloadBook. unfold bind at 1, gets at 1. fold L.
  (* the length *)
  assert (exists w1,
    (if L =? 0
     then let* n := Tiled.findBookLength env fuel in
          Tiled.upd_book (Tiled.set_length n)
     else ret tt) w = Done tt w1
    /\ quiet w w1
    /\ Z.of_nat (List.length (Tiled.sent w1))
       = Z.of_nat (List.length (Tiled.sent w)) + (if L =? 0 then 3 else 0))
    as (w1 & Hrun1 & Hq1 & Hsent1).
  { destruct (L =? 0) eqn:HL0.
    - apply Z.eqb_eq in HL0. destruct Hlen as [Hne|Hall]; [done|].
      destruct fuel as [|[|[|fuel]]]; try lia.
      destruct (tiled_findBookLength_dead fuel w Hall) as (w1 & Hrun & Hq & Hs).
      change (3 + fuel)%nat with (S (S (S fuel))) in Hrun.
      unfold bind at 1. rewrite Hrun. cbn [Tiled.upd_book modify].
      eexists. split; [reflexivity|].
      destruct Hq as (?&?&?&?&?&Hlq&?&?&?&?).
      split; [repeat split; try done; cbn; fold L in Hlq; by rewrite HL0|].
      cbn [Tiled.sent]. rewrite Hs. lia.
    - exists w. split; [done|]. split; [apply quiet_refl|lia]. }
  unfold bind at 1. rewrite Hrun1.
  destruct Hq1 as (Hr1 & Hc1 & Hi1 & Ht1 & Hp1 & Hl1 & Hid1 & Hf1 & Hpdf1 & Hsv1).
  (* front cover *)
  destruct fuel as [|fuel]; [lia|].
  unfold bind at 1. rewrite tiled_downloadPage_no_rows by (done || lia).
  unfold bind at 1. cbn [Tiled.upd_book modify].
  unfold bind at 1, gets at 1. cbn [Tiled.book Tiled.set_retry Tiled.path].
  unfold bind at 1. cbn [Tiled.pdfImage modify].
  cbn [Tiled.book Tiled.sent Tiled.files Tiled.pdf Tiled.saved].
  (* numbered pages *)
  unfold bind at 1.
  match goal with
  | |- context [Tiled.pagesLoop env (S fuel) 1 2 ?w2'] => set (w2 := w2')
  end.
  assert (Hb2 : blank (Tiled.book w2) = blank (Tiled.book w))
    by (apply blank_same; exact Hi1).
  assert (HL2 : Tiled.length (Tiled.book w2) = L) by exact Hl1.
  assert (Hdir2 : Tiled.path (Tiled.book w2) = dir) by exact Hp1.
  destruct (tiled_pagesLoop_no_rows (S fuel) 1 2 w2)
    as (w3 & -> & Hsent3 & Hst3 & Hpages & Hkeep3);
    [cbn; lia|lia|rewrite HL2; lia|rewrite HL2; lia|].
  rewrite Hb2, HL2, Hdir2 in *.
  destruct Hst3 as (Hs1 & Hs2 & Hs3 & Hs4 & Hs5 & Hs6 & Hs7 & Hs8).
  assert (HL3 : Tiled.length (Tiled.book w3) = L) by (by rewrite Hs5).
  assert (Hdir3 : Tiled.path (Tiled.book w3) = dir) by (by rewrite Hs4).
  (* the numbered pages of the document *)
  unfold bind at 1.
  pose proof (tiled_pdfLoop_sent (S fuel) 1 w3) as Hsent4.
  destruct (tiled_pdfLoop_ends (S fuel) 1 w3)
    as (w4 & Hrun4 & Hpdf4 & Hb4 & Hf4 & Hsv4);
    [lia|rewrite HL3; lia|rewrite HL3; lia|].
  rewrite Hrun4 in *. cbn [final] in Hsent4.
  rewrite HL3, Hdir3 in Hpdf4.
  (* back cover *)
  unfold bind at 1.
  rewrite tiled_downloadPage_no_rows
    by (done || rewrite Hb4, Hs1; cbn; lia).
  unfold bind at 1. cbn [Tiled.pdfImage modify].
  change (Tiled.id (Tiled.set_retry 2 (Tiled.book w1)))
    with (Tiled.id (Tiled.book w1)).
  rewrite Hid1.
  set (name := Tiled.id (Tiled.book w) +:+ ".pdf").
  match goal with
  | |- context [Tiled.pdfOutput env name ?w6'] => set (w6 := w6')
  end.
  cut (Z.of_nat (List.length (Tiled.sent w6))
       = Z.of_nat (List.length (Tiled.sent w)) + (if L =? 0 then 3 else 0)
       /\ Tiled.pdf w6 = Tiled.pdf w ++ bookPages dir L
       /\ Forall (fun n => Tiled.files w6 !! n = Some (blank (Tiled.book w)))
                 (bookPages dir L)).
  { intros (H1 & H2 & H3).
    exists (final (Tiled.pdfOutput env name w6)). split; [reflexivity|].
    split; [exact H1|]. split; [exact H2|].
    split.
    { apply Forall_forall. intros n Hin.
      rewrite tiled_output_other;
        [by apply (proj1 (Forall_forall _ _) H3)|].
      destruct (bookPages_names _ _ _ Hin) as [p ->].
      apply Join_jpg_not_pdf. }
    split; [done|].
    intros Hok. by rewrite tiled_output_document, Hok, H2. }
  cbn [w6 Tiled.book Tiled.sent Tiled.files Tiled.pdf Tiled.saved].
  assert (Hb3 : blank (Tiled.book w3) = blank (Tiled.book w))
    by (rewrite <- Hb2; by apply blank_same).
  assert (Hout : forall n d,
    <[Join (Tiled.path (Tiled.book w4)) ("C3" +:+ ".jpg") := blank (Tiled.book w4)]>
      (Tiled.files w4) !! n = d <->
    <[Join dir "C3.jpg" := blank (Tiled.book w)]> (Tiled.files w3) !! n = d).
  { intros n d. by rewrite Hb4, Hdir3, Hf4, Hb3. }
  split; [rewrite Hsent4, Hsent3; exact Hsent1|].
  split.
  { rewrite Hpdf4, Hs7. subst w2. cbn [Tiled.pdf]. rewrite Hpdf1, Hp1.
    unfold bookPages. replace (L - 1 + 1) with L by lia.
    rewrite <- !app_assoc. done. }
  unfold bookPages. constructor.
  - apply Hout.
    rewrite lookup_insert_ne
      by (intros H; by apply (pageFile_inj dir "C3" "C1") in H).
    apply Hkeep3. subst w2. cbn [Tiled.files]. fold dir.
    rewrite Hp1. change (Join (Tiled.path (Tiled.book w)) ("C1" +:+ ".jpg"))
      with (Join dir "C1.jpg").
    rewrite lookup_insert_eq. f_equal. by apply blank_same.
  - apply Forall_app. split.
    + apply Forall_forall. intros n Hn. apply Hout.
      apply list_elem_of_In, in_map_iff in Hn as (i & <- & Hi).
      apply list_elem_of_In, elem_of_seqZ in Hi.
      destruct (decide (Join dir "C3.jpg" = pageFile dir "" i))
        as [->|Hne]; [by rewrite lookup_insert_eq|].
      rewrite lookup_insert_ne by done. apply Hpages. lia.
    + constructor; [|constructor]. apply Hout. by rewrite lookup_insert_eq.
Qed.

End NoRows.

(** The grid of a source where every request fails. *)
Lemma tiled_NewBook_dead env fuel bookID len docType cookieValue cookieName
      disk :
  allFail env ->
  exists w,
    Tiled.NewBook env (S fuel) bookID len docType cookieValue cookieName disk
    = Done tt w
    /\ Tiled.rows (Tiled.book w) = 0 /\ Tiled.cols (Tiled.book w) = 0
    /\ Tiled.imgSize (Tiled.book w) = (0, 0)
    /\ Tiled.length (Tiled.book w) = len
    /\ Tiled.path (Tiled.book w) = bookID +:+ "_temp_image_folder"
    /\ Tiled.id (Tiled.book w) = bookID
    /\ List.length (Tiled.sent w) = 2%nat
    /\ Tiled.files w = disk /\ Tiled.pdf w = [] /\ Tiled.saved w = None.
Proof.
  intros Hall. unfold Tiled.NewBook, Tiled.findRowsColsAndImgSize.
  unfold bind at 1. rewrite tiled_findRows_step. cbn zeta.
  unfold tileOf at 1. rewrite Hall.
  rewrite tiled_findCols_step. cbn zeta.
  unfold tileOf at 1. rewrite Hall.
  eexists. split; [reflexivity|]. by repeat split.
Qed.

Lemma constant_allFail status : status <> StatusOK -> allFail (constant status).
Proof.
  intros Hs h rq. cbn.
  by assert ((status =? StatusOK) = false) as -> by (unfold StatusOK in *; lia).
Qed.

(** X10. When every request fails -- whatever the status, 401
    included -- and files can be created, a tiled run does not fail: the
    prober finds an empty grid after one probe per direction, so no
    page is ever requested (three more probes search the length when
    none is given, and find 0); every page file is written as an empty
    raster; these len + 2 files, named as [filepath.Join] names them,
    are handed to the PDF writer, in order, and the writer is asked to
    save <book id>.pdf: when it can write, the document is made of
    these files. *)
Theorem tiled_dead_source_blank_book env fuel bookID len docType cookieValue
        cookieName disk :
  allFail env ->
  (forall n, create_ok env n = true) ->
  len < maxInt ->
  Z.max 0 len + 4 <= Z.of_nat fuel ->
  let r := Tiled.run env fuel bookID len docType cookieValue cookieName disk in
  let pages := bookPages (bookID +:+ "_temp_image_folder") len in
  outcome r = None /\
  Z.of_nat (List.length (Tiled.sent (final r))) = (if len =? 0 then 5 else 2) /\
  Tiled.pdf (final r) = pages /\
  Forall (fun n => Tiled.files (final r) !! n
                   = Some (Encoded (Img.NewRGBA (Img.Rect 0 0 0 0)))) pages /\
  Tiled.saved (final r) = Some (bookID +:+ ".pdf") /\
  (output_ok env (bookID +:+ ".pdf") = true ->
   Tiled.files (final r) !! Clean (bookID +:+ ".pdf")
   = Some (Document pages)).
Proof.
  intros Hall Hcreate Hlen Hfuel r pages.
  assert (exists w', r = Done tt w'
            /\ Z.of_nat (List.length (Tiled.sent w')) = (if len =? 0 then 5 else 2)
            /\ Tiled.pdf w' = pages
            /\ Forall (fun n => Tiled.files w' !! n
                         = Some (Encoded (Img.NewRGBA (Img.Rect 0 0 0 0)))) pages
            /\ Tiled.saved w' = Some (bookID +:+ ".pdf")
            /\ (output_ok env (bookID +:+ ".pdf") = true ->
                Tiled.files w' !! Clean (bookID +:+ ".pdf")
                = Some (Document pages)))
    as (w' & -> & Hrest); [|done].
  subst r pages. unfold Tiled.run.
  destruct fuel as [|fuel]; [lia|].
  destruct (tiled_NewBook_dead env fuel bookID len docType cookieValue
              cookieName disk Hall)
    as (w1 & -> & Hr & Hc & Hi & Hl & Hp & Hid & Hs & Hf & Hpdf & Hsv).
  destruct (tiled_downloadBook_no_rows env Hcreate (S fuel) w1)
    as (w' & -> & Hsent & Hpdf' & Hfiles & Hsaved & Hdoc);
    [lia|by right|rewrite Hl; lia|rewrite Hl; lia|].
  rewrite Hl, Hp in *. rewrite Hid in Hsaved, Hdoc. rewrite Hs in Hsent.
  rewrite Hpdf in Hpdf', Hdoc.
  exists w'. split; [done|].
  split; [rewrite Hsent; destruct (len =? 0); lia|].
  split; [done|]. split; [|done].
  unfold blank in Hfiles. by rewrite Hi in Hfiles.
Qed.

Lemma tiled_dead_source_blank_book_witness :
  let r := Tiled.run (constant StatusUnauthorized) 7 "000123456" 3 "" "" "" ∅ in
  let pages := bookPages ("000123456" +:+ "_temp_image_folder") 3 in
  outcome r = None /\
  Z.of_nat (List.length (Tiled.sent (final r))) = (if 3 =? 0 then 5 else 2) /\
  Tiled.pdf (final r) = pages /\
  Forall (fun n => Tiled.files (final r) !! n
                   = Some (Encoded (Img.NewRGBA (Img.Rect 0 0 0 0)))) pages /\
  Tiled.saved (final r) = Some ("000123456" +:+ ".pdf") /\
  (output_ok (constant StatusUnauthorized) ("000123456" +:+ ".pdf") = true ->
   Tiled.files (final r) !! Clean ("000123456" +:+ ".pdf")
   = Some (Document pages)).
Proof.
  apply (tiled_dead_source_blank_book (constant StatusUnauthorized) 7
           "000123456" 3 "" "" "" ∅).
  - apply constant_allFail. discriminate.
  - done.
  - unfold maxInt. lia.
  - lia.
Defined.

(** ** The attempts of the direct downloader *)

Section DirectAttempts.
Context (env : Env).
Hypothesis Hans : answered env.

Lemma direct_downloadPage_attempts_gen fuel : forall pageNr r_ w,
  pageNr <> "" ->
  -1 <= Direct.retry (Direct.book w) <= 2 ->
  Direct.retry (Direct.book w) + 2 <= Z.of_nat fuel ->
  let out := Join (Direct.path (Direct.book w)) (pageNr +:+ ".jpg") in
  exists w' (k : nat),
    Direct.downloadPage env fuel pageNr r_ w = Done tt w'
    /\ 1 <= Z.of_nat k <= Direct.retry (Direct.book w) + 2
    /\ asked (Direct.sent w')
       = asked (Direct.sent w) ++ repeat (GET, pageNr) k
    /\ DirectFrame.stable w w'
    /\ ((Direct.retry (Direct.book w') = 2
         /\ exists data, lastBody env w' pageNr data
                         /\ Direct.files w'
                            = <[out := Raw data]> (Direct.files w))
        \/ (Direct.retry (Direct.book w')
            = Direct.retry (Direct.book w) - (Z.of_nat k - 1)
            /\ (Direct.files w' = Direct.files w
                \/ Direct.files w' = <[out := Truncated]> (Direct.files w))))
    /\ (allFail env ->
        Direct.files w' = Direct.files w
        /\ Z.of_nat k = Direct.retry (Direct.book w) + 2
        /\ Direct.retry (Direct.book w') = -1)
    /\ (exists new, Direct.sent w' = Direct.sent w ++ new).
Proof.
  induction fuel as [|fuel IH]; intros pageNr r_ w Hne Hr Hfuel out; [lia|].
  cbn [Direct.downloadPage]. rewrite direct_fetch_eval.
  set (rq := Direct.request GET _).
  assert (Hp : page_of rq = pageNr) by by apply direct_page_of_aimed.
  set (w1 := DirectStep.fetched GET pageNr w).
  assert (Hask1 : asked (Direct.sent w1)
                  = asked (Direct.sent w) ++ [(GET, pageNr)]).
  { subst w1. unfold DirectStep.fetched. cbn [Direct.sent].
    rewrite asked_snoc. fold rq. by rewrite Hp. }
  destruct (success (remote env (Direct.sent w) rq)) as [resp|] eqn:Hs.
  - (* status 200 *)
    assert (Hno : ~ allFail env) by (intros Hall; by rewrite Hall in Hs).
    assert (Hone : forall w',
      Direct.sent w' = Direct.sent w1 -> DirectFrame.stable w1 w' ->
      (Direct.retry (Direct.book w') = 2
       /\ exists data, lastBody env w' pageNr data
                       /\ Direct.files w' = <[out := Raw data]> (Direct.files w))
      \/ (Direct.retry (Direct.book w') = Direct.retry (Direct.book w)
          /\ (Direct.files w' = Direct.files w
              \/ Direct.files w' = <[out := Truncated]> (Direct.files w))) ->
      exists w'' (k : nat), Done tt w' = Done tt w''
        /\ 1 <= Z.of_nat k <= Direct.retry (Direct.book w) + 2
        /\ asked (Direct.sent w'')
           = asked (Direct.sent w) ++ repeat (GET, pageNr) k
        /\ DirectFrame.stable w w''
        /\ ((Direct.retry (Direct.book w'') = 2
             /\ exists data, lastBody env w'' pageNr data
                             /\ Direct.files w''
                                = <[out := Raw data]> (Direct.files w))
            \/ (Direct.retry (Direct.book w'')
                = Direct.retry (Direct.book w) - (Z.of_nat k - 1)
                /\ (Direct.files w'' = Direct.files w
                    \/ Direct.files w''
                       = <[out := Truncated]> (Direct.files w))))
        /\ (allFail env ->
            Direct.files w'' = Direct.files w
            /\ Z.of_nat k = Direct.retry (Direct.book w) + 2
            /\ Direct.retry (Direct.book w'') = -1)
        /\ (exists new, Direct.sent w'' = Direct.sent w ++ new)).
    { intros w' Hsent Hst Hcase. exists w', 1%nat.
      split; [done|]. split; [lia|]. split; [by rewrite Hsent, Hask1|].
      split; [exact Hst|].
      split; [|split; [by intros Hall|exists [rq]; by rewrite Hsent]].
      destruct Hcase as [?|[? ?]]; [by left|right]. split; [lia|done]. }
    destruct (Body resp) as [data|] eqn:Hb.
    + unfold bind at 1, gets at 1.
      change (Join (Direct.path (Direct.book w1)) (pageNr +:+ ".jpg")) with out.
      destruct (create_ok env out) eqn:Hc; [destruct (write_ok env out)|].
      * apply Hone; [done|by repeat split|]. left. split; [done|].
        exists data. split; [|done].
        by exists (Direct.sent w), rq, resp.
      * apply Hone; [done|by repeat split|]. right. split; [done|by right].
      * apply Hone; [done|by repeat split|]. right. split; [done|by left].
    + apply Hone; [done|by repeat split|]. right. split; [done|by left].
  - (* a fault *)
    destruct (respOf (remote env (Direct.sent w) rq)) as [resp|] eqn:Hro;
      [|by destruct (Hans (Direct.sent w) rq eq_refl)].
    unfold bind at 1, gets at 1.
    change (Direct.retry (Direct.book w1)) with (Direct.retry (Direct.book w)).
    destruct (0 <=? Direct.retry (Direct.book w)) eqn:Hge.
    + apply Z.leb_le in Hge.
      unfold bind at 1. cbn [Direct.upd_book modify].
      unfold sub. rewrite wrap_small by (unfold minInt, maxInt; lia).
      match goal with
      | |- context [Direct.downloadPage env fuel pageNr r_ ?w2'] =>
          set (w2 := w2')
      end.
      destruct (IH pageNr r_ w2 Hne)
        as (w' & k & -> & Hk & Hask & Hst & Hcase & Hall & new & Hnew);
        [cbn; lia|cbn; lia|].
      cbn [w2 Direct.book Direct.retry Direct.set_retry Direct.path Direct.files
           Direct.sent] in Hk, Hask, Hcase, Hall, Hnew.
      change (Direct.path (Direct.book w1)) with (Direct.path (Direct.book w))
        in Hcase.
      change (Direct.files w1) with (Direct.files w) in Hcase, Hall.
      exists w', (S k). split; [done|]. split; [lia|].
      split.
      { rewrite Hask, Hask1. rewrite <- app_assoc. done. }
      split.
      { destruct Hst as (?&?&?&?&?). by repeat split. }
      split.
      { destruct Hcase as [?|[? ?]]; [by left|right]. split; [lia|done]. }
      split.
      { intros Hf. destruct (Hall Hf) as (? & ? & ?). split; [done|]. lia. }
      exists (rq :: new). rewrite Hnew. unfold w1, DirectStep.fetched.
      cbn [Direct.sent]. fold rq. by rewrite <- app_assoc.
    + apply Z.leb_gt in Hge.
      exists w1, 1%nat. split; [done|]. split; [lia|]. split; [done|].
      split; [by repeat split|].
      split; [right; split; [cbn; lia|by left]|].
      split; [|by exists [rq]].
      intros _. split; [done|]. cbn. lia.
Qed.

End DirectAttempts.

(** X11. In the direct downloader, with a source that answers every
    GET with some response and a budget [b.retry] between -1 and 2,
    [downloadPage] returns after k requests for the page, all alike,
    with 1 <= k <= b.retry + 2.  Either the last of them was answered
    with status 200, the page file holds the body of that answer and
    the budget is back at 2; or nothing but a truncated file is stored
    and each failed attempt but the last has taken one from the budget.
    When every request fails, k is b.retry + 2, no file changes and the
    budget is left at -1. *)
Theorem direct_page_attempts env fuel pageNr r_ w :
  answered env ->
  pageNr <> "" ->
  -1 <= Direct.retry (Direct.book w) <= 2 ->
  Direct.retry (Direct.book w) + 2 <= Z.of_nat fuel ->
  let out := Join (Direct.path (Direct.book w)) (pageNr +:+ ".jpg") in
  exists w' (k : nat),
    Direct.downloadPage env fuel pageNr r_ w = Done tt w'
    /\ 1 <= Z.of_nat k <= Direct.retry (Direct.book w) + 2
    /\ asked (Direct.sent w')
       = asked (Direct.sent w) ++ repeat (GET, pageNr) k
    /\ ((Direct.retry (Direct.book w') = 2
         /\ exists h rq resp data,
              Direct.sent w' = h ++ [rq]
              /\ success (remote env h rq) = Some resp
              /\ Body resp = Some data
              /\ Direct.files w' = <[out := Raw data]> (Direct.files w))
        \/ (Direct.retry (Direct.book w')
            = Direct.retry (Direct.book w) - (Z.of_nat k - 1)
            /\ (Direct.files w' = Direct.files w
                \/ Direct.files w' = <[out := Truncated]> (Direct.files w))))
    /\ (allFail env ->
        Direct.files w' = Direct.files w
        /\ Z.of_nat k = Direct.retry (Direct.book w) + 2
        /\ Direct.retry (Direct.book w') = -1).
Proof.
  intros Hans Hne Hr Hfuel out.
  destruct (direct_downloadPage_attempts_gen env Hans fuel pageNr r_ w Hne Hr
              Hfuel) as (w' & k & Hrun & Hk & Hask & _ & Hcase & Hall & _).
  exists w', k. do 3 (split; [done|]). split; [|done].
  destruct Hcase as [[Hr2 (data & (h & rq & resp & Hs & _ & _ & Hok & Hb) & Hf)]
                    |Hcase]; [left|by right].
  split; [done|]. by exists h, rq, resp, data.
Qed.

Lemma constant_answered status : answered (constant status).
Proof. by intros h rq _. Qed.

Lemma direct_page_attempts_witness :
  let w := Direct.mkWorld (Direct.NewBook "000123456" 1 "" []) [] ∅ [] None in
  let out := Join (Direct.path (Direct.book w)) ("C1" +:+ ".jpg") in
  exists w' (k : nat),
    Direct.downloadPage (constant 500) 4 "C1" 2 w = Done tt w'
    /\ 1 <= Z.of_nat k <= Direct.retry (Direct.book w) + 2
    /\ asked (Direct.sent w')
       = asked (Direct.sent w) ++ repeat (GET, "C1") k
    /\ ((Direct.retry (Direct.book w') = 2
         /\ exists h rq resp data,
              Direct.sent w' = h ++ [rq]
              /\ success (remote (constant 500) h rq) = Some resp
              /\ Body resp = Some data
              /\ Direct.files w' = <[out := Raw data]> (Direct.files w))
        \/ (Direct.retry (Direct.book w')
            = Direct.retry (Direct.book w) - (Z.of_nat k - 1)
            /\ (Direct.files w' = Direct.files w
                \/ Direct.files w' = <[out := Truncated]> (Direct.files w))))
    /\ (allFail (constant 500) ->
        Direct.files w' = Direct.files w
        /\ Z.of_nat k = Direct.retry (Direct.book w) + 2
        /\ Direct.retry (Direct.book w') = -1).
Proof.
  intros w.
  apply (direct_page_attempts (constant 500) 4 "C1" 2 w).
  - apply constant_answered.
  - discriminate.
  - cbn. lia.
  - cbn. lia.
Defined.

(** ** The direct downloader on a source where every request fails *)

Import Intro.

Lemma direct_pdfLoop_filter fuel pre last : forall i w,
  last < maxInt -> 1 <= i ->
  Z.max 0 (last - i + 1) + 1 <= Z.of_nat fuel ->
  exists w',
    Direct.pdfLoop fuel pre i last w = Done tt w'
    /\ Direct.sent w' = Direct.sent w
    /\ Direct.book w' = Direct.book w
    /\ Direct.files w' = Direct.files w
    /\ Direct.saved w' = Direct.saved w
    /\ Direct.pdf w'
       = Direct.pdf w
         ++ filter (fun n => is_Some (Direct.files w !! n))
                   (map (pageFile (Direct.path (Direct.book w)) pre)
                        (seqZ i (last - i + 1))).
Proof.
  induction fuel as [|fuel IH]; intros i w Hlast Hi Hfuel; [lia|].
  cbn [Direct.pdfLoop]. destruct (i <=? last) eqn:Hle.
  - apply Z.leb_le in Hle. unfold bind at 1, gets at 1. unfold bind at 1.
    cbn [Direct.pdfImageIfExists modify].
    unfold add. rewrite wrap_small by (unfold minInt, maxInt in *; lia).
    rewrite (seqZ_cons i (last - i + 1)) by lia. cbn [map].
    change (Z.succ i) with (i + 1).
    replace (Z.pred (last - i + 1)) with (last - (i + 1) + 1) by lia.
    fold (pageFile (Direct.path (Direct.book w)) pre i).
    destruct (Direct.files w !! pageFile (Direct.path (Direct.book w)) pre i)
      as [d|] eqn:Hd.
    + rewrite filter_cons_True by (by rewrite Hd).
      match goal with
      | |- context [Direct.pdfLoop fuel pre (i + 1) last ?w1] =>
          destruct (IH (i + 1) w1) as (w' & -> & Hs & Hb & Hf & Hsv & Hpdf);
            [done|lia|lia|]
      end.
      cbn in Hs, Hb, Hf, Hsv, Hpdf.
      exists w'. repeat (split; [done|]). by rewrite Hpdf, <- app_assoc.
    + rewrite filter_cons_False by (rewrite Hd; by intros [? ?]).
      destruct (IH (i + 1) w) as (w' & -> & Hs & Hb & Hf & Hsv & Hpdf);
        [done|lia|lia|].
      by exists w'.
  - apply Z.leb_gt in Hle. exists w. repeat (split; [done|]).
    rewrite seqZ_nil by lia. by rewrite app_nil_r.
Qed.

(** Building the document: the page files that exist, in order. *)
Lemma direct_pdf_phase env fuel (b : Direct.Book) ip w :
  let L := Direct.length (Direct.book w) in
  let dir := Direct.path (Direct.book w) in
  let name := Direct.id (Direct.book w) +:+ ".pdf" in
  Direct.path b = dir ->
  1 <= ip <= maxInt ->
  L < maxInt -> Z.max 0 L + ip + 1 <= Z.of_nat fuel ->
  exists w',
    (Direct.pdfImageIfExists (Join (Direct.path b) "C1.jpg") ;;
     Direct.pdfLoop fuel "I" 1 (sub ip 1) ;;
     let* b := gets Direct.book in
     Direct.pdfLoop fuel "" 1 (Direct.length b) ;;
     Direct.pdfImageIfExists (Join (Direct.path b) "C3.jpg") ;;
     Direct.pdfOutput env (Direct.id b +:+ ".pdf")) w = Done tt w'
    /\ Direct.sent w' = Direct.sent w
    /\ Direct.book w' = Direct.book w
    /\ Direct.files w'
       = (if output_ok env name
          then <[Clean name := Document (Direct.pdf w')]> (Direct.files w)
          else Direct.files w)
    /\ Direct.pdf w'
       = Direct.pdf w
         ++ filter (fun n => is_Some (Direct.files w !! n))
                   (docPages dir (ip - 1) L)
    /\ Direct.saved w' = Some name.
Proof.
  intros L dir name Hb Hip HL Hfuel. rewrite Hb.
  unfold bind at 1. cbn [Direct.pdfImageIfExists modify].
  assert (sub ip 1 = ip - 1) as ->
    by (unfold sub; rewrite wrap_small; unfold minInt, maxInt in *; lia).
  unfold bind at 1.
  set (w6 := match Direct.files w !! Join dir "C1.jpg" with
             | Some _ => _
             | None => w
             end).
  assert (H6 : Direct.sent w6 = Direct.sent w
               /\ Direct.book w6 = Direct.book w
               /\ Direct.files w6 = Direct.files w
               /\ Direct.pdf w6
                  = Direct.pdf w
                    ++ filter (fun n => is_Some (Direct.files w !! n))
                              [Join dir "C1.jpg"]).
  { subst w6. destruct (Direct.files w !! Join dir "C1.jpg") as [d|] eqn:Hd.
    - rewrite filter_cons_True by (by rewrite Hd). by cbn.
    - rewrite filter_cons_False by (rewrite Hd; by intros [? ?]).
      rewrite filter_nil, app_nil_r. by repeat split. }
  clearbody w6. destruct H6 as (Hs6 & Hb6 & Hf6 & Hpdf6).
  destruct (direct_pdfLoop_filter fuel "I" (ip - 1) 1 w6)
    as (w7 & -> & Hs7 & Hb7 & Hf7 & Hsv7 & Hpdf7);
    [unfold maxInt in *; lia|lia|lia|].
  replace (ip - 1 - 1 + 1) with (ip - 1) in Hpdf7 by lia.
  rewrite Hb6, Hf6 in Hpdf7. fold dir in Hpdf7.
  unfold bind at 1, gets at 1. unfold bind at 1.
  assert (HL7 : Direct.length (Direct.book w7) = L)
    by (unfold L; congruence).
  assert (Hdir7 : Direct.path (Direct.book w7) = dir)
    by (unfold dir; congruence).
  rewrite HL7.
  destruct (direct_pdfLoop_filter fuel "" L 1 w7)
    as (w8 & -> & Hs8 & Hb8 & Hf8 & Hsv8 & Hpdf8); [done|lia|lia|].
  rewrite Hdir7, Hf7, Hf6 in Hpdf8.
  replace (L - 1 + 1) with L in Hpdf8 by lia.
  assert (Hid7 : Direct.id (Direct.book w7) = Direct.id (Direct.book w))
    by congruence.
  unfold bind at 1. cbn [Direct.pdfImageIfExists Direct.pdfOutput modify].
  rewrite Hdir7, Hf8, Hf7, Hf6, Hid7. fold name.
  set (pages := filter (fun n => is_Some (Direct.files w !! n))
                       (docPages dir (ip - 1) L)).
  assert (Hpages : pages
    = filter (fun n => is_Some (Direct.files w !! n)) [Join dir "C1.jpg"]
      ++ filter (fun n => is_Some (Direct.files w !! n))
                (map (pageFile dir "I") (seqZ 1 (ip - 1)))
      ++ filter (fun n => is_Some (Direct.files w !! n))
                (map (pageFile dir "") (seqZ 1 L))
      ++ filter (fun n => is_Some (Direct.files w !! n)) [Join dir "C3.jpg"]).
  { subst pages. unfold docPages.
    change (Join dir "C1.jpg" :: ?l ++ ?l' ++ [Join dir "C3.jpg"])
      with ([Join dir "C1.jpg"] ++ l ++ l' ++ [Join dir "C3.jpg"]).
    by rewrite !filter_app. }
  destruct (Direct.files w !! Join dir "C3.jpg") as [d|] eqn:Hd.
  - eexists. split; [reflexivity|].
    cbn [Direct.files Direct.pdf Direct.sent Direct.saved Direct.book].
    split; [congruence|]. split; [congruence|].
    split; [by rewrite ?Hf8, ?Hf7, ?Hf6|].
    split; [|done].
    rewrite Hpages, Hpdf8, Hpdf7, Hpdf6.
    rewrite (filter_cons_True _ (Join dir "C3.jpg")) by (by rewrite Hd).
    by rewrite filter_nil, <- !app_assoc.
  - eexists. split; [reflexivity|].
    cbn [Direct.files Direct.pdf Direct.sent Direct.saved Direct.book].
    split; [congruence|]. split; [congruence|].
    split; [by rewrite ?Hf8, ?Hf7, ?Hf6|].
    split; [|done].
    rewrite Hpages, Hpdf8, Hpdf7, Hpdf6.
    rewrite (filter_cons_False _ (Join dir "C3.jpg"))
      by (rewrite Hd; by intros [? ?]).
    by rewrite filter_nil, app_nil_r, <- !app_assoc.
Qed.

Section DirectDead.
Context (env : Env).
Hypothesis Hans : answered env.
Hypothesis Hall : allFail env.

Lemma direct_findBookLength_dead fuel w :
  exists w',
    Direct.findBookLength env (3 + fuel) w = Done 0 w'
    /\ asked (Direct.sent w')
       = asked (Direct.sent w)
         ++ [(GET, Itoa 100); (GET, Itoa 10); (GET, Itoa 1)]
    /\ DirectFrame.stable w w'
    /\ Direct.files w' = Direct.files w
    /\ Direct.retry (Direct.book w') = Direct.retry (Direct.book w).
Proof.
  unfold Direct.findBookLength.
  change (3 + fuel)%nat with (S (S (S fuel))).
  cbn [Direct.findLoop]. rewrite direct_fetch_eval, Hall.
  change (100 =? 1) with false. cbn iota.
  change (add (sub 100 100) (if div 100 10 <? 1 then 1 else div 100 10))
    with 10.
  change (if div 100 10 <? 1 then 1 else div 100 10) with 10.
  rewrite direct_fetch_eval, Hall.
  change (10 =? 1) with false. cbn iota.
  change (add (sub 10 10) (if div 10 10 <? 1 then 1 else div 10 10)) with 1.
  change (if div 10 10 <? 1 then 1 else div 10 10) with 1.
  rewrite direct_fetch_eval, Hall.
  change (1 =? 1) with true. cbn iota. change (sub 1 1) with 0.
  eexists. split; [reflexivity|].
  split.
  { unfold DirectStep.fetched. cbn [Direct.sent Direct.book].
    rewrite !asked_snoc, !direct_page_of_aimed by apply Itoa_nonempty.
    by rewrite <- !app_assoc. }
  by repeat split.
Qed.

Lemma direct_pagesLoop_dead fuel : forall page w,
  let L := Direct.length (Direct.book w) in
  1 <= page -> L < maxInt ->
  Direct.retry (Direct.book w) = -1 ->
  Z.max 0 (L - page + 1) + 2 <= Z.of_nat fuel ->
  exists w',
    Direct.pagesLoop env fuel page w = Done tt w'
    /\ asked (Direct.sent w')
       = asked (Direct.sent w)
         ++ map (fun i => (GET, Itoa i)) (seqZ page (L - page + 1))
    /\ DirectFrame.stable w w'
    /\ Direct.files w' = Direct.files w
    /\ Direct.retry (Direct.book w') = -1.
Proof.
  induction fuel as [|fuel IH]; intros page w L Hp HL Hr Hfuel; [lia|].
  cbn [Direct.pagesLoop]. unfold bind at 1, gets at 1. fold L.
  destruct (page <=? L) eqn:Hle.
  - apply Z.leb_le in Hle. unfold bind at 1.
    destruct (direct_downloadPage_attempts_gen env Hans fuel (Itoa page)
                (Direct.retry (Direct.book w)) w)
      as (w1 & k & -> & Hk & Hask & Hst & _ & Hdead & _);
      [apply Itoa_nonempty|lia|lia|].
    destruct (Hdead Hall) as (Hf1 & Hk1 & Hr1).
    assert (k = 1%nat) as -> by lia.
    unfold add. rewrite wrap_small by (unfold minInt, maxInt in *; lia).
    destruct Hst as (Hid & Hlen & Hpath & Hpdf & Hsaved).
    destruct (IH (page + 1) w1) as (w2 & -> & Hask2 & Hst2 & Hf2 & Hr2);
      [lia|by rewrite Hlen|done|rewrite Hlen; fold L; lia|].
    exists w2. split; [done|].
    split.
    { rewrite Hask2, Hask, Hlen. fold L. cbn [repeat].
      rewrite (seqZ_cons page) by lia. cbn [map].
      change (Z.succ page) with (page + 1).
      replace (Z.pred (L - page + 1)) with (L - (page + 1) + 1) by lia.
      by rewrite <- app_assoc. }
    split; [eapply direct_stable_trans; [|exact Hst2]; by repeat split|].
    split; [congruence|done].
  - apply Z.leb_gt in Hle. exists w. split; [done|].
    rewrite seqZ_nil by lia. rewrite app_nil_r.
    split; [done|]. split; [apply direct_stable_refl|done].
Qed.

Lemma direct_downloadBook_dead fuel w :
  let L := Direct.length (Direct.book w) in
  let dir := Direct.path (Direct.book w) in
  L < maxInt ->
  -1 <= Direct.retry (Direct.book w) <= 2 ->
  Z.max 0 L + 6 <= Z.of_nat fuel ->
  exists w',
    Direct.downloadBook env fuel w = Done tt w'
    /\ Direct.files w'
       = (if output_ok env (Direct.id (Direct.book w) +:+ ".pdf")
          then <[Clean (Direct.id (Direct.book w) +:+ ".pdf")
                 := Document (Direct.pdf w')]> (Direct.files w)
          else Direct.files w)
    /\ Direct.pdf w'
       = Direct.pdf w
         ++ filter (fun n => is_Some (Direct.files w !! n)) (bookPages dir L)
    /\ asked (Direct.sent w')
       = asked (Direct.sent w)
         ++ (if L =? 0
             then [(GET, Itoa 100); (GET, Itoa 10); (GET, Itoa 1)] else [])
         ++ repeat (GET, "C1") (Z.to_nat (Direct.retry (Direct.book w) + 2))
         ++ [(HEAD, "I1")]
         ++ map (fun i => (GET, Itoa i)) (seqZ 1 L) ++ [(GET, "C3")]
    /\ Direct.retry (Direct.book w') = -1
    /\ Direct.saved w' = Some (Direct.id (Direct.book w) +:+ ".pdf").
Proof.
  intros L dir HL Hr Hfuel.
  unfold Direct.downloadBook. unfold bind at 1, gets at 1. fold L.
  (* the length *)
  assert (exists w1,
    (if L =? 0
     then let* n := Direct.findBookLength env fuel in
          Direct.upd_book (Direct.set_length n)
     else ret tt) w = Done tt w1
    /\ asked (Direct.sent w1)
       = asked (Direct.sent w)
         ++ (if L =? 0
             then [(GET, Itoa 100); (GET, Itoa 10); (GET, Itoa 1)] else [])
    /\ DirectFrame.stable w w1
    /\ Direct.files w1 = Direct.files w
    /\ Direct.retry (Direct.book w1) = Direct.retry (Direct.book w))
    as (w1 & Hrun1 & Hask1 & Hst1 & Hf1 & Hr1).
  { destruct (L =? 0) eqn:HL0.
    - apply Z.eqb_eq in HL0.
      destruct fuel as [|[|[|fuel]]]; try lia.
      destruct (direct_findBookLength_dead fuel w)
        as (w1 & Hrun & Hask & Hst & Hf & Hr1).
      change (3 + fuel)%nat with (S (S (S fuel))) in Hrun.
      unfold bind at 1. rewrite Hrun. cbn [Direct.upd_book modify].
      eexists. split; [reflexivity|]. split; [exact Hask|].
      destruct Hst as (?&?&?&?&?).
      split; [repeat split; try done; cbn; by rewrite HL0|]. by split.
    - exists w. split; [done|]. rewrite app_nil_r.
      split; [done|]. split; [apply direct_stable_refl|done]. }
  unfold bind at 1. rewrite Hrun1.
  destruct Hst1 as (Hid1 & Hlen1 & Hpath1 & Hpdf1 & Hsaved1).
  (* front cover *)
  unfold bind at 1, gets at 1. unfold bind at 1.
  destruct (direct_downloadPage_attempts_gen env Hans fuel "C1"
              (Direct.retry (Direct.book w1)) w1)
    as (w2 & k & -> & Hk & Hask2 & Hst2 & _ & Hdead2 & _);
    [done|lia|lia|].
  destruct (Hdead2 Hall) as (Hf2 & Hk2 & Hr2). clear Hdead2.
  assert (k = Z.to_nat (Direct.retry (Direct.book w) + 2)) as -> by lia.
  destruct Hst2 as (Hid2 & Hlen2 & Hpath2 & Hpdf2 & Hsaved2).
  (* no introduction page *)
  unfold bind at 1.
  destruct fuel as [|fuel]; [lia|].
  rewrite direct_introLoop_stop by apply Hall.
  set (w3 := DirectStep.fetched HEAD _ w2).
  (* numbered pages *)
  unfold bind at 1.
  destruct (direct_pagesLoop_dead (S fuel) 1 w3)
    as (w4 & -> & Hask4 & Hst4 & Hf4 & Hr4);
    [lia|cbn; rewrite Hlen2, Hlen1; fold L; lia|exact Hr2
    |cbn; rewrite Hlen2, Hlen1; fold L; lia|].
  change (Direct.length (Direct.book w3)) with (Direct.length (Direct.book w2))
    in Hask4.
  rewrite Hlen2, Hlen1 in Hask4. fold L in Hask4.
  replace (L - 1 + 1) with L in Hask4 by lia.
  destruct Hst4 as (Hid4 & Hlen4 & Hpath4 & Hpdf4 & Hsaved4).
  unfold w3 in Hid4, Hlen4, Hpath4, Hpdf4, Hsaved4, Hf4.
  cbn [DirectStep.fetched Direct.book Direct.files Direct.pdf Direct.saved
       DirectStep.aimed Direct.set_params Direct.id Direct.length Direct.path]
    in Hid4, Hlen4, Hpath4, Hpdf4, Hsaved4, Hf4.
  (* back cover *)
  unfold bind at 1, gets at 1. unfold bind at 1.
  destruct (direct_downloadPage_attempts_gen env Hans (S fuel) "C3"
              (Direct.retry (Direct.book w4)) w4)
    as (w5 & k & -> & Hk5 & Hask5 & Hst5 & _ & Hdead5 & _);
    [done|lia|lia|].
  destruct (Hdead5 Hall) as (Hf5 & Hk5' & Hr5). clear Hdead5.
  assert (k = 1%nat) as -> by lia.
  destruct Hst5 as (Hid5 & Hlen5 & Hpath5 & Hpdf5 & Hsaved5).
  assert (Hdir4 : Direct.path (Direct.book w4) = dir)
    by (unfold dir; congruence).
  assert (Hfiles5 : Direct.files w5 = Direct.files w) by congruence.
  assert (Hpdf5' : Direct.pdf w5 = Direct.pdf w) by congruence.
  (* the document *)
  destruct (direct_pdf_phase env (S fuel) (Direct.book w4) 1 w5)
    as (w6 & -> & Hs6 & Hb6 & Hf6 & Hpdf6 & Hsv6);
    [congruence|unfold maxInt; lia
    |rewrite Hlen5, Hlen4, Hlen2, Hlen1; fold L; lia
    |rewrite Hlen5, Hlen4, Hlen2, Hlen1; fold L; lia|].
  change (docPages ?d (1 - 1) ?l) with (bookPages d l) in Hpdf6.
  assert (Hid5' : Direct.id (Direct.book w5) = Direct.id (Direct.book w))
    by congruence.
  rewrite Hid5' in Hf6, Hsv6.
  exists w6. split; [done|].
  split; [by rewrite Hf6, Hfiles5|].
  split.
  { rewrite Hpdf6, Hpdf5', Hfiles5, Hpath5, Hdir4, Hlen5, Hlen4, Hlen2, Hlen1.
    done. }
  split.
  { rewrite Hs6, Hask5, Hask4. subst w3.
    unfold DirectStep.fetched. cbn [Direct.sent]. rewrite asked_snoc.
    rewrite direct_page_of_aimed by done. rewrite Hask2, Hask1.
    cbn [repeat]. by rewrite <- !app_assoc. }
  split; [congruence|]. exact Hsv6.
Qed.

End DirectDead.

(** X12. When every request fails with some response, a direct run
    still ends normally: the front cover is requested four times
    (after three probes for the length when none is given, which find
    0), I1 is probed once, and every page and the back cover once
    each, the budget being spent; no page file is written; the pages
    handed to the PDF writer are exactly those page files (named as
    [filepath.Join] names them), in order, that were in the folder
    before the run; and the writer is asked to save <book id>.pdf: the
    document of these stale pages is the one file that the run writes,
    when the writer can write it. *)
Theorem direct_dead_source_stale_document env fuel bookID len docType
        cookies disk :
  answered env -> allFail env ->
  len < maxInt ->
  Z.max 0 len + 6 <= Z.of_nat fuel ->
  let r := Direct.run env fuel bookID len docType cookies disk in
  let dir := bookID +:+ "_temp_image_folder" in
  outcome r = None /\
  Direct.files (final r)
  = (if output_ok env (bookID +:+ ".pdf")
     then <[Clean (bookID +:+ ".pdf") := Document (Direct.pdf (final r))]>
            disk
     else disk) /\
  Direct.pdf (final r)
  = filter (fun n => is_Some (disk !! n)) (bookPages dir len) /\
  asked (Direct.sent (final r))
  = (if len =? 0
     then [(GET, Itoa 100); (GET, Itoa 10); (GET, Itoa 1)] else [])
    ++ repeat (GET, "C1") 4 ++ [(HEAD, "I1")]
    ++ map (fun i => (GET, Itoa i)) (seqZ 1 len) ++ [(GET, "C3")] /\
  Direct.saved (final r) = Some (bookID +:+ ".pdf").
Proof.
  intros Hans Hall Hlen Hfuel r dir.
  assert (exists w', r = Done tt w'
    /\ Direct.files w'
       = (if output_ok env (bookID +:+ ".pdf")
          then <[Clean (bookID +:+ ".pdf") := Document (Direct.pdf w')]> disk
          else disk)
    /\ Direct.pdf w' = filter (fun n => is_Some (disk !! n)) (bookPages dir len)
    /\ asked (Direct.sent w')
       = (if len =? 0
          then [(GET, Itoa 100); (GET, Itoa 10); (GET, Itoa 1)] else [])
         ++ repeat (GET, "C1") 4 ++ [(HEAD, "I1")]
         ++ map (fun i => (GET, Itoa i)) (seqZ 1 len) ++ [(GET, "C3")]
    /\ Direct.saved w' = Some (bookID +:+ ".pdf"))
    as (w' & -> & Hrest); [|done].
  subst r. unfold Direct.run.
  match goal with
  | |- context [Direct.downloadBook env fuel ?w0] =>
      destruct (direct_downloadBook_dead env Hans Hall fuel w0)
        as (w' & -> & Hf & Hpdf & Hask & _ & Hsv);
        [cbn; lia|cbn; lia|cbn; lia|]
  end.
  exists w'. split; [done|]. by repeat split.
Qed.

Lemma direct_dead_source_stale_document_witness :
  let disk : gmap string FileData :=
    {["000123456_temp_image_folder/2.jpg" := Raw Junk]} in
  let r := Direct.run (constant 500) 9 "000123456" 3 "" [] disk in
  let dir := "000123456" +:+ "_temp_image_folder" in
  outcome r = None /\
  Direct.files (final r)
  = (if output_ok (constant 500) ("000123456" +:+ ".pdf")
     then <[Clean ("000123456" +:+ ".pdf")
            := Document (Direct.pdf (final r))]> disk
     else disk) /\
  Direct.pdf (final r)
  = filter (fun n => is_Some (disk !! n)) (bookPages dir 3) /\
  asked (Direct.sent (final r))
  = (if 3 =? 0
     then [(GET, Itoa 100); (GET, Itoa 10); (GET, Itoa 1)] else [])
    ++ repeat (GET, "C1") 4 ++ [(HEAD, "I1")]
    ++ map (fun i => (GET, Itoa i)) (seqZ 1 3) ++ [(GET, "C3")] /\
  Direct.saved (final r) = Some ("000123456" +:+ ".pdf").
Proof.
  intros disk.
  apply (direct_dead_source_stale_document (constant 500) 9 "000123456" 3 ""
           [] disk).
  - apply constant_answered.
  - apply constant_allFail. discriminate.
  - unfold maxInt. lia.
  - lia.
Defined.

(** ** The cost of a page of tiles *)

Section PageCost.
Context (env : Env).
Hypothesis Htame : tame env.

Lemma tiled_colLoop_cost fuel p row : forall col cv wd,
  0 <= col ->
  Tiled.cols (Tiled.book wd) <= maxInt ->
  -1 <= Tiled.retry (Tiled.book wd) <= 2 ->
  Z.max 0 (Tiled.cols (Tiled.book wd) - col)
    + Tiled.retry (Tiled.book wd) + 3 <= Z.of_nat fuel ->
  exists cv' wd',
    Tiled.colLoop env fuel p row col cv wd = Done cv' wd'
    /\ -1 <= Tiled.retry (Tiled.book wd') <= Tiled.retry (Tiled.book wd)
    /\ Z.of_nat (List.length (Tiled.sent wd'))
       = Z.of_nat (List.length (Tiled.sent wd))
         + Z.max 0 (Tiled.cols (Tiled.book wd) - col)
         + (Tiled.retry (Tiled.book wd) - Tiled.retry (Tiled.book wd'))
    /\ calm wd wd'.
Proof.
  induction fuel as [|fuel IH]; intros col cv wd Hcol Hmax Hretry Hfuel;
    [lia|].
  destruct (decide (col < Tiled.cols (Tiled.book wd))) as [Hlt|Hge].
  - set (rq := Tiled.request GET
                 (TiledStep.aimed p (Itoa col) (Itoa row) (Tiled.book wd))).
    set (wd1 := TiledStep.fetched p (Itoa col) (Itoa row) wd).
    assert (Hlen1 : Z.of_nat (List.length (Tiled.sent wd1))
                    = Z.of_nat (List.length (Tiled.sent wd)) + 1).
    { subst wd1. cbn. rewrite length_app. cbn. lia. }
    destruct (Htame (Tiled.sent wd) rq eq_refl) as [Hno Hdec].
    destruct (success (remote env (Tiled.sent wd) rq)) as [resp|] eqn:Hs.
    + (* the tile is served *)
      destruct (tileOf (remote env (Tiled.sent wd) rq)) as [t|] eqn:Ht;
        [|by destruct (Hdec resp)].
      rewrite (tiled_colLoop_paste env fuel p row col cv wd t Hlt Ht).
      assert (add col 1 = col + 1) as ->
        by (unfold add; rewrite wrap_small; unfold minInt, maxInt in *; lia).
      fold wd1.
      destruct (IH (col + 1) (pasted cv col (Tiled.cols (Tiled.book wd)) t) wd1)
        as (cv' & wd' & -> & Hr' & Hcost & Hcalm);
        [lia|done|done|cbn; lia|].
      cbn [wd1 TiledStep.fetched Tiled.book TiledStep.aimed Tiled.set_params
           Tiled.retry Tiled.cols] in Hr', Hcost.
      exists cv', wd'. split; [done|]. split; [done|].
      split; [rewrite Hcost, Hlen1; lia|].
      eapply calm_trans; [|exact Hcalm]. by repeat split.
    + (* a fault *)
      rewrite (tiled_colLoop_fault env fuel p row col cv wd Hlt Hs)
        by (intros resp Hr; by apply Hno).
      fold wd1.
      destruct (0 <=? Tiled.retry (Tiled.book wd)) eqn:Hge0.
      * apply Z.leb_le in Hge0.
        assert (add (sub col 1) 1 = col) as ->.
        { unfold add, sub. rewrite (wrap_small (col - 1))
            by (unfold minInt, maxInt in *; lia).
          rewrite wrap_small by (unfold minInt, maxInt in *; lia). lia. }
        assert (sub (Tiled.retry (Tiled.book wd)) 1
                = Tiled.retry (Tiled.book wd) - 1) as ->
          by (unfold sub; rewrite wrap_small; unfold minInt, maxInt; lia).
        match goal with
        | |- context [Tiled.colLoop env fuel p row col cv ?w2'] =>
            set (wd2 := w2')
        end.
        destruct (IH col cv wd2)
          as (cv' & wd' & -> & Hr' & Hcost & Hcalm);
          [done|done|cbn; lia|cbn; lia|].
        cbn [wd2 wd1 TiledStep.fetched Tiled.book TiledStep.aimed
             Tiled.set_params Tiled.set_retry Tiled.retry Tiled.cols
             Tiled.sent] in Hr', Hcost.
        exists cv', wd'. split; [done|]. split; [lia|].
        split.
        { rewrite Hcost. fold rq.
          change (Tiled.sent wd ++ [rq]) with (Tiled.sent wd1).
          rewrite Hlen1. lia. }
        eapply calm_trans; [|exact Hcalm]. by repeat split.
      * apply Z.leb_gt in Hge0.
        assert (add col 1 = col + 1) as ->
          by (unfold add; rewrite wrap_small; unfold minInt, maxInt in *; lia).
        destruct (IH (col + 1) cv wd1)
          as (cv' & wd' & -> & Hr' & Hcost & Hcalm);
          [lia|done|done|cbn; lia|].
        cbn [wd1 TiledStep.fetched Tiled.book TiledStep.aimed Tiled.set_params
             Tiled.retry Tiled.cols] in Hr', Hcost.
        exists cv', wd'. split; [done|]. split; [done|].
        split; [rewrite Hcost, Hlen1; lia|].
        eapply calm_trans; [|exact Hcalm]. by repeat split.
  - rewrite tiled_colLoop_end by lia.
    exists cv, wd. split; [done|]. split; [lia|].
    split; [lia|apply calm_refl].
Qed.

Lemma tiled_rowLoop_cost fuel p : forall row cv wd,
  0 <= row ->
  Tiled.rows (Tiled.book wd) <= maxInt ->
  Tiled.cols (Tiled.book wd) <= maxInt ->
  -1 <= Tiled.retry (Tiled.book wd) <= 2 ->
  Z.max 0 (Tiled.rows (Tiled.book wd) - row)
    + Z.max 0 (Tiled.cols (Tiled.book wd)) + 6 <= Z.of_nat fuel ->
  exists cv' wd',
    Tiled.rowLoop env fuel p row cv wd = Done cv' wd'
    /\ -1 <= Tiled.retry (Tiled.book wd') <= Tiled.retry (Tiled.book wd)
    /\ Z.of_nat (List.length (Tiled.sent wd'))
       = Z.of_nat (List.length (Tiled.sent wd))
         + Z.max 0 (Tiled.rows (Tiled.book wd) - row)
           * Z.max 0 (Tiled.cols (Tiled.book wd))
         + (Tiled.retry (Tiled.book wd) - Tiled.retry (Tiled.book wd'))
    /\ calm wd wd'.
Proof.
  induction fuel as [|fuel IH]; intros row cv wd Hrow HR HC Hretry Hfuel;
    [lia|].
  cbn [Tiled.rowLoop]. unfold bind at 1, gets at 1.
  destruct (row <? Tiled.rows (Tiled.book wd)) eqn:Hlt.
  - apply Z.ltb_lt in Hlt. unfold bind at 1.
    destruct (tiled_colLoop_cost fuel p row 0 cv wd)
      as (cv1 & wd1 & -> & Hr1 & Hcost1 & Hcalm1); [lia|done|done|lia|].
    assert (add row 1 = row + 1) as ->
      by (unfold add; rewrite wrap_small; unfold minInt, maxInt in *; lia).
    pose proof Hcalm1 as (Hq1 & Hq2 & _).
    destruct (IH (row + 1) cv1 wd1)
      as (cv2 & wd2 & -> & Hr2 & Hcost2 & Hcalm2);
      [lia|by rewrite Hq1|by rewrite Hq2|lia|rewrite Hq1, Hq2; lia|].
    exists cv2, wd2. split; [done|]. split; [lia|].
    split; [|by eapply calm_trans].
    rewrite Hcost2, Hcost1, Hq1, Hq2. rewrite Z.sub_0_r. nia.
  - apply Z.ltb_ge in Hlt.
    exists cv, wd. split; [done|]. split; [lia|].
    split; [|apply calm_refl].
    replace (Z.max 0 (Tiled.rows (Tiled.book wd) - row)) with 0 by lia. lia.
Qed.

Lemma tiled_downloadPage_cost fuel p retry_ wd :
  Tiled.rows (Tiled.book wd) <= maxInt ->
  Tiled.cols (Tiled.book wd) <= maxInt ->
  -1 <= Tiled.retry (Tiled.book wd) <= 2 ->
  Z.max 0 (Tiled.rows (Tiled.book wd))
    + Z.max 0 (Tiled.cols (Tiled.book wd)) + 6 <= Z.of_nat fuel ->
  exists wd',
    Tiled.downloadPage env fuel p retry_ wd = Done tt wd'
    /\ -1 <= Tiled.retry (Tiled.book wd') <= Tiled.retry (Tiled.book wd)
    /\ Z.of_nat (List.length (Tiled.sent wd'))
       = Z.of_nat (List.length (Tiled.sent wd))
         + Z.max 0 (Tiled.rows (Tiled.book wd))
           * Z.max 0 (Tiled.cols (Tiled.book wd))
         + (Tiled.retry (Tiled.book wd) - Tiled.retry (Tiled.book wd'))
    /\ steady wd wd'.
Proof.
  intros HR HC Hretry Hfuel.
  unfold Tiled.downloadPage. unfold bind at 1, gets at 1.
  set (cv0 := Tiled.mkCanvas _ 0 0). unfold bind at 1.
  destruct (tiled_rowLoop_cost fuel p 0 cv0 wd)
    as (cv & wd1 & -> & Hr1 & Hcost & Hcalm);
    [lia|done|done|done|rewrite Z.sub_0_r; lia|].
  rewrite Z.sub_0_r in Hcost. apply calm_steady in Hcalm.
  unfold bind at 1, gets at 1.
  destruct (create_ok env _).
  - eexists. split; [reflexivity|]. by cbn.
  - eexists. split; [reflexivity|]. by cbn.
Qed.

(** The numbered pages: each costs its tiles and at most three
    retries. *)
Lemma tiled_pagesLoop_cost fuel : forall page retry_ wd,
  let L := Tiled.length (Tiled.book wd) in
  let n := Z.max 0 (L - page + 1) in
  let T := Z.max 0 (Tiled.rows (Tiled.book wd))
           * Z.max 0 (Tiled.cols (Tiled.book wd)) in
  1 <= page -> L < maxInt ->
  Tiled.rows (Tiled.book wd) <= maxInt ->
  Tiled.cols (Tiled.book wd) <= maxInt ->
  -1 <= Tiled.retry (Tiled.book wd) <= 2 ->
  n + Z.max 0 (Tiled.rows (Tiled.book wd))
    + Z.max 0 (Tiled.cols (Tiled.book wd)) + 7 <= Z.of_nat fuel ->
  exists wd',
    Tiled.pagesLoop env fuel page retry_ wd = Done tt wd'
    /\ n * T <= Z.of_nat (List.length (Tiled.sent wd'))
                - Z.of_nat (List.length (Tiled.sent wd)) <= n * (T + 3)
    /\ -1 <= Tiled.retry (Tiled.book wd') <= 2
    /\ steady wd wd'.
Proof.
  induction fuel as [|fuel IH];
    intros page retry_ wd L n T Hpage HL HR HC Hretry Hfuel; [lia|].
  cbn [Tiled.pagesLoop]. unfold bind at 1, gets at 1. fold L.
  destruct (page <=? L) eqn:Hle.
  - apply Z.leb_le in Hle. unfold bind at 1.
    destruct (tiled_downloadPage_cost fuel (Itoa page) retry_ wd HR HC Hretry)
      as (wd1 & -> & Hr1 & Hcost1 & Hst1); [lia|].
    unfold bind at 1. cbn [Tiled.upd_book modify].
    assert (add page 1 = page + 1) as ->
      by (unfold add; rewrite wrap_small; unfold minInt, maxInt in *; lia).
    pose proof Hst1 as (Hq1 & Hq2 & Hq3 & Hq4 & Hq5 & _).
    match goal with
    | |- context [Tiled.pagesLoop env fuel (page + 1) retry_ ?w2'] =>
        set (wd2 := w2')
    end.
    assert (Hst2 : steady wd1 wd2) by by repeat split.
    assert (Hs2 : Tiled.sent wd2 = Tiled.sent wd1) by done.
    destruct (IH (page + 1) retry_ wd2)
      as (wd' & -> & Hcost' & Hr' & Hst');
      [lia|cbn; rewrite Hq5; fold L; lia|cbn; by rewrite Hq1
      |cbn; by rewrite Hq2|cbn; lia
      |cbn; rewrite Hq1, Hq2, Hq5; fold L; lia|].
    cbn [wd2 Tiled.book Tiled.set_retry Tiled.length Tiled.rows Tiled.cols]
      in Hcost'.
    rewrite Hq1, Hq2, Hq5 in Hcost'. fold L T in Hcost'. fold T in Hcost1.
    rewrite Hs2 in Hcost'.
    exists wd'. split; [done|].
    split; [|split; [done|]].
    + replace (Z.max 0 (L - (page + 1) + 1)) with (n - 1) in Hcost'
        by (unfold n; lia).
      nia.
    + eapply steady_trans; [exact Hst1|]. by eapply steady_trans.
  - apply Z.leb_gt in Hle. exists wd. split; [done|].
    replace n with 0 by (unfold n; lia).
    split; [lia|]. split; [done|apply steady_refl].
Qed.

Lemma tiled_downloadBook_cost fuel wd :
  let L := Tiled.length (Tiled.book wd) in
  let n := Z.max 0 L + 2 in
  let T := Z.max 0 (Tiled.rows (Tiled.book wd))
           * Z.max 0 (Tiled.cols (Tiled.book wd)) in
  L <> 0 -> L < maxInt ->
  Tiled.rows (Tiled.book wd) <= maxInt ->
  Tiled.cols (Tiled.book wd) <= maxInt ->
  -1 <= Tiled.retry (Tiled.book wd) <= 2 ->
  enough (Tiled.book wd) <= Z.of_nat fuel ->
  exists wd',
    Tiled.downloadBook env fuel wd = Done tt wd'
    /\ n * T <= Z.of_nat (List.length (Tiled.sent wd'))
                - Z.of_nat (List.length (Tiled.sent wd)) <= n * (T + 3).
Proof.
  intros L n T HL0 HL HR HC Hretry Hfuel. unfold enough in Hfuel.
  fold L in Hfuel.
  unfold Tiled.downloadBook. unfold bind at 1, gets at 1. fold L.
  assert ((L =? 0) = false) as -> by lia.
  unfold bind at 1, ret at 1.
  (* front cover *)
  unfold bind at 1.
  destruct (tiled_downloadPage_cost fuel "C1" 2 wd HR HC Hretry)
    as (wd1 & -> & Hr1 & Hcost1 & Hst1); [lia|].
  fold T in Hcost1.
  pose proof Hst1 as (Hq1 & Hq2 & Hq3 & Hq4 & Hq5 & Hq6 & Hq7 & Hq8).
  unfold bind at 1. cbn [Tiled.upd_book modify].
  unfold bind at 1, gets at 1. cbn [Tiled.book Tiled.set_retry Tiled.path].
  unfold bind at 1. cbn [Tiled.pdfImage modify].
  cbn [Tiled.book Tiled.sent Tiled.files Tiled.pdf Tiled.saved].
  (* numbered pages *)
  unfold bind at 1.
  match goal with
  | |- context [Tiled.pagesLoop env fuel 1 2 ?w2'] => set (wd2 := w2')
  end.
  assert (Hs2 : Tiled.sent wd2 = Tiled.sent wd1) by done.
  destruct (tiled_pagesLoop_cost fuel 1 2 wd2)
    as (wd3 & -> & Hcost3 & Hr3 & Hst3);
    [lia|cbn; rewrite Hq5; fold L; lia|cbn; by rewrite Hq1
    |cbn; by rewrite Hq2|cbn; lia
    |cbn; rewrite Hq1, Hq2, Hq5; fold L; lia|].
  cbn [wd2 Tiled.book Tiled.set_retry Tiled.length Tiled.rows Tiled.cols]
    in Hcost3.
  rewrite Hq1, Hq2, Hq5 in Hcost3. fold L T in Hcost3. rewrite Hs2 in Hcost3.
  replace (Z.max 0 (L - 1 + 1)) with (Z.max 0 L) in Hcost3 by lia.
  destruct Hst3 as (Hs1 & Hs2' & Hs3 & Hs4 & Hs5 & Hs6 & Hs7 & Hs8).
  cbn [wd2 Tiled.book Tiled.set_retry Tiled.length Tiled.rows Tiled.cols]
    in Hs1, Hs2', Hs5.
  (* the numbered pages of the document *)
  unfold bind at 1.
  pose proof (tiled_pdfLoop_sent fuel 1 wd3) as Hsent4.
  destruct (tiled_pdfLoop_ends fuel 1 wd3)
    as (wd4 & Hrun4 & Hpdf4 & Hb4 & Hf4 & Hsv4);
    [lia|rewrite Hs5, Hq5; fold L; lia|rewrite Hs5, Hq5; fold L; lia|].
  rewrite Hrun4 in *. cbn [final] in Hsent4.
  (* back cover *)
  unfold bind at 1.
  destruct (tiled_downloadPage_cost fuel "C3" 2 wd4)
    as (wd5 & -> & Hr5 & Hcost5 & Hst5);
    [rewrite Hb4, Hs1, Hq1; lia|rewrite Hb4, Hs2', Hq2; lia
    |by rewrite Hb4|rewrite Hb4, Hs1, Hs2', Hq1, Hq2; lia|].
  rewrite Hb4, Hs1, Hs2', Hq1, Hq2, Hsent4 in Hcost5. fold T in Hcost5.
  rewrite Hb4 in Hr5.
  unfold bind at 1. cbn [Tiled.pdfImage Tiled.pdfOutput modify].
  eexists. split; [reflexivity|].
  cbn [Tiled.sent]. unfold n. nia.
Qed.

End PageCost.

(** X13. In the tiled downloader, with a source that never answers a
    failed GET with 401 and whose successful answers are images,
    [downloadPage] returns having sent one request per tile of the
    grid and one more for every unit that it took from the retry
    budget: rows * cols + (budget before - budget after) requests, so
    at most rows * cols + b.retry + 1. *)
Theorem tiled_page_cost env fuel p retry_ wd :
  tame env ->
  Tiled.rows (Tiled.book wd) <= maxInt ->
  Tiled.cols (Tiled.book wd) <= maxInt ->
  -1 <= Tiled.retry (Tiled.book wd) <= 2 ->
  Z.max 0 (Tiled.rows (Tiled.book wd))
    + Z.max 0 (Tiled.cols (Tiled.book wd)) + 6 <= Z.of_nat fuel ->
  exists wd',
    Tiled.downloadPage env fuel p retry_ wd = Done tt wd'
    /\ -1 <= Tiled.retry (Tiled.book wd') <= Tiled.retry (Tiled.book wd)
    /\ Z.of_nat (List.length (Tiled.sent wd'))
       = Z.of_nat (List.length (Tiled.sent wd))
         + Z.max 0 (Tiled.rows (Tiled.book wd))
           * Z.max 0 (Tiled.cols (Tiled.book wd))
         + (Tiled.retry (Tiled.book wd) - Tiled.retry (Tiled.book wd')).
Proof.
  intros Htame HR HC Hretry Hfuel.
  destruct (tiled_downloadPage_cost env Htame fuel p retry_ wd HR HC Hretry
              Hfuel) as (wd' & Hrun & Hr & Hcost & _).
  by exists wd'.
Qed.

Lemma tiled_page_cost_witness :
  let wd := Tiled.mkWorld
              (Tiled.set_imgSize (2048, 1024)
                 (Tiled.set_cols 2
                    (Tiled.set_rows 1
                       (Tiled.initBook "000123456" 1 "" "" ""))))
              [] ∅ [] None in
  exists wd',
    Tiled.downloadPage (brokenPages 500) 12 "C1" 2 wd = Done tt wd'
    /\ -1 <= Tiled.retry (Tiled.book wd') <= Tiled.retry (Tiled.book wd)
    /\ Z.of_nat (List.length (Tiled.sent wd'))
       = Z.of_nat (List.length (Tiled.sent wd))
         + Z.max 0 (Tiled.rows (Tiled.book wd))
           * Z.max 0 (Tiled.cols (Tiled.book wd))
         + (Tiled.retry (Tiled.book wd) - Tiled.retry (Tiled.book wd')).
Proof.
  intros wd.
  apply (tiled_page_cost (brokenPages 500) 12 "C1" 2 wd brokenPages_tame);
    [unfold maxInt; cbn; lia|unfold maxInt; cbn; lia|cbn; lia|cbn; lia].
Defined.

(** X14. In the tiled downloader, with a source that never answers a
    failed GET with 401 and whose successful answers are images, and a
    given length L (not 0), [downloadBook] returns having sent at
    least rows * cols requests for each of its L + 2 pages and at most
    three more for each of them: the budget of two retries, taken back
    to 2 after every page, allows three repeated requests a page. *)
Theorem tiled_book_cost env fuel wd :
  tame env ->
  let b := Tiled.book wd in
  let n := Z.max 0 (Tiled.length b) + 2 in
  let T := Z.max 0 (Tiled.rows b) * Z.max 0 (Tiled.cols b) in
  Tiled.length b <> 0 -> Tiled.length b < maxInt ->
  Tiled.rows b <= maxInt -> Tiled.cols b <= maxInt ->
  -1 <= Tiled.retry b <= 2 ->
  enough b <= Z.of_nat fuel ->
  exists wd',
    Tiled.downloadBook env fuel wd = Done tt wd'
    /\ n * T <= Z.of_nat (List.length (Tiled.sent wd'))
                - Z.of_nat (List.length (Tiled.sent wd)) <= n * (T + 3).
Proof.
  intros Htame b n T HL0 HL HR HC Hretry Hfuel.
  by apply tiled_downloadBook_cost.
Qed.

Lemma tiled_book_cost_witness :
  let wd := Tiled.mkWorld
              (Tiled.set_imgSize (2048, 1024)
                 (Tiled.set_cols 2
                    (Tiled.set_rows 1
                       (Tiled.initBook "000123456" 1 "" "" ""))))
              [] ∅ [] None in
  let b := Tiled.book wd in
  let n := Z.max 0 (Tiled.length b) + 2 in
  let T := Z.max 0 (Tiled.rows b) * Z.max 0 (Tiled.cols b) in
  exists wd',
    Tiled.downloadBook (brokenPages 500) 12 wd = Done tt wd'
    /\ n * T <= Z.of_nat (List.length (Tiled.sent wd'))
                - Z.of_nat (List.length (Tiled.sent wd)) <= n * (T + 3).
Proof.
  intros wd.
  apply (tiled_book_cost (brokenPages 500) 12 wd brokenPages_tame);
    [done|unfold maxInt; cbn; lia|unfold maxInt; cbn; lia
    |unfold maxInt; cbn; lia|cbn; lia|vm_compute; discriminate].
Defined.

(** ** The cookie string of the direct downloader *)

Import Cookies.

Lemma Split_nonempty sep s : Split sep s <> [].
Proof.
  destruct s as [|c s]; [done|]. cbn.
  destruct (Ascii.eqb c sep); [done|]. by destruct (Split sep s).
Qed.

Lemma Split_app sep a b :
  Split sep (a +:+ String sep b) = Split sep a ++ Split sep b.
Proof.
  induction a as [|c a IH].
  - change ("" +:+ String sep b) with (String sep b). cbn.
    by rewrite Ascii.eqb_refl.
  - change (String c a +:+ String sep b) with (String c (a +:+ String sep b)).
    cbn [Split]. rewrite IH.
    destruct (Ascii.eqb c sep); [done|].
    pose proof (Split_nonempty sep a).
    by destruct (Split sep a).
Qed.

Lemma Split_one sep s : has sep s = false -> Split sep s = [s].
Proof.
  induction s as [|c s IH]; [done|]. cbn.
  intros [Hc Hs]%orb_false_iff. rewrite Hc. by rewrite IH.
Qed.

Lemma cut_first sep n v :
  has sep n = false -> cut sep (n +:+ String sep v) = Some (n, v).
Proof.
  induction n as [|c n IH].
  - intros _. change ("" +:+ String sep v) with (String sep v). cbn.
    by rewrite Ascii.eqb_refl.
  - change (String c n +:+ String sep v) with (String c (n +:+ String sep v)).
    cbn. intros [Hc Hn]%orb_false_iff. rewrite Hc. by rewrite IH.
Qed.

Lemma cut_none sep s : has sep s = false -> cut sep s = None.
Proof.
  induction s as [|c s IH]; [done|]. cbn.
  intros [Hc Hs]%orb_false_iff. rewrite Hc. by rewrite IH.
Qed.

Section ParseFacts.
Context (TrimSpace : string -> string).

Local Abbreviation parse := (parseCookiesString TrimSpace).
Local Abbreviation loop := (pairsLoop TrimSpace).

Lemma pairsLoop_acc l : forall acc, loop l acc = acc ++ loop l [].
Proof.
  induction l as [|seg l IH]; intros acc; [by rewrite app_nil_r|].
  cbn [pairsLoop]. destruct (String.eqb (TrimSpace seg) ""); [apply IH|].
  destruct (SplitN2 "=" (TrimSpace seg)) as [|a [|b [|c l']]]; try apply IH.
  rewrite IH, (IH ([] ++ _)). by rewrite <- app_assoc.
Qed.

Lemma pairsLoop_app l1 l2 : loop (l1 ++ l2) [] = loop l1 [] ++ loop l2 [].
Proof.
  induction l1 as [|seg l1 IH]; [done|].
  cbn [pairsLoop app]. destruct (String.eqb (TrimSpace seg) ""); [apply IH|].
  destruct (SplitN2 "=" (TrimSpace seg)) as [|a [|b [|c l']]]; try apply IH.
  rewrite pairsLoop_acc, (pairsLoop_acc l1 (_ :: _)), IH.
  by rewrite <- app_assoc.
Qed.

Lemma parse_loop s : s <> "" -> parse s = loop (Split ";" s) [].
Proof.
  intros Hs. unfold parseCookiesString.
  apply String.eqb_neq in Hs. by rewrite Hs.
Qed.

Lemma parse_app a b :
  (a = "" \/ b = "" -> TrimSpace "" = "") ->
  parse (a +:+ ";" +:+ b) = parse a ++ parse b.
Proof.
  intros Hempty.
  change (a +:+ ";" +:+ b) with (a +:+ String ";" b).
  rewrite parse_loop by (by destruct a).
  rewrite Split_app, pairsLoop_app.
  assert (Hseg : forall s, (s = "" -> TrimSpace "" = "") ->
                           loop (Split ";" s) [] = parse s).
  { intros s Hs. destruct (decide (s = "")) as [->|Hne];
      [|by rewrite parse_loop].
    cbn. by rewrite Hs. }
  rewrite !Hseg; [done|auto|auto].
Qed.

Lemma parse_pair s n v :
  s <> "" ->
  has ";" s = false -> TrimSpace s = n +:+ "=" +:+ v -> has "=" n = false ->
  parse s = [mkCookie n v "/"].
Proof.
  intros Hne Hs Ht Hn.
  rewrite parse_loop, Split_one by done. cbn [pairsLoop]. rewrite Ht.
  assert (String.eqb (n +:+ "=" +:+ v) "" = false) as -> by by destruct n.
  unfold SplitN2. change (n +:+ "=" +:+ v) with (n +:+ String "=" v).
  by rewrite cut_first.
Qed.

Lemma parse_no_pair s :
  has ";" s = false -> has "=" (TrimSpace s) = false -> parse s = [].
Proof.
  intros Hs Ht. unfold parseCookiesString.
  destruct (String.eqb s ""); [done|].
  rewrite Split_one by done. cbn [pairsLoop].
  destruct (String.eqb (TrimSpace s) ""); [done|].
  unfold SplitN2. by rewrite cut_none.
Qed.

End ParseFacts.

Lemma render_cons n v q rest :
  render ((n, v) :: q :: rest)
  = (n +:+ "=" +:+ v) +:+ String ";" (" " +:+ render (q :: rest)).
Proof.
  change (render ((n, v) :: q :: rest))
    with (n +:+ "=" +:+ v +:+ "; " +:+ render (q :: rest)).
  rewrite append_assoc.
  change (("=" +:+ v) +:+ String ";" (" " +:+ render (q :: rest)))
    with ("=" +:+ (v +:+ String ";" (" " +:+ render (q :: rest)))).
  done.
Qed.

Lemma render_pairs TrimSpace : forall pairs pre,
  pairs <> [] -> pre = "" \/ pre = " " ->
  Forall (plainPair TrimSpace) pairs ->
  pairsLoop TrimSpace (Split ";" (pre +:+ render pairs)) []
  = map toCookie pairs.
Proof.
  induction pairs as [|[n v] pairs IH]; intros pre Hne Hpre Hall; [done|].
  apply Forall_cons in Hall as [(Hn1 & Hn2 & Hv & Ht & Ht') Hall].
  cbn [fst snd] in *.
  assert (Hseg : has ";" (pre +:+ n +:+ "=" +:+ v) = false).
  { rewrite !has_app, Hn2, Hv. by destruct Hpre as [-> | ->]. }
  assert (Htrim : TrimSpace (pre +:+ n +:+ "=" +:+ v) = n +:+ "=" +:+ v)
    by (by destruct Hpre as [-> | ->]).
  assert (Hone : pairsLoop TrimSpace [pre +:+ n +:+ "=" +:+ v] []
                 = [toCookie (n, v)]).
  { cbn [pairsLoop]. rewrite Htrim.
    assert (String.eqb (n +:+ "=" +:+ v) "" = false) as -> by by destruct n.
    unfold SplitN2. change (n +:+ "=" +:+ v) with (n +:+ String "=" v).
    by rewrite cut_first. }
  destruct pairs as [|q rest].
  - cbn [render map]. by rewrite Split_one.
  - rewrite render_cons, <- append_assoc, Split_app, pairsLoop_app.
    rewrite Split_one by done. rewrite Hone.
    rewrite (IH " "); [done|done|by right|done].
Qed.

(** X15. [parseCookiesString] works segment by segment ([TrimSpace]
    being any function that leaves the empty string empty): the
    cookies of a;b are those of a followed by those of b; a segment
    whose trimmed form has no '=' gives no cookie; and a segment whose
    trimmed form is n=v, n without '=', gives the one cookie with name
    n, value v and path "/" -- whatever v is, an '=' inside it
    included. *)
Theorem parseCookiesString_by_segment (TrimSpace : string -> string) :
  TrimSpace "" = "" ->
  (forall a b,
     parseCookiesString TrimSpace (a +:+ ";" +:+ b)
     = parseCookiesString TrimSpace a ++ parseCookiesString TrimSpace b) /\
  (forall s,
     has ";" s = false -> has "=" (TrimSpace s) = false ->
     parseCookiesString TrimSpace s = []) /\
  (forall s n v,
     s <> "" -> has ";" s = false ->
     TrimSpace s = n +:+ "=" +:+ v -> has "=" n = false ->
     parseCookiesString TrimSpace s = [mkCookie n v "/"]).
Proof.
  intros Hempty. split; [|split].
  - intros a b. by apply parse_app.
  - apply parse_no_pair.
  - apply parse_pair.
Qed.

Lemma parseCookiesString_by_segment_witness :
  (forall a b,
     parseCookiesString trimBlanks (a +:+ ";" +:+ b)
     = parseCookiesString trimBlanks a ++ parseCookiesString trimBlanks b) /\
  (forall s,
     has ";" s = false -> has "=" (trimBlanks s) = false ->
     parseCookiesString trimBlanks s = []) /\
  (forall s n v,
     s <> "" -> has ";" s = false ->
     trimBlanks s = n +:+ "=" +:+ v -> has "=" n = false ->
     parseCookiesString trimBlanks s = [mkCookie n v "/"]).
Proof. apply (parseCookiesString_by_segment trimBlanks). reflexivity. Defined.

(** X16. The cookie string of the usage text is read back as it was
    written: for pairs whose names hold no '=' and no ';', whose
    values hold no ';', and which [TrimSpace] leaves alone but for the
    blank after a ';', [parseCookiesString] of
    name1=value1; name2=value2; ... returns the cookies (name_i,
    value_i, "/") in order. *)
Theorem parseCookiesString_round_trip (TrimSpace : string -> string) pairs :
  Forall (plainPair TrimSpace) pairs ->
  parseCookiesString TrimSpace (render pairs) = map toCookie pairs.
Proof.
  intros Hall. destruct pairs as [|[n v] rest]; [done|].
  rewrite parse_loop.
  - by apply (render_pairs TrimSpace ((n, v) :: rest) "");
      [|left|].
  - destruct rest; cbn [render]; by destruct n.
Qed.

Lemma parseCookiesString_round_trip_witness :
  parseCookiesString trimBlanks
    (render [("JSESSIONID", "abc=="); ("theme", "dark")])
  = map toCookie [("JSESSIONID", "abc=="); ("theme", "dark")].
Proof.
  apply (parseCookiesString_round_trip trimBlanks).
  repeat constructor.
Defined.

(** ** The pages that a direct run settles *)

Import Shelf.

Lemma anyPage_no_slash p : anyPage p -> has "/" p = false.
Proof.
  intros [[->|[->|[j ->]]]|[n ->]]; try done.
  - apply Itoa_no_slash.
  - change ("I" +:+ Itoa n) with (String "I" (Itoa n)). cbn [has].
    apply Itoa_no_slash.
Qed.

Lemma app_split_later {A} (x : A) rest : forall l new h,
  l ++ new = h ++ x :: rest -> (List.length l <= List.length h)%nat ->
  In x new.
Proof.
  induction l as [|a l IH]; intros new h H Hlen.
  - cbn in H. subst new. apply in_elt.
  - destruct h as [|b h]; [cbn in Hlen; lia|].
    cbn in H. injection H as _ H. apply (IH new h H). cbn in Hlen. lia.
Qed.

Lemma asked_later l new X :
  asked (l ++ new) = asked l ++ X -> asked new = X.
Proof.
  unfold asked. rewrite map_app. by intros H%app_inv_head.
Qed.

(** A settled page stays settled while the run asks for other
    pages. *)
Lemma direct_settled_kept env w w' p X :
  DirectSession.within env w w' ->
  asked (Direct.sent w') = asked (Direct.sent w) ++ X ->
  Forall (fun a => a.2 <> p) X ->
  has "/" p = false ->
  settled env w p -> settled env w' p.
Proof.
  intros (Hsame & _ & (new & Hsent & Hnew) & _ & Hkeep & Hrec & _) Hask HX Hp
         (h & rq & rest & Hs & Hm & Hpg & Hrest & Hfile).
  assert (Hnewp : Forall (fun q => page_of q <> p) new).
  { rewrite Hsent in Hask. apply asked_later in Hask. subst X.
    unfold asked in HX. by rewrite List.Forall_map in HX. }
  destruct Hsame as (_ & Hpath & _).
  exists h, rq, (rest ++ new).
  split; [by rewrite Hsent, Hs, <- app_assoc|]. split; [done|].
  split; [done|]. split; [by apply Forall_app|].
  intros resp data Hok Hb Hw. rewrite Hpath in *.
  specialize (Hfile resp data Hok Hb Hw).
  destruct (Hkeep _ (mk_is_Some _ _ Hfile)) as [d Hd].
  destruct (Hrec _ _ Hd)
    as [H0|(p' & h' & rq' & rest' & resp' & data' & Hn & Hs' & Hlen & Hm'
            & Hp' & _)]; [congruence|].
  exfalso.
  assert (Hin : In rq' new)
    by (eapply app_split_later; [rewrite <- Hsent; exact Hs'|done]).
  apply list_elem_of_In in Hin.
  rewrite Forall_forall in Hnewp, Hnew. apply (Hnewp rq' Hin).
  destruct (Hnew rq' Hin) as (_ & _ & Hany & _).
  rewrite Hp'. symmetry. eapply pageFile_inj; [done| |exact Hn].
  rewrite <- Hp'. by apply anyPage_no_slash.
Qed.

(** Writing the document leaves the settled pages settled. *)
Lemma direct_settled_document env w w' p x doc :
  Direct.sent w' = Direct.sent w -> Direct.book w' = Direct.book w ->
  Direct.files w'
  = (if output_ok env (x +:+ ".pdf")
     then <[Clean (x +:+ ".pdf") := doc]> (Direct.files w)
     else Direct.files w) ->
  settled env w p -> settled env w' p.
Proof.
  intros Hs Hb Hf (h & rq & rest & Hsent & Hm & Hpg & Hrest & Hfile).
  exists h, rq, rest. rewrite Hs, Hb. do 4 (split; [done|]).
  intros resp data Hok Hbody Hw. rewrite Hf.
  destruct (output_ok env _); [|by eapply Hfile].
  rewrite lookup_insert_ne; [by eapply Hfile|].
  intros Heq. symmetry in Heq. by apply Join_jpg_not_pdf in Heq.
Qed.

(** The names of the pages in the request logs *)

Lemma repeat_pages (m : Method) p q n :
  p <> q -> Forall (fun a : Method * string => a.2 <> q) (repeat (m, p) n).
Proof. intros Hne. induction n; cbn; by constructor. Qed.

Lemma blocks_pages ks : forall j,
  Forall (fun a => exists i, j <= i /\ a.2 = Itoa i) (blocks j ks).
Proof.
  induction ks as [|n ks IH]; intros j; cbn [blocks]; [constructor|].
  apply Forall_app. split.
  - induction n; cbn; constructor; [|done]. exists j. split; [lia|done].
  - eapply Forall_impl; [apply IH|].
    intros a (i & Hi & Ha). exists i. split; [lia|done].
Qed.

Lemma introBlocks_pages ks : forall j,
  Forall (fun a => exists i, j <= i /\ a.2 = "I" +:+ Itoa i)
         (introBlocks j ks).
Proof.
  induction ks as [|n ks IH]; intros j; cbn [introBlocks]; [constructor|].
  constructor; [exists j; split; [lia|done]|].
  apply Forall_app. split.
  - induction n; cbn; constructor; [|done]. exists j. split; [lia|done].
  - eapply Forall_impl; [apply IH|].
    intros a (i & Hi & Ha). exists i. split; [lia|done].
Qed.

Lemma Itoa_not_letter i c s :
  0 <= i -> isDigit c = false -> Itoa i <> String c s.
Proof.
  intros Hi Hc H. destruct (Itoa_head_digit i Hi) as (d & rest & Hs & Hd).
  rewrite Hs in H. injection H as -> _. congruence.
Qed.

Lemma intro_names_apart i j : i <> j -> "I" +:+ Itoa i <> "I" +:+ Itoa j.
Proof. intros Hne [= H]. by apply Itoa_inj in H. Qed.

(** The pages of a document are page files of the folder; the
    document is none of them. *)
Lemma docPages_names dir k L :
  Forall (pageName dir) (docPages dir k L).
Proof.
  unfold docPages. constructor; [by exists "C1"|].
  apply Forall_app. split; [|apply Forall_app; split].
  - apply Forall_forall. intros n Hn.
    apply list_elem_of_In, in_map_iff in Hn as (i & <- & _).
    exists ("I" +:+ Itoa i). unfold pageFile. by rewrite append_assoc.
  - apply Forall_forall. intros n Hn.
    apply list_elem_of_In, in_map_iff in Hn as (i & <- & _).
    by exists (Itoa i).
  - constructor; [by exists "C3"|constructor].
Qed.

Lemma filter_files_agree (P : string -> Prop) (f f' : gmap string FileData) l :
  Forall P l -> (forall n, P n -> f' !! n = f !! n) ->
  filter (fun n => is_Some (f' !! n)) l = filter (fun n => is_Some (f !! n)) l.
Proof.
  intros Hl Hagree. induction Hl as [|n l Hn Hl IH]; [done|].
  rewrite !filter_cons, IH. by rewrite (Hagree n Hn).
Qed.

Lemma direct_findLoop_frame env fuel : forall j delta w,
  let w' := final (Direct.findLoop env fuel j delta w) in
  DirectFrame.stable w w' /\ Direct.files w' = Direct.files w /\
  Direct.retry (Direct.book w') = Direct.retry (Direct.book w).
Proof.
  induction fuel as [|fuel IH]; intros j delta w.
  - cbn. split; [apply direct_stable_refl|done].
  - cbn [Direct.findLoop]. rewrite direct_fetch_eval.
    set (w1 := DirectStep.fetched GET (Itoa j) w).
    assert (H1 : DirectFrame.stable w w1 /\ Direct.files w1 = Direct.files w
                 /\ Direct.retry (Direct.book w1) = Direct.retry (Direct.book w))
      by by repeat split.
    clearbody w1. destruct H1 as (Hst & Hf & Hr).
    assert (Hstep : forall j' d',
      let w' := final (Direct.findLoop env fuel j' d' w1) in
      DirectFrame.stable w w' /\ Direct.files w' = Direct.files w /\
      Direct.retry (Direct.book w') = Direct.retry (Direct.book w)).
    { intros j' d'. destruct (IH j' d' w1) as (Hst' & Hf' & Hr').
      split; [by eapply direct_stable_trans|]. split; congruence. }
    destruct (success _); [apply Hstep|].
    destruct (delta =? 1); [by cbn|apply Hstep].
Qed.

(** The length search asks for numbered pages only. *)
Lemma direct_findLoop_probes env fuel : forall j delta w,
  exists probes,
    asked (Direct.sent (final (Direct.findLoop env fuel j delta w)))
    = asked (Direct.sent w) ++ probes
    /\ Forall (fun a => exists i, a = (GET, Itoa i)) probes.
Proof.
  induction fuel as [|fuel IH]; intros j delta w.
  - exists []. cbn. by rewrite app_nil_r.
  - cbn [Direct.findLoop]. rewrite direct_fetch_eval.
    set (w1 := DirectStep.fetched GET (Itoa j) w).
    assert (Hask1 : asked (Direct.sent w1)
                    = asked (Direct.sent w) ++ [(GET, Itoa j)]).
    { subst w1. unfold DirectStep.fetched. cbn [Direct.sent].
      rewrite asked_snoc. by rewrite direct_page_of_aimed
        by apply Itoa_nonempty. }
    clearbody w1.
    assert (Hstep : forall j' d', exists probes,
      asked (Direct.sent (final (Direct.findLoop env fuel j' d' w1)))
      = asked (Direct.sent w) ++ probes
      /\ Forall (fun a => exists i, a = (GET, Itoa i)) probes).
    { intros j' d'. destruct (IH j' d' w1) as (probes & Hp & Hall).
      exists ((GET, Itoa j) :: probes). rewrite Hp, Hask1, <- app_assoc.
      split; [done|]. constructor; [by exists j|done]. }
    assert (Hhere : exists probes,
      asked (Direct.sent w1) = asked (Direct.sent w) ++ probes
      /\ Forall (fun a => exists i, a = (GET, Itoa i)) probes).
    { exists [(GET, Itoa j)]. split; [done|].
      constructor; [by exists j|constructor]. }
    destruct (success _); [apply Hstep|].
    destruct (delta =? 1); [exact Hhere|apply Hstep].
Qed.

(** A page that has been requested is settled. *)
Lemma direct_downloadPage_settled env fuel : forall pageNr r_ w w',
  pageNr <> "" ->
  Direct.downloadPage env fuel pageNr r_ w = Done tt w' ->
  let out := Join (Direct.path (Direct.book w)) (pageNr +:+ ".jpg") in
  exists h rq,
    Direct.sent w' = h ++ [rq]
    /\ rq_method rq = GET /\ page_of rq = pageNr
    /\ forall resp data,
         success (remote env h rq) = Some resp -> Body resp = Some data ->
         writable env out ->
         Direct.files w' !! out = Some (Raw data).
Proof.
  induction fuel as [|fuel IH]; intros pageNr r_ w w' Hne Hrun out; [done|].
  cbn [Direct.downloadPage] in Hrun. rewrite direct_fetch_eval in Hrun.
  set (rq := Direct.request GET _) in Hrun.
  assert (Hp : page_of rq = pageNr) by by apply direct_page_of_aimed.
  set (w1 := DirectStep.fetched GET pageNr w) in Hrun.
  assert (Hlast : forall w2, Direct.sent w2 = Direct.sent w1 ->
    (forall resp data,
       success (remote env (Direct.sent w) rq) = Some resp ->
       Body resp = Some data -> writable env out ->
       Direct.files w2 !! out = Some (Raw data)) ->
    exists h rq0,
      Direct.sent w2 = h ++ [rq0]
      /\ rq_method rq0 = GET /\ page_of rq0 = pageNr
      /\ forall resp data,
           success (remote env h rq0) = Some resp -> Body resp = Some data ->
           writable env out ->
           Direct.files w2 !! out = Some (Raw data)).
  { intros w2 Hs Hfile. exists (Direct.sent w), rq. by rewrite Hs. }
  destruct (success (remote env (Direct.sent w) rq)) as [resp|] eqn:Hs.
  - destruct (Body resp) as [data|] eqn:Hb.
    + unfold bind at 1, gets at 1 in Hrun.
      change (Join (Direct.path (Direct.book w1)) (pageNr +:+ ".jpg"))
        with out in Hrun.
      destruct (create_ok env out) eqn:Hc; [destruct (write_ok env out) eqn:Hw|].
      * injection Hrun as <-. apply Hlast; [done|].
        intros resp' data' [= <-] Hb' _.
        cbn. rewrite lookup_insert_eq. congruence.
      * injection Hrun as <-. apply Hlast; [done|].
        intros resp' data' _ _ [_ Hw']. congruence.
      * injection Hrun as <-. apply Hlast; [done|].
        intros resp' data' _ _ [Hc' _]. congruence.
    + injection Hrun as <-. apply Hlast; [done|].
      intros resp' data' [= <-] Hb' _. congruence.
  - destruct (respOf (remote env (Direct.sent w) rq)) as [resp|]; [|done].
    unfold bind at 1, gets at 1 in Hrun.
    destruct (0 <=? Direct.retry (Direct.book w1)).
    + unfold bind at 1 in Hrun. cbn [Direct.upd_book modify] in Hrun.
      apply IH in Hrun; [|done]. exact Hrun.
    + injection Hrun as <-. by apply Hlast.
Qed.

Lemma direct_within_run {A} env (m : M Direct.World A) w a w' :
  preserves (DirectSession.within env w) (fun _ => True) m ->
  DirectSession.budget (Direct.book w) ->
  m w = Done a w' -> DirectSession.within env w w'.
Proof.
  intros Hm Hb Hrun.
  destruct (Hm w (direct_within_refl env w Hb)) as [Hw _].
  by rewrite Hrun in Hw.
Qed.

Lemma direct_within_budget env w w' :
  DirectSession.within env w w' -> DirectSession.budget (Direct.book w').
Proof. by intros (_ & Hb & _). Qed.

(** ** The whole book of a direct run *)

Section DirectBook.
Context (env : Env) (k N : Z).
Hypothesis Hans : answered env.
(** The probes of I1..I(k+1): the first [k] succeed, the next fails. *)
Hypothesis Hintro : forall h rq j,
  rq_method rq = HEAD -> page_of rq = "I" +:+ Itoa j -> 1 <= j <= k + 1 ->
  (success (remote env h rq) <> None <-> j <= k).
Hypothesis Hk : k < maxInt.

Lemma direct_downloadPage_book fuel pageNr r_ w :
  anyPage pageNr ->
  DirectSession.budget (Direct.book w) ->
  Direct.retry (Direct.book w) + 2 <= Z.of_nat fuel ->
  (1 <= fuel)%nat ->
  exists w' (n : nat),
    Direct.downloadPage env fuel pageNr r_ w = Done tt w'
    /\ (1 <= n)%nat
    /\ asked (Direct.sent w')
       = asked (Direct.sent w) ++ repeat (GET, pageNr) n
    /\ DirectFrame.stable w w'
    /\ DirectSession.within env w w'
    /\ settled env w' pageNr.
Proof.
  intros Hp Hb Hfuel H1.
  pose proof (anyPage_nonempty _ Hp) as Hne.
  destruct (direct_downloadPage_runs env Hans fuel pageNr r_ w)
    as (w' & n & Hrun & Hn & Hask & Hst & _); [done|apply Hb|done|done|].
  exists w', n. do 4 (split; [done|]).
  split.
  { eapply direct_within_run; [|done|exact Hrun].
    by apply direct_downloadPage_within. }
  destruct (direct_downloadPage_settled env fuel pageNr r_ w w' Hne Hrun)
    as (h & rq & Hs & Hm & Hpg & Hfile).
  destruct Hst as (_ & _ & Hpath & _).
  exists h, rq, []. rewrite Hpath. by repeat split.
Qed.

Lemma direct_introLoop_book fuel : forall j w,
  1 <= j <= k + 1 ->
  DirectSession.budget (Direct.book w) ->
  k - j + 6 <= Z.of_nat fuel ->
  exists w' ks,
    Direct.introLoop env fuel j w = Done (k + 1) w'
    /\ List.length ks = Z.to_nat (k - j + 1)
    /\ Forall (fun n => 1 <= n)%nat ks
    /\ asked (Direct.sent w')
       = asked (Direct.sent w)
         ++ introBlocks j ks ++ [(HEAD, "I" +:+ Itoa (k + 1))]
    /\ DirectFrame.stable w w'
    /\ DirectSession.within env w w'
    /\ forall i, j <= i <= k -> settled env w' ("I" +:+ Itoa i).
Proof.
  intros j w Hj Hb Hfuel.
  cut (exists w' ks,
    Direct.introLoop env fuel j w = Done (k + 1) w'
    /\ List.length ks = Z.to_nat (k - j + 1)
    /\ Forall (fun n => 1 <= n)%nat ks
    /\ asked (Direct.sent w')
       = asked (Direct.sent w)
         ++ introBlocks j ks ++ [(HEAD, "I" +:+ Itoa (k + 1))]
    /\ DirectFrame.stable w w'
    /\ forall i, j <= i <= k -> settled env w' ("I" +:+ Itoa i)).
  { intros (w' & ks & Hrun & H1 & H2 & H3 & H4 & H5).
    exists w', ks. do 5 (split; [done|]). split; [|done].
    eapply direct_within_run; [|done|exact Hrun].
    apply direct_introLoop_within. }
  revert j w Hj Hb Hfuel.
  induction fuel as [|fuel IH]; intros j w Hj Hb Hfuel; [lia|].
  set (p := "I" +:+ Itoa j).
  set (rq := Direct.request HEAD (DirectStep.aimed p (Direct.book w))).
  assert (Hp : page_of rq = p) by by apply direct_page_of_aimed.
  pose proof (Hintro (Direct.sent w) rq j eq_refl Hp Hj) as Hv.
  set (w1 := DirectStep.fetched HEAD p w).
  assert (Hask1 : asked (Direct.sent w1)
                  = asked (Direct.sent w) ++ [(HEAD, p)]).
  { subst w1. unfold DirectStep.fetched. cbn [Direct.sent].
    rewrite asked_snoc. fold rq. by rewrite Hp. }
  destruct (decide (j <= k)) as [Hle|Hgt].
  - rewrite direct_introLoop_go by (by apply Hv). fold p w1.
    unfold bind at 1.
    destruct (direct_downloadPage_book fuel p (Direct.retry (Direct.book w)) w1)
      as (w2 & n & -> & Hn & Hask2 & Hst2 & Hwin2 & Hset2);
      [right; by exists j|exact Hb|destruct Hb; cbn; lia|lia|].
    unfold add. rewrite wrap_small by (unfold minInt, maxInt in *; lia).
    pose proof (direct_within_budget _ _ _ Hwin2) as Hb2.
    destruct (IH (j + 1) w2) as (w' & ks & Hrun & Hlen & Hall & Hask & Hst & Hset);
      [lia|done|lia|].
    rewrite Hrun.
    exists w', (n :: ks). split; [done|].
    split; [cbn [List.length]; rewrite Hlen; lia|].
    split; [by constructor|].
    split.
    { rewrite Hask, Hask2, Hask1. cbn [introBlocks]. fold p.
      rewrite <- !app_assoc. cbn [app]. by rewrite <- ?app_assoc. }
    split.
    { eapply direct_stable_trans; [|exact Hst].
      eapply direct_stable_trans; [|exact Hst2]. by repeat split. }
    intros i Hi. destruct (decide (i = j)) as [->|Hne]; [|apply Hset; lia].
    eapply direct_settled_kept; [|exact Hask| | |exact Hset2].
    + eapply direct_within_run; [|done|exact Hrun].
      apply direct_introLoop_within.
    + apply Forall_app. split.
      * eapply Forall_impl; [apply introBlocks_pages|].
        intros a (i & Hi' & ->). apply intro_names_apart. lia.
      * constructor; [|constructor]. apply intro_names_apart. lia.
    + apply anyPage_no_slash. right. by exists j.
  - assert (j = k + 1) as Hjk by lia.
    rewrite direct_introLoop_stop.
    + fold p w1. exists w1, []. rewrite Hjk. split; [done|].
      split; [cbn; lia|]. split; [constructor|].
      split; [rewrite Hask1; unfold p; by rewrite Hjk|].
      split; [by repeat split|]. intros i Hi. lia.
    + change (success (remote env (Direct.sent w) rq) = None).
      destruct (success (remote env (Direct.sent w) rq)) as [resp|];
        [|done].
      assert (j <= k) by (by apply Hv). lia.
Qed.

Lemma direct_pagesLoop_book fuel : forall page w,
  let L := Direct.length (Direct.book w) in
  1 <= page -> L < maxInt ->
  DirectSession.budget (Direct.book w) ->
  Z.max 0 (L - page + 1) + 5 <= Z.of_nat fuel ->
  exists w' ks,
    Direct.pagesLoop env fuel page w = Done tt w'
    /\ List.length ks = Z.to_nat (L - page + 1)
    /\ Forall (fun n => 1 <= n)%nat ks
    /\ asked (Direct.sent w') = asked (Direct.sent w) ++ blocks page ks
    /\ DirectFrame.stable w w'
    /\ DirectSession.within env w w'
    /\ forall i, page <= i <= L -> settled env w' (Itoa i).
Proof.
  intros page w L Hp HL Hb Hfuel.
  cut (exists w' ks,
    Direct.pagesLoop env fuel page w = Done tt w'
    /\ List.length ks = Z.to_nat (L - page + 1)
    /\ Forall (fun n => 1 <= n)%nat ks
    /\ asked (Direct.sent w') = asked (Direct.sent w) ++ blocks page ks
    /\ DirectFrame.stable w w'
    /\ forall i, page <= i <= L -> settled env w' (Itoa i)).
  { intros (w' & ks & Hrun & H1 & H2 & H3 & H4 & H5).
    exists w', ks. do 5 (split; [done|]). split; [|done].
    eapply direct_within_run; [|done|exact Hrun].
    apply direct_pagesLoop_within. }
  subst L. revert page w Hp HL Hb Hfuel.
  induction fuel as [|fuel IH]; intros page w Hp HL Hb Hfuel; [lia|].
  set (L := Direct.length (Direct.book w)) in *.
  cbn [Direct.pagesLoop]. unfold bind at 1, gets at 1. fold L.
  destruct (page <=? L) eqn:Hle.
  - apply Z.leb_le in Hle. unfold bind at 1.
    destruct (direct_downloadPage_book fuel (Itoa page)
                (Direct.retry (Direct.book w)) w)
      as (w1 & n & -> & Hn & Hask & Hst & Hwin1 & Hset1);
      [left; apply plainPage_Itoa|done|destruct Hb; lia|lia|].
    unfold add. rewrite wrap_small by (unfold minInt, maxInt in *; lia).
    pose proof (direct_within_budget _ _ _ Hwin1) as Hb1.
    destruct Hst as (Hid & Hlen & Hpath & Hpdf & Hsaved).
    destruct (IH (page + 1) w1)
      as (w2 & ks & Hrun & Hks & Hall & Hask2 & Hst2 & Hset2);
      [lia|by rewrite Hlen|done|rewrite Hlen; fold L; lia|].
    rewrite Hrun. rewrite Hlen in Hks, Hset2. fold L in Hks, Hset2.
    exists w2, (n :: ks). split; [done|].
    split; [cbn [List.length]; rewrite Hks; lia|].
    split; [by constructor|].
    split; [rewrite Hask2, Hask; cbn [blocks]; by rewrite <- app_assoc|].
    split; [eapply direct_stable_trans; [|exact Hst2]; by repeat split|].
    intros i Hi. destruct (decide (i = page)) as [->|Hne]; [|apply Hset2; lia].
    eapply direct_settled_kept; [|exact Hask2| | |exact Hset1].
    + eapply direct_within_run; [|done|exact Hrun].
      apply direct_pagesLoop_within.
    + eapply Forall_impl; [apply blocks_pages|].
      intros a (i & Hi' & ->). intros Heq%Itoa_inj. lia.
    + apply Itoa_no_slash.
  - apply Z.leb_gt in Hle. exists w, []. split; [done|].
    split; [cbn; lia|]. split; [constructor|].
    split; [cbn; by rewrite app_nil_r|].
    split; [apply direct_stable_refl|]. intros i Hi. lia.
Qed.

Lemma direct_length_phase fuel w :
  let L := Direct.length (Direct.book w) in
  (L <> 0 /\ N = L \/
   L = 0 /\ 1 <= N /\ N + 100 <= maxInt /\ validPages env N) ->
  DirectSession.budget (Direct.book w) ->
  N + 3 <= Z.of_nat fuel ->
  exists w1 probes,
    (if L =? 0
     then let* n := Direct.findBookLength env fuel in
          Direct.upd_book (Direct.set_length n)
     else ret tt) w = Done tt w1
    /\ (L <> 0 -> probes = [])
    /\ Forall (fun a => exists i, a = (GET, Itoa i)) probes
    /\ asked (Direct.sent w1) = asked (Direct.sent w) ++ probes
    /\ Direct.id (Direct.book w1) = Direct.id (Direct.book w)
    /\ Direct.path (Direct.book w1) = Direct.path (Direct.book w)
    /\ Direct.pdf w1 = Direct.pdf w
    /\ Direct.length (Direct.book w1) = N
    /\ DirectSession.budget (Direct.book w1).
Proof.
  intros L Hlen Hb Hfuel.
  destruct Hlen as [[HL0 HNL]|(HL0 & HN1 & Hmax & Hsrc)].
  - assert ((L =? 0) = false) as -> by lia.
    exists w, []. split; [done|]. split; [done|]. split; [constructor|].
    rewrite app_nil_r. do 4 (split; [done|]). split; [by subst L|done].
  - rewrite HL0. change (0 =? 0) with true. cbn iota.
    unfold bind at 1. unfold Direct.findBookLength.
    pose proof (direct_findLoop_frame env fuel 100 100 w) as Hframe.
    destruct (direct_findLoop_probes env fuel 100 100 w)
      as (probes & Hpr & Hall).
    destruct (direct_findLoop_exact env N Hmax Hsrc fuel 100 100 w)
      as (w1 & Hrun1 & _); [auto|lia|unfold stage; cbn; lia|].
    rewrite Hrun1 in *. cbn [final] in Hframe, Hpr.
    destruct Hframe as ((Hid1 & Hlen1 & Hpath1 & Hpdf1 & Hsaved1) & Hf1 & Hr1).
    cbn [Direct.upd_book modify].
    eexists. exists probes. split; [reflexivity|].
    split; [intros; lia|]. split; [done|].
    cbn [Direct.sent Direct.book Direct.pdf Direct.set_length Direct.id
         Direct.path Direct.length].
    do 5 (split; [done|]).
    unfold DirectSession.budget in *. cbn. by rewrite Hr1.
Qed.

Lemma direct_downloadBook_book fuel w :
  let L := Direct.length (Direct.book w) in
  let dir := Direct.path (Direct.book w) in
  let name := Direct.id (Direct.book w) +:+ ".pdf" in
  0 <= k ->
  (L <> 0 /\ N = L \/
   L = 0 /\ 1 <= N /\ N + 100 <= maxInt /\ validPages env N) ->
  N < maxInt ->
  DirectSession.budget (Direct.book w) ->
  Z.max 0 N + k + 8 <= Z.of_nat fuel ->
  exists w' probes k0 ks ksp k3,
    Direct.downloadBook env fuel w = Done tt w'
    /\ Direct.length (Direct.book w') = N
    /\ (L <> 0 -> probes = [])
    /\ Forall (fun a => exists i, a = (GET, Itoa i)) probes
    /\ (1 <= k0 /\ 1 <= k3)%nat
    /\ Forall (fun n => 1 <= n)%nat ks /\ List.length ks = Z.to_nat k
    /\ Forall (fun n => 1 <= n)%nat ksp /\ List.length ksp = Z.to_nat N
    /\ asked (Direct.sent w')
       = asked (Direct.sent w) ++ probes
         ++ repeat (GET, "C1") k0
         ++ introBlocks 1 ks
         ++ (HEAD, "I" +:+ Itoa (k + 1)) :: blocks 1 ksp
         ++ repeat (GET, "C3") k3
    /\ Direct.pdf w'
       = Direct.pdf w
         ++ filter (fun n => is_Some (Direct.files w' !! n)) (docPages dir k N)
    /\ Direct.saved w' = Some name
    /\ (output_ok env name = true ->
        Direct.files w' !! Clean name = Some (Document (Direct.pdf w')))
    /\ Direct.path (Direct.book w') = dir
    /\ settled env w' "C1"
    /\ (forall j, 1 <= j <= k -> settled env w' ("I" +:+ Itoa j))
    /\ (forall i, 1 <= i <= N -> settled env w' (Itoa i))
    /\ settled env w' "C3".
Proof.
  intros L dir name Hk0 Hlen HN Hb Hfuel.
  unfold Direct.downloadBook. unfold bind at 1, gets at 1. fold L.
  (* the length *)
  destruct (direct_length_phase fuel w Hlen Hb)
    as (w1 & probes & Hrun1 & Hpr0 & Hprobes & Hask1 & Hid1 & Hpath1 & Hpdf1
        & Hlen1 & Hb1); [lia|].
  fold L in Hrun1. unfold bind at 1. rewrite Hrun1.
  (* front cover *)
  unfold bind at 1, gets at 1. unfold bind at 1.
  destruct (direct_downloadPage_book fuel "C1"
              (Direct.retry (Direct.book w1)) w1)
    as (w2 & k0 & -> & Hk0' & Hask2 & Hst2 & Hwin2 & Hset2);
    [left; by left|done|destruct Hb1; lia|lia|].
  destruct Hst2 as (Hid2 & Hlen2 & Hpath2 & Hpdf2 & Hsaved2).
  pose proof (direct_within_budget _ _ _ Hwin2) as Hb2.
  (* introduction pages *)
  unfold bind at 1.
  destruct (direct_introLoop_book fuel 1 w2)
    as (w3 & ks & -> & Hks & Hall3 & Hask3 & Hst3 & Hwin3 & Hset3);
    [lia|done|lia|].
  replace (k - 1 + 1) with k in Hks by lia.
  destruct Hst3 as (Hid3 & Hlen3 & Hpath3 & Hpdf3 & Hsaved3).
  pose proof (direct_within_budget _ _ _ Hwin3) as Hb3.
  (* numbered pages *)
  unfold bind at 1.
  destruct (direct_pagesLoop_book fuel 1 w3)
    as (w4 & ksp & -> & Hksp & Hall4 & Hask4 & Hst4 & Hwin4 & Hset4);
    [lia|rewrite Hlen3, Hlen2, Hlen1; lia|done
    |rewrite Hlen3, Hlen2, Hlen1; lia|].
  rewrite Hlen3, Hlen2, Hlen1 in Hksp, Hset4.
  replace (N - 1 + 1) with N in Hksp by lia.
  destruct Hst4 as (Hid4 & Hlen4 & Hpath4 & Hpdf4 & Hsaved4).
  pose proof (direct_within_budget _ _ _ Hwin4) as Hb4.
  (* back cover *)
  unfold bind at 1, gets at 1. unfold bind at 1.
  destruct (direct_downloadPage_book fuel "C3"
              (Direct.retry (Direct.book w4)) w4)
    as (w5 & k3 & -> & Hk3 & Hask5 & Hst5 & Hwin5 & Hset5);
    [left; right; by left|done|destruct Hb4; lia|lia|].
  destruct Hst5 as (Hid5 & Hlen5 & Hpath5 & Hpdf5 & Hsaved5).
  (* the document *)
  destruct (direct_pdf_phase env fuel (Direct.book w4) (k + 1) w5)
    as (w6 & -> & Hs6 & Hb6 & Hf6 & Hpdf6 & Hsv6);
    [congruence|lia
    |rewrite Hlen5, Hlen4, Hlen3, Hlen2, Hlen1; lia
    |rewrite Hlen5, Hlen4, Hlen3, Hlen2, Hlen1; lia|].
  replace (k + 1 - 1) with k in Hpdf6 by lia.
  assert (Hid : Direct.id (Direct.book w5) = Direct.id (Direct.book w))
    by congruence.
  assert (Hdir : Direct.path (Direct.book w5) = dir)
    by (unfold dir; congruence).
  assert (HL5 : Direct.length (Direct.book w5) = N) by congruence.
  rewrite Hid in Hf6, Hsv6. fold name in Hf6, Hsv6.
  rewrite Hdir, HL5 in Hpdf6.
  assert (Hpages : forall n, pageName dir n ->
            Direct.files w6 !! n = Direct.files w5 !! n).
  { intros n [p ->]. rewrite Hf6.
    destruct (output_ok env name); [|done].
    rewrite lookup_insert_ne; [done|].
    intros Heq. symmetry in Heq. by apply Join_jpg_not_pdf in Heq. }
  assert (Hkeep : forall p, settled env w5 p -> settled env w6 p).
  { intros p. by apply (direct_settled_document env w5 w6 p
                          (Direct.id (Direct.book w)) (Document (Direct.pdf w6))). }
  assert (Hcover : forall i c s, 1 <= i -> isDigit c = false ->
            Itoa i <> String c s)
    by (intros; apply Itoa_not_letter; [lia|done]).
  exists w6, probes, k0, ks, ksp, k3. split; [done|].
  split; [congruence|]. do 2 (split; [done|]).
  split; [done|]. do 4 (split; [done|]).
  split.
  { rewrite Hs6, Hask5, Hask4, Hask3, Hask2, Hask1.
    rewrite <- !app_assoc. cbn [app]. done. }
  split.
  { rewrite Hpdf6.
    rewrite (filter_files_agree (pageName dir) (Direct.files w5)
               (Direct.files w6) _ (docPages_names dir k N) Hpages).
    f_equal. congruence. }
  split; [done|].
  split.
  { intros Hok. rewrite Hf6, Hok. by rewrite lookup_insert_eq. }
  split; [congruence|].
  split.
  { apply Hkeep.
    eapply direct_settled_kept; [exact Hwin5|exact Hask5| |done|].
    { by apply repeat_pages. }
    eapply direct_settled_kept; [exact Hwin4|exact Hask4| |done|].
    { eapply Forall_impl; [apply blocks_pages|].
      intros a (i & Hi & ->). by apply Hcover. }
    eapply direct_settled_kept; [exact Hwin3|exact Hask3| |done|exact Hset2].
    apply Forall_app. split; [|by repeat constructor].
    eapply Forall_impl; [apply introBlocks_pages|].
    by intros a (i & Hi & ->). }
  split.
  { intros j Hj. apply Hkeep.
    assert (Hs : has "/" ("I" +:+ Itoa j) = false)
      by (apply anyPage_no_slash; right; by exists j).
    eapply direct_settled_kept; [exact Hwin5|exact Hask5| |done|].
    { by apply repeat_pages. }
    eapply direct_settled_kept; [exact Hwin4|exact Hask4| |done|by apply Hset3].
    eapply Forall_impl; [apply blocks_pages|].
    intros a (i & Hi & ->). by apply Hcover. }
  split.
  { intros i Hi. apply Hkeep.
    eapply direct_settled_kept;
      [exact Hwin5|exact Hask5| |apply Itoa_no_slash|by apply Hset4].
    apply repeat_pages. intros Heq. symmetry in Heq. revert Heq.
    apply Hcover; [lia|done]. }
  by apply Hkeep.
Qed.

End DirectBook.

(** ** A direct run that finds the length itself *)

(** X17. A direct run without a given length, on a source that holds
    exactly the pages 1..N (N >= 1) and no introduction page, answers
    every GET with some response, and whose successful answers can be
    read and stored: the run ends normally with the length N; every
    page file 1..N holds the body of the answer, with status 200, to
    the last request of the run for that page; the pages handed to the
    PDF writer are the front cover, the pages 1..N and the back cover,
    in this order, less the covers whose file does not exist; and the
    writer is asked to save <book id>.pdf, which then holds these
    pages when the writer can write it. *)
Theorem direct_run_finds_the_book env N fuel bookID docType cookies disk :
  validPages env N -> answered env -> noIntroPages env -> readable env ->
  1 <= N -> N + 100 <= maxInt ->
  N + 9 <= Z.of_nat fuel ->
  let r := Direct.run env fuel bookID 0 docType cookies disk in
  let dir := bookID +:+ "_temp_image_folder" in
  outcome r = None /\
  Direct.length (Direct.book (final r)) = N /\
  (forall i, 1 <= i <= N ->
     exists h rq rest resp data,
       Direct.sent (final r) = h ++ rq :: rest
       /\ rq_method rq = GET /\ page_of rq = Itoa i
       /\ Forall (fun q => page_of q <> Itoa i) rest
       /\ success (remote env h rq) = Some resp
       /\ Body resp = Some data
       /\ Direct.files (final r) !! pageFile dir "" i = Some (Raw data)) /\
  Direct.pdf (final r)
  = filter (fun n => is_Some (Direct.files (final r) !! n))
           (bookPages dir N) /\
  Direct.saved (final r) = Some (bookID +:+ ".pdf") /\
  (output_ok env (bookID +:+ ".pdf") = true ->
   Direct.files (final r) !! Clean (bookID +:+ ".pdf")
   = Some (Document (Direct.pdf (final r)))).
Proof.
  intros Hsrc Hans Hno Hread HN Hmax Hfuel r dir.
  assert (Hintro : forall h rq j,
    rq_method rq = HEAD -> page_of rq = "I" +:+ Itoa j -> 1 <= j <= 0 + 1 ->
    (success (remote env h rq) <> None <-> j <= 0)).
  { intros h rq j Hm Hp Hj. assert (j = 1) as -> by lia.
    rewrite (Hno h rq Hm Hp). split; [done|lia]. }
  destruct (direct_downloadBook_book env 0 N Hans Hintro ltac:(done) fuel
              (Direct.mkWorld (Direct.NewBook bookID 0 docType cookies)
                 [] disk [] None))
    as (w' & probes & k0 & ks & ksp & k3 & Hrun & Hlen & _ & _ & _ & _ & _ & _
        & _ & _ & Hpdf & Hsv & Hdoc & Hpath & _ & _ & Hpages & _);
    [done|right; split; [done|]; split; [done|]; by split|unfold maxInt in *; lia
    |unfold DirectSession.budget; cbn; lia|lia|].
  change (Direct.downloadBook env fuel _) with r in Hrun.
  rewrite Hrun. cbn [final outcome].
  cbn [Direct.book Direct.NewBook Direct.path Direct.id Direct.pdf app]
    in Hpdf, Hsv, Hdoc, Hpath.
  fold dir in Hpdf, Hpath.
  split; [done|]. split; [done|].
  split.
  { intros i Hi.
    destruct (Hpages i Hi) as (h & rq & rest & Hs & Hm & Hp & Hrest & Hfile).
    pose proof (proj2 (Hsrc h rq i Hm Hp) Hi) as Hok.
    destruct (success (remote env h rq)) as [resp|] eqn:Hsucc; [|done].
    destruct Hread as (Hbody & Hcreate & Hwrite).
    pose proof (Hbody h rq resp Hm Hsucc) as Hb.
    destruct (Body resp) as [data|] eqn:Hdata; [|done].
    exists h, rq, rest, resp, data. do 6 (split; [done|]).
    rewrite Hpath in Hfile. apply (Hfile resp data); [done|done|].
    by split. }
  done.
Qed.

Lemma shelf_readable N : readable (shelf N).
Proof.
  split; [|done]. intros h rq resp _. cbn.
  destruct (existsb _ _); cbn; [by intros [= <-]|done].
Qed.

Lemma shelf_answered N : answered (shelf N).
Proof. intros h rq _. cbn. by destruct (existsb _ _). Qed.

Lemma shelf_noIntroPages N : noIntroPages (shelf N).
Proof.
  intros h rq _ Hp. cbn. rewrite Hp.
  destruct (existsb _ _) eqn:He; [|done].
  apply existsb_exists in He as (i & _ & Heq).
  apply String.eqb_eq in Heq.
  pose proof (Atoi_Itoa i) as Hi. rewrite <- Heq in Hi.
  destruct (decide (inRange i)) as [Hin|Hout]; [by specialize (Hi Hin)|].
  exfalso. clear Hi. unfold Itoa, pretty, pretty_Z in Heq.
  destruct i as [|p|p]; [done| |done].
  change (pretty p) with (pretty (N.pos p)) in Heq.
  pose proof (digits_pretty_N (N.pos p)) as Hd. by rewrite <- Heq in Hd.
Qed.

Lemma direct_run_finds_the_book_witness :
  let r := Direct.run (shelf 12) 21 "000123456" 0 "" [] ∅ in
  let dir := "000123456" +:+ "_temp_image_folder" in
  outcome r = None /\
  Direct.length (Direct.book (final r)) = 12 /\
  (forall i, 1 <= i <= 12 ->
     exists h rq rest resp data,
       Direct.sent (final r) = h ++ rq :: rest
       /\ rq_method rq = GET /\ page_of rq = Itoa i
       /\ Forall (fun q => page_of q <> Itoa i) rest
       /\ success (remote (shelf 12) h rq) = Some resp
       /\ Body resp = Some data
       /\ Direct.files (final r) !! pageFile dir "" i = Some (Raw data)) /\
  Direct.pdf (final r)
  = filter (fun n => is_Some (Direct.files (final r) !! n))
           (bookPages dir 12) /\
  Direct.saved (final r) = Some ("000123456" +:+ ".pdf") /\
  (output_ok (shelf 12) ("000123456" +:+ ".pdf") = true ->
   Direct.files (final r) !! Clean ("000123456" +:+ ".pdf")
   = Some (Document (Direct.pdf (final r)))).
Proof.
  apply (direct_run_finds_the_book (shelf 12) 12 21 "000123456" "" [] ∅).
  - apply shelf_valid.
  - apply shelf_answered.
  - apply shelf_noIntroPages.
  - apply shelf_readable.
  - lia.
  - unfold maxInt. lia.
  - lia.
Defined.

(** ** Any number of introduction pages *)

(** X18. In the direct downloader, with a source that answers every
    GET with some response and holds the introduction pages I1..Ik,
    for any k >= 0, and with a given length L (not 0): the run ends
    normally; it requests the front cover, then probes and requests
    I1, ..., Ik in turn, probes I(k+1) once, and requests the pages
    1..L and the back cover, every page at least once; the last
    request for an introduction page is a GET, and when that is
    answered with status 200 and a body that can be read, and the page
    file can be written, the file holds that body; the pages handed to
    the PDF writer are the front cover, I1..Ik, 1..L and the back
    cover (their files named as [filepath.Join] names them), in this
    order, less those whose file does not exist. *)
Theorem direct_intro_pages env k fuel bookID L docType cookies disk :
  answered env -> introPages env k ->
  0 <= k < maxInt -> L <> 0 -> L < maxInt ->
  Z.max 0 L + k + 8 <= Z.of_nat fuel ->
  let r := Direct.run env fuel bookID L docType cookies disk in
  let dir := bookID +:+ "_temp_image_folder" in
  outcome r = None /\
  (exists k0 ks ksp k3,
     (1 <= k0 /\ 1 <= k3)%nat
     /\ Forall (fun n => 1 <= n)%nat ks /\ List.length ks = Z.to_nat k
     /\ Forall (fun n => 1 <= n)%nat ksp /\ List.length ksp = Z.to_nat L
     /\ asked (Direct.sent (final r))
        = repeat (GET, "C1") k0
          ++ introBlocks 1 ks
          ++ (HEAD, "I" +:+ Itoa (k + 1)) :: blocks 1 ksp
          ++ repeat (GET, "C3") k3) /\
  (forall j, 1 <= j <= k ->
     exists h rq rest,
       Direct.sent (final r) = h ++ rq :: rest
       /\ rq_method rq = GET /\ page_of rq = "I" +:+ Itoa j
       /\ Forall (fun q => page_of q <> "I" +:+ Itoa j) rest
       /\ forall resp data,
            success (remote env h rq) = Some resp -> Body resp = Some data ->
            writable env (pageFile dir "I" j) ->
            Direct.files (final r) !! pageFile dir "I" j = Some (Raw data)) /\
  Direct.pdf (final r)
  = filter (fun n => is_Some (Direct.files (final r) !! n)) (docPages dir k L).
Proof.
  intros Hans Hintro Hk HL0 HL Hfuel r dir.
  assert (Hprobe : forall h rq j,
    rq_method rq = HEAD -> page_of rq = "I" +:+ Itoa j -> 1 <= j <= k + 1 ->
    (success (remote env h rq) <> None <-> j <= k)).
  { intros h rq j Hm Hp Hj. rewrite (Hintro h rq j Hm Hp). lia. }
  destruct (direct_downloadBook_book env k L Hans Hprobe ltac:(lia) fuel
              (Direct.mkWorld (Direct.NewBook bookID L docType cookies)
                 [] disk [] None))
    as (w' & probes & k0 & ks & ksp & k3 & Hrun & _ & Hpr & _ & H1 & H2 & H3
        & H4 & H5 & Hask & Hpdf & _ & _ & Hpath & _ & Hset & _);
    [lia|left; by split|done|unfold DirectSession.budget; cbn; lia|done|].
  change (Direct.downloadBook env fuel _) with r in Hrun.
  rewrite Hrun. cbn [final outcome].
  cbn [Direct.book Direct.NewBook Direct.path Direct.length Direct.pdf
       Direct.sent asked map app] in Hpdf, Hask, Hpath, Hpr.
  fold dir in Hpdf, Hpath. rewrite (Hpr HL0) in Hask. cbn [app] in Hask.
  split; [done|].
  split; [by exists k0, ks, ksp, k3|].
  split; [|done].
  intros j Hj. destruct (Hset j Hj) as (h & rq & rest & Hs & Hm & Hp & Hrest
                                        & Hfile).
  exists h, rq, rest. do 4 (split; [done|]).
  rewrite Hpath, append_assoc in Hfile. exact Hfile.
Qed.

Lemma withIntro_introPages : introPages withIntro 2.
Proof.
  intros h rq j Hm Hp. cbn. rewrite Hm, Hp.
  unfold oneOf. cbn [existsb].
  change "I1" with ("I" +:+ Itoa 1). change "I2" with ("I" +:+ Itoa 2).
  assert (Heqb : forall i, String.eqb ("I" +:+ Itoa j) ("I" +:+ Itoa i)
                           = bool_decide (j = i)).
  { intros i. case_bool_decide as Hji; [subst; apply String.eqb_refl|].
    apply String.eqb_neq. intros Heq. apply Hji.
    injection Heq as Heq. by apply Itoa_inj. }
  rewrite !Heqb.
  repeat case_bool_decide; cbn; split; (done || lia).
Qed.

Lemma direct_intro_pages_witness :
  let r := Direct.run withIntro 11 "000123456" 1 "" [] ∅ in
  let dir := "000123456" +:+ "_temp_image_folder" in
  outcome r = None /\
  (exists k0 ks ksp k3,
     (1 <= k0 /\ 1 <= k3)%nat
     /\ Forall (fun n => 1 <= n)%nat ks /\ List.length ks = Z.to_nat 2
     /\ Forall (fun n => 1 <= n)%nat ksp /\ List.length ksp = Z.to_nat 1
     /\ asked (Direct.sent (final r))
        = repeat (GET, "C1") k0
          ++ introBlocks 1 ks
          ++ (HEAD, "I" +:+ Itoa (2 + 1)) :: blocks 1 ksp
          ++ repeat (GET, "C3") k3) /\
  (forall j, 1 <= j <= 2 ->
     exists h rq rest,
       Direct.sent (final r) = h ++ rq :: rest
       /\ rq_method rq = GET /\ page_of rq = "I" +:+ Itoa j
       /\ Forall (fun q => page_of q <> "I" +:+ Itoa j) rest
       /\ forall resp data,
            success (remote withIntro h rq) = Some resp ->
            Body resp = Some data ->
            writable withIntro (pageFile dir "I" j) ->
            Direct.files (final r) !! pageFile dir "I" j = Some (Raw data)) /\
  Direct.pdf (final r)
  = filter (fun n => is_Some (Direct.files (final r) !! n)) (docPages dir 2 1).
Proof.
  apply (direct_intro_pages withIntro 2 11 "000123456" 1 "" [] ∅
           withIntro_answered withIntro_introPages);
    [unfold maxInt; lia|lia|unfold maxInt; lia|lia].
Defined.

(** ** Two introduction pages *)

Lemma plainPage_not_intro p : plainPage p -> ~ introPage p.
Proof.
  intros [->|[->|[j ->]]] [n Hn]; try done.
  change ("I" +:+ Itoa n) with (String "I" (Itoa n)) in Hn.
  unfold Itoa, pretty, pretty_Z in Hn. destruct j as [|p|p]; try done.
  change (pretty p) with (pretty (N.pos p)) in Hn.
  pose proof (digits_pretty_N (N.pos p)) as Hd. by rewrite Hn in Hd.
Qed.

Lemma twoIntroPages_probes env :
  twoIntroPages env ->
  forall h rq j,
    rq_method rq = HEAD -> page_of rq = "I" +:+ Itoa j -> 1 <= j <= 2 + 1 ->
    (success (remote env h rq) <> None <-> j <= 2).
Proof.
  intros Htwo h rq j Hm Hp Hj. destruct (Htwo h rq Hm) as (H1 & H2 & H3).
  assert (j = 1 \/ j = 2 \/ j = 3) as [->|[->| ->]] by lia.
  - split; [lia|]. intros _. by apply H1.
  - split; [lia|]. intros _. by apply H2.
  - rewrite (H3 Hp). split; [done|lia].
Qed.

(** C7, as amended. In the direct downloader, with a source whose GET
    answers always carry a response and whose existence probes succeed
    for I1 and I2 and fail for I3, and a length N that is given or,
    when none is given, found in a source that holds exactly the pages
    1..N: the run ends normally and its requests are, in this order,
    the probes of the length search (none when the length is given),
    the front cover, the probe of I1, page I1, the probe of I2, page
    I2, the probe of I3, pages 1..N and the back cover, every page
    being requested at least once (more often when it is retried).
    The last request for I1, and for I2, is a GET; when it is answered
    with status 200 and a body that can be read, and the page file can
    be written, the file holds that body and is in the document.  The
    pages handed to the PDF writer are the front cover, I1, I2, the
    pages 1..N and the back cover, in this order, less those whose
    file does not exist.

    The tiled downloader has no step for introduction pages: whatever
    the source does, a tiled run sends GET requests only, none for an
    introduction page, and hands no introduction page to the PDF
    writer. *)
Theorem direct_two_intro_pages env fuel bookID L N docType cookies disk
        envT fuelT cookieValue cookieName diskT :
  answered env -> twoIntroPages env ->
  (L <> 0 /\ N = L \/
   L = 0 /\ 1 <= N /\ N + 100 <= maxInt /\ validPages env N) ->
  N < maxInt ->
  Z.max 0 N + 10 <= Z.of_nat fuel ->
  let r := Direct.run env fuel bookID L docType cookies disk in
  let rt := Tiled.run envT fuelT bookID L docType cookieValue cookieName
              diskT in
  let dir := bookID +:+ "_temp_image_folder" in
  (outcome r = None /\
   (exists probes k0 k1 k2 ks k3,
      (L <> 0 -> probes = [])
      /\ Forall (fun a => exists i, a = (GET, Itoa i)) probes
      /\ (1 <= k0 /\ 1 <= k1 /\ 1 <= k2 /\ 1 <= k3)%nat
      /\ Forall (fun n => 1 <= n)%nat ks /\ List.length ks = Z.to_nat N
      /\ asked (Direct.sent (final r))
         = probes
           ++ repeat (GET, "C1") k0
           ++ (HEAD, "I1") :: repeat (GET, "I1") k1
           ++ (HEAD, "I2") :: repeat (GET, "I2") k2
           ++ (HEAD, "I3") :: blocks 1 ks
           ++ repeat (GET, "C3") k3) /\
   (forall j, j = 1 \/ j = 2 ->
      exists h rq rest,
        Direct.sent (final r) = h ++ rq :: rest
        /\ rq_method rq = GET /\ page_of rq = "I" +:+ Itoa j
        /\ Forall (fun q => page_of q <> "I" +:+ Itoa j) rest
        /\ forall resp data,
             success (remote env h rq) = Some resp -> Body resp = Some data ->
             writable env (pageFile dir "I" j) ->
             Direct.files (final r) !! pageFile dir "I" j = Some (Raw data)
             /\ pageFile dir "I" j ∈ Direct.pdf (final r)) /\
   Direct.pdf (final r)
   = filter (fun n => is_Some (Direct.files (final r) !! n))
            (Join dir "C1.jpg"
             :: pageFile dir "I" 1 :: pageFile dir "I" 2
             :: map (pageFile dir "") (seqZ 1 N) ++ [Join dir "C3.jpg"])) /\
  (Forall (fun rq => rq_method rq = GET /\ ~ introPage (page_of rq))
          (Tiled.sent (final rt)) /\
   forall j, pageFile dir "I" j ∉ Tiled.pdf (final rt)).
Proof.
  intros Hans Htwo Hlen HN Hfuel r rt dir. split.
  - destruct (direct_downloadBook_book env 2 N Hans
                (twoIntroPages_probes env Htwo) ltac:(unfold maxInt; lia) fuel
                (Direct.mkWorld (Direct.NewBook bookID L docType cookies)
                   [] disk [] None))
      as (w' & probes & k0 & ks & ksp & k3 & Hrun & _ & Hpr & Hprobes & H1 & H2
          & H3 & H4 & H5 & Hask & Hpdf & _ & _ & Hpath & _ & Hset & _);
      [lia|exact Hlen|done|unfold DirectSession.budget; cbn; lia|lia|].
    change (Direct.downloadBook env fuel _) with r in Hrun.
    rewrite Hrun. cbn [final outcome].
    cbn [Direct.book Direct.NewBook Direct.path Direct.length Direct.pdf
         Direct.sent asked map app] in Hpdf, Hask, Hpath, Hpr.
    fold dir in Hpdf, Hpath.
    change (docPages dir 2 N)
      with (Join dir "C1.jpg"
            :: pageFile dir "I" 1 :: pageFile dir "I" 2
            :: map (pageFile dir "") (seqZ 1 N) ++ [Join dir "C3.jpg"])
      in Hpdf.
    split; [done|]. split; [|split; [|done]].
    + destruct ks as [|k1 [|k2 [|? ?]]]; try done.
      exists probes, k0, k1, k2, ksp, k3. split; [done|]. split; [done|].
      apply Forall_cons in H2 as [Hk1 H2]. apply Forall_cons in H2 as [Hk2 _].
      split; [lia|]. split; [done|]. split; [done|].
      rewrite Hask. cbn [introBlocks app].
      change ("I" +:+ Itoa 1) with "I1".
      change ("I" +:+ Itoa (1 + 1)) with "I2".
      change ("I" +:+ Itoa (2 + 1)) with "I3".
      rewrite <- !app_assoc. cbn [app]. by rewrite <- !app_assoc.
    + intros j Hj.
      destruct (Hset j ltac:(lia)) as (h & rq & rest & Hs & Hm & Hp & Hrest
                                        & Hfile).
      exists h, rq, rest. do 4 (split; [done|]).
      intros resp data Hok Hb Hw.
      rewrite Hpath in Hfile.
      assert (Hname : Join dir (("I" +:+ Itoa j) +:+ ".jpg")
                      = pageFile dir "I" j)
        by (unfold pageFile; by rewrite append_assoc).
      rewrite Hname in Hfile. specialize (Hfile resp data Hok Hb Hw).
      split; [done|].
      rewrite Hpdf. apply list_elem_of_filter. split; [by rewrite Hfile|].
      destruct Hj as [-> | ->].
      * apply list_elem_of_further, list_elem_of_here.
      * do 2 apply list_elem_of_further. apply list_elem_of_here.
  - destruct (tiled_ended_within _ _ _
                (tiled_run_ended envT fuelT bookID L docType cookieValue
                   cookieName diskT))
      as (w1 & (Hsame & _ & (new & Hsent & Hnew) & _ & _ & (more & Hpdf & Hmore)
                & _) & _ & Hs & Hp & _).
    fold rt in Hs, Hp. rewrite Hs, Hp, Hsent, Hpdf.
    cbn [Tiled.sent Tiled.pdf app]. split.
    + eapply Forall_impl; [exact Hnew|].
      intros rq (Hm & _ & _ & Hplain). split; [done|].
      by apply plainPage_not_intro.
    + intros j Hin. rewrite Forall_forall in Hmore.
      destruct (Hmore _ Hin) as (p & Hplain & Heq).
      cbn [Tiled.book Tiled.initBook Tiled.path] in Heq. fold dir in Heq.
      unfold pageFile in Heq.
      rewrite <- (append_assoc "I" (Itoa j) ".jpg") in Heq.
      apply pageFile_inj in Heq.
      * apply (plainPage_not_intro p Hplain). exists j. by rewrite Heq.
      * apply anyPage_no_slash. right. by exists j.
      * apply anyPage_no_slash. by left.
Qed.

Lemma direct_two_intro_pages_witness :
  let r := Direct.run withIntro 11 "000123456" 1 "" [] ∅ in
  let rt := Tiled.run withIntro 11 "000123456" 1 "" "" "" ∅ in
  let dir := "000123456" +:+ "_temp_image_folder" in
  (outcome r = None /\
   (exists probes k0 k1 k2 ks k3,
      (1 <> 0 -> probes = [])
      /\ Forall (fun a => exists i, a = (GET, Itoa i)) probes
      /\ (1 <= k0 /\ 1 <= k1 /\ 1 <= k2 /\ 1 <= k3)%nat
      /\ Forall (fun n => 1 <= n)%nat ks /\ List.length ks = Z.to_nat 1
      /\ asked (Direct.sent (final r))
         = probes
           ++ repeat (GET, "C1") k0
           ++ (HEAD, "I1") :: repeat (GET, "I1") k1
           ++ (HEAD, "I2") :: repeat (GET, "I2") k2
           ++ (HEAD, "I3") :: blocks 1 ks
           ++ repeat (GET, "C3") k3) /\
   (forall j, j = 1 \/ j = 2 ->
      exists h rq rest,
        Direct.sent (final r) = h ++ rq :: rest
        /\ rq_method rq = GET /\ page_of rq = "I" +:+ Itoa j
        /\ Forall (fun q => page_of q <> "I" +:+ Itoa j) rest
        /\ forall resp data,
             success (remote withIntro h rq) = Some resp ->
             Body resp = Some data ->
             writable withIntro (pageFile dir "I" j) ->
             Direct.files (final r) !! pageFile dir "I" j = Some (Raw data)
             /\ pageFile dir "I" j ∈ Direct.pdf (final r)) /\
   Direct.pdf (final r)
   = filter (fun n => is_Some (Direct.files (final r) !! n))
            (Join dir "C1.jpg"
             :: pageFile dir "I" 1 :: pageFile dir "I" 2
             :: map (pageFile dir "") (seqZ 1 1) ++ [Join dir "C3.jpg"])) /\
  (Forall (fun rq => rq_method rq = GET /\ ~ introPage (page_of rq))
          (Tiled.sent (final rt)) /\
   forall j, pageFile dir "I" j ∉ Tiled.pdf (final rt)).
Proof.
  apply (direct_two_intro_pages withIntro 11 "000123456" 1 1 "" [] ∅
           withIntro 11 "" "" ∅ withIntro_answered withIntro_twoIntroPages);
    [left; by split|unfold maxInt; lia|lia].
Defined.

(** On that book of one page with two introduction pages, the direct
    downloader fetches each page once and puts all five in the
    document. *)
Example two_intro_pages_assembled :
  let r := Direct.run withIntro 11 "000123456" 1 "" [] ∅ in
  outcome r = None /\
  asked (Direct.sent (final r))
  = [(GET, "C1"); (HEAD, "I1"); (GET, "I1"); (HEAD, "I2"); (GET, "I2");
     (HEAD, "I3"); (GET, "1"); (GET, "C3")] /\
  Direct.pdf (final r)
  = ["000123456_temp_image_folder/C1.jpg";
     "000123456_temp_image_folder/I1.jpg";
     "000123456_temp_image_folder/I2.jpg";
     "000123456_temp_image_folder/1.jpg";
     "000123456_temp_image_folder/C3.jpg"] /\
  Direct.files (final r) !! "000123456_temp_image_folder/I1.jpg"
  = Some (Raw (Pixels grey)) /\
  Direct.files (final r) !! "000123456_temp_image_folder/I2.jpg"
  = Some (Raw (Pixels grey)).
Proof. by vm_compute. Qed.

(** ** The grid, resolved once *)

Import Received.

Lemma answers_app env a : forall h b,
  answers env h (a ++ b) = answers env h a ++ answers env (h ++ a) b.
Proof.
  induction a as [|rq a IH]; intros h b; cbn [app answers];
    [by rewrite app_nil_r|].
  by rewrite IH, <- app_assoc.
Qed.

(** The prober writes no file and hands nothing to the PDF writer. *)
Lemma tiled_findRows_files env fuel : forall w,
  Tiled.files (final (Tiled.findRows env fuel w)) = Tiled.files w
  /\ Tiled.pdf (final (Tiled.findRows env fuel w)) = Tiled.pdf w.
Proof.
  induction fuel as [|fuel IH]; intros w; [done|].
  rewrite tiled_findRows_step. cbn zeta.
  destruct (tileOf _); [|done].
  match goal with
  | |- context [Tiled.findRows env fuel ?w2] => destruct (IH w2) as [-> ->]
  end.
  done.
Qed.

Lemma tiled_findCols_files env fuel : forall w,
  Tiled.files (final (Tiled.findCols env fuel w)) = Tiled.files w
  /\ Tiled.pdf (final (Tiled.findCols env fuel w)) = Tiled.pdf w.
Proof.
  induction fuel as [|fuel IH]; intros w; [done|].
  rewrite tiled_findCols_step. cbn zeta.
  destruct (tileOf _); [|done].
  match goal with
  | |- context [Tiled.findCols env fuel ?w2] => destruct (IH w2) as [-> ->]
  end.
  done.
Qed.

(** A loop of the prober that returns has counted the tiles that it
    received before the first probe that brought none, and has added
    up their sizes. *)
Lemma tiled_findRows_found env fuel : forall w w' n s,
  Tiled.rows (Tiled.book w) = wrap n ->
  snd (Tiled.imgSize (Tiled.book w)) = wrap s ->
  Tiled.findRows env fuel w = Done tt w' ->
  exists new tiles,
    Tiled.sent w' = Tiled.sent w ++ new
    /\ answers env (Tiled.sent w) new = map Some tiles ++ [None]
    /\ tilesAsked new
       = map (fun i => ("1", Itoa (wrap i), "0"))
             (seqZ (n + 1) (Z.of_nat (List.length tiles) + 1))
    /\ Tiled.rows (Tiled.book w')
       = wrap (n + Z.of_nat (List.length tiles) + 1)
    /\ snd (Tiled.imgSize (Tiled.book w'))
       = wrap (s + sumZ (map (fun t => Img.RDy (Img.bounds t)) tiles))
    /\ Tiled.cols (Tiled.book w') = Tiled.cols (Tiled.book w)
    /\ fst (Tiled.imgSize (Tiled.book w')) = fst (Tiled.imgSize (Tiled.book w)).
Proof.
  induction fuel as [|fuel IH]; intros w w' n s Hn Hs Hrun; [done|].
  rewrite tiled_findRows_step in Hrun. cbn zeta in Hrun.
  cbn [Tiled.rows Tiled.set_rows] in Hrun.
  assert (Hadd : add (Tiled.rows (Tiled.book w)) 1 = wrap (n + 1))
    by (rewrite Hn; unfold add; apply wrap_add_l).
  rewrite !Hadd in Hrun.
  set (rq := Tiled.request GET _) in Hrun.
  assert (Hpg : page_of rq = "1") by by apply tiled_page_of_aimed.
  assert (Hro : row_of rq = Itoa (wrap (n + 1)))
    by apply tiled_row_of_aimed, Itoa_nonempty.
  assert (Hco : col_of rq = "0") by by apply tiled_col_of_aimed.
  destruct (tileOf (remote env (Tiled.sent w) rq)) as [im|] eqn:Ht.
  - apply (IH _ w' (n + 1) (s + Img.RDy (Img.bounds im))) in Hrun.
    + destruct Hrun as (new & tiles & Hsent & Hans & Hask & Hrows & Hsnd
                        & Hcols & Hfst).
      cbn in Hsent, Hans, Hcols, Hfst. fold rq in Hsent, Hans.
      exists (rq :: new), (im :: tiles).
      split; [by rewrite Hsent, <- app_assoc|].
      split; [cbn [answers map app]; by rewrite Ht, Hans|].
      split.
      { unfold tilesAsked in *. cbn [map]. rewrite Hask, Hpg, Hro, Hco.
        cbn [List.length].
        rewrite (seqZ_cons (n + 1)) by lia. cbn [map].
        change (Z.succ (n + 1)) with (n + 1 + 1).
        by replace (Z.pred (Z.of_nat (S (List.length tiles)) + 1))
          with (Z.of_nat (List.length tiles) + 1) by lia. }
      split; [rewrite Hrows; cbn [List.length]; f_equal; lia|].
      split; [|done].
      rewrite Hsnd. cbn [map sumZ foldr]. f_equal.
      change (foldr Z.add 0 ?l) with (sumZ l). lia.
    + done.
    + cbn. rewrite Hs. unfold add. apply wrap_add_l.
  - injection Hrun as <-. exists [rq], [].
    split; [done|]. split; [cbn; by rewrite Ht|].
    split; [unfold tilesAsked; cbn; by rewrite Hpg, Hro, Hco|].
    split; [cbn; f_equal; lia|].
    split; [cbn; rewrite Hs; f_equal; lia|done].
Qed.

Lemma tiled_findCols_found env fuel : forall w w' n s,
  Tiled.cols (Tiled.book w) = wrap n ->
  fst (Tiled.imgSize (Tiled.book w)) = wrap s ->
  Tiled.findCols env fuel w = Done tt w' ->
  exists new tiles,
    Tiled.sent w' = Tiled.sent w ++ new
    /\ answers env (Tiled.sent w) new = map Some tiles ++ [None]
    /\ tilesAsked new
       = map (fun i => ("1", "0", Itoa (wrap i)))
             (seqZ (n + 1) (Z.of_nat (List.length tiles) + 1))
    /\ Tiled.cols (Tiled.book w')
       = wrap (n + Z.of_nat (List.length tiles) + 1)
    /\ fst (Tiled.imgSize (Tiled.book w'))
       = wrap (s + sumZ (map (fun t => Img.RDx (Img.bounds t)) tiles))
    /\ Tiled.rows (Tiled.book w') = Tiled.rows (Tiled.book w)
    /\ snd (Tiled.imgSize (Tiled.book w')) = snd (Tiled.imgSize (Tiled.book w)).
Proof.
  induction fuel as [|fuel IH]; intros w w' n s Hn Hs Hrun; [done|].
  rewrite tiled_findCols_step in Hrun. cbn zeta in Hrun.
  cbn [Tiled.cols Tiled.set_cols] in Hrun.
  assert (Hadd : add (Tiled.cols (Tiled.book w)) 1 = wrap (n + 1))
    by (rewrite Hn; unfold add; apply wrap_add_l).
  rewrite !Hadd in Hrun.
  set (rq := Tiled.request GET _) in Hrun.
  assert (Hpg : page_of rq = "1") by by apply tiled_page_of_aimed.
  assert (Hco : col_of rq = Itoa (wrap (n + 1)))
    by apply tiled_col_of_aimed, Itoa_nonempty.
  assert (Hro : row_of rq = "0") by by apply tiled_row_of_aimed.
  destruct (tileOf (remote env (Tiled.sent w) rq)) as [im|] eqn:Ht.
  - apply (IH _ w' (n + 1) (s + Img.RDx (Img.bounds im))) in Hrun.
    + destruct Hrun as (new & tiles & Hsent & Hans & Hask & Hcols & Hfst
                        & Hrows & Hsnd).
      cbn in Hsent, Hans, Hrows, Hsnd. fold rq in Hsent, Hans.
      exists (rq :: new), (im :: tiles).
      split; [by rewrite Hsent, <- app_assoc|].
      split; [cbn [answers map app]; by rewrite Ht, Hans|].
      split.
      { unfold tilesAsked in *. cbn [map]. rewrite Hask, Hpg, Hro, Hco.
        cbn [List.length].
        rewrite (seqZ_cons (n + 1)) by lia. cbn [map].
        change (Z.succ (n + 1)) with (n + 1 + 1).
        by replace (Z.pred (Z.of_nat (S (List.length tiles)) + 1))
          with (Z.of_nat (List.length tiles) + 1) by lia. }
      split; [rewrite Hcols; cbn [List.length]; f_equal; lia|].
      split; [|done].
      rewrite Hfst. cbn [map sumZ foldr]. f_equal.
      change (foldr Z.add 0 ?l) with (sumZ l). lia.
    + done.
    + cbn. rewrite Hs. unfold add. apply wrap_add_l.
  - injection Hrun as <-. exists [rq], [].
    split; [done|]. split; [cbn; by rewrite Ht|].
    split; [unfold tilesAsked; cbn; by rewrite Hpg, Hro, Hco|].
    split; [cbn; f_equal; lia|].
    split; [cbn; rewrite Hs; f_equal; lia|done].
Qed.

(** C9. In a tiled run the rows, the columns and the page size are
    resolved once, by [NewBook], before anything else.  When [NewBook]
    returns, its requests are the probes of page 1 along column 0,
    from row 0 on, up to the first that brings no tile, and then along
    row 0, from column 0 on, likewise; there are no others; the rows
    are the number of row tiles received, the columns the number of
    column tiles, the page height the sum of the heights of the row
    tiles and the page width the sum of the widths of the column tiles
    (all as Go ints); no file has been written and no page handed to
    the PDF writer.  The run goes on only when [NewBook] has returned,
    and all its other requests come after these probes.  From then on,
    whatever the remote source does and wherever the run ends or is
    cut off, the grid and the page size stay as they are:
    [downloadBook] leaves them as they were, every call of
    [downloadPage] does, and every raster written has exactly that
    page size. *)
Theorem grid_resolved_once env fuel bookID len docType cookieValue cookieName
        disk :
  let r0 := Tiled.NewBook env fuel bookID len docType cookieValue cookieName
              disk in
  let r := Tiled.run env fuel bookID len docType cookieValue cookieName
             disk in
  let b0 := Tiled.book (final r0) in
  (outcome r0 = None ->
   exists rowTiles colTiles,
     let R := Z.of_nat (List.length rowTiles) in
     let C := Z.of_nat (List.length colTiles) in
     answers env [] (Tiled.sent (final r0))
     = (map Some rowTiles ++ [None]) ++ (map Some colTiles ++ [None])
     /\ tilesAsked (Tiled.sent (final r0))
        = map (fun i => ("1", Itoa (wrap i), "0")) (seqZ 0 (R + 1))
          ++ map (fun i => ("1", "0", Itoa (wrap i))) (seqZ 0 (C + 1))
     /\ Tiled.rows b0 = wrap R /\ Tiled.cols b0 = wrap C
     /\ Tiled.imgSize b0
        = (wrap (sumZ (map (fun t => Img.RDx (Img.bounds t)) colTiles)),
           wrap (sumZ (map (fun t => Img.RDy (Img.bounds t)) rowTiles)))) /\
  Tiled.files (final r0) = disk /\ Tiled.pdf (final r0) = [] /\
  (outcome r0 <> None -> r = r0) /\
  (exists later, Tiled.sent (final r) = Tiled.sent (final r0) ++ later) /\
  gridKept (final r0) (final r) /\
  (forall fuel' w, gridKept w (final (Tiled.downloadBook env fuel' w))) /\
  (forall fuel' pageNr retry w,
     gridKept w (final (Tiled.downloadPage env fuel' pageNr retry w))).
Proof.
  intros r0 r b0.
  set (w0 := Tiled.mkWorld
               (Tiled.initBook bookID len docType cookieValue cookieName)
               [] disk [] None).
  split; [|split; [|split; [|split; [|split; [|split; [|split]]]]]].
  - intros Hout. subst b0.
    unfold r0, Tiled.NewBook, Tiled.findRowsColsAndImgSize in Hout |- *.
    fold w0 in Hout |- *. unfold bind in Hout |- *.
    destruct (Tiled.findRows env fuel w0) as [[] w1|] eqn:Hrows; [|done].
    destruct (Tiled.findCols env fuel w1) as [[] w2|] eqn:Hcols; [|done].
    cbn [final].
    destruct (tiled_findRows_found env fuel w0 w1 (-1) 0 eq_refl eq_refl Hrows)
      as (new1 & rowTiles & Hs1 & Ha1 & Hq1 & Hr1 & Hh1 & Hc1 & Hw1).
    cbn [w0 Tiled.sent Tiled.book Tiled.initBook Tiled.cols Tiled.imgSize fst
         app] in Hs1, Ha1, Hc1, Hw1.
    destruct (tiled_findCols_found env fuel w1 w2 (-1) 0 Hc1 Hw1 Hcols)
      as (new2 & colTiles & Hs2 & Ha2 & Hq2 & Hc2 & Hw2 & Hr2 & Hh2).
    exists rowTiles, colTiles. cbn zeta.
    rewrite Hs2, Hs1. rewrite Hs1 in Ha2.
    split; [rewrite answers_app; cbn [app]; by rewrite Ha1, Ha2|].
    split.
    { unfold tilesAsked in *. rewrite map_app, Hq1, Hq2. done. }
    split; [rewrite Hr2, Hr1; f_equal; lia|].
    split; [rewrite Hc2; f_equal; lia|].
    destruct (Tiled.imgSize (Tiled.book w2)) as [a b]. cbn [fst snd] in *.
    rewrite Hw2, Hh2, Hh1. done.
  - unfold r0, Tiled.NewBook, Tiled.findRowsColsAndImgSize. fold w0.
    unfold bind.
    destruct (tiled_findRows_files env fuel w0) as [Hf1 _].
    destruct (Tiled.findRows env fuel w0) as [[] w1|]; [|exact Hf1].
    destruct (tiled_findCols_files env fuel w1) as [Hf2 _].
    cbn [final] in Hf1. by rewrite Hf2, Hf1.
  - unfold r0, Tiled.NewBook, Tiled.findRowsColsAndImgSize. fold w0.
    unfold bind.
    destruct (tiled_findRows_files env fuel w0) as [_ Hp1].
    destruct (Tiled.findRows env fuel w0) as [[] w1|]; [|exact Hp1].
    destruct (tiled_findCols_files env fuel w1) as [_ Hp2].
    cbn [final] in Hp1. by rewrite Hp2, Hp1.
  - intros Hout. unfold r, Tiled.run. fold r0.
    by destruct r0 as [[] w1|why w1].
  - unfold r, Tiled.run. fold r0.
    assert (H0 : TiledSession.within w0 w0)
      by (apply tiled_within_refl; unfold TiledSession.budget; cbn; lia).
    destruct (tiled_findRowsColsAndImgSize_within env w0 fuel w0 H0)
      as [H1 _].
    change (Tiled.findRowsColsAndImgSize env fuel w0) with r0 in H1.
    destruct r0 as [[] w1|why w1]; [|exists []; by rewrite app_nil_r].
    cbn [final] in H1 |- *.
    assert (H11 : TiledSession.within w1 w1)
      by (apply tiled_within_refl; by destruct H1 as (_ & Hb & _)).
    destruct (tiled_ended_within _ _ _
                (tiled_downloadBook_ended env w1 fuel w1 H11))
      as (w2 & (_ & _ & (new & Hsent & _) & _) & _ & -> & _).
    by exists new.
  - unfold r, Tiled.run. fold r0.
    destruct r0 as [[] w1|why w1]; cbn [final].
    + apply tiled_downloadBook_kept.
    + apply gridKept_refl.
  - intros. apply tiled_downloadBook_kept.
  - intros. apply tiled_downloadPage_kept.
Qed.

(** A grid of two rows and three columns, resolved. *)
Example grid_resolved_two_by_three :
  let r0 := Tiled.NewBook (gridOf 2 3 (marked 1024 1024)) 5 "000123456" 1
              "" "" "" ∅ in
  outcome r0 = None /\
  tilesAsked (Tiled.sent (final r0))
  = [("1", "0", "0"); ("1", "1", "0"); ("1", "2", "0");
     ("1", "0", "0"); ("1", "0", "1"); ("1", "0", "2"); ("1", "0", "3")] /\
  Tiled.rows (Tiled.book (final r0)) = 2 /\
  Tiled.cols (Tiled.book (final r0)) = 3 /\
  Tiled.imgSize (Tiled.book (final r0)) = (3072, 2048).
Proof. by vm_compute. Qed.
(** ** [main] of the direct downloader *)

Import DirectMain.

Lemma HasPrefix_app t r pre c :
  pre <> "" -> has c pre = false ->
  HasPrefix (t +:+ String c r) pre = HasPrefix t pre.
Proof.
  revert t. induction pre as [|p pre IH]; intros t Hne Hc; [done|].
  cbn in Hc. apply orb_false_iff in Hc as [Hp Hpre].
  destruct t as [|d t].
  - change ("" +:+ String c r) with (String c r). cbn.
    by rewrite Ascii.eqb_sym, Hp.
  - change (String d t +:+ String c r) with (String d (t +:+ String c r)).
    cbn. destruct pre as [|q pre]; [by destruct (t +:+ String c r), t|].
    by rewrite IH.
Qed.

Lemma ReplaceFirst_skip old new t r c :
  old <> "" -> has c old = false -> Contains t old = false ->
  ReplaceFirst old new (t +:+ String c r)
  = t +:+ ReplaceFirst old new (String c r).
Proof.
  intros Hne Hc. induction t as [|d t IH]; intros Ht; [done|].
  change (Contains (String d t) old)
    with (HasPrefix (String d t) old || Contains t old) in Ht.
  apply orb_false_iff in Ht as [Hd Ht].
  change (String d t +:+ String c r) with (String d (t +:+ String c r)).
  change (String d t +:+ ReplaceFirst old new (String c r))
    with (String d (t +:+ ReplaceFirst old new (String c r))).
  cbn [ReplaceFirst].
  change (String d (t +:+ String c r)) with (String d t +:+ String c r).
  rewrite HasPrefix_app, Hd by done. by rewrite IH.
Qed.

(** The template that [main] leaves in the book. *)
Lemma direct_template_width dt w :
  Contains dt "602," = false ->
  ReplaceFirst "602," (Itoa w +:+ ",") (Direct.template dt 602)
  = Direct.template dt w.
Proof.
  intros Hdt. unfold Direct.template.
  change (Itoa 602) with "602".
  set (new := Itoa w +:+ ",").
  change ("https://www.nb.no/services/image/resolver/URN:NBN:no-nb_"
          +:+ dt +:+ "_{book_id}_{long_page_nr}/full/"
          +:+ "602" +:+ ",/0/default.jpg")
    with ("https://www.nb.no/services/image/resolver/URN:NBN:no-nb_"
          +:+ (dt +:+ String "_" "{book_id}_{long_page_nr}/full/602,/0/default.jpg")).
  assert (Hpre : forall s,
    ReplaceFirst "602," new
      ("https://www.nb.no/services/image/resolver/URN:NBN:no-nb_" +:+ s)
    = "https://www.nb.no/services/image/resolver/URN:NBN:no-nb_"
      +:+ ReplaceFirst "602," new s) by reflexivity.
  rewrite Hpre, ReplaceFirst_skip by done.
  assert (Hsuf : ReplaceFirst "602," new
                   (String "_" "{book_id}_{long_page_nr}/full/602,/0/default.jpg")
                 = "_{book_id}_{long_page_nr}/full/" +:+ new +:+ "/0/default.jpg")
    by reflexivity.
  rewrite Hsuf. subst new. by rewrite append_assoc.
Qed.

(** X19. The direct downloader's [main], given a book id by flag or as
    first positional argument, runs the download with the image width
    of the -width flag: when the document type ("digibok" when the
    flag is empty) does not contain "602,", every request of the run,
    whatever the remote source does and wherever the run ends or is cut
    off, carries the URL template of that type with /full/<width>,/ in
    it and the book id: the -id flag, or the first positional argument
    when the flag is empty.  The cookies that the book was built with,
    for the jar of its client, are those parsed from the -cookies flag
    (none for an empty flag). *)
Theorem direct_main_requests TrimSpace env fuel fl disk :
  let dt := if String.eqb (type_ fl) "" then "digibok" else type_ fl in
  let bookID :=
    if String.eqb (id fl) "" then hd "" (args fl) else id fl in
  (id fl <> "" \/ args fl <> []) ->
  Contains dt "602," = false ->
  exists r,
    main TrimSpace env fuel fl disk = Ran r /\
    Direct.cookies (Direct.book (final r))
    = nameValue (if String.eqb (cookies fl) "" then []
                 else parseCookiesString TrimSpace (cookies fl)) /\
    Forall (fun rq =>
              rq_template rq = Direct.template dt (width fl)
              /\ rq_params rq !! "book_id" = Some bookID)
           (Direct.sent (final r)).
Proof.
  intros dt bookID Hid Hdt. unfold main.
  assert (Hsome :
    (if String.eqb (id fl) "" then
       match args fl with a :: _ => Some a | [] => None end
     else Some (id fl)) = Some bookID).
  { subst bookID. destruct (String.eqb_spec (id fl) "") as [He|He]; [|done].
    destruct (args fl); [|done]. by destruct Hid. }
  rewrite Hsome.
  set (jar := nameValue _).
  set (b := if width fl =? 602 then _ else _).
  assert (Hb : Direct.urlTemplate b = Direct.template dt (width fl)
               /\ Direct.cookies b = jar
               /\ Direct.params b !! "book_id" = Some bookID
               /\ Direct.retry b = 2).
  { subst b. destruct (Z.eqb_spec (width fl) 602) as [->|Hw].
    - by repeat split.
    - cbn [set_urlTemplate Direct.urlTemplate Direct.cookies Direct.params
           Direct.retry Direct.NewBook].
      fold dt. rewrite direct_template_width by done. by repeat split. }
  destruct Hb as (Ht & Hc & Hp & Hr).
  set (w0 := Direct.mkWorld b [] disk [] None).
  eexists; split; [done|].
  assert (H0 : DirectSession.within env w0 w0)
    by (apply direct_within_refl; unfold DirectSession.budget; cbn; lia).
  destruct (direct_ended_within _ _ _ (direct_downloadBook_ended env w0 fuel w0 H0))
    as (w1 & ((_ & _ & _ & Hck & _) & _ & (new & Hsent & Hnew) & _) & -> & ->
        & _).
  split; [by rewrite Hck|].
  rewrite Hsent. cbn [Direct.sent w0 app]. eapply Forall_impl; [exact Hnew|].
  intros rq (Ht' & Hb' & _). cbn [Direct.book w0] in *.
  by rewrite Ht', Hb'.
Qed.

Lemma direct_main_requests_witness :
  let fl := mkFlags "" "" "a=1; b=2" 1 1200 ["000123456"] in
  exists r,
    main trimBlanks (constant 500) 20 fl ∅ = Ran r /\
    Direct.cookies (Direct.book (final r))
    = nameValue (if String.eqb (cookies fl) "" then []
                 else parseCookiesString trimBlanks (cookies fl)) /\
    Forall (fun rq =>
              rq_template rq = Direct.template "digibok" 1200
              /\ rq_params rq !! "book_id" = Some "000123456")
           (Direct.sent (final r)).
Proof.
  apply (direct_main_requests trimBlanks (constant 500) 20
           (mkFlags "" "" "a=1; b=2" 1 1200 ["000123456"]) ∅);
    [right; discriminate|reflexivity].
Defined.

(** The cookies of that run, as the jar receives them. *)
Example direct_main_cookies :
  nameValue (parseCookiesString trimBlanks "a=1; b=2")
  = [("a", "1"); ("b", "2")].
Proof. reflexivity. Qed.
